(** * stream-comparison: the two player sessions as event-driven state machines

  The repository holds two browser-side player classes:
  - [ZLMWebRTCPlayer]  (src/player/zlm-webrtc-player.js), the real-time session;
  - [ZLMStreamPlayer]  (the HTTP-FLV / MPEG-TS player), the progressive session.

  Both are single-threaded, event-driven JavaScript.  Each class is embedded
  here as a state record (the fields of [this], the DOM objects the session
  owns, and the part of the browser it talks to: peer connections or demuxer
  players, timers, pending promises) together with one handler per
  JavaScript entry point.  An [async] method is cut at its [await]s: the
  synchronous prefix runs when the method is called, and every promise it
  awaits is settled later by an event that carries the outcome.  The log
  lines, callbacks and requests a handler produces are appended to the
  [trace] of the state (newest first).

  The script of the comparison page, which creates one session of each
  class and drives both from its buttons, is embedded last, on top of the
  two sessions ([ComparisonPage]). *)

From Stdlib Require Import ZArith QArith Qround Lia Ascii String.
From stdpp Require Import base tactics option list strings pretty.

Close Scope Q_scope.

Local Open Scope string_scope.
Local Open Scope list_scope.
Local Set Warnings "-register-all".

(* ===================================================================== *)
(** ** JavaScript values shared by both sessions *)
(* ===================================================================== *)

Module Js.

(** A JavaScript string is taken as the sequence of its code units, here
    code units below 256: URLs, SDP text and the messages of the players
    are ASCII.  Its [length] is then [String.length]. *)

(** An exception value: [name] is the constructor ([Error], [TypeError],
    [SyntaxError], a DOMException name, ...), [message] its message. *)
Record JsError := { err_name : string; message : string }.

(** [new Error(msg)] *)
Definition Error (msg : string) : JsError :=
  {| err_name := "Error"; message := msg |}.

(** The exception the engine throws for [null.prop]. *)
Definition null_property (prop : string) : JsError :=
  {| err_name := "TypeError";
     message := "Cannot read properties of null (reading '" +:+ prop +:+ "')" |}.

(** The exception the engine throws for [undefined.prop]. *)
Definition undefined_property (prop : string) : JsError :=
  {| err_name := "TypeError";
     message := "Cannot read properties of undefined (reading '" +:+ prop +:+ "')" |}.

(** A value produced by [JSON.parse] (numbers restricted to integers). *)
Inductive Json :=
| JNull
| JBool (b : bool)
| JNum (z : Z)
| JStr (s : string)
| JArr (items : list Json)
| JObj (fields : list (string * Json)).

(** A JavaScript value that may also be [undefined] ([None]). *)
Definition Value := option Json.

(** Own property of a parsed object: with duplicate keys the last wins. *)
Definition own_property (k : string) (fields : list (string * Json)) : Value :=
  fold_left (fun acc kv => if String.eqb (fst kv) k then Some (snd kv) else acc)
            fields None.

(** [v.k] for a non-null [v] and a key [k] that no prototype defines
    (the keys read by the players are code, msg, sdp, answer, data). *)
Definition get (k : string) (v : Json) : Value :=
  match v with
  | JObj fields => own_property k fields
  | _ => None
  end.

(** [v?.k] *)
Definition get_optional (k : string) (v : Value) : Value :=
  match v with
  | None | Some JNull => None
  | Some o => get k o
  end.

(** ToBoolean *)
Definition truthy (v : Value) : bool :=
  match v with
  | None | Some JNull => false
  | Some (JBool b) => b
  | Some (JNum z) => negb (Z.eqb z 0)
  | Some (JStr s) => negb (String.eqb s "")
  | Some (JArr _) | Some (JObj _) => true
  end.

(** [a || b] *)
Definition or_else (a b : Value) : Value := if truthy a then a else b.

(** [v !== 0] *)
Definition strict_neq_zero (v : Value) : bool :=
  match v with
  | Some (JNum z) => negb (Z.eqb z 0)
  | _ => true
  end.

(** ToString, as applied by a template literal.  A number is printed as
    its decimal numeral, which is what JavaScript prints for the integers
    it represents exactly; the statements below apply it to strings. *)
Fixpoint to_string (v : Json) : string :=
  match v with
  | JNull => "null"
  | JBool true => "true"
  | JBool false => "false"
  | JNum z => pretty z
  | JStr s => s
  | JArr items =>
      String.concat ","
        (List.map (fun x => match x with JNull => "" | _ => to_string x end) items)
  | JObj _ => "[object Object]"
  end.

(** A [MediaStream], by the ids of its tracks. *)
Definition MediaStream := list nat.

End Js.
Export Js.

(* ===================================================================== *)
(** ** The real-time session: class ZLMWebRTCPlayer *)
(* ===================================================================== *)

Module ZLMWebRTCPlayer.

(** *** The browser objects the session talks to *)

Inductive GatheringState := GNew | Gathering | Complete.

Inductive IceState :=
| INew | Checking | Connected | Completed | Failed | Disconnected | Closed.

Definition ice_state_name (st : IceState) : string :=
  match st with
  | INew => "new" | Checking => "checking" | Connected => "connected"
  | Completed => "completed" | Failed => "failed"
  | Disconnected => "disconnected" | Closed => "closed"
  end.

Definition is_complete (g : GatheringState) : bool :=
  match g with Complete => true | _ => false end.

(** An [RTCPeerConnection].  [listeners] are the [checkState] closures
    registered for 'icegatheringstatechange', named by the play call that
    made them. *)
Record PeerConnection := {
  closed : bool;
  configuration : list string;
  transceivers : list (string * string);
  iceGatheringState : GatheringState;
  iceConnectionState : IceState;
  connectionState : string;
  localDescription : option string;
  remoteDescription : option string;
  listeners : list nat
}.

Definition RTCPeerConnection (servers : list string) : PeerConnection :=
  {| closed := false; configuration := servers; transceivers := [];
     iceGatheringState := GNew; iceConnectionState := INew;
     connectionState := "new"; localDescription := None;
     remoteDescription := None; listeners := [] |}.

Definition pc_addTransceiver (kind direction : string) (pc : PeerConnection) :=
  {| closed := closed pc; configuration := configuration pc;
     transceivers := transceivers pc ++ [(kind, direction)];
     iceGatheringState := iceGatheringState pc;
     iceConnectionState := iceConnectionState pc;
     connectionState := connectionState pc;
     localDescription := localDescription pc;
     remoteDescription := remoteDescription pc; listeners := listeners pc |}.

(** [pc.close()]: the connection is closed and both connection states read
    "closed"; no event is fired. *)
Definition pc_close (pc : PeerConnection) :=
  {| closed := true; configuration := configuration pc;
     transceivers := transceivers pc;
     iceGatheringState := iceGatheringState pc;
     iceConnectionState := Closed; connectionState := "closed";
     localDescription := localDescription pc;
     remoteDescription := remoteDescription pc; listeners := listeners pc |}.

Definition pc_set_gathering (g : GatheringState) (pc : PeerConnection) :=
  {| closed := closed pc; configuration := configuration pc;
     transceivers := transceivers pc; iceGatheringState := g;
     iceConnectionState := iceConnectionState pc;
     connectionState := connectionState pc;
     localDescription := localDescription pc;
     remoteDescription := remoteDescription pc; listeners := listeners pc |}.

Definition pc_set_ice (i : IceState) (pc : PeerConnection) :=
  {| closed := closed pc; configuration := configuration pc;
     transceivers := transceivers pc;
     iceGatheringState := iceGatheringState pc; iceConnectionState := i;
     connectionState := connectionState pc;
     localDescription := localDescription pc;
     remoteDescription := remoteDescription pc; listeners := listeners pc |}.

Definition pc_set_connection (c : string) (pc : PeerConnection) :=
  {| closed := closed pc; configuration := configuration pc;
     transceivers := transceivers pc;
     iceGatheringState := iceGatheringState pc;
     iceConnectionState := iceConnectionState pc; connectionState := c;
     localDescription := localDescription pc;
     remoteDescription := remoteDescription pc; listeners := listeners pc |}.

Definition pc_set_local (d : option string) (pc : PeerConnection) :=
  {| closed := closed pc; configuration := configuration pc;
     transceivers := transceivers pc;
     iceGatheringState := iceGatheringState pc;
     iceConnectionState := iceConnectionState pc;
     connectionState := connectionState pc; localDescription := d;
     remoteDescription := remoteDescription pc; listeners := listeners pc |}.

Definition pc_set_remote (d : option string) (pc : PeerConnection) :=
  {| closed := closed pc; configuration := configuration pc;
     transceivers := transceivers pc;
     iceGatheringState := iceGatheringState pc;
     iceConnectionState := iceConnectionState pc;
     connectionState := connectionState pc;
     localDescription := localDescription pc; remoteDescription := d;
     listeners := listeners pc |}.

Definition pc_set_listeners (l : list nat) (pc : PeerConnection) :=
  {| closed := closed pc; configuration := configuration pc;
     transceivers := transceivers pc;
     iceGatheringState := iceGatheringState pc;
     iceConnectionState := iceConnectionState pc;
     connectionState := connectionState pc;
     localDescription := localDescription pc;
     remoteDescription := remoteDescription pc; listeners := l |}.

(** Timers ([setTimeout] / [setInterval]).  A timer id is its index in the
    table; index 0 is reserved because the browser hands out ids greater
    than zero (which is what makes [if (this.statsInterval)] a test for
    "a timer exists"). *)
Inductive TimerKind :=
| Reserved
| IceTimeout (t : nat)      (* the 5000 ms timeout of _waitForIceGathering *)
| StatsTimer.               (* the 1000 ms interval of _startStatsMonitoring *)

Record Timer := { kind : TimerKind; due : nat; live : bool }.

Definition cancel (tm : Timer) : Timer :=
  {| kind := kind tm; due := due tm; live := false |}.

Definition rearm (period : nat) (tm : Timer) : Timer :=
  {| kind := kind tm; due := due tm + period; live := live tm |}.

(** The signaling exchange. *)
Record Request := {
  method : string;
  req_url : string;
  headers : list (string * string);
  req_body : string
}.

(** A [fetch] response; [body] is what [response.json()] settles with. *)
Record Response := {
  ok : bool;
  status : nat;
  statusText : string;
  body : JsError + Json
}.

(** An entry of an [RTCStatsReport]. *)
Record Report := {
  r_type : string;
  r_kind : string;
  packetsReceived : nat;
  packetsLost : nat;
  bytesReceived : nat;
  framesDecoded : nat;
  framesPerSecond : option nat;
  jitter : nat;
  timestamp : nat
}.

(** The object handed to [onStats]. *)
Record StatsData := {
  sd_packetsReceived : nat;
  sd_packetsLost : nat;
  sd_bytesReceived : nat;
  sd_framesDecoded : nat;
  sd_frameRate : nat;
  sd_jitter : nat;
  sd_timestamp : nat
}.

(** The content of the stats container. *)
Inductive Html :=
| Blank
| StatsHtml (packets bytes rate frames : nat).

(** *** What an observer sees *)

Inductive Obs :=
| Log (msg type : string)
| OnConnected
| OnDisconnected
| OnError (e : JsError)
| OnStats (d : StatsData)
| TrackStopped (track : nat)
| Fetch (rq : Request)
| Uncaught (e : JsError).    (* an exception that escapes an event callback *)

(** *** The calls of [play] in flight *)

Inductive Outcome := Resolved | Rejected (e : JsError).

(** Where a call of [play] is suspended. *)
Inductive Phase :=
| AwaitOffer                                   (* await createOffer(...) *)
| AwaitSetLocal (h : nat) (sdp : string)       (* await setLocalDescription(offer) *)
| AwaitIce (h : nat) (timer : nat)             (* await _waitForIceGathering() *)
| AwaitFetch (rq : Request)                    (* await fetch(url, ...) *)
| AwaitJson (rs : Response)                    (* await response.json() *)
| AwaitSetRemote (h : nat) (sdp : string)      (* await setRemoteDescription(...) *)
| Done (o : Outcome).

Record Task := { url : string; phase : Phase }.

(** *** The state: the fields of [this], its DOM elements, the browser *)

Record State := {
  (* this.videoElement.srcObject *)
  srcObject : option MediaStream;
  (* this.statsContainer and its innerHTML; None when not configured *)
  statsContainer : option Html;
  (* internal state *)
  peerConnection : option nat;
  statsInterval : option nat;
  stream : option MediaStream;
  iceServers : list string;
  (* window.location.origin *)
  origin : string;
  (* the browser *)
  connections : list PeerConnection;
  timers : list Timer;
  tasks : list Task;
  statsReads : nat;            (* getStats() promises not yet settled *)
  now : nat;                   (* milliseconds *)
  trace : list Obs
}.

Definition set_srcObject v s :=
  {| srcObject := v; statsContainer := statsContainer s;
     peerConnection := peerConnection s; statsInterval := statsInterval s;
     stream := stream s; iceServers := iceServers s; origin := origin s;
     connections := connections s; timers := timers s; tasks := tasks s;
     statsReads := statsReads s; now := now s; trace := trace s |}.

Definition set_statsContainer v s :=
  {| srcObject := srcObject s; statsContainer := v;
     peerConnection := peerConnection s; statsInterval := statsInterval s;
     stream := stream s; iceServers := iceServers s; origin := origin s;
     connections := connections s; timers := timers s; tasks := tasks s;
     statsReads := statsReads s; now := now s; trace := trace s |}.

Definition set_peerConnection v s :=
  {| srcObject := srcObject s; statsContainer := statsContainer s;
     peerConnection := v; statsInterval := statsInterval s;
     stream := stream s; iceServers := iceServers s; origin := origin s;
     connections := connections s; timers := timers s; tasks := tasks s;
     statsReads := statsReads s; now := now s; trace := trace s |}.

Definition set_statsInterval v s :=
  {| srcObject := srcObject s; statsContainer := statsContainer s;
     peerConnection := peerConnection s; statsInterval := v;
     stream := stream s; iceServers := iceServers s; origin := origin s;
     connections := connections s; timers := timers s; tasks := tasks s;
     statsReads := statsReads s; now := now s; trace := trace s |}.

Definition set_stream v s :=
  {| srcObject := srcObject s; statsContainer := statsContainer s;
     peerConnection := peerConnection s; statsInterval := statsInterval s;
     stream := v; iceServers := iceServers s; origin := origin s;
     connections := connections s; timers := timers s; tasks := tasks s;
     statsReads := statsReads s; now := now s; trace := trace s |}.

Definition set_connections v s :=
  {| srcObject := srcObject s; statsContainer := statsContainer s;
     peerConnection := peerConnection s; statsInterval := statsInterval s;
     stream := stream s; iceServers := iceServers s; origin := origin s;
     connections := v; timers := timers s; tasks := tasks s;
     statsReads := statsReads s; now := now s; trace := trace s |}.

Definition set_timers v s :=
  {| srcObject := srcObject s; statsContainer := statsContainer s;
     peerConnection := peerConnection s; statsInterval := statsInterval s;
     stream := stream s; iceServers := iceServers s; origin := origin s;
     connections := connections s; timers := v; tasks := tasks s;
     statsReads := statsReads s; now := now s; trace := trace s |}.

Definition set_tasks v s :=
  {| srcObject := srcObject s; statsContainer := statsContainer s;
     peerConnection := peerConnection s; statsInterval := statsInterval s;
     stream := stream s; iceServers := iceServers s; origin := origin s;
     connections := connections s; timers := timers s; tasks := v;
     statsReads := statsReads s; now := now s; trace := trace s |}.

Definition set_statsReads v s :=
  {| srcObject := srcObject s; statsContainer := statsContainer s;
     peerConnection := peerConnection s; statsInterval := statsInterval s;
     stream := stream s; iceServers := iceServers s; origin := origin s;
     connections := connections s; timers := timers s; tasks := tasks s;
     statsReads := v; now := now s; trace := trace s |}.

Definition set_now v s :=
  {| srcObject := srcObject s; statsContainer := statsContainer s;
     peerConnection := peerConnection s; statsInterval := statsInterval s;
     stream := stream s; iceServers := iceServers s; origin := origin s;
     connections := connections s; timers := timers s; tasks := tasks s;
     statsReads := statsReads s; now := v; trace := trace s |}.

Definition set_trace v s :=
  {| srcObject := srcObject s; statsContainer := statsContainer s;
     peerConnection := peerConnection s; statsInterval := statsInterval s;
     stream := stream s; iceServers := iceServers s; origin := origin s;
     connections := connections s; timers := timers s; tasks := tasks s;
     statsReads := statsReads s; now := now s; trace := v |}.

Definition emit (o : Obs) (s : State) : State := set_trace (o :: trace s) s.

(** *** Small helpers *)

(** The connection [this.peerConnection] refers to, if any. *)
Definition current (s : State) : option (nat * PeerConnection) :=
  match peerConnection s with
  | Some h => match connections s !! h with
              | Some pc => Some (h, pc)
              | None => None
              end
  | None => None
  end.

Definition update_connection (h : nat) (f : PeerConnection -> PeerConnection)
    (s : State) : State :=
  set_connections (alter f h (connections s)) s.

Definition set_phase (t : nat) (p : Phase) (s : State) : State :=
  set_tasks (alter (fun k => {| url := url k; phase := p |}) t (tasks s)) s.

Definition phase_of (t : nat) (s : State) : option Phase :=
  phase <$> tasks s !! t.

(** [if (id)] for a timer id stored in a field: null and 0 are falsy. *)
Definition timer_set (id : option nat) : bool :=
  match id with
  | Some (S _) => true
  | _ => false
  end.

Definition clearInterval (id : option nat) (s : State) : State :=
  match id with
  | Some i => set_timers (alter cancel i (timers s)) s
  | None => s
  end.

(** [setTimeout] / [setInterval]: the new timer's id and the new state. *)
Definition add_timer (k : TimerKind) (delay : nat) (s : State) : nat * State :=
  (length (timers s),
   set_timers (timers s ++ [{| kind := k; due := now s + delay; live := true |}]) s).

(** *** The methods of the class *)

Definition _log (msg type : string) (s : State) : State := emit (Log msg type) s.

(** [srcObject.getTracks().forEach(track => { track.stop(); ... })] *)
Definition stop_tracks (tracks : MediaStream) (s : State) : State :=
  fold_left (fun s track => _log "Track stopped" "info" (emit (TrackStopped track) s))
            tracks s.

(** stop() *)
Definition stop (s : State) : State :=
  let s := if timer_set (statsInterval s)
           then set_statsInterval None (clearInterval (statsInterval s) s)
           else s in
  let s := match peerConnection s with
           | Some h =>
               _log "Connection closed" "info"
                 (set_peerConnection None (update_connection h pc_close s))
           | None => s
           end in
  let s := match srcObject s with
           | Some tracks => set_srcObject None (stop_tracks tracks s)
           | None => s
           end in
  let s := set_stream None s in
  match statsContainer s with
  | Some _ => set_statsContainer (Some Blank) s
  | None => s
  end.

(** _startStatsMonitoring(): the guard and the [setInterval] call. *)
Definition _startStatsMonitoring (s : State) : State :=
  if timer_set (statsInterval s) then s
  else let '(id, s) := add_timer StatsTimer 1000 s in
       set_statsInterval (Some id) s.

(** One run of the interval callback, up to its [await getStats()]. *)
Definition stats_tick (s : State) : State :=
  match peerConnection s with
  | None => s
  | Some _ => set_statsReads (S (statsReads s)) s
  end.

Definition stats_report (s : State) (r : Report) : State :=
  if String.eqb (r_type r) "inbound-rtp" && String.eqb (r_kind r) "video" then
    let rate := default 0 (framesPerSecond r) in
    let d := {| sd_packetsReceived := packetsReceived r;
                sd_packetsLost := packetsLost r;
                sd_bytesReceived := bytesReceived r;
                sd_framesDecoded := framesDecoded r;
                sd_frameRate := rate;
                sd_jitter := jitter r;
                sd_timestamp := timestamp r |} in
    let s := match statsContainer s with
             | Some _ =>
                 set_statsContainer
                   (Some (StatsHtml (packetsReceived r) (bytesReceived r) rate
                                    (framesDecoded r))) s
             | None => s
             end in
    emit (OnStats d) s
  else s.

(** The rest of the interval callback, once [getStats()] has settled. *)
Definition stats_ready (reports : list Report) (s : State) : State :=
  match statsReads s with
  | 0 => s
  | S n => fold_left stats_report reports (set_statsReads n s)
  end.

(** The [catch] block of play(). *)
Definition play_catch (t : nat) (e : JsError) (s : State) : State :=
  let s := _log ("Error: " +:+ message e) "error" s in
  let s := emit (OnError e) s in
  let s := stop s in
  set_phase t (Done (Rejected e)) s.

(** The [catch] block of _connectToZLM(): log and rethrow into play(). *)
Definition _connectToZLM_catch (t : nat) (e : JsError) (s : State) : State :=
  play_catch t e (_log ("Error in ZLMediaKit connection: " +:+ message e) "error" s).

(** The request built by _connectToZLM(). *)
Definition signaling_request (target sdp page_origin : string) : Request :=
  {| method := "POST";
     req_url := target;
     headers :=
       [ ("Content-Type", "text/plain;charset=UTF-8");
         ("Origin", if String.eqb page_origin "" then "https://webrtc-client.local"
                    else page_origin);
         ("Accept", "application/json, text/plain, */*");
         ("User-Agent", "Mozilla/5.0 (compatible; WebRTCPlayer)") ];
     req_body := sdp |}.

(** _connectToZLM() after the ICE wait: read the local SDP and POST it. *)
Definition _connectToZLM_send (t : nat) (s : State) : State :=
  match tasks s !! t with
  | None => s
  | Some k =>
      match current s with
      | None => _connectToZLM_catch t (null_property "localDescription") s
      | Some (_, pc) =>
          match localDescription pc with
          | None => _connectToZLM_catch t (null_property "sdp") s
          | Some offerSdp =>
              let s := _log ("Sending SDP offer (" +:+ pretty (String.length offerSdp)
                             +:+ " bytes)") "info" s in
              let rq := signaling_request (url k) offerSdp (origin s) in
              set_phase t (AwaitFetch rq) (emit (Fetch rq) s)
          end
      end
  end.

(** [resolve()] of the promise made by _waitForIceGathering() for call [t]:
    the first call resumes _connectToZLM(), later calls do nothing. *)
Definition resolve_wait (t : nat) (s : State) : State :=
  match phase_of t s with
  | Some (AwaitIce _ _) => _connectToZLM_send t s
  | _ => s
  end.

Definition removeEventListener (h t : nat) (s : State) : State :=
  update_connection h
    (fun pc => pc_set_listeners (filter (fun t' => t' <> t) (listeners pc)) pc) s.

(** The listener [checkState] made by call [t]. *)
Definition checkState (t : nat) (s : State) : State :=
  match current s with
  | None => emit (Uncaught (null_property "iceGatheringState")) s
  | Some (h, pc) =>
      if is_complete (iceGatheringState pc)
      then resolve_wait t (removeEventListener h t s)
      else s
  end.

(** The callback of the 5000 ms timeout made by call [t]. *)
Definition ice_timeout (t : nat) (s : State) : State :=
  match current s with
  | None => emit (Uncaught (null_property "iceGatheringState")) s
  | Some (h, pc) =>
      if is_complete (iceGatheringState pc) then s
      else
        let s := _log "ICE gathering timed out, continuing with available candidates"
                      "info" s in
        resolve_wait t (removeEventListener h t s)
  end.

(** What the executor of the promise in _waitForIceGathering() did. *)
Inductive Wait :=
| Thrown (e : JsError)
| ResolvedNow
| Pending (h timer : nat).

(** _waitForIceGathering() *)
Definition _waitForIceGathering (t : nat) (s : State) : Wait * State :=
  match current s with
  | None => (Thrown (null_property "iceGatheringState"), s)
  | Some (h, pc) =>
      if is_complete (iceGatheringState pc) then (ResolvedNow, s)
      else
        let s := update_connection h
                   (fun pc => pc_set_listeners (listeners pc ++ [t]) pc) s in
        let '(id, s) := add_timer (IceTimeout t) 5000 s in
        (Pending h id, s)
  end.

(** _connectToZLM(url), up to the end of the ICE wait when that is immediate. *)
Definition _connectToZLM (t : nat) (s : State) : State :=
  match tasks s !! t with
  | None => s
  | Some k =>
      let s := _log ("Connecting to ZLMediaKit server: " +:+ url k) "info" s in
      match _waitForIceGathering t s with
      | (Thrown e, s) => _connectToZLM_catch t e s
      | (ResolvedNow, s) => _connectToZLM_send t s
      | (Pending h id, s) => set_phase t (AwaitIce h id) s
      end
  end.

(** play(url), up to [await createOffer(...)]; the call gets the next task
    number. *)
Definition play (target : string) (s : State) : State :=
  if String.eqb target "" then
    set_tasks (tasks s ++ [{| url := target;
                              phase := Done (Rejected (Error "Stream URL is required")) |}]) s
  else
    let s := _log "Starting stream..." "info" s in
    let s := stop s in
    let h := length (connections s) in
    let s := set_peerConnection (Some h)
               (set_connections (connections s ++ [RTCPeerConnection (iceServers s)]) s) in
    let s := update_connection h (pc_addTransceiver "video" "recvonly") s in
    let s := update_connection h (pc_addTransceiver "audio" "recvonly") s in
    set_tasks (tasks s ++ [{| url := target; phase := AwaitOffer |}]) s.

(** play() resumed after [createOffer]. *)
Definition play_offer (t : nat) (r : JsError + string) (s : State) : State :=
  match phase_of t s with
  | Some AwaitOffer =>
      match r with
      | inl e => play_catch t e s
      | inr sdp =>
          match peerConnection s with
          | None => play_catch t (null_property "setLocalDescription") s
          | Some h => set_phase t (AwaitSetLocal h sdp) s
          end
      end
  | _ => s
  end.

(** play() resumed after [setLocalDescription]; on success the browser has
    committed the offer as the local description of the connection. *)
Definition play_local (t : nat) (r : option JsError) (s : State) : State :=
  match phase_of t s with
  | Some (AwaitSetLocal h sdp) =>
      match r with
      | Some e => play_catch t e s
      | None =>
          let s := update_connection h (pc_set_local (Some sdp)) s in
          let s := _log "Local description set" "info" s in
          _connectToZLM t s
      end
  | _ => s
  end.

(** _connectToZLM() resumed after [fetch]. *)
Definition _connectToZLM_response (t : nat) (r : JsError + Response) (s : State) : State :=
  match phase_of t s with
  | Some (AwaitFetch _) =>
      match r with
      | inl e => _connectToZLM_catch t e s
      | inr response =>
          if negb (ok response) then
            _connectToZLM_catch t
              (Error ("Server returned " +:+ pretty (status response) +:+ ": "
                      +:+ statusText response)) s
          else set_phase t (AwaitJson response) s
      end
  | _ => s
  end.

(** [result.sdp || result.answer || result.data?.sdp] *)
Definition answer_of (result : Json) : Value :=
  or_else (or_else (get "sdp" result) (get "answer" result))
          (get_optional "sdp" (get "data" result)).

(** The checks on the parsed body: the error thrown, or the answer SDP. *)
Definition read_answer (result : Json) : JsError + Json :=
  match result with
  | JNull => inl (null_property "code")
  | _ =>
      if strict_neq_zero (get "code" result) then
        inl (Error ("ZLMediaKit error: " +:+
                    match or_else (get "msg" result) (Some (JStr "Unknown error")) with
                    | Some m => to_string m
                    | None => "undefined"
                    end))
      else
        match answer_of result with
        | Some answerSdp =>
            if truthy (Some answerSdp) then inr answerSdp
            else inl (Error "No SDP answer found in response")
        | None => inl (Error "No SDP answer found in response")
        end
  end.

(** _connectToZLM() resumed after [response.json()]. *)
Definition _connectToZLM_json (t : nat) (s : State) : State :=
  match phase_of t s with
  | Some (AwaitJson response) =>
      match body response with
      | inl e => _connectToZLM_catch t e s
      | inr result =>
          let s := _log "Received answer from server" "info" s in
          match read_answer result with
          | inl e => _connectToZLM_catch t e s
          | inr answerSdp =>
              match peerConnection s with
              | None => _connectToZLM_catch t (null_property "setRemoteDescription") s
              | Some h => set_phase t (AwaitSetRemote h (to_string answerSdp)) s
              end
          end
      end
  | _ => s
  end.

(** _connectToZLM() resumed after [setRemoteDescription]; play() then
    returns true. *)
Definition _connectToZLM_remote (t : nat) (r : option JsError) (s : State) : State :=
  match phase_of t s with
  | Some (AwaitSetRemote h sdp) =>
      match r with
      | Some e => _connectToZLM_catch t e s
      | None =>
          let s := update_connection h (pc_set_remote (Some sdp)) s in
          let s := _log "Remote description set successfully" "success" s in
          set_phase t (Done Resolved) s
      end
  | _ => s
  end.

(** *** The handlers play() installs on the connection *)

(** oniceconnectionstatechange *)
Definition oniceconnectionstatechange (s : State) : State :=
  match current s with
  | None => emit (Uncaught (null_property "iceConnectionState")) s
  | Some (_, pc) =>
      let st := iceConnectionState pc in
      let s := _log ("ICE Connection State: " +:+ ice_state_name st) "info" s in
      match st with
      | Connected => emit OnConnected (_startStatsMonitoring s)
      | Disconnected | Failed | Closed => emit OnDisconnected s
      | _ => s
      end
  end.

(** onconnectionstatechange *)
Definition onconnectionstatechange (s : State) : State :=
  match current s with
  | None => emit (Uncaught (null_property "connectionState")) s
  | Some (_, pc) => _log ("Connection State: " +:+ connectionState pc) "info" s
  end.

(** onicecandidate *)
Definition onicecandidate (candidate : option string) (s : State) : State :=
  match candidate with
  | Some _ => _log "New ICE candidate generated" "info" s
  | None => s
  end.

(** ontrack *)
Definition ontrack (streams : list MediaStream) (s : State) : State :=
  let s := _log "Received remote track" "success" s in
  set_stream (head streams) (set_srcObject (head streams) s).

(** *** Events: calls from the page, and what the browser delivers *)

Inductive Event :=
| CallPlay (target : string)
| CallStop
| OfferSettled (t : nat) (r : JsError + string)
| LocalDescriptionSettled (t : nat) (r : option JsError)
| FetchSettled (t : nat) (r : JsError + Response)
| JsonSettled (t : nat)
| RemoteDescriptionSettled (t : nat) (r : option JsError)
| IceGatheringStateChange (h : nat) (g : GatheringState)
| IceConnectionStateChange (h : nat) (i : IceState)
| ConnectionStateChange (h : nat) (c : string)
| IceCandidate (h : nat) (candidate : option string)
| TrackEvent (h : nat) (streams : list MediaStream)
| StatsSettled (reports : list Report)
| Elapse (ms : nat)
| TimerFire (id : nat).

(** An event of connection [h] is delivered only while [h] is open: a
    closed connection fires nothing. *)
Definition on_open (h : nat) (s : State) (k : PeerConnection -> State) : State :=
  match connections s !! h with
  | Some pc => if closed pc then s else k pc
  | None => s
  end.

Definition fire (id : nat) (s : State) : State :=
  match timers s !! id with
  | Some tm =>
      if live tm && Nat.leb (due tm) (now s) then
        match kind tm with
        | Reserved => s
        | IceTimeout t => ice_timeout t (set_timers (alter cancel id (timers s)) s)
        | StatsTimer => stats_tick (set_timers (alter (rearm 1000) id (timers s)) s)
        end
      else s
  | None => s
  end.

Definition step (s : State) (e : Event) : State :=
  match e with
  | CallPlay target => play target s
  | CallStop => stop s
  | OfferSettled t r => play_offer t r s
  | LocalDescriptionSettled t r => play_local t r s
  | FetchSettled t r => _connectToZLM_response t r s
  | JsonSettled t => _connectToZLM_json t s
  | RemoteDescriptionSettled t r => _connectToZLM_remote t r s
  | IceGatheringStateChange h g =>
      on_open h s (fun pc =>
        fold_left (fun s t => checkState t s) (listeners pc)
                  (update_connection h (pc_set_gathering g) s))
  | IceConnectionStateChange h i =>
      on_open h s (fun _ =>
        oniceconnectionstatechange (update_connection h (pc_set_ice i) s))
  | ConnectionStateChange h c =>
      on_open h s (fun _ =>
        onconnectionstatechange (update_connection h (pc_set_connection c) s))
  | IceCandidate h candidate =>
      on_open h s (fun _ =>
        onicecandidate candidate
          (match candidate with
           | Some c => update_connection h
                         (fun pc => pc_set_local
                                      (option_map (fun d => d +:+ c) (localDescription pc)) pc) s
           | None => s
           end))
  | TrackEvent h streams => on_open h s (fun _ => ontrack streams s)
  | StatsSettled reports => stats_ready reports s
  | Elapse ms => set_now (now s + ms) s
  | TimerFire id => fire id s
  end.

Definition run (s : State) (events : list Event) : State := fold_left step events s.

(** The constructor: [statsContainer] tells whether a stats container was
    given, [servers] is options.iceServers. *)
Definition constructor (with_stats : bool) (servers : option (list string))
    (page_origin : string) : State :=
  {| srcObject := None;
     statsContainer := if with_stats then Some Blank else None;
     peerConnection := None;
     statsInterval := None;
     stream := None;
     iceServers := default ["stun:stun.l.google.com:19302"] servers;
     origin := page_origin;
     connections := [];
     timers := [{| kind := Reserved; due := 0; live := false |}];
     tasks := [];
     statsReads := 0;
     now := 0;
     trace := [] |}.

(** *** Notions used in the statements *)

Global Instance rtc_TimerKind_eq_dec : EqDecision TimerKind.
Proof. solve_decision. Defined.

(** The states the session can be in: the constructor's, and any state an
    event leads to. *)
Definition reachable (s : State) : Prop :=
  exists with_stats servers page_origin events,
    s = run (constructor with_stats servers page_origin) events.

(** The connections that were created and not closed. *)
Definition live_connections (s : State) : list PeerConnection :=
  filter (fun pc => closed pc = false) (connections s).

(** The stats intervals that were set and not cleared. *)
Definition live_stats_timers (s : State) : list Timer :=
  filter (fun tm => kind tm = StatsTimer /\ live tm = true) (timers s).

(** A handshake up to the signaling request: play, the offer, the local
    description, and ICE gathering completing on connection 0. *)
Definition until_request : list Event :=
  [ CallPlay "https://host/index/api/webrtc?app=live&stream=cam&type=play";
    OfferSettled 0 (inr "v=0");
    LocalDescriptionSettled 0 None;
    IceGatheringStateChange 0 Gathering;
    IceCandidate 0 (Some "a=candidate:1");
    IceGatheringStateChange 0 Complete ].

(** A handshake interrupted during the ICE wait: play, the offer, the
    local description (gathering has not completed, so the call waits with
    timer 1), then stop(), and five seconds pass. *)
Definition stopped_while_waiting : list Event :=
  [ CallPlay "https://host/index/api/webrtc?app=live&stream=cam&type=play";
    OfferSettled 0 (inr "v=0");
    LocalDescriptionSettled 0 None;
    CallStop;
    Elapse 5000 ].

(** The same handshake left alone for five seconds. *)
Definition waiting_five_seconds : list Event :=
  [ CallPlay "https://host/index/api/webrtc?app=live&stream=cam&type=play";
    OfferSettled 0 (inr "v=0");
    LocalDescriptionSettled 0 None;
    Elapse 5000 ].

(** A connection that reports "connected" while a call is under way. *)
Definition connected_once : list Event :=
  [ CallPlay "https://host/a"; OfferSettled 0 (inr "v=0");
    IceConnectionStateChange 0 Connected ].


(** Responses of the signaling server. *)
Definition response_of (result : Json) : Response :=
  {| ok := true; status := 200; statusText := "OK"; body := inr result |}.

(** A server failure whose body reports an application error too. *)
Definition stream_not_found : Response :=
  {| ok := false; status := 500; statusText := "Internal Server Error";
     body := inr (JObj [("code", JNum 1); ("msg", JStr "stream not found")]) |}.

(** An observation that is no callback and no request. *)
Definition quiet (o : Obs) : Prop :=
  match o with
  | Log _ _ | TrackStopped _ => True
  | _ => False
  end.

(** A response handed to the call [t], followed by its body. *)
Definition deliver (t : nat) (response : Response) (s : State) : State :=
  step (step s (FetchSettled t (inr response))) (JsonSettled t).

(** The remote descriptions applied so far, by connection. *)
Definition remote_descriptions (s : State) : list (option string) :=
  remoteDescription <$> connections s.

(** What it means that call [t] is rejected with [e] in going from [s] to
    [s']: the promise is rejected, onError was called with [e], and
    stop() left no connection and applied no remote description. *)
Definition rejected (t : nat) (e : JsError) (s s' : State) : Prop :=
  phase_of t s' = Some (Done (Rejected e)) /\
  peerConnection s' = None /\
  live_connections s' = [] /\
  remote_descriptions s' = remote_descriptions s /\
  exists pre post,
    trace s' = pre ++ OnError e :: post ++ trace s /\
    Forall quiet pre /\ Forall quiet post.

Definition is_waiting (p : Phase) : bool :=
  match p with
  | AwaitIce _ _ => true
  | _ => false
  end.

(** The session holds connection [h], on which ICE gathering is complete
    and whose local description is [sdp]. *)
Definition ready (h : nat) (sdp : string) (s : State) : Prop :=
  peerConnection s = Some h /\
  exists pc, connections s !! h = Some pc /\
             iceGatheringState pc = Complete /\ localDescription pc = Some sdp.

(** Calls that wait for ICE gathering: every such call [t], other than
    [x], waits on an existing connection; while that connection is open,
    the listener of [t] is registered on it, and if gathering is complete
    there then [t] is among the listeners still [pending] in the dispatch
    that is running. *)
Definition waits_ok (pending : list nat) (x : option nat) (s : State) : Prop :=
  forall t k h tid,
    tasks s !! t = Some k -> phase k = AwaitIce h tid -> x <> Some t ->
    h < length (connections s) /\
    forall pc, connections s !! h = Some pc -> closed pc = false ->
               t ∈ listeners pc /\ (iceGatheringState pc = Complete -> t ∈ pending).

(** A call that waits for ICE gathering and that nothing can resume: its
    timeout is spent and no open connection carries its listener. *)
Definition abandoned (t : nat) (s : State) : Prop :=
  (exists k h tid, tasks s !! t = Some k /\ phase k = AwaitIce h tid) /\
  (forall id tm, timers s !! id = Some tm -> kind tm = IceTimeout t -> live tm = false) /\
  (forall h pc, connections s !! h = Some pc -> closed pc = false -> t ∉ listeners pc).

(** What stop() logs for the tracks of the attached stream. *)
Definition tracks_obs (tracks : list nat) (acc : list Obs) : list Obs :=
  fold_left (fun acc track => Log "Track stopped" "info" :: TrackStopped track :: acc)
            tracks acc.

(** The session refers to every connection that is open, and to nothing
    else; the stats timer it remembers is the only one alive; without a
    connection nothing else is held. *)
Record Inv (s : State) : Prop := {
  open_is_current : forall h pc,
    connections s !! h = Some pc -> closed pc = false -> peerConnection s = Some h;
  current_is_open : forall h,
    peerConnection s = Some h ->
    exists pc, connections s !! h = Some pc /\ closed pc = false;
  stats_is_current : forall id tm,
    timers s !! id = Some tm -> kind tm = StatsTimer -> live tm = true ->
    statsInterval s = Some id;
  stats_positive : forall id, statsInterval s = Some id -> 0 < id < length (timers s);
  timers_reserved : 0 < length (timers s);
  idle_clean : peerConnection s = None ->
    statsInterval s = None /\ srcObject s = None /\ stream s = None
}.

(** *** What the callbacks were handed, read off the trace (newest first) *)

(** The errors handed to onError. *)
Definition errors_reported (s : State) : list JsError :=
  omap (fun o => match o with OnError e => Some e | _ => None end) (trace s).

(** The tracks on which stop() was called. *)
Definition stopped_tracks (s : State) : list nat :=
  omap (fun o => match o with TrackStopped track => Some track | _ => None end) (trace s).

(** The objects handed to onStats. *)
Definition stats_reported (s : State) : list StatsData :=
  omap (fun o => match o with OnStats d => Some d | _ => None end) (trace s).

(** The signaling requests sent. *)
Definition requests_sent (s : State) : list Request :=
  omap (fun o => match o with Fetch rq => Some rq | _ => None end) (trace s).

(** The exceptions that escaped an event callback. *)
Definition uncaught (s : State) : list JsError :=
  omap (fun o => match o with Uncaught e => Some e | _ => None end) (trace s).

(** [report.type === 'inbound-rtp' && report.kind === 'video'] *)
Definition inbound_video (r : Report) : bool :=
  String.eqb (r_type r) "inbound-rtp" && String.eqb (r_kind r) "video".

(** A call that is past its ICE wait: its request was sent, or it is
    settled. *)
Definition past_wait (p : Phase) : bool :=
  match p with
  | AwaitOffer | AwaitSetLocal _ _ | AwaitIce _ _ => false
  | _ => true
  end.

(** The ICE connection states on which the handler calls onDisconnected. *)
Definition lost (st : IceState) : bool :=
  match st with
  | Disconnected | Failed | Closed => true
  | _ => false
  end.

(** The object the interval callback builds for a report. *)
Definition stats_data (r : Report) : StatsData :=
  {| sd_packetsReceived := packetsReceived r;
     sd_packetsLost := packetsLost r;
     sd_bytesReceived := bytesReceived r;
     sd_framesDecoded := framesDecoded r;
     sd_frameRate := default 0 (framesPerSecond r);
     sd_jitter := jitter r;
     sd_timestamp := timestamp r |}.

(** What the interval callback writes into the stats container. *)
Definition stats_html (r : Report) : Html :=
  StatsHtml (packetsReceived r) (bytesReceived r) (default 0 (framesPerSecond r))
            (framesDecoded r).

(** The calls that are past their ICE wait. *)
Definition past_calls (s : State) : list Task :=
  filter (fun k => past_wait (phase k) = true) (tasks s).

(** Going from [s] to [s'], no more requests were sent than calls got
    past their ICE wait. *)
Definition posts_le (s s' : State) : Prop :=
  length (requests_sent s') + length (past_calls s)
  <= length (requests_sent s) + length (past_calls s').

(** *** Timers *)


(** Two timers that were set for the same purpose. *)
Definition same_purpose (k k' : TimerKind) : bool :=
  match k, k' with
  | IceTimeout _, IceTimeout _ | StatsTimer, StatsTimer => true
  | _, _ => false
  end.

(** Two timers set for the same purpose are armed at once. *)
Definition duplicate_timers (s : State) : Prop :=
  exists i j tm tm',
    i <> j /\ timers s !! i = Some tm /\ timers s !! j = Some tm' /\
    live tm = true /\ live tm' = true /\ same_purpose (kind tm) (kind tm') = true.


End ZLMWebRTCPlayer.

(* ===================================================================== *)
(** ** The progressive session: class ZLMStreamPlayer *)
(* ===================================================================== *)

Module ZLMStreamPlayer.

(** *** The demuxer library (mpegts.js), as far as the class uses it

    The library is not part of the repository; the comparison page loads
    its version 1.8.0 from a CDN.  The constants of [mpegts.ErrorTypes] and
    [mpegts.ErrorDetails] are taken as distinct strings, and a destroyed
    player emits no events.  The ERROR handler of the class reads a private
    property of the player, [_config], and from it [url] and [type]; what a
    player shows there is the library's business and is left open here: the
    library is a parameter of the session. *)

Definition NETWORK_ERROR : string := "NetworkError".
Definition MEDIA_ERROR : string := "MediaError".
Definition OTHER_ERROR : string := "OtherError".
Definition NETWORK_EXCEPTION : string := "Exception".
Definition NETWORK_STATUS_CODE_INVALID : string := "HttpStatusCodeInvalid".

(** [player._config], as far as the class reads it: its properties [url]
    and [type] ([None] for undefined). *)
Record Config := { cfg_url : option string; cfg_type : option string }.

(** The library: what [player._config] reads on a player made by
    [mpegts.createPlayer] from a data source with the given [type] and
    [url]; [None] when the player has no such property. *)
Definition Library := string -> string -> option Config.

(** A library whose players have no property [_config]. *)
Definition no_config : Library := fun _ _ => None.

(** [player.statisticsInfo] *)
Record StatisticsInfo := {
  speed : option nat;
  decodedFrames : option nat;
  droppedFrames : option nat;
  totalBytes : option nat
}.

(** A player made by [mpegts.createPlayer]: the [type] and [url] of the
    data source it was made from, and what it shows under [_config];
    [observed] tells that _setupEventListeners() has registered the
    session's handlers on it. *)
Record Player := {
  source_type : string;
  source_url : string;
  _config : option Config;
  attached : bool;
  loading : bool;
  observed : bool;
  destroyed : bool;
  statisticsInfo : option StatisticsInfo
}.

(** pause(); unload(); detachMediaElement(); destroy() *)
Definition destroy (p : Player) : Player :=
  {| source_type := source_type p; source_url := source_url p; _config := _config p;
     attached := false; loading := false; observed := false; destroyed := true;
     statisticsInfo := statisticsInfo p |}.

Definition attachMediaElement (p : Player) : Player :=
  {| source_type := source_type p; source_url := source_url p; _config := _config p;
     attached := true; loading := loading p; observed := observed p;
     destroyed := destroyed p; statisticsInfo := statisticsInfo p |}.

Definition observe (p : Player) : Player :=
  {| source_type := source_type p; source_url := source_url p; _config := _config p;
     attached := attached p; loading := loading p; observed := true;
     destroyed := destroyed p; statisticsInfo := statisticsInfo p |}.

Definition load (p : Player) : Player :=
  {| source_type := source_type p; source_url := source_url p; _config := _config p;
     attached := attached p; loading := true; observed := observed p;
     destroyed := destroyed p; statisticsInfo := statisticsInfo p |}.

Definition set_statisticsInfo (i : StatisticsInfo) (p : Player) : Player :=
  {| source_type := source_type p; source_url := source_url p; _config := _config p;
     attached := attached p; loading := loading p; observed := observed p;
     destroyed := destroyed p; statisticsInfo := Some i |}.

(** [mpegts.createPlayer({type: streamType, url: url, ...,
    ...this.mpegtsOptions}, {...})]: an entry of mpegtsOptions overrides the
    key before it (string-valued entries). *)
Definition createPlayer (library : Library) (streamType target : string)
    (mpegtsOptions : list (string * string)) : Player :=
  let over k d := fold_left (fun acc kv => if String.eqb (fst kv) k then snd kv else acc)
                            mpegtsOptions d in
  {| source_type := over "type" streamType; source_url := over "url" target;
     _config := library (over "type" streamType) (over "url" target);
     attached := false; loading := false; observed := false; destroyed := false;
     statisticsInfo := None |}.

(** *** Timers; index 0 is reserved, as ids are greater than zero *)

Inductive TimerKind :=
| Reserved
| Watchdog (target : string)               (* the 5000 ms stuck-stream check *)
| Reconnect (target type : option string)  (* the 2000 ms reconnection *)
| StatsTimer.                              (* the 1000 ms stats interval *)

Record Timer := { kind : TimerKind; due : nat; live : bool }.

Definition cancel (tm : Timer) : Timer :=
  {| kind := kind tm; due := due tm; live := false |}.

Definition rearm (period : nat) (tm : Timer) : Timer :=
  {| kind := kind tm; due := due tm + period; live := live tm |}.

(** *** What an observer sees *)

Record StatsData := {
  currentSpeed : nat;
  sd_decodedFrames : nat;
  sd_droppedFrames : nat;
  sd_totalBytes : nat;
  estimatedLatency : Z
}.

Inductive Html :=
| Blank
| StatsHtml (d : StatsData) (buffer : Q).

Inductive Obs :=
| Log (msg type : string)
| OnConnected
| OnDisconnected
| OnError (e : JsError)
| OnStats (d : StatsData)
| FetchHead (target : string)
| Uncaught (e : JsError).

(** *** The calls of [play] in flight *)

Inductive Outcome := Resolved | Rejected (e : JsError).

Inductive Phase :=
| AwaitVideoPlay (playTimeout : nat)        (* await this.videoElement.play() *)
| Done (o : Outcome).

(** [reconnecting]: the call was made by the reconnection timer, which
    logs a rejection. *)
Record Task := { reconnecting : bool; streamTypeOf : string; phase : Phase }.

Inductive VideoEventName := canplay | playing | waiting | stalled | error.

(** *** The state *)

(** [this.videoElement]; [listeners] counts the calls of
    _setupEventListeners() that added their five listeners (none is ever
    removed).  Positions are in seconds; a JavaScript number is taken as
    the rational it stands for, and arithmetic on numbers as exact. *)
Record Video := {
  src : option string;
  readyState : nat;
  currentTime : Q;               (* seconds *)
  bufferedEnd : option Q;        (* buffered.end(0), seconds *)
  videoError : option nat;       (* error.code *)
  listeners : nat
}.

Record State := {
  (* the global mpegts *)
  mpegts : Library;
  videoElement : Video;
  (* options *)
  statsContainer : option Html;
  mpegtsOptions : list (string * string);
  streamType : string;
  (* internal state *)
  player : option nat;
  statsInterval : option nat;
  latencyStartTime : nat;
  reconnectAttempts : nat;
  maxReconnectAttempts : nat;
  (* the library and the browser *)
  players : list Player;
  timers : list Timer;
  tasks : list Task;
  headRequests : list string;    (* HEAD requests not yet settled *)
  now : nat;                     (* milliseconds *)
  trace : list Obs
}.

Definition set_videoElement v s :=
  {| mpegts := mpegts s; videoElement := v; statsContainer := statsContainer s;
     mpegtsOptions := mpegtsOptions s; streamType := streamType s;
     player := player s; statsInterval := statsInterval s;
     latencyStartTime := latencyStartTime s;
     reconnectAttempts := reconnectAttempts s;
     maxReconnectAttempts := maxReconnectAttempts s; players := players s;
     timers := timers s; tasks := tasks s; headRequests := headRequests s;
     now := now s; trace := trace s |}.

Definition set_statsContainer v s :=
  {| mpegts := mpegts s; videoElement := videoElement s; statsContainer := v;
     mpegtsOptions := mpegtsOptions s; streamType := streamType s;
     player := player s; statsInterval := statsInterval s;
     latencyStartTime := latencyStartTime s;
     reconnectAttempts := reconnectAttempts s;
     maxReconnectAttempts := maxReconnectAttempts s; players := players s;
     timers := timers s; tasks := tasks s; headRequests := headRequests s;
     now := now s; trace := trace s |}.

Definition set_player v s :=
  {| mpegts := mpegts s; videoElement := videoElement s; statsContainer := statsContainer s;
     mpegtsOptions := mpegtsOptions s; streamType := streamType s; player := v;
     statsInterval := statsInterval s; latencyStartTime := latencyStartTime s;
     reconnectAttempts := reconnectAttempts s;
     maxReconnectAttempts := maxReconnectAttempts s; players := players s;
     timers := timers s; tasks := tasks s; headRequests := headRequests s;
     now := now s; trace := trace s |}.

Definition set_statsInterval v s :=
  {| mpegts := mpegts s; videoElement := videoElement s; statsContainer := statsContainer s;
     mpegtsOptions := mpegtsOptions s; streamType := streamType s;
     player := player s; statsInterval := v; latencyStartTime := latencyStartTime s;
     reconnectAttempts := reconnectAttempts s;
     maxReconnectAttempts := maxReconnectAttempts s; players := players s;
     timers := timers s; tasks := tasks s; headRequests := headRequests s;
     now := now s; trace := trace s |}.

Definition set_latencyStartTime v s :=
  {| mpegts := mpegts s; videoElement := videoElement s; statsContainer := statsContainer s;
     mpegtsOptions := mpegtsOptions s; streamType := streamType s;
     player := player s; statsInterval := statsInterval s; latencyStartTime := v;
     reconnectAttempts := reconnectAttempts s;
     maxReconnectAttempts := maxReconnectAttempts s; players := players s;
     timers := timers s; tasks := tasks s; headRequests := headRequests s;
     now := now s; trace := trace s |}.

Definition set_reconnectAttempts v s :=
  {| mpegts := mpegts s; videoElement := videoElement s; statsContainer := statsContainer s;
     mpegtsOptions := mpegtsOptions s; streamType := streamType s;
     player := player s; statsInterval := statsInterval s;
     latencyStartTime := latencyStartTime s; reconnectAttempts := v;
     maxReconnectAttempts := maxReconnectAttempts s; players := players s;
     timers := timers s; tasks := tasks s; headRequests := headRequests s;
     now := now s; trace := trace s |}.

Definition set_players v s :=
  {| mpegts := mpegts s; videoElement := videoElement s; statsContainer := statsContainer s;
     mpegtsOptions := mpegtsOptions s; streamType := streamType s;
     player := player s; statsInterval := statsInterval s;
     latencyStartTime := latencyStartTime s;
     reconnectAttempts := reconnectAttempts s;
     maxReconnectAttempts := maxReconnectAttempts s; players := v;
     timers := timers s; tasks := tasks s; headRequests := headRequests s;
     now := now s; trace := trace s |}.

Definition set_timers v s :=
  {| mpegts := mpegts s; videoElement := videoElement s; statsContainer := statsContainer s;
     mpegtsOptions := mpegtsOptions s; streamType := streamType s;
     player := player s; statsInterval := statsInterval s;
     latencyStartTime := latencyStartTime s;
     reconnectAttempts := reconnectAttempts s;
     maxReconnectAttempts := maxReconnectAttempts s; players := players s;
     timers := v; tasks := tasks s; headRequests := headRequests s; now := now s;
     trace := trace s |}.

Definition set_tasks v s :=
  {| mpegts := mpegts s; videoElement := videoElement s; statsContainer := statsContainer s;
     mpegtsOptions := mpegtsOptions s; streamType := streamType s;
     player := player s; statsInterval := statsInterval s;
     latencyStartTime := latencyStartTime s;
     reconnectAttempts := reconnectAttempts s;
     maxReconnectAttempts := maxReconnectAttempts s; players := players s;
     timers := timers s; tasks := v; headRequests := headRequests s; now := now s;
     trace := trace s |}.

Definition set_headRequests v s :=
  {| mpegts := mpegts s; videoElement := videoElement s; statsContainer := statsContainer s;
     mpegtsOptions := mpegtsOptions s; streamType := streamType s;
     player := player s; statsInterval := statsInterval s;
     latencyStartTime := latencyStartTime s;
     reconnectAttempts := reconnectAttempts s;
     maxReconnectAttempts := maxReconnectAttempts s; players := players s;
     timers := timers s; tasks := tasks s; headRequests := v; now := now s;
     trace := trace s |}.

Definition set_now v s :=
  {| mpegts := mpegts s; videoElement := videoElement s; statsContainer := statsContainer s;
     mpegtsOptions := mpegtsOptions s; streamType := streamType s;
     player := player s; statsInterval := statsInterval s;
     latencyStartTime := latencyStartTime s;
     reconnectAttempts := reconnectAttempts s;
     maxReconnectAttempts := maxReconnectAttempts s; players := players s;
     timers := timers s; tasks := tasks s; headRequests := headRequests s; now := v;
     trace := trace s |}.

Definition set_trace v s :=
  {| mpegts := mpegts s; videoElement := videoElement s; statsContainer := statsContainer s;
     mpegtsOptions := mpegtsOptions s; streamType := streamType s;
     player := player s; statsInterval := statsInterval s;
     latencyStartTime := latencyStartTime s;
     reconnectAttempts := reconnectAttempts s;
     maxReconnectAttempts := maxReconnectAttempts s; players := players s;
     timers := timers s; tasks := tasks s; headRequests := headRequests s;
     now := now s; trace := v |}.

Definition emit (o : Obs) (s : State) : State := set_trace (o :: trace s) s.

(** *** Small helpers *)

Definition current (s : State) : option (nat * Player) :=
  match player s with
  | Some h => match players s !! h with
              | Some p => Some (h, p)
              | None => None
              end
  | None => None
  end.

Definition update_player (h : nat) (f : Player -> Player) (s : State) : State :=
  set_players (alter f h (players s)) s.

Definition set_phase (t : nat) (ph : Phase) (s : State) : State :=
  set_tasks (alter (fun k => {| reconnecting := reconnecting k;
                                streamTypeOf := streamTypeOf k; phase := ph |})
                   t (tasks s)) s.

Definition timer_set (id : option nat) : bool :=
  match id with
  | Some (S _) => true
  | _ => false
  end.

(** clearInterval / clearTimeout *)
Definition clearTimer (id : option nat) (s : State) : State :=
  match id with
  | Some i => set_timers (alter cancel i (timers s)) s
  | None => s
  end.

Definition add_timer (k : TimerKind) (delay : nat) (s : State) : nat * State :=
  (length (timers s),
   set_timers (timers s ++ [{| kind := k; due := now s + delay; live := true |}]) s).

Definition upper (c : ascii) : ascii :=
  let n := nat_of_ascii c in
  if Nat.leb 97 n && Nat.leb n 122 then ascii_of_nat (n - 32) else c.

Fixpoint toUpperCase (x : string) : string :=
  match x with
  | EmptyString => EmptyString
  | String c rest => String (upper c) (toUpperCase rest)
  end.

(** *** The methods of the class *)

Definition _log (msg type : string) (s : State) : State := emit (Log msg type) s.

(** stop() *)
Definition stop (s : State) : State :=
  let s := if timer_set (statsInterval s)
           then set_statsInterval None (clearTimer (statsInterval s) s)
           else s in
  let s := match player s with
           | Some h =>
               _log "Player destroyed" "info"
                 (set_player None (update_player h destroy s))
           | None => s
           end in
  let v := videoElement s in
  let s := set_videoElement
             {| src := Some ""; readyState := readyState v;
                currentTime := currentTime v; bufferedEnd := bufferedEnd v;
                videoError := videoError v; listeners := listeners v |} s in
  let s := match statsContainer s with
           | Some _ => set_statsContainer (Some Blank) s
           | None => s
           end in
  emit OnDisconnected s.

(** The time value of [new Date(x)]: [x] with its fraction dropped (for
    [x] within the range of dates). *)
Definition time_clip (x : Q) : Z := Z.quot (Qnum x) (Zpos (Qden x)).

(** [Math.round(x)]: the nearest integer, a tie going up. *)
Definition math_round (x : Q) : Z := Qfloor (x + (1 # 2))%Q.

(** One run of the interval callback of _startStatsMonitoring(). *)
Definition stats_tick (s : State) : State :=
  match current s with
  | None => s
  | Some (_, p) =>
      let field (f : StatisticsInfo -> option nat) :=
        match statisticsInfo p with
        | Some i => default 0 (f i)
        | None => 0
        end in
      let v := videoElement s in
      let timestamp := Z.of_nat (now s) in
      let videoTimestamp :=
        time_clip (inject_Z timestamp - currentTime v * inject_Z 1000)%Q in
      let d := {| currentSpeed := field speed;
                  sd_decodedFrames := field decodedFrames;
                  sd_droppedFrames := field droppedFrames;
                  sd_totalBytes := field totalBytes;
                  estimatedLatency :=
                    math_round (inject_Z (timestamp - videoTimestamp) / inject_Z 1000)%Q |} in
      let s := match statsContainer s with
               | Some _ =>
                   set_statsContainer
                     (Some (StatsHtml d (match bufferedEnd v with
                                         | Some e => (e - currentTime v)%Q
                                         | None => 0%Q
                                         end))) s
               | None => s
               end in
      emit (OnStats d) s
  end.

(** _startStatsMonitoring(): the guard and the [setInterval] call. *)
Definition _startStatsMonitoring (s : State) : State :=
  if timer_set (statsInterval s) then s
  else let '(id, s) := add_timer StatsTimer 1000 s in
       set_statsInterval (Some id) s.

(** _setupEventListeners(): the handlers on the player and the five
    listeners on the video element. *)
Definition _setupEventListeners (s : State) : State :=
  match player s with
  | None => s
  | Some h =>
      let s := update_player h observe s in
      let v := videoElement s in
      set_videoElement
        {| src := src v; readyState := readyState v; currentTime := currentTime v;
           bufferedEnd := bufferedEnd v; videoError := videoError v;
           listeners := S (listeners v) |} s
  end.

(** The [catch] block of play(); a call made by the reconnection timer
    also runs the timer's [.catch]. *)
Definition play_catch (t : nat) (e : JsError) (s : State) : State :=
  match tasks s !! t with
  | None => s
  | Some k =>
      let s := _log ("Error: " +:+ message e) "error" s in
      let s := emit (OnError e) s in
      let s := stop s in
      let s := set_phase t (Done (Rejected e)) s in
      if reconnecting k then _log ("Reconnection failed: " +:+ message e) "error" s
      else s
  end.

(** play(url, type), up to [await this.videoElement.play()]. *)
Definition play (from_timer : bool) (target : string) (type : option string)
    (s : State) : State :=
  if String.eqb target "" then
    let e := Error "Stream URL is required" in
    let s := set_tasks (tasks s ++ [{| reconnecting := from_timer; streamTypeOf := "";
                                       phase := Done (Rejected e) |}]) s in
    if from_timer then _log ("Reconnection failed: " +:+ message e) "error" s else s
  else
    let ty := match type with
              | Some x => if String.eqb x "" then streamType s else x
              | None => streamType s
              end in
    let s := _log ("Starting " +:+ toUpperCase ty +:+ " stream...") "info" s in
    let s := stop s in
    let s := set_latencyStartTime (now s) s in
    let h := length (players s) in
    let s := set_player (Some h)
               (set_players
                  (players s ++ [createPlayer (mpegts s) ty target (mpegtsOptions s)]) s) in
    let s := _log ("Created " +:+ toUpperCase ty +:+ " player for URL: " +:+ target)
                  "info" s in
    let v := videoElement s in
    let s := set_videoElement
               {| src := Some "blob:"; readyState := readyState v;
                  currentTime := currentTime v; bufferedEnd := bufferedEnd v;
                  videoError := videoError v; listeners := listeners v |}
               (update_player h attachMediaElement s) in
    let s := _log "Attached media element" "info" s in
    let s := _setupEventListeners s in
    let s := update_player h load s in
    let s := _log (toUpperCase ty +:+ " stream loaded, attempting to play...") "info" s in
    let '(playTimeout, s) := add_timer (Watchdog target) 5000 s in
    set_tasks (tasks s ++ [{| reconnecting := from_timer; streamTypeOf := ty;
                              phase := AwaitVideoPlay playTimeout |}]) s.

(** play() resumed after [this.videoElement.play()]. *)
Definition play_started (t : nat) (r : option JsError) (s : State) : State :=
  match tasks s !! t with
  | Some k =>
      match phase k with
      | AwaitVideoPlay playTimeout =>
          match r with
          | Some e => play_catch t e s
          | None =>
              let s := clearTimer (Some playTimeout) s in
              let s := _log (toUpperCase (streamTypeOf k) +:+ " stream started")
                            "success" s in
              let s := _startStatsMonitoring s in
              let s := emit OnConnected s in
              set_phase t (Done Resolved) s
          end
      | Done _ => s
      end
  | None => s
  end.

(** The callback of the 5000 ms timeout of play(). *)
Definition watchdog (target : string) (s : State) : State :=
  if Nat.leb (readyState (videoElement s)) 1 then
    let s := _log "Stream appears to be stuck, checking network" "error" s in
    set_headRequests (headRequests s ++ [target]) (emit (FetchHead target) s)
  else s.

(** The [.then] / [.catch] of the diagnostic HEAD request. *)
Definition head_settled (r : JsError + (bool * nat)) (s : State) : State :=
  match headRequests s with
  | [] => s
  | _ :: rest =>
      let s := set_headRequests rest s in
      match r with
      | inr (true, code) =>
          _log ("Stream URL is accessible (" +:+ pretty code
                +:+ "), but playback is stuck") "info" s
      | inr (false, code) =>
          _log ("Stream URL returned " +:+ pretty code +:+ ", stream may not exist")
               "error" s
      | inl e => _log ("Network error accessing stream: " +:+ message e) "error" s
      end
  end.

(** The callback of the 2000 ms reconnection timeout, with the [url] and
    [type] the ERROR handler read.  An undefined [url] is falsy like the
    empty string, which is all play() asks of it before it throws. *)
Definition reconnect (target type : option string) (s : State) : State :=
  play true (default "" target) type (stop s).

(** The handler of [mpegts.Events.ERROR]. *)
Definition on_error (errorType errorDetail : string) (s : State) : State :=
  let s := _log ("Player error: " +:+ errorType +:+ " - " +:+ errorDetail) "error" s in
  let s := if String.eqb errorType NETWORK_ERROR then
             if String.eqb errorDetail NETWORK_EXCEPTION then
               _log "Network exception - Check if CORS is enabled on server" "error" s
             else if String.eqb errorDetail NETWORK_STATUS_CODE_INVALID then
               _log "Invalid HTTP status - Stream might not exist" "error" s
             else s
           else s in
  let s := emit (OnError (Error (errorType +:+ ": " +:+ errorDetail))) s in
  if String.eqb errorType NETWORK_ERROR
     && Nat.ltb (reconnectAttempts s) (maxReconnectAttempts s) then
    let s := set_reconnectAttempts (S (reconnectAttempts s)) s in
    let s := _log ("Attempting reconnection " +:+ pretty (reconnectAttempts s) +:+ "/"
                   +:+ pretty (maxReconnectAttempts s) +:+ "...") "info" s in
    match current s with
    | None => emit (Uncaught (null_property "_config")) s
    | Some (_, p) =>
        match _config p with
        | None => emit (Uncaught (undefined_property "url")) s
        | Some c => snd (add_timer (Reconnect (cfg_url c) (cfg_type c)) 2000 s)
        end
    end
  else s.

(** The logger registered for every key of [mpegts.Events]; [args] is
    JSON.stringify(args) when there are arguments. *)
Definition on_any (eventName : string) (args : option string) (s : State) : State :=
  if String.eqb eventName "STATISTICS_INFO" then s
  else match args with
       | Some a => _log ("Event: " +:+ eventName +:+ " - " +:+ a)
                        (if String.eqb eventName "ERROR" then "error" else "info") s
       | None => _log ("Event: " +:+ eventName) "info" s
       end.

(** One listener of the video element. *)
Definition video_listener (ev : VideoEventName) (s : State) : State :=
  match ev with
  | canplay =>
      _log ("Video can play (setup took " +:+ pretty (now s - latencyStartTime s)
            +:+ "ms)") "success" s
  | playing => set_reconnectAttempts 0 (_log "Video is playing" "success" s)
  | waiting => _log "Video buffering..." "info" s
  | stalled => _log "Video download stalled" "error" s
  | error =>
      _log ("Video element error: " +:+
            match videoError (videoElement s) with
            | Some code => pretty code
            | None => "unknown"
            end) "error" s
  end.

(** *** Events *)

Inductive Event :=
| CallPlay (target : string) (type : option string)
| CallStop
| VideoPlaySettled (t : nat) (r : option JsError)
| PlayerError (h : nat) (errorType errorDetail args : string)
| PlayerEvent (h : nat) (eventName : string) (args : option string)
| PlayerStatistics (h : nat) (info : StatisticsInfo)
| VideoEvent (ev : VideoEventName)
| MediaProgress (ready : nat) (time : Q) (buffered : option Q) (err : option nat)
| HeadSettled (r : JsError + (bool * nat))
| Elapse (ms : nat)
| TimerFire (id : nat).

(** An event of player [h] reaches the session's handlers only while [h]
    is alive and carries them. *)
Definition on_alive (h : nat) (s : State) (k : State) : State :=
  match players s !! h with
  | Some p => if destroyed p || negb (observed p) then s else k
  | None => s
  end.

Definition fire (id : nat) (s : State) : State :=
  match timers s !! id with
  | Some tm =>
      if live tm && Nat.leb (due tm) (now s) then
        match kind tm with
        | Reserved => s
        | Watchdog target => watchdog target (set_timers (alter cancel id (timers s)) s)
        | Reconnect target type =>
            reconnect target type (set_timers (alter cancel id (timers s)) s)
        | StatsTimer => stats_tick (set_timers (alter (rearm 1000) id (timers s)) s)
        end
      else s
  | None => s
  end.

Definition step (s : State) (e : Event) : State :=
  match e with
  | CallPlay target type => play false target type s
  | CallStop => stop s
  | VideoPlaySettled t r => play_started t r s
  | PlayerError h errorType errorDetail args =>
      on_alive h s (on_error errorType errorDetail (on_any "ERROR" (Some args) s))
  | PlayerEvent h eventName args =>
      if String.eqb eventName "ERROR" then s
      else on_alive h s (on_any eventName args s)
  | PlayerStatistics h info =>
      on_alive h s (update_player h (set_statisticsInfo info) s)
  | VideoEvent ev => Nat.iter (listeners (videoElement s)) (video_listener ev) s
  | MediaProgress ready time buffered err =>
      let v := videoElement s in
      set_videoElement
        {| src := src v; readyState := ready; currentTime := time;
           bufferedEnd := buffered; videoError := err; listeners := listeners v |} s
  | HeadSettled r => head_settled r s
  | Elapse ms => set_now (now s + ms) s
  | TimerFire id => fire id s
  end.

Definition run (s : State) (events : list Event) : State := fold_left step events s.

(** The constructor (with mpegts.js present, as [library], and MSE live
    playback supported; otherwise it throws and there is no session). *)
Definition constructor (library : Library) (with_stats : bool)
    (options : list (string * string)) (type : option string) : State :=
  {| mpegts := library;
     videoElement := {| src := None; readyState := 0; currentTime := 0%Q;
                        bufferedEnd := None; videoError := None; listeners := 0 |};
     statsContainer := if with_stats then Some Blank else None;
     mpegtsOptions := options;
     streamType := match type with
                   | Some x => if String.eqb x "" then "flv" else x
                   | None => "flv"
                   end;
     player := None;
     statsInterval := None;
     latencyStartTime := 0;
     reconnectAttempts := 0;
     maxReconnectAttempts := 3;
     players := [];
     timers := [{| kind := Reserved; due := 0; live := false |}];
     tasks := [];
     headRequests := [];
     now := 0;
     trace := [] |}.

(** *** Notions used in the statements *)

Global Instance flv_TimerKind_eq_dec : EqDecision TimerKind.
Proof. solve_decision. Defined.

Definition reachable (s : State) : Prop :=
  exists library with_stats options type events,
    s = run (constructor library with_stats options type) events.

(** The players that were created and not destroyed. *)
Definition live_players (s : State) : list Player :=
  filter (fun p => destroyed p = false) (players s).

(** The stats intervals that were set and not cleared. *)
Definition live_stats_timers (s : State) : list Timer :=
  filter (fun tm => kind tm = StatsTimer /\ live tm = true) (timers s).

(** The reconnections scheduled so far (fired or not). *)
Definition is_reconnect (tm : Timer) : bool :=
  match kind tm with
  | Reconnect _ _ => true
  | _ => false
  end.

Definition reconnections (s : State) : nat :=
  length (filter (fun tm => is_reconnect tm = true) (timers s)).

(** A network-class error reported by player [h]. *)
Definition network_failure (h : nat) : Event :=
  PlayerError h NETWORK_ERROR NETWORK_EXCEPTION "[]".

(** The onError calls in a trace. *)
Definition errors_reported (s : State) : list JsError :=
  omap (fun o => match o with OnError e => Some e | _ => None end) (trace s).

(** The event that reports the video surface playing. *)
Definition is_playing (e : Event) : bool :=
  match e with
  | VideoEvent playing => true
  | _ => false
  end.

(** Reconnection accounting against a starting point with [r0]
    reconnections scheduled and the counter at [a0]: every reconnection
    scheduled since then was paid for by the counter. *)
Definition Budget (r0 a0 : nat) (s : State) : Prop :=
  reconnections s + a0 <= r0 + reconnectAttempts s /\
  reconnectAttempts s <= maxReconnectAttempts s.

(** The session refers to every player that is alive, and to nothing
    else; the stats timer it remembers is the only one alive. *)
Record Inv (s : State) : Prop := {
  alive_is_current : forall h p,
    players s !! h = Some p -> destroyed p = false -> player s = Some h;
  current_is_alive : forall h,
    player s = Some h ->
    exists p, players s !! h = Some p /\ destroyed p = false /\ observed p = true;
  stats_is_current : forall id tm,
    timers s !! id = Some tm -> kind tm = StatsTimer -> live tm = true ->
    statsInterval s = Some id;
  stats_positive : forall id, statsInterval s = Some id -> 0 < id < length (timers s);
  timers_reserved : 0 < length (timers s);
  listening : player s <> None -> 0 < listeners (videoElement s);
  max_is_three : maxReconnectAttempts s = 3
}.

(** Apart from the trace, two states agree. *)
Definition same_but_trace (s s' : State) : Prop :=
  videoElement s' = videoElement s /\ statsContainer s' = statsContainer s /\
  player s' = player s /\ statsInterval s' = statsInterval s /\
  reconnectAttempts s' = reconnectAttempts s /\
  maxReconnectAttempts s' = maxReconnectAttempts s /\
  players s' = players s /\ timers s' = timers s /\ tasks s' = tasks s /\
  now s' = now s.

(** *** More notions used in the statements *)

(** The URLs of the diagnostic HEAD requests sent (newest first). *)
Definition head_requests (s : State) : list string :=
  omap (fun o => match o with FetchHead target => Some target | _ => None end) (trace s).

(** The objects handed to onStats (newest first). *)
Definition stats_reported (s : State) : list StatsData :=
  omap (fun o => match o with OnStats d => Some d | _ => None end) (trace s).

(** The log lines written (newest first). *)
Definition logged (s : State) : list (string * string) :=
  omap (fun o => match o with Log msg type => Some (msg, type) | _ => None end) (trace s).

(** The timers of [s] are still there in [s'], of the same kind, and none
    that was cancelled is alive again. *)
Definition timers_grow (s s' : State) : Prop :=
  forall id tm, timers s !! id = Some tm ->
    exists tm', timers s' !! id = Some tm' /\ kind tm' = kind tm /\
                (live tm' = true -> live tm = true).

(** What the session keeps of the things it registered: one set of video
    listeners per player ever made, a running interval behind
    [statsInterval], and a timeout behind every call that awaits
    [videoElement.play()]. *)
Record Kept (s : State) : Prop := {
  listeners_count : listeners (videoElement s) = length (players s);
  stats_running : forall id,
    statsInterval s = Some id ->
    exists tm, timers s !! id = Some tm /\ kind tm = StatsTimer /\ live tm = true;
  watchdog_there : forall t k id,
    tasks s !! t = Some k -> phase k = AwaitVideoPlay id ->
    exists tm target, timers s !! id = Some tm /\ kind tm = Watchdog target
}.

(** *** Timers *)

(** Two timers that were set for the same purpose. *)
Definition same_purpose (k k' : TimerKind) : bool :=
  match k, k' with
  | Watchdog _, Watchdog _ | Reconnect _ _, Reconnect _ _
  | StatsTimer, StatsTimer => true
  | _, _ => false
  end.

(** Two timers set for the same purpose are armed at once. *)
Definition duplicate_timers (s : State) : Prop :=
  exists i j tm tm',
    i <> j /\ timers s !! i = Some tm /\ timers s !! j = Some tm' /\
    live tm = true /\ live tm' = true /\ same_purpose (kind tm) (kind tm') = true.



(** *** A library whose players have no [_config] *)

(** The session runs on such a library, none of its players shows a
    [_config], and no reconnection was ever scheduled. *)
Definition Silent (s : State) : Prop :=
  mpegts s = no_config /\
  (forall h p, players s !! h = Some p -> _config p = None) /\
  reconnections s = 0.

(** A stream that fails at once: play, the player reports a network
    error, and two seconds pass. *)
Definition failing_stream : list Event :=
  [ CallPlay "https://host/live/cam.live.flv" None;
    network_failure 0; Elapse 2000 ].

(** A stream that fails three times in a row: play is called by hand
    each time, and each player reports a network error. *)
Definition three_failures : list Event :=
  [ CallPlay "https://host/live/cam.live.flv" None; network_failure 0;
    CallPlay "https://host/live/cam.live.flv" None; network_failure 1;
    CallPlay "https://host/live/cam.live.flv" None; network_failure 2 ].

(** A fourth call of play gets to play. *)
Definition recovery : list Event :=
  [ CallPlay "https://host/live/cam.live.flv" None;
    VideoPlaySettled 3 None; VideoEvent playing ].

(** The stream fails again later. *)
Definition recovery_then_failure : list Event :=
  recovery ++ [ network_failure 3; Elapse 2000 ].

End ZLMStreamPlayer.

(* ===================================================================== *)
(** ** The comparison page: the script that drives both sessions *)
(* ===================================================================== *)

(** The page creates one session of each class, with a log and a stats
    container each, and wires its buttons and displays to them.  The state
    holds the two sessions and the part of the document the script reads
    or writes.  A callback of a session ([onConnected], [onStats],
    [onError]; the page leaves [onDisconnected] as it is) only writes to
    the document, so it is run here right after the step of the session
    that called it, for every callback the step added to the trace, oldest
    first.  A click carries the values of the two inputs as the handler
    reads them, that is trimmed; a disabled button delivers no click. *)

Module ComparisonPage.

(** What a latency display shows. *)
Inductive Display :=
| Dash                      (* "-" *)
| Calculating               (* "Calculating..." *)
| Estimate (text : string).

Inductive TimerKind :=
| Reserved
| FlvStart (flvUrl : string)     (* the 1000 ms delay before flvPlayer.play *)
| CopyReset.                     (* the 2000 ms reset of the copy button *)

Record Timer := { kind : TimerKind; due : nat; live : bool }.

Definition cancel (tm : Timer) : Timer :=
  {| kind := kind tm; due := due tm; live := false |}.

Record Page := {
  webrtcPlayer : ZLMWebRTCPlayer.State;    (* the real-time session *)
  flvPlayer : ZLMStreamPlayer.State;    (* the progressive session *)
  search : list (string * string);    (* the query parameters of window.location *)
  streamNameInput : string;    (* streamNameInput.value *)
  serverBaseInput : string;    (* serverBaseInput.value *)
  startDisabled : bool;    (* startButton.disabled *)
  stopDisabled : bool;    (* stopButton.disabled *)
  errorText : string;    (* errorDiv.textContent *)
  errorShown : bool;    (* errorDiv.style.display is 'block' *)
  webrtcLatencyDisplay : Display;    (* webrtcLatencyDisplay.textContent *)
  flvLatencyDisplay : Display;    (* flvLatencyDisplay.textContent *)
  webrtcStartTime : nat;
  flvStartTime : nat;
  flvVideoSize : option (string * string);    (* the width and height the script gives flvVideo *)
  copyLabel : string;    (* copyLinkButton.textContent *)
  copySuccess : bool;    (* copyLinkButton carries the class copy-success *)
  clipboardWrites : nat;    (* clipboard.writeText() promises not yet settled *)
  timers : list Timer;    (* the timeouts the script set *)
  now : nat    (* milliseconds *)
}.

Definition set_webrtcPlayer v pg :=
  {| webrtcPlayer := v; flvPlayer := flvPlayer pg; search := search pg;
     streamNameInput := streamNameInput pg; serverBaseInput := serverBaseInput pg;
     startDisabled := startDisabled pg; stopDisabled := stopDisabled pg;
     errorText := errorText pg; errorShown := errorShown pg;
     webrtcLatencyDisplay := webrtcLatencyDisplay pg;
     flvLatencyDisplay := flvLatencyDisplay pg; webrtcStartTime := webrtcStartTime pg;
     flvStartTime := flvStartTime pg; flvVideoSize := flvVideoSize pg;
     copyLabel := copyLabel pg; copySuccess := copySuccess pg;
     clipboardWrites := clipboardWrites pg; timers := timers pg; now := now pg |}.

Definition set_flvPlayer v pg :=
  {| webrtcPlayer := webrtcPlayer pg; flvPlayer := v; search := search pg;
     streamNameInput := streamNameInput pg; serverBaseInput := serverBaseInput pg;
     startDisabled := startDisabled pg; stopDisabled := stopDisabled pg;
     errorText := errorText pg; errorShown := errorShown pg;
     webrtcLatencyDisplay := webrtcLatencyDisplay pg;
     flvLatencyDisplay := flvLatencyDisplay pg; webrtcStartTime := webrtcStartTime pg;
     flvStartTime := flvStartTime pg; flvVideoSize := flvVideoSize pg;
     copyLabel := copyLabel pg; copySuccess := copySuccess pg;
     clipboardWrites := clipboardWrites pg; timers := timers pg; now := now pg |}.

Definition set_search v pg :=
  {| webrtcPlayer := webrtcPlayer pg; flvPlayer := flvPlayer pg; search := v;
     streamNameInput := streamNameInput pg; serverBaseInput := serverBaseInput pg;
     startDisabled := startDisabled pg; stopDisabled := stopDisabled pg;
     errorText := errorText pg; errorShown := errorShown pg;
     webrtcLatencyDisplay := webrtcLatencyDisplay pg;
     flvLatencyDisplay := flvLatencyDisplay pg; webrtcStartTime := webrtcStartTime pg;
     flvStartTime := flvStartTime pg; flvVideoSize := flvVideoSize pg;
     copyLabel := copyLabel pg; copySuccess := copySuccess pg;
     clipboardWrites := clipboardWrites pg; timers := timers pg; now := now pg |}.

Definition set_streamNameInput v pg :=
  {| webrtcPlayer := webrtcPlayer pg; flvPlayer := flvPlayer pg; search := search pg;
     streamNameInput := v; serverBaseInput := serverBaseInput pg;
     startDisabled := startDisabled pg; stopDisabled := stopDisabled pg;
     errorText := errorText pg; errorShown := errorShown pg;
     webrtcLatencyDisplay := webrtcLatencyDisplay pg;
     flvLatencyDisplay := flvLatencyDisplay pg; webrtcStartTime := webrtcStartTime pg;
     flvStartTime := flvStartTime pg; flvVideoSize := flvVideoSize pg;
     copyLabel := copyLabel pg; copySuccess := copySuccess pg;
     clipboardWrites := clipboardWrites pg; timers := timers pg; now := now pg |}.

Definition set_serverBaseInput v pg :=
  {| webrtcPlayer := webrtcPlayer pg; flvPlayer := flvPlayer pg; search := search pg;
     streamNameInput := streamNameInput pg; serverBaseInput := v;
     startDisabled := startDisabled pg; stopDisabled := stopDisabled pg;
     errorText := errorText pg; errorShown := errorShown pg;
     webrtcLatencyDisplay := webrtcLatencyDisplay pg;
     flvLatencyDisplay := flvLatencyDisplay pg; webrtcStartTime := webrtcStartTime pg;
     flvStartTime := flvStartTime pg; flvVideoSize := flvVideoSize pg;
     copyLabel := copyLabel pg; copySuccess := copySuccess pg;
     clipboardWrites := clipboardWrites pg; timers := timers pg; now := now pg |}.

Definition set_startDisabled v pg :=
  {| webrtcPlayer := webrtcPlayer pg; flvPlayer := flvPlayer pg; search := search pg;
     streamNameInput := streamNameInput pg; serverBaseInput := serverBaseInput pg;
     startDisabled := v; stopDisabled := stopDisabled pg; errorText := errorText pg;
     errorShown := errorShown pg; webrtcLatencyDisplay := webrtcLatencyDisplay pg;
     flvLatencyDisplay := flvLatencyDisplay pg; webrtcStartTime := webrtcStartTime pg;
     flvStartTime := flvStartTime pg; flvVideoSize := flvVideoSize pg;
     copyLabel := copyLabel pg; copySuccess := copySuccess pg;
     clipboardWrites := clipboardWrites pg; timers := timers pg; now := now pg |}.

Definition set_stopDisabled v pg :=
  {| webrtcPlayer := webrtcPlayer pg; flvPlayer := flvPlayer pg; search := search pg;
     streamNameInput := streamNameInput pg; serverBaseInput := serverBaseInput pg;
     startDisabled := startDisabled pg; stopDisabled := v; errorText := errorText pg;
     errorShown := errorShown pg; webrtcLatencyDisplay := webrtcLatencyDisplay pg;
     flvLatencyDisplay := flvLatencyDisplay pg; webrtcStartTime := webrtcStartTime pg;
     flvStartTime := flvStartTime pg; flvVideoSize := flvVideoSize pg;
     copyLabel := copyLabel pg; copySuccess := copySuccess pg;
     clipboardWrites := clipboardWrites pg; timers := timers pg; now := now pg |}.

Definition set_errorText v pg :=
  {| webrtcPlayer := webrtcPlayer pg; flvPlayer := flvPlayer pg; search := search pg;
     streamNameInput := streamNameInput pg; serverBaseInput := serverBaseInput pg;
     startDisabled := startDisabled pg; stopDisabled := stopDisabled pg;
     errorText := v; errorShown := errorShown pg;
     webrtcLatencyDisplay := webrtcLatencyDisplay pg;
     flvLatencyDisplay := flvLatencyDisplay pg; webrtcStartTime := webrtcStartTime pg;
     flvStartTime := flvStartTime pg; flvVideoSize := flvVideoSize pg;
     copyLabel := copyLabel pg; copySuccess := copySuccess pg;
     clipboardWrites := clipboardWrites pg; timers := timers pg; now := now pg |}.

Definition set_errorShown v pg :=
  {| webrtcPlayer := webrtcPlayer pg; flvPlayer := flvPlayer pg; search := search pg;
     streamNameInput := streamNameInput pg; serverBaseInput := serverBaseInput pg;
     startDisabled := startDisabled pg; stopDisabled := stopDisabled pg;
     errorText := errorText pg; errorShown := v;
     webrtcLatencyDisplay := webrtcLatencyDisplay pg;
     flvLatencyDisplay := flvLatencyDisplay pg; webrtcStartTime := webrtcStartTime pg;
     flvStartTime := flvStartTime pg; flvVideoSize := flvVideoSize pg;
     copyLabel := copyLabel pg; copySuccess := copySuccess pg;
     clipboardWrites := clipboardWrites pg; timers := timers pg; now := now pg |}.

Definition set_webrtcLatencyDisplay v pg :=
  {| webrtcPlayer := webrtcPlayer pg; flvPlayer := flvPlayer pg; search := search pg;
     streamNameInput := streamNameInput pg; serverBaseInput := serverBaseInput pg;
     startDisabled := startDisabled pg; stopDisabled := stopDisabled pg;
     errorText := errorText pg; errorShown := errorShown pg; webrtcLatencyDisplay := v;
     flvLatencyDisplay := flvLatencyDisplay pg; webrtcStartTime := webrtcStartTime pg;
     flvStartTime := flvStartTime pg; flvVideoSize := flvVideoSize pg;
     copyLabel := copyLabel pg; copySuccess := copySuccess pg;
     clipboardWrites := clipboardWrites pg; timers := timers pg; now := now pg |}.

Definition set_flvLatencyDisplay v pg :=
  {| webrtcPlayer := webrtcPlayer pg; flvPlayer := flvPlayer pg; search := search pg;
     streamNameInput := streamNameInput pg; serverBaseInput := serverBaseInput pg;
     startDisabled := startDisabled pg; stopDisabled := stopDisabled pg;
     errorText := errorText pg; errorShown := errorShown pg;
     webrtcLatencyDisplay := webrtcLatencyDisplay pg; flvLatencyDisplay := v;
     webrtcStartTime := webrtcStartTime pg; flvStartTime := flvStartTime pg;
     flvVideoSize := flvVideoSize pg; copyLabel := copyLabel pg;
     copySuccess := copySuccess pg; clipboardWrites := clipboardWrites pg;
     timers := timers pg; now := now pg |}.

Definition set_webrtcStartTime v pg :=
  {| webrtcPlayer := webrtcPlayer pg; flvPlayer := flvPlayer pg; search := search pg;
     streamNameInput := streamNameInput pg; serverBaseInput := serverBaseInput pg;
     startDisabled := startDisabled pg; stopDisabled := stopDisabled pg;
     errorText := errorText pg; errorShown := errorShown pg;
     webrtcLatencyDisplay := webrtcLatencyDisplay pg;
     flvLatencyDisplay := flvLatencyDisplay pg; webrtcStartTime := v;
     flvStartTime := flvStartTime pg; flvVideoSize := flvVideoSize pg;
     copyLabel := copyLabel pg; copySuccess := copySuccess pg;
     clipboardWrites := clipboardWrites pg; timers := timers pg; now := now pg |}.

Definition set_flvStartTime v pg :=
  {| webrtcPlayer := webrtcPlayer pg; flvPlayer := flvPlayer pg; search := search pg;
     streamNameInput := streamNameInput pg; serverBaseInput := serverBaseInput pg;
     startDisabled := startDisabled pg; stopDisabled := stopDisabled pg;
     errorText := errorText pg; errorShown := errorShown pg;
     webrtcLatencyDisplay := webrtcLatencyDisplay pg;
     flvLatencyDisplay := flvLatencyDisplay pg; webrtcStartTime := webrtcStartTime pg;
     flvStartTime := v; flvVideoSize := flvVideoSize pg; copyLabel := copyLabel pg;
     copySuccess := copySuccess pg; clipboardWrites := clipboardWrites pg;
     timers := timers pg; now := now pg |}.

Definition set_flvVideoSize v pg :=
  {| webrtcPlayer := webrtcPlayer pg; flvPlayer := flvPlayer pg; search := search pg;
     streamNameInput := streamNameInput pg; serverBaseInput := serverBaseInput pg;
     startDisabled := startDisabled pg; stopDisabled := stopDisabled pg;
     errorText := errorText pg; errorShown := errorShown pg;
     webrtcLatencyDisplay := webrtcLatencyDisplay pg;
     flvLatencyDisplay := flvLatencyDisplay pg; webrtcStartTime := webrtcStartTime pg;
     flvStartTime := flvStartTime pg; flvVideoSize := v; copyLabel := copyLabel pg;
     copySuccess := copySuccess pg; clipboardWrites := clipboardWrites pg;
     timers := timers pg; now := now pg |}.

Definition set_copyLabel v pg :=
  {| webrtcPlayer := webrtcPlayer pg; flvPlayer := flvPlayer pg; search := search pg;
     streamNameInput := streamNameInput pg; serverBaseInput := serverBaseInput pg;
     startDisabled := startDisabled pg; stopDisabled := stopDisabled pg;
     errorText := errorText pg; errorShown := errorShown pg;
     webrtcLatencyDisplay := webrtcLatencyDisplay pg;
     flvLatencyDisplay := flvLatencyDisplay pg; webrtcStartTime := webrtcStartTime pg;
     flvStartTime := flvStartTime pg; flvVideoSize := flvVideoSize pg; copyLabel := v;
     copySuccess := copySuccess pg; clipboardWrites := clipboardWrites pg;
     timers := timers pg; now := now pg |}.

Definition set_copySuccess v pg :=
  {| webrtcPlayer := webrtcPlayer pg; flvPlayer := flvPlayer pg; search := search pg;
     streamNameInput := streamNameInput pg; serverBaseInput := serverBaseInput pg;
     startDisabled := startDisabled pg; stopDisabled := stopDisabled pg;
     errorText := errorText pg; errorShown := errorShown pg;
     webrtcLatencyDisplay := webrtcLatencyDisplay pg;
     flvLatencyDisplay := flvLatencyDisplay pg; webrtcStartTime := webrtcStartTime pg;
     flvStartTime := flvStartTime pg; flvVideoSize := flvVideoSize pg;
     copyLabel := copyLabel pg; copySuccess := v;
     clipboardWrites := clipboardWrites pg; timers := timers pg; now := now pg |}.

Definition set_clipboardWrites v pg :=
  {| webrtcPlayer := webrtcPlayer pg; flvPlayer := flvPlayer pg; search := search pg;
     streamNameInput := streamNameInput pg; serverBaseInput := serverBaseInput pg;
     startDisabled := startDisabled pg; stopDisabled := stopDisabled pg;
     errorText := errorText pg; errorShown := errorShown pg;
     webrtcLatencyDisplay := webrtcLatencyDisplay pg;
     flvLatencyDisplay := flvLatencyDisplay pg; webrtcStartTime := webrtcStartTime pg;
     flvStartTime := flvStartTime pg; flvVideoSize := flvVideoSize pg;
     copyLabel := copyLabel pg; copySuccess := copySuccess pg; clipboardWrites := v;
     timers := timers pg; now := now pg |}.

Definition set_timers v pg :=
  {| webrtcPlayer := webrtcPlayer pg; flvPlayer := flvPlayer pg; search := search pg;
     streamNameInput := streamNameInput pg; serverBaseInput := serverBaseInput pg;
     startDisabled := startDisabled pg; stopDisabled := stopDisabled pg;
     errorText := errorText pg; errorShown := errorShown pg;
     webrtcLatencyDisplay := webrtcLatencyDisplay pg;
     flvLatencyDisplay := flvLatencyDisplay pg; webrtcStartTime := webrtcStartTime pg;
     flvStartTime := flvStartTime pg; flvVideoSize := flvVideoSize pg;
     copyLabel := copyLabel pg; copySuccess := copySuccess pg;
     clipboardWrites := clipboardWrites pg; timers := v; now := now pg |}.

Definition set_now v pg :=
  {| webrtcPlayer := webrtcPlayer pg; flvPlayer := flvPlayer pg; search := search pg;
     streamNameInput := streamNameInput pg; serverBaseInput := serverBaseInput pg;
     startDisabled := startDisabled pg; stopDisabled := stopDisabled pg;
     errorText := errorText pg; errorShown := errorShown pg;
     webrtcLatencyDisplay := webrtcLatencyDisplay pg;
     flvLatencyDisplay := flvLatencyDisplay pg; webrtcStartTime := webrtcStartTime pg;
     flvStartTime := flvStartTime pg; flvVideoSize := flvVideoSize pg;
     copyLabel := copyLabel pg; copySuccess := copySuccess pg;
     clipboardWrites := clipboardWrites pg; timers := timers pg; now := v |}.

(** *** URL parameters (URLSearchParams) *)

(** [params.get(k)]: the value of the first pair named [k], or null. *)
Definition params_get (k : string) (l : list (string * string)) : option string :=
  snd <$> head (filter (fun kv => fst kv = k) l).

(** [params.set(k, v)]: the first pair named [k] gets the value [v] and
    the other pairs named [k] are removed; without such a pair, one is
    appended. *)
Fixpoint params_set (k v : string) (l : list (string * string)) : list (string * string) :=
  match l with
  | [] => [(k, v)]
  | kv :: rest =>
      if String.eqb (fst kv) k
      then (k, v) :: filter (fun kv' => fst kv' <> k) rest
      else kv :: params_set k v rest
  end.

(** getUrlParams() *)
Definition getUrlParams (l : list (string * string)) : option string * option string :=
  (params_get "stream" l, params_get "server" l).

(** updateUrlParams(streamName, serverBase) *)
Definition updateUrlParams (streamName serverBase : string) (pg : Page) : Page :=
  set_search (params_set "server" serverBase (params_set "stream" streamName (search pg))) pg.

(** *** Helpers of the script *)

Definition showError (message : string) (pg : Page) : Page :=
  set_errorShown true (set_errorText message pg).

Definition hideError (pg : Page) : Page := set_errorShown false pg.

Definition add_timer (k : TimerKind) (delay : nat) (pg : Page) : Page :=
  set_timers (timers pg ++ [{| kind := k; due := now pg + delay; live := true |}]) pg.

(** *** The callbacks the page gives the sessions *)

Definition webrtc_callback (pg : Page) (o : ZLMWebRTCPlayer.Obs) : Page :=
  match o with
  | ZLMWebRTCPlayer.OnConnected =>
      set_webrtcStartTime (now pg) (set_webrtcLatencyDisplay Calculating pg)
  | ZLMWebRTCPlayer.OnStats d =>
      (* (stats.jitter * 1000).toFixed(2) of a whole number *)
      set_webrtcLatencyDisplay
        (Estimate ("~" +:+ pretty (ZLMWebRTCPlayer.sd_jitter d * 1000) +:+ ".00ms")) pg
  | ZLMWebRTCPlayer.OnError e => showError ("WebRTC Error: " +:+ message e) pg
  | _ => pg
  end.

Definition flv_callback (pg : Page) (o : ZLMStreamPlayer.Obs) : Page :=
  match o with
  | ZLMStreamPlayer.OnConnected =>
      set_flvStartTime (now pg) (set_flvLatencyDisplay Calculating pg)
  | ZLMStreamPlayer.OnStats d =>
      set_flvLatencyDisplay
        (Estimate ("~" +:+ pretty (ZLMStreamPlayer.estimatedLatency d * 1000)%Z +:+ "ms")) pg
  | ZLMStreamPlayer.OnError e => showError ("Stream Error: " +:+ message e) pg
  | _ => pg
  end.

(** What a step added to a trace (traces are newest first), oldest first. *)
Definition fresh {A : Type} (old new : list A) : list A :=
  rev (take (length new - length old) new).

(** A step of the real-time session, followed by the callbacks it made.
    The promise of play() is not awaited by the page. *)
Definition drive_webrtc (f : ZLMWebRTCPlayer.State -> ZLMWebRTCPlayer.State)
    (pg : Page) : Page :=
  let s := webrtcPlayer pg in
  let s' := f s in
  fold_left webrtc_callback
    (fresh (ZLMWebRTCPlayer.trace s) (ZLMWebRTCPlayer.trace s'))
    (set_webrtcPlayer s' pg).

(** The calls of flvPlayer.play made by the page (not by the reconnection
    timer of the session) whose promise the step rejected: the page awaits
    them in a try block. *)
Definition rejections (old new : list ZLMStreamPlayer.Task) : list JsError :=
  omap id
    (imap (fun i k =>
             match ZLMStreamPlayer.phase k with
             | ZLMStreamPlayer.Done (ZLMStreamPlayer.Rejected e) =>
                 if ZLMStreamPlayer.reconnecting k then None
                 else match ZLMStreamPlayer.phase <$> old !! i with
                      | Some (ZLMStreamPlayer.Done _) => None
                      | _ => Some e
                      end
             | _ => None
             end) new).

(** A step of the progressive session, followed by the callbacks it made
    and by the catch block of the page for the calls it rejected. *)
Definition drive_flv (f : ZLMStreamPlayer.State -> ZLMStreamPlayer.State)
    (pg : Page) : Page :=
  let s := flvPlayer pg in
  let s' := f s in
  let pg := fold_left flv_callback
              (fresh (ZLMStreamPlayer.trace s) (ZLMStreamPlayer.trace s'))
              (set_flvPlayer s' pg) in
  fold_left (fun pg e => showError ("Stream Error: " +:+ message e) pg)
            (rejections (ZLMStreamPlayer.tasks s) (ZLMStreamPlayer.tasks s')) pg.

(** *** The handlers *)

(** The click handler of the Start button.  The call of webrtcPlayer.play
    sits in a try block, but play() is an async function: it returns a
    promise and throws nothing, so the catch block of the handler is never
    entered. *)
Definition start (streamName serverBase : string) (pg : Page) : Page :=
  if String.eqb streamName "" || String.eqb serverBase "" then
    showError "Please enter both stream name and server base URL" pg
  else
    let pg := updateUrlParams streamName serverBase pg in
    let pg := hideError pg in
    let pg := set_stopDisabled false (set_startDisabled true pg) in
    let webrtcUrl := serverBase +:+ "/index/api/webrtc?app=live&stream=" +:+ streamName
                     +:+ "&type=play" in
    let flvUrl := serverBase +:+ "/live/" +:+ streamName +:+ ".live.flv" in
    let pg := drive_webrtc (fun s => ZLMWebRTCPlayer.step s (ZLMWebRTCPlayer.CallPlay webrtcUrl))
                pg in
    add_timer (FlvStart flvUrl) 1000 pg.

(** The callback of the 1000 ms timeout set by the Start handler. *)
Definition start_flv (flvUrl : string) (pg : Page) : Page :=
  let pg := set_flvVideoSize (Some ("640px", "360px")) pg in
  drive_flv (fun s => ZLMStreamPlayer.step s (ZLMStreamPlayer.CallPlay flvUrl None)) pg.

(** The click handler of the Stop button. *)
Definition stop_all (pg : Page) : Page :=
  let pg := drive_webrtc ZLMWebRTCPlayer.stop pg in
  let pg := drive_flv ZLMStreamPlayer.stop pg in
  let pg := set_stopDisabled true (set_startDisabled false pg) in
  set_flvLatencyDisplay Dash (set_webrtcLatencyDisplay Dash pg).

(** The click handler of the Copy Link button, up to
    [await navigator.clipboard.writeText(...)]. *)
Definition copy_link (streamName serverBase : string) (pg : Page) : Page :=
  if String.eqb streamName "" || String.eqb serverBase "" then
    showError "Please enter both stream name and server base URL" pg
  else
    let pg := updateUrlParams streamName serverBase pg in
    set_clipboardWrites (S (clipboardWrites pg)) pg.

(** The rest of that handler. *)
Definition copy_settled (ok : bool) (pg : Page) : Page :=
  match clipboardWrites pg with
  | 0 => pg
  | S n =>
      let pg := set_clipboardWrites n pg in
      if ok then
        add_timer CopyReset 2000 (set_copyLabel "Copied!" (set_copySuccess true pg))
      else showError "Failed to copy to clipboard" pg
  end.

Definition fire (id : nat) (pg : Page) : Page :=
  match timers pg !! id with
  | Some tm =>
      if live tm && Nat.leb (due tm) (now pg) then
        let pg := set_timers (alter cancel id (timers pg)) pg in
        match kind tm with
        | Reserved => pg
        | FlvStart flvUrl => start_flv flvUrl pg
        | CopyReset => set_copyLabel "Copy Link" (set_copySuccess false pg)
        end
      else pg
  | None => pg
  end.

(** *** Events *)

Inductive Event :=
| ClickStart (streamName serverBase : string)
| ClickStop
| ClickCopy (streamName serverBase : string)
| ClipboardSettled (ok : bool)
| Rtc (e : ZLMWebRTCPlayer.Event)      (* what the browser delivers to the real-time session *)
| Flv (e : ZLMStreamPlayer.Event)      (* ... and to the progressive session *)
| Elapse (ms : nat)
| TimerFire (id : nat).

(** The events of a session that come from the browser, not from a caller;
    time passes for the page and both sessions at once. *)
Definition rtc_delivered (e : ZLMWebRTCPlayer.Event) : bool :=
  match e with
  | ZLMWebRTCPlayer.CallPlay _ | ZLMWebRTCPlayer.CallStop | ZLMWebRTCPlayer.Elapse _ => false
  | _ => true
  end.

Definition flv_delivered (e : ZLMStreamPlayer.Event) : bool :=
  match e with
  | ZLMStreamPlayer.CallPlay _ _ | ZLMStreamPlayer.CallStop | ZLMStreamPlayer.Elapse _ => false
  | _ => true
  end.

Definition step (pg : Page) (e : Event) : Page :=
  match e with
  | ClickStart streamName serverBase =>
      if startDisabled pg then pg else start streamName serverBase pg
  | ClickStop => if stopDisabled pg then pg else stop_all pg
  | ClickCopy streamName serverBase => copy_link streamName serverBase pg
  | ClipboardSettled ok => copy_settled ok pg
  | Rtc e => if rtc_delivered e then drive_webrtc (fun s => ZLMWebRTCPlayer.step s e) pg
             else pg
  | Flv e => if flv_delivered e then drive_flv (fun s => ZLMStreamPlayer.step s e) pg
             else pg
  | Elapse ms =>
      set_now (now pg + ms)
        (set_flvPlayer (ZLMStreamPlayer.step (flvPlayer pg) (ZLMStreamPlayer.Elapse ms))
           (set_webrtcPlayer
              (ZLMWebRTCPlayer.step (webrtcPlayer pg) (ZLMWebRTCPlayer.Elapse ms)) pg))
  | TimerFire id => fire id pg
  end.

Definition run (pg : Page) (events : list Event) : Page := fold_left step events pg.

(** The page as the script leaves it when it has run: [library] is the
    mpegts.js the page has loaded, [params] are the query parameters of the
    address it was opened with. *)
Definition load (library : ZLMStreamPlayer.Library) (params : list (string * string))
    (page_origin : string) : Page :=
  let prefill (v : option string) : string :=
    match v with
    | Some x => x          (* if (urlParams.x) input.value = urlParams.x *)
    | None => ""
    end in
  {| webrtcPlayer := ZLMWebRTCPlayer.constructor true None page_origin;
     flvPlayer := ZLMStreamPlayer.constructor library true [] (Some "flv");
     search := params;
     streamNameInput := prefill (fst (getUrlParams params));
     serverBaseInput := prefill (snd (getUrlParams params));
     startDisabled := false;
     stopDisabled := true;
     errorText := "";
     errorShown := false;
     webrtcLatencyDisplay := Dash;
     flvLatencyDisplay := Dash;
     webrtcStartTime := 0;
     flvStartTime := 0;
     flvVideoSize := None;
     copyLabel := "Copy Link";
     copySuccess := false;
     clipboardWrites := 0;
     timers := [{| kind := Reserved; due := 0; live := false |}];
     now := 0 |}.

Definition reachable (pg : Page) : Prop :=
  exists library params page_origin events,
    pg = run (load library params page_origin) events.

(** The timeouts of the page that are yet to start the progressive
    session. *)
Definition is_flv_start (tm : Timer) : bool :=
  match kind tm with
  | FlvStart _ => live tm
  | _ => false
  end.

Definition pending_starts (pg : Page) : list Timer :=
  filter (fun tm => is_flv_start tm = true) (timers pg).

(** Two page states that differ at most in what the error box and the
    latency displays show and in the recorded start times. *)
Definition same_controls (pg pg' : Page) : Prop :=
  webrtcPlayer pg' = webrtcPlayer pg /\ flvPlayer pg' = flvPlayer pg /\
  search pg' = search pg /\
  startDisabled pg' = startDisabled pg /\ stopDisabled pg' = stopDisabled pg /\
  flvVideoSize pg' = flvVideoSize pg /\
  copyLabel pg' = copyLabel pg /\ copySuccess pg' = copySuccess pg /\
  clipboardWrites pg' = clipboardWrites pg /\
  timers pg' = timers pg /\ now pg' = now pg.

End ComparisonPage.
(* ===================================================================== *)
(** ** Facts about lists *)
(* ===================================================================== *)

Section ListFacts.
Context {A : Type} (P : A -> Prop) `{forall x, Decision (P x)}.

Lemma filter_none (l : list A) :
  (forall i x, l !! i = Some x -> ~ P x) -> filter P l = [].
Proof.
  induction l as [|a l IH]; intros Hno; [done|].
  rewrite filter_cons. destruct (decide (P a)) as [Ha|Ha].
  - destruct (Hno 0 a); done.
  - apply IH. intros i x Hi. apply (Hno (S i)). done.
Qed.

(** If all positions that satisfy [P] coincide, at most one element does. *)
Lemma filter_at_most_one (l : list A) :
  (forall i j x y, l !! i = Some x -> l !! j = Some y -> P x -> P y -> i = j) ->
  length (filter P l) <= 1.
Proof.
  induction l as [|a l IH]; intros Huniq; [simpl; lia|].
  rewrite filter_cons. destruct (decide (P a)) as [Ha|Ha].
  - rewrite filter_none; [simpl; lia|].
    intros i x Hi Hx. specialize (Huniq 0 (S i) a x). simpl in Huniq.
    specialize (Huniq eq_refl Hi Ha Hx). lia.
  - apply IH. intros i j x y Hi Hj Hx Hy.
    specialize (Huniq (S i) (S j) x y Hi Hj Hx Hy). lia.
Qed.

Lemma filter_some (l : list A) i x :
  l !! i = Some x -> P x -> 0 < length (filter P l).
Proof.
  intros Hi Hx.
  assert (x ∈ filter P l) as Hin.
  { apply list_elem_of_filter. split; [done|]. by eapply list_elem_of_lookup_2. }
  destruct (filter P l); [by apply not_elem_of_nil in Hin|simpl; lia].
Qed.

Lemma filter_alter_length (f : A -> A) (l : list A) i :
  (forall x, P (f x) <-> P x) -> length (filter P (alter f i l)) = length (filter P l).
Proof.
  intros Hf. unfold alter. revert i.
  induction l as [|a l IH]; intros [|i]; simpl; try done.
  - rewrite !filter_cons. pose proof (Hf a).
    destruct (decide (P (f a))), (decide (P a)); simpl; tauto.
  - rewrite !filter_cons. destruct (decide (P a)); simpl; by rewrite IH.
Qed.
End ListFacts.

(* ===================================================================== *)
(** ** The real-time session keeps its invariant *)
(* ===================================================================== *)

Module WebRTCFacts.
Import ZLMWebRTCPlayer.

Lemma rtc_Inv_frame s s' :
  connections s' = connections s -> peerConnection s' = peerConnection s ->
  timers s' = timers s -> statsInterval s' = statsInterval s ->
  srcObject s' = srcObject s -> stream s' = stream s ->
  Inv s -> Inv s'.
Proof.
  intros Hc Hp Ht Hi Hs Hm [].
  split; rewrite ?Hc, ?Hp, ?Ht, ?Hi, ?Hs, ?Hm; done.
Qed.

Lemma rtc_emit_inv o s : Inv s -> Inv (emit o s).
Proof. by apply rtc_Inv_frame. Qed.

Lemma rtc_log_inv m ty s : Inv s -> Inv (_log m ty s).
Proof. apply rtc_emit_inv. Qed.

Lemma rtc_set_phase_inv t p s : Inv s -> Inv (set_phase t p s).
Proof. by apply rtc_Inv_frame. Qed.

Lemma set_statsReads_inv n s : Inv s -> Inv (set_statsReads n s).
Proof. by apply rtc_Inv_frame. Qed.

Lemma rtc_set_now_inv n s : Inv s -> Inv (set_now n s).
Proof. by apply rtc_Inv_frame. Qed.

Lemma rtc_set_statsContainer_inv c s : Inv s -> Inv (set_statsContainer c s).
Proof. by apply rtc_Inv_frame. Qed.

Lemma update_connection_inv h f s :
  (forall pc, closed (f pc) = closed pc) -> Inv s -> Inv (update_connection h f s).
Proof.
  intros Hf [H1 H2 H3 H4 H5 H6]. split; simpl; try done.
  - intros h' pc. rewrite list_lookup_alter. case_decide as Hd.
    + subst. destruct (connections s !! h') as [pc0|] eqn:E; simpl; [|done].
      intros [= <-]. rewrite Hf. eauto.
    + eauto.
  - intros h' Hh'. destruct (H2 h' Hh') as (pc & Hpc & Hopen).
    rewrite list_lookup_alter. case_decide; subst.
    + rewrite Hpc. simpl. eexists. split; [done|]. by rewrite Hf.
    + eauto.
Qed.

Lemma rtc_add_timer_inv k d s id s' :
  add_timer k d s = (id, s') -> k <> StatsTimer -> Inv s -> Inv s'.
Proof.
  intros [= <- <-] Hk [H1 H2 H3 H4 H5 H6]. split; simpl; try done.
  - intros id tm Hid Hkind Hlive.
    apply lookup_app_Some in Hid as [Hid|[_ Hid]]; [eauto|].
    apply list_lookup_singleton_Some in Hid as [_ <-]. done.
  - intros id Hid. rewrite length_app. simpl. specialize (H4 id Hid). lia.
  - rewrite length_app. lia.
Qed.

Lemma rtc_alter_timer_inv f id s :
  (forall tm, kind (f tm) = kind tm) -> (forall tm, live (f tm) = true -> live tm = true) ->
  Inv s -> Inv (set_timers (alter f id (timers s)) s).
Proof.
  intros Hk Hl [H1 H2 H3 H4 H5 H6]. split; simpl; try done.
  - intros id' tm. rewrite list_lookup_alter. case_decide; subst; [|eauto].
    destruct (timers s !! id') as [tm0|] eqn:E; simpl; [|done].
    intros [= <-]. rewrite Hk. eauto.
  - intros id' Hid'. rewrite length_alter. eauto.
  - by rewrite length_alter.
Qed.

Lemma stop_tracks_eq tracks s :
  stop_tracks tracks s = set_trace (tracks_obs tracks (trace s)) s.
Proof.
  revert s. induction tracks as [|a l IH]; intros s; simpl.
  - by destruct s.
  - unfold stop_tracks in *. simpl. rewrite IH. done.
Qed.

Ltac rtc_stop_cases :=
  unfold stop, clearInterval, update_connection, _log;
  repeat case_match; rewrite ?stop_tracks_eq in *; simpl in *; simplify_eq/=.

Lemma stop_peerConnection s : peerConnection (stop s) = None.
Proof. rtc_stop_cases; congruence. Qed.

Lemma stop_srcObject s : srcObject (stop s) = None.
Proof. rtc_stop_cases; congruence. Qed.

Lemma stop_stream s : stream (stop s) = None.
Proof. rtc_stop_cases; congruence. Qed.

Lemma rtc_stop_tasks s : tasks (stop s) = tasks s.
Proof. rtc_stop_cases; congruence. Qed.

Lemma rtc_stop_now s : now (stop s) = now s.
Proof. rtc_stop_cases; congruence. Qed.

Lemma rtc_stop_statsInterval s :
  statsInterval (stop s) = if timer_set (statsInterval s) then None else statsInterval s.
Proof. rtc_stop_cases; congruence. Qed.

Lemma stop_connections s :
  connections (stop s) =
  match peerConnection s with
  | Some h => alter pc_close h (connections s)
  | None => connections s
  end.
Proof. rtc_stop_cases; congruence. Qed.

Lemma rtc_stop_timers s :
  timers (stop s) =
  if timer_set (statsInterval s)
  then match statsInterval s with
       | Some i => alter cancel i (timers s)
       | None => timers s
       end
  else timers s.
Proof. rtc_stop_cases; congruence. Qed.

Lemma rtc_timer_set_inv s id : Inv s -> statsInterval s = Some id -> timer_set (Some id) = true.
Proof.
  intros HI Hid. destruct (stats_positive s HI id Hid) as [Hpos _].
  destruct id; [lia|done].
Qed.

Lemma rtc_stop_inv s : Inv s -> Inv (stop s).
Proof.
  intros HI. pose proof HI as [H1 H2 H3 H4 H5 H6].
  split; rewrite ?stop_peerConnection, ?stop_srcObject, ?stop_stream,
           ?stop_connections, ?rtc_stop_timers, ?rtc_stop_statsInterval; try done.
  - intros h pc Hh Hopen. exfalso.
    destruct (peerConnection s) as [h0|] eqn:Hp.
    + rewrite list_lookup_alter in Hh. case_decide; subst.
      * destruct (connections s !! h); simplify_eq/=.
      * specialize (H1 h pc Hh Hopen). congruence.
    + specialize (H1 h pc Hh Hopen). congruence.
  - destruct (statsInterval s) as [id|] eqn:Hid; [|done].
    rewrite (rtc_timer_set_inv s id HI Hid).
    intros id' tm Hid' Hk Hl. exfalso.
    rewrite list_lookup_alter in Hid'. case_decide; subst.
    + destruct (timers s !! id'); simplify_eq/=.
    + specialize (H3 id' tm Hid' Hk Hl). congruence.
  - destruct (statsInterval s) as [id|] eqn:Hid; [|done].
    by rewrite (rtc_timer_set_inv s id HI Hid).
  - destruct (statsInterval s) as [id|] eqn:Hid; [|done].
    rewrite (rtc_timer_set_inv s id HI Hid). by rewrite length_alter.
  - intros _. destruct (statsInterval s) as [id|] eqn:Hid; [|done].
    by rewrite (rtc_timer_set_inv s id HI Hid).
Qed.

Lemma rtc_stop_statsInterval_inv s : Inv s -> statsInterval (stop s) = None.
Proof.
  intros HI. rewrite rtc_stop_statsInterval.
  destruct (statsInterval s) as [id|] eqn:Hid; [|done].
  by rewrite (rtc_timer_set_inv s id HI Hid).
Qed.

Lemma rtc_startStatsMonitoring_inv s :
  Inv s -> peerConnection s <> None -> Inv (_startStatsMonitoring s).
Proof.
  intros HI Hp. unfold _startStatsMonitoring.
  destruct (timer_set (statsInterval s)) eqn:Hset; [done|].
  assert (statsInterval s = None) as Hnone.
  { destruct (statsInterval s) as [id|] eqn:Hid; [|done].
    rewrite (rtc_timer_set_inv s id HI Hid) in Hset. done. }
  destruct HI as [H1 H2 H3 H4 H5 H6]. simpl. split; simpl; try done.
  - intros id tm Hid Hk Hl. apply lookup_app_Some in Hid as [Hid|[Hlen Hid]].
    + specialize (H3 id tm Hid Hk Hl). congruence.
    + apply list_lookup_singleton_Some in Hid as [Hz _]. f_equal. lia.
  - intros id [= <-]. rewrite length_app. simpl. lia.
  - rewrite length_app. lia.
Qed.

Lemma new_connection_inv pc s :
  closed pc = false -> peerConnection s = None -> Inv s ->
  Inv (set_peerConnection (Some (length (connections s)))
         (set_connections (connections s ++ [pc]) s)).
Proof.
  intros Hpc Hp HI. pose proof HI as [H1 H2 H3 H4 H5 H6].
  destruct (H6 Hp) as (Hsi & Hso & Hst).
  split; simpl; try done.
  - intros h pc' Hh Hopen. apply lookup_app_Some in Hh as [Hh|[Hlen Hh]].
    + specialize (H1 h pc' Hh Hopen). congruence.
    + apply list_lookup_singleton_Some in Hh as [Hz _]. f_equal. lia.
  - intros h [= <-]. exists pc. split; [|done].
    rewrite lookup_app_r by lia. by rewrite Nat.sub_diag.
Qed.

Lemma play_after_stop_inv target s :
  Inv s -> peerConnection s = None ->
  Inv (let h := length (connections s) in
       let s := set_peerConnection (Some h)
                  (set_connections (connections s ++ [RTCPeerConnection (iceServers s)]) s) in
       let s := update_connection h (pc_addTransceiver "video" "recvonly") s in
       let s := update_connection h (pc_addTransceiver "audio" "recvonly") s in
       set_tasks (tasks s ++ [{| url := target; phase := AwaitOffer |}]) s).
Proof.
  intros HI Hp. cbv zeta.
  eapply rtc_Inv_frame; [..|
    apply update_connection_inv; [|apply update_connection_inv;
      [|apply (new_connection_inv (RTCPeerConnection (iceServers s)) s); done]]];
    done.
Qed.

Lemma rtc_play_inv target s : Inv s -> Inv (play target s).
Proof.
  intros HI. unfold play. case_match; [by apply (rtc_Inv_frame s)|].
  apply (play_after_stop_inv target (stop (_log "Starting stream..." "info" s)));
    [|apply stop_peerConnection].
  apply rtc_stop_inv. by apply rtc_log_inv.
Qed.

Lemma rtc_play_catch_inv t e s : Inv s -> Inv (play_catch t e s).
Proof.
  intros HI. unfold play_catch.
  apply rtc_set_phase_inv, rtc_stop_inv, rtc_emit_inv, rtc_log_inv, HI.
Qed.

Lemma _connectToZLM_catch_inv t e s : Inv s -> Inv (_connectToZLM_catch t e s).
Proof. intros HI. apply rtc_play_catch_inv, rtc_log_inv, HI. Qed.

Lemma _connectToZLM_send_inv t s : Inv s -> Inv (_connectToZLM_send t s).
Proof.
  intros HI. unfold _connectToZLM_send.
  repeat case_match; eauto using _connectToZLM_catch_inv, rtc_set_phase_inv, rtc_emit_inv, rtc_log_inv.
Qed.

Lemma resolve_wait_inv t s : Inv s -> Inv (resolve_wait t s).
Proof.
  intros HI. unfold resolve_wait. repeat case_match; eauto using _connectToZLM_send_inv.
Qed.

Lemma removeEventListener_inv h t s : Inv s -> Inv (removeEventListener h t s).
Proof. intros HI. by apply update_connection_inv. Qed.

Lemma checkState_inv t s : Inv s -> Inv (checkState t s).
Proof.
  intros HI. unfold checkState.
  repeat case_match; eauto using resolve_wait_inv, removeEventListener_inv, rtc_emit_inv.
Qed.

Lemma ice_timeout_inv t s : Inv s -> Inv (ice_timeout t s).
Proof.
  intros HI. unfold ice_timeout.
  repeat case_match;
    eauto using resolve_wait_inv, removeEventListener_inv, rtc_emit_inv, rtc_log_inv.
Qed.

Lemma _connectToZLM_inv t s : Inv s -> Inv (_connectToZLM t s).
Proof.
  intros HI. unfold _connectToZLM, _waitForIceGathering.
  repeat case_match; simplify_eq;
    eauto using _connectToZLM_catch_inv, _connectToZLM_send_inv, rtc_log_inv.
  apply rtc_set_phase_inv.
  eapply rtc_add_timer_inv; [done..|].
  apply update_connection_inv; [done|]. by apply rtc_log_inv.
Qed.

Lemma dispatch_inv l s :
  Inv s -> Inv (fold_left (fun s t => checkState t s) l s).
Proof.
  revert s. induction l as [|t l IH]; intros s HI; simpl; [done|].
  by apply IH, checkState_inv.
Qed.

Lemma current_Some s h pc :
  current s = Some (h, pc) -> peerConnection s = Some h /\ connections s !! h = Some pc.
Proof. unfold current. repeat case_match; naive_solver. Qed.

Lemma oniceconnectionstatechange_inv s : Inv s -> Inv (oniceconnectionstatechange s).
Proof.
  intros HI. unfold oniceconnectionstatechange.
  destruct (current s) as [[h pc]|] eqn:Hc; [|by apply rtc_emit_inv].
  apply current_Some in Hc as [Hp _].
  case_match; eauto using rtc_emit_inv, rtc_log_inv.
  apply rtc_emit_inv, rtc_startStatsMonitoring_inv; [by apply rtc_log_inv|].
  simpl. congruence.
Qed.

Lemma ontrack_inv streams s :
  Inv s -> peerConnection s <> None -> Inv (ontrack streams s).
Proof.
  intros [H1 H2 H3 H4 H5 H6] Hp. unfold ontrack. split; simpl; try done.
Qed.

Lemma stats_report_inv s r : Inv s -> Inv (stats_report s r).
Proof.
  intros HI. unfold stats_report.
  repeat case_match; eauto using rtc_emit_inv, rtc_set_statsContainer_inv.
Qed.

Lemma stats_ready_inv reports s : Inv s -> Inv (stats_ready reports s).
Proof.
  intros HI. unfold stats_ready. case_match; [done|].
  match goal with |- Inv (fold_left _ _ ?s0) =>
    assert (Inv s0) as HI0 by (by apply set_statsReads_inv); revert HI0;
    generalize s0
  end.
  induction reports as [|r l IH]; intros s0 HI0; simpl; [done|].
  by apply IH, stats_report_inv.
Qed.

Lemma rtc_fire_inv id s : Inv s -> Inv (fire id s).
Proof.
  intros HI. unfold fire, stats_tick.
  repeat case_match; try done;
    repeat first [ apply ice_timeout_inv | apply set_statsReads_inv
                 | apply rtc_alter_timer_inv; [done|done|] ]; done.
Qed.

Lemma rtc_step_inv s e : Inv s -> Inv (step s e).
Proof.
  intros HI. destruct e; simpl.
  - by apply rtc_play_inv.
  - by apply rtc_stop_inv.
  - unfold play_offer. repeat case_match; eauto using rtc_play_catch_inv, rtc_set_phase_inv.
  - unfold play_local. repeat case_match; eauto using rtc_play_catch_inv.
    apply _connectToZLM_inv, rtc_log_inv. by apply update_connection_inv.
  - unfold _connectToZLM_response.
    repeat case_match; eauto using _connectToZLM_catch_inv, rtc_set_phase_inv.
  - unfold _connectToZLM_json.
    repeat case_match; eauto using _connectToZLM_catch_inv, rtc_set_phase_inv, rtc_log_inv.
  - unfold _connectToZLM_remote.
    repeat case_match; eauto using _connectToZLM_catch_inv.
    apply rtc_set_phase_inv, rtc_log_inv. by apply update_connection_inv.
  - unfold on_open. repeat case_match; try done.
    apply dispatch_inv. by apply update_connection_inv.
  - unfold on_open. repeat case_match; try done.
    apply oniceconnectionstatechange_inv. by apply update_connection_inv.
  - unfold on_open, onconnectionstatechange. repeat case_match; try done.
    + apply rtc_log_inv. by apply update_connection_inv.
    + apply rtc_emit_inv. by apply update_connection_inv.
  - unfold on_open, onicecandidate. repeat case_match; try done.
    apply rtc_log_inv. by apply update_connection_inv.
  - unfold on_open. repeat case_match; try done.
    apply ontrack_inv; [done|].
    erewrite open_is_current; done.
  - by apply stats_ready_inv.
  - by apply rtc_set_now_inv.
  - by apply rtc_fire_inv.
Qed.

Lemma rtc_constructor_inv stats servers o : Inv (constructor stats servers o).
Proof. split; simpl; try done; try lia. intros [|?] ?; naive_solver. Qed.

Lemma rtc_run_inv events s : Inv s -> Inv (run s events).
Proof.
  revert s. induction events as [|e l IH]; intros s HI; simpl; [done|].
  by apply IH, rtc_step_inv.
Qed.

Lemma rtc_reachable_inv s : reachable s -> Inv s.
Proof. intros (w & sv & o & ev & ->). apply rtc_run_inv, rtc_constructor_inv. Qed.

Lemma live_connections_le s : Inv s -> length (live_connections s) <= 1.
Proof.
  intros HI. apply filter_at_most_one. intros i j x y Hi Hj Hx Hy.
  pose proof (open_is_current s HI i x Hi Hx).
  pose proof (open_is_current s HI j y Hj Hy). congruence.
Qed.

Lemma live_connections_idle s :
  Inv s -> peerConnection s = None -> live_connections s = [].
Proof.
  intros HI Hp. apply filter_none. intros i x Hi Hx.
  pose proof (open_is_current s HI i x Hi Hx). congruence.
Qed.

Lemma rtc_live_stats_timers_le s : Inv s -> length (live_stats_timers s) <= 1.
Proof.
  intros HI. apply filter_at_most_one. intros i j x y Hi Hj [Hx1 Hx2] [Hy1 Hy2].
  pose proof (stats_is_current s HI i x Hi Hx1 Hx2).
  pose proof (stats_is_current s HI j y Hj Hy1 Hy2). congruence.
Qed.

Lemma rtc_live_stats_timers_idle s :
  Inv s -> statsInterval s = None -> live_stats_timers s = [].
Proof.
  intros HI Hp. apply filter_none. intros i x Hi [Hx1 Hx2].
  pose proof (stats_is_current s HI i x Hi Hx1 Hx2). congruence.
Qed.

Lemma stop_length_connections s : length (connections (stop s)) = length (connections s).
Proof. rewrite stop_connections. case_match; [apply length_alter|done]. Qed.

(** play() on a non-empty URL: the earlier connections are closed and the
    session holds the one new connection. *)
Lemma rtc_play_fresh target s :
  Inv s -> target <> "" ->
  let s' := play target s in
  peerConnection s' = Some (length (connections s)) /\
  length (live_connections s') = 1 /\
  forall h pc, h < length (connections s) -> connections s' !! h = Some pc ->
               closed pc = true.
Proof.
  intros HI Hne s'.
  assert (Inv s') as HI' by by apply rtc_play_inv.
  assert (peerConnection s' = Some (length (connections s))) as Hp.
  { unfold s', play. rewrite (proj2 (String.eqb_neq _ _) Hne). simpl.
    by rewrite stop_length_connections. }
  split_and!; [done| |].
  - pose proof (live_connections_le s' HI').
    destruct (current_is_open s' HI' _ Hp) as (pc & Hpc & Hopen).
    pose proof (filter_some (fun pc => closed pc = false) _ _ _ Hpc Hopen).
    unfold live_connections in *. lia.
  - intros h pc Hh Hpc. destruct (closed pc) eqn:Hc; [done|].
    pose proof (open_is_current s' HI' h pc Hpc Hc) as Hcur.
    assert (h = length (connections s)) by congruence. lia.
Qed.

Lemma rtc_startStatsMonitoring_guard s :
  timer_set (statsInterval s) = true -> _startStatsMonitoring s = s.
Proof. intros Hs. unfold _startStatsMonitoring. by rewrite Hs. Qed.

Lemma _startStatsMonitoring_set s :
  Inv s -> timer_set (statsInterval (_startStatsMonitoring s)) = true.
Proof.
  intros HI. unfold _startStatsMonitoring.
  destruct (timer_set (statsInterval s)) eqn:Hs; [done|]. simpl.
  pose proof (timers_reserved s HI). destruct (length (timers s)); [lia|done].
Qed.

Lemma ice_connected_step s h pc :
  Inv s -> connections s !! h = Some pc -> closed pc = false ->
  step s (IceConnectionStateChange h Connected) =
  emit OnConnected
    (_startStatsMonitoring
       (_log "ICE Connection State: connected" "info"
          (update_connection h (pc_set_ice Connected) s))).
Proof.
  intros HI Hpc Hc. simpl. unfold on_open. rewrite Hpc, Hc.
  pose proof (open_is_current s HI h pc Hpc Hc) as Hcur.
  unfold oniceconnectionstatechange, current. simpl.
  rewrite Hcur, list_lookup_alter_eq, Hpc. done.
Qed.

(** A second 'connected' report right after the first leaves the timers
    as they are. *)
Lemma connected_twice s h :
  Inv s ->
  let s1 := step s (IceConnectionStateChange h Connected) in
  timers (step s1 (IceConnectionStateChange h Connected)) = timers s1.
Proof.
  intros HI s1.
  destruct (connections s !! h) as [pc|] eqn:Hpc;
    [destruct (closed pc) eqn:Hc|].
  - assert (s1 = s) as -> by (unfold s1; simpl; unfold on_open; by rewrite Hpc, Hc).
    simpl. unfold on_open. by rewrite Hpc, Hc.
  - assert (Inv s1) as HI1 by by apply rtc_step_inv.
    assert (timer_set (statsInterval s1) = true) as Hset.
    { unfold s1. rewrite (ice_connected_step s h pc HI Hpc Hc).
      apply (_startStatsMonitoring_set _).
      apply rtc_log_inv. by apply update_connection_inv. }
    assert (exists pc1, connections s1 !! h = Some pc1 /\ closed pc1 = false)
      as (pc1 & Hpc1 & Hc1).
    { unfold s1. rewrite (ice_connected_step s h pc HI Hpc Hc).
      unfold _startStatsMonitoring. case_match; simpl;
        rewrite list_lookup_alter_eq, Hpc; eauto. }
    clearbody s1.
    rewrite (ice_connected_step s1 h pc1 HI1 Hpc1 Hc1).
    by rewrite rtc_startStatsMonitoring_guard.
  - assert (s1 = s) as -> by (unfold s1; simpl; unfold on_open; by rewrite Hpc).
    simpl. unfold on_open. by rewrite Hpc.
Qed.

Lemma rtc_stop_statsContainer s :
  statsContainer (stop s) =
  match statsContainer s with Some _ => Some Blank | None => None end.
Proof. rtc_stop_cases; repeat case_match; congruence. Qed.

(** stop() without a connection: only the stats container is cleared. *)
Lemma rtc_stop_idle s :
  Inv s -> peerConnection s = None ->
  stop s = match statsContainer s with
           | Some _ => set_statsContainer (Some Blank) s
           | None => s
           end.
Proof.
  intros HI Hp. destruct (idle_clean s HI Hp) as (Hsi & Hso & Hst).
  unfold stop. rewrite Hsi. simpl. rewrite Hp, Hso.
  destruct s; simpl in *; subst. by case_match.
Qed.

Lemma stop_idle_trace s :
  Inv s -> peerConnection s = None -> trace (stop s) = trace s.
Proof. intros HI Hp. rewrite rtc_stop_idle by done. by case_match. Qed.

Lemma rtc_stop_stop s : Inv s -> stop (stop s) = stop s.
Proof.
  intros HI. rewrite (rtc_stop_idle (stop s)); [|by apply rtc_stop_inv|apply stop_peerConnection].
  pose proof (rtc_stop_statsContainer s) as Hc.
  destruct (statsContainer (stop s)) as [c|] eqn:E; [|done].
  assert (c = Blank) as -> by (destruct (statsContainer s); congruence).
  destruct (stop s); simpl in *; by subst.
Qed.

Lemma rtc_reachable_step s e : reachable s -> reachable (step s e).
Proof.
  intros (w & sv & o & events & ->). exists w, sv, o, (events ++ [e]).
  unfold run. by rewrite fold_left_app.
Qed.

Lemma reachable_run s events : reachable s -> reachable (run s events).
Proof.
  intros (w & sv & o & events0 & ->). exists w, sv, o, (events0 ++ events).
  unfold run. by rewrite fold_left_app.
Qed.

Lemma tracks_obs_quiet tracks acc :
  exists pre, tracks_obs tracks acc = pre ++ acc /\ Forall quiet pre.
Proof.
  revert acc. induction tracks as [|a l IH]; intros acc; simpl.
  - by exists [].
  - destruct (IH (Log "Track stopped" "info" :: TrackStopped a :: acc)) as (pre & Hpre & Hq).
    exists (pre ++ [Log "Track stopped" "info"; TrackStopped a]). split.
    + unfold tracks_obs in *. simpl. rewrite Hpre. by rewrite <- app_assoc.
    + apply Forall_app. split; [done|]. by repeat constructor.
Qed.

(** stop() calls nothing back: it only adds log lines to the trace. *)
Lemma stop_trace s : exists pre, trace (stop s) = pre ++ trace s /\ Forall quiet pre.
Proof.
  rtc_stop_cases;
    try match goal with |- context [tracks_obs ?l ?acc] =>
          destruct (tracks_obs_quiet l acc) as (pre & -> & Hq)
        end;
    first [ by exists [] | by exists [Log "Connection closed" "info"]; repeat constructor
          | exists (pre ++ [Log "Connection closed" "info"]); split;
            [by rewrite <- app_assoc|apply Forall_app; split; [done|by repeat constructor]]
          | by exists pre ].
Qed.

Lemma stop_remote_descriptions s : remote_descriptions (stop s) = remote_descriptions s.
Proof.
  unfold remote_descriptions. rewrite stop_connections.
  destruct (peerConnection s) as [h|]; [|done].
  apply list_eq. intros i. rewrite !list_lookup_fmap, list_lookup_alter.
  case_decide; [subst|done]. by destruct (connections s !! i).
Qed.

Lemma phase_of_set_phase t p s k :
  tasks s !! t = Some k -> phase_of t (set_phase t p s) = Some p.
Proof. intros Hk. unfold phase_of, set_phase. simpl. by rewrite list_lookup_alter_eq, Hk. Qed.

Lemma phase_of_Some t s p : phase_of t s = Some p -> exists k, tasks s !! t = Some k /\ phase k = p.
Proof. unfold phase_of. destruct (tasks s !! t); naive_solver. Qed.

Lemma play_catch_rejected t e s0 s k post :
  Inv s -> tasks s !! t = Some k ->
  trace s = post ++ trace s0 -> Forall quiet post ->
  remote_descriptions s = remote_descriptions s0 ->
  rejected t e s0 (play_catch t e s).
Proof.
  intros HI Hk Htr Hq Hrd. unfold play_catch.
  set (s1 := emit (OnError e) (_log ("Error: " +:+ message e) "error" s)).
  assert (Inv s1) as HI1 by (by apply rtc_emit_inv, rtc_log_inv).
  pose proof (rtc_stop_inv s1 HI1) as HI2.
  destruct (stop_trace s1) as (pre & Hpre & Hqpre).
  split_and!.
  - apply (phase_of_set_phase _ _ _ k). by rewrite rtc_stop_tasks.
  - simpl. apply stop_peerConnection.
  - apply (live_connections_idle (stop s1)); [done|apply stop_peerConnection].
  - unfold remote_descriptions at 1. simpl.
    fold (remote_descriptions (stop s1)). by rewrite stop_remote_descriptions.
  - exists pre, (Log ("Error: " +:+ message e) "error" :: post). split_and!; [|done|].
    + simpl. rewrite Hpre. simpl. by rewrite Htr.
    + by constructor.
Qed.

Lemma _connectToZLM_catch_rejected t e s0 s k post :
  Inv s -> tasks s !! t = Some k ->
  trace s = post ++ trace s0 -> Forall quiet post ->
  remote_descriptions s = remote_descriptions s0 ->
  rejected t e s0 (_connectToZLM_catch t e s).
Proof.
  intros HI Hk Htr Hq Hrd. unfold _connectToZLM_catch.
  apply (play_catch_rejected t e s0 _ k
           (Log ("Error in ZLMediaKit connection: " +:+ message e) "error" :: post));
    try done.
  - by apply rtc_log_inv.
  - simpl. by rewrite Htr.
  - by constructor.
Qed.

(** The three outcomes of a response handed to a call that awaits it. *)
Lemma deliver_not_ok t rq rs s :
  Inv s -> phase_of t s = Some (AwaitFetch rq) -> ok rs = false ->
  rejected t (Error ("Server returned " +:+ pretty (status rs) +:+ ": " +:+ statusText rs))
           s (deliver t rs s).
Proof.
  intros HI Hph Hok. destruct (phase_of_Some _ _ _ Hph) as (k & Hk & _).
  unfold deliver. unfold step at 2. unfold _connectToZLM_response. rewrite Hph, Hok. simpl negb.
  cbv iota.
  match goal with |- rejected _ ?e _ (step ?s1 _) =>
    assert (rejected t e s s1) as Hrej
      by (apply (_connectToZLM_catch_rejected t e s s k []); done);
    generalize dependent s1
  end.
  intros s1 Hrej. unfold step, _connectToZLM_json.
  destruct Hrej as (Hd & ?). by rewrite Hd.
Qed.

Lemma deliver_ok t rq rs s :
  phase_of t s = Some (AwaitFetch rq) -> ok rs = true ->
  deliver t rs s = _connectToZLM_json t (set_phase t (AwaitJson rs) s).
Proof.
  intros Hph Hok. unfold deliver. unfold step at 2.
  unfold _connectToZLM_response. by rewrite Hph, Hok.
Qed.

Lemma deliver_body t rq rs s :
  Inv s -> phase_of t s = Some (AwaitFetch rq) -> ok rs = true ->
  match body rs with
  | inl e => rejected t e s (deliver t rs s)
  | inr result =>
      match read_answer result with
      | inl e => rejected t e s (deliver t rs s)
      | inr answerSdp =>
          match peerConnection s with
          | Some h =>
              phase_of t (deliver t rs s)
                = Some (AwaitSetRemote h (to_string answerSdp)) /\
              connections (deliver t rs s) = connections s /\
              peerConnection (deliver t rs s) = Some h
          | None =>
              rejected t (null_property "setRemoteDescription") s (deliver t rs s)
          end
      end
  end.
Proof.
  intros HI Hph Hok. destruct (phase_of_Some _ _ _ Hph) as (k & Hk & _).
  rewrite (deliver_ok t rq rs s Hph Hok).
  set (s1 := set_phase t (AwaitJson rs) s).
  assert (Inv s1) as HI1 by (by apply rtc_set_phase_inv).
  assert (exists k1, tasks s1 !! t = Some k1) as [k1 Hk1].
  { unfold s1, set_phase. simpl. rewrite list_lookup_alter_eq, Hk. eauto. }
  assert (phase_of t s1 = Some (AwaitJson rs)) as Hph1
    by (by apply (phase_of_set_phase _ _ _ k)).
  assert (trace s1 = trace s /\ remote_descriptions s1 = remote_descriptions s /\
          peerConnection s1 = peerConnection s /\ connections s1 = connections s)
    as (Htr & Hrd & Hpc & Hcs) by done.
  clearbody s1. unfold _connectToZLM_json. rewrite Hph1.
  destruct (body rs) as [e|result].
  { apply (_connectToZLM_catch_rejected t e s s1 k1 []); done. }
  destruct (read_answer result) as [e|answerSdp].
  { apply (_connectToZLM_catch_rejected t e s _ k1 [Log "Received answer from server" "info"]);
      try done.
    - by apply rtc_log_inv.
    - simpl. by rewrite Htr.
    - by repeat constructor. }
  simpl. rewrite Hpc. destruct (peerConnection s) as [h|].
  - split_and!; [|done..]. by apply (phase_of_set_phase _ _ _ k1).
  - apply (_connectToZLM_catch_rejected t _ s _ k1 [Log "Received answer from server" "info"]);
      try done.
    + by apply rtc_log_inv.
    + simpl. by rewrite Htr.
    + by repeat constructor.
Qed.

(** *** The checks on the parsed body *)

Lemma read_answer_code result answerSdp :
  read_answer result = inr answerSdp ->
  get "code" result = Some (JNum 0) /\ answer_of result = Some answerSdp /\
  truthy (Some answerSdp) = true.
Proof.
  unfold read_answer. destruct result; try done;
    destruct (strict_neq_zero _) eqn:Hc; try done.
  all: try (destruct (answer_of _) as [a|] eqn:Ha; [|done];
            destruct (truthy (Some a)) eqn:Ht; [|done]; intros [= <-];
            split_and!; try done).
  all: unfold strict_neq_zero in Hc; repeat case_match; try done.
  all: apply negb_false_iff, Z.eqb_eq in Hc; by subst.
Qed.

Lemma read_answer_bad_code result :
  get "code" result <> Some (JNum 0) -> exists e, read_answer result = inl e.
Proof.
  intros Hc. destruct (read_answer result) as [e|a] eqn:Hr; [by eexists|].
  by apply read_answer_code in Hr as [? _].
Qed.

Lemma read_answer_error result :
  result <> JNull -> strict_neq_zero (get "code" result) = true ->
  read_answer result =
  inl (Error ("ZLMediaKit error: " +:+
              match or_else (get "msg" result) (Some (JStr "Unknown error")) with
              | Some m => to_string m
              | None => "undefined"
              end)).
Proof. intros Hn Hc. unfold read_answer. rewrite Hc. by destruct result. Qed.

Lemma read_answer_missing result :
  result <> JNull -> strict_neq_zero (get "code" result) = false ->
  truthy (answer_of result) = false ->
  read_answer result = inl (Error "No SDP answer found in response").
Proof.
  intros Hn Hc Ha. unfold read_answer. rewrite Hc.
  destruct result; try done; destruct (answer_of _); try done; by rewrite Ha.
Qed.

Lemma answer_of_missing result :
  get "sdp" result = None -> get "answer" result = None ->
  get_optional "sdp" (get "data" result) = None ->
  truthy (answer_of result) = false.
Proof. intros Hs Ha Hd. unfold answer_of, or_else. by rewrite Hs, Ha, Hd. Qed.

Lemma waits_frame L x s s' :
  tasks s' = tasks s -> connections s' = connections s ->
  waits_ok L x s -> waits_ok L x s'.
Proof. unfold waits_ok. intros -> ->. done. Qed.

Lemma waits_weaken L L' x x' s :
  L ⊆ L' -> (x = None \/ x = x') -> waits_ok L x s -> waits_ok L' x' s.
Proof.
  intros HL Hx HW t k h tid Hk Hph Hne.
  destruct (HW t k h tid Hk Hph) as [Hlen Hpc];
    [destruct Hx as [->| ->]; done|].
  split; [done|]. intros pc Hh Hopen. destruct (Hpc pc Hh Hopen) as [Hin Hc].
  split; [done|]. intros Hcomp. apply HL. eauto.
Qed.

(** A call that is given a phase other than waiting needs no exemption. *)
Lemma waits_set_phase L x t p s :
  (forall h tid, p <> AwaitIce h tid) -> (x = None \/ x = Some t) ->
  waits_ok L x s -> waits_ok L None (set_phase t p s).
Proof.
  intros Hp Hx HW t' k h tid Hk Hph _. simpl in *.
  rewrite list_lookup_alter in Hk. case_decide as Hd.
  - subst. destruct (tasks s !! t') as [k0|]; simplify_eq/=. by destruct (Hp h tid).
  - apply (HW t' k h tid Hk Hph). destruct Hx as [->| ->]; congruence.
Qed.

Lemma waits_set_phase_other L x t p s :
  (forall h tid, p <> AwaitIce h tid) ->
  waits_ok L x s -> waits_ok L x (set_phase t p s).
Proof.
  intros Hp HW t' k h tid Hk Hph Hne. simpl in *.
  rewrite list_lookup_alter in Hk. case_decide as Hd.
  - subst. destruct (tasks s !! t') as [k0|]; simplify_eq/=. by destruct (Hp h tid).
  - by apply (HW t' k h tid Hk Hph).
Qed.

(** A call that is not waiting needs no exemption. *)
Lemma waits_not_waiting L t s :
  (forall h tid, phase_of t s <> Some (AwaitIce h tid)) ->
  waits_ok L (Some t) s -> waits_ok L None s.
Proof.
  intros Hp HW t' k h tid Hk Hph _. apply (HW t' k h tid Hk Hph).
  intros [= ->]. apply (Hp h tid). unfold phase_of. rewrite Hk. simpl. by f_equal.
Qed.

Lemma waits_update_connection L x h f s :
  (forall pc, closed (f pc) = closed pc) ->
  (forall pc, iceGatheringState (f pc) = iceGatheringState pc) ->
  (forall pc t, t ∈ listeners pc -> x <> Some t -> t ∈ listeners (f pc)) ->
  waits_ok L x s -> waits_ok L x (update_connection h f s).
Proof.
  intros Hc Hg Hl HW t k h' tid Hk Hph Hne. simpl in *.
  destruct (HW t k h' tid Hk Hph Hne) as [Hlen Hpc].
  rewrite length_alter. split; [done|]. intros pc.
  rewrite list_lookup_alter. case_decide as Hd; [subst|by apply Hpc].
  destruct (connections s !! h') as [pc0|]; [|done]. simpl. intros [= <-].
  rewrite Hc, Hg. intros Hopen. destruct (Hpc pc0 eq_refl Hopen) as [Hin Hcomp].
  split; [by apply Hl|done].
Qed.

Lemma waits_stop L x s : waits_ok L x s -> waits_ok L x (stop s).
Proof.
  intros HW t k h tid Hk Hph Hne. rewrite rtc_stop_tasks in Hk.
  destruct (HW t k h tid Hk Hph Hne) as [Hlen Hpc].
  rewrite stop_connections. destruct (peerConnection s) as [h0|]; [|done].
  rewrite length_alter. split; [done|]. intros pc.
  rewrite list_lookup_alter. case_decide as Hd; [subst|by apply Hpc].
  destruct (connections s !! h) as [pc0|]; [|done]. simpl. by intros [= <-].
Qed.

Lemma waits_play_catch L x t e s :
  (x = None \/ x = Some t) -> waits_ok L x s -> waits_ok L None (play_catch t e s).
Proof.
  intros Hx HW. unfold play_catch. apply (waits_set_phase L x); [done..|].
  apply waits_stop. revert HW. by apply waits_frame.
Qed.

Lemma waits__connectToZLM_catch L x t e s :
  (x = None \/ x = Some t) -> waits_ok L x s ->
  waits_ok L None (_connectToZLM_catch t e s).
Proof.
  intros Hx HW. unfold _connectToZLM_catch. apply (waits_play_catch L x); [done|].
  revert HW. by apply waits_frame.
Qed.

Lemma waits__connectToZLM_send L x t s :
  (x = None \/ x = Some t) -> waits_ok L x s ->
  (forall h tid, phase_of t s <> Some (AwaitIce h tid)) \/ is_Some (tasks s !! t) ->
  waits_ok L None (_connectToZLM_send t s).
Proof.
  intros Hx HW Ht. unfold _connectToZLM_send.
  destruct (tasks s !! t) as [k|] eqn:Hk.
  - repeat case_match; try (by apply (waits__connectToZLM_catch L x)).
    apply (waits_set_phase L x); [done..|]. revert HW. by apply waits_frame.
  - destruct Ht as [Ht|[? ?]]; [|done].
    destruct Hx as [->| ->]; [done|]. by apply (waits_not_waiting L t).
Qed.

Lemma waits_resolve_wait L x t s :
  (x = None \/ x = Some t) -> waits_ok L x s -> waits_ok L None (resolve_wait t s).
Proof.
  intros Hx HW. unfold resolve_wait.
  destruct (phase_of t s) as [p|] eqn:Hp.
  - destruct (phase_of_Some _ _ _ Hp) as (k & Hk & _).
    destruct p; try (destruct Hx as [->| ->]; [done|];
                     apply (waits_not_waiting L t); [intros ??; congruence|done]).
    apply (waits__connectToZLM_send L x t s Hx HW). right. eauto.
  - destruct Hx as [->| ->]; [done|]. apply (waits_not_waiting L t); [|done].
    intros ??. congruence.
Qed.

Lemma waits_removeEventListener L h t s :
  waits_ok L None s -> waits_ok L (Some t) (removeEventListener h t s).
Proof.
  intros HW. unfold removeEventListener. apply waits_update_connection; try done.
  - intros pc t' Hin Hne. simpl. apply list_elem_of_filter. split; [congruence|done].
  - revert HW. by apply waits_weaken; eauto.
Qed.

Lemma current_open s h pc :
  Inv s -> current s = Some (h, pc) ->
  peerConnection s = Some h /\ connections s !! h = Some pc /\ closed pc = false.
Proof.
  intros HI Hc. apply current_Some in Hc as [Hp Hl].
  destruct (current_is_open s HI h Hp) as (pc' & Hl' & Hopen).
  split_and!; try done. congruence.
Qed.

Lemma current_None s :
  Inv s -> current s = None -> forall h pc, connections s !! h = Some pc -> closed pc = true.
Proof.
  intros HI Hc h pc Hh. destruct (closed pc) eqn:Hopen; [done|].
  pose proof (open_is_current s HI h pc Hh Hopen) as Hp.
  unfold current in Hc. by rewrite Hp, Hh in Hc.
Qed.

(** One listener of a dispatch. *)
Lemma waits_checkState L t s :
  Inv s -> waits_ok (t :: L) None s -> waits_ok L None (checkState t s).
Proof.
  intros HI HW. unfold checkState.
  destruct (current s) as [[h pc]|] eqn:Hc.
  - destruct (current_open s h pc HI Hc) as (Hp & Hl & Hopen).
    destruct (is_complete (iceGatheringState pc)) eqn:Hcomp.
    + apply (waits_resolve_wait L (Some t)); [by right|].
      intros t' k h' tid Hk Hph Hne.
      destruct (waits_removeEventListener (t :: L) h t s HW t' k h' tid Hk Hph Hne)
        as [Hlen Hpc].
      split; [done|]. intros pc' Hh' Hopen'. destruct (Hpc pc' Hh' Hopen') as [Hin Hcm].
      split; [done|]. intros Hcm'. specialize (Hcm Hcm').
      apply elem_of_cons in Hcm as [->|]; [congruence|done].
    + intros t' k h' tid Hk Hph Hne. destruct (HW t' k h' tid Hk Hph Hne) as [Hlen Hpc].
      split; [done|]. intros pc' Hh' Hopen'. destruct (Hpc pc' Hh' Hopen') as [Hin Hcm].
      split; [done|]. intros Hcm'.
      pose proof (open_is_current s HI h' pc' Hh' Hopen') as Hp'.
      assert (h' = h) as -> by congruence. assert (pc' = pc) as -> by congruence.
      by rewrite Hcm' in Hcomp.
  - intros t' k h' tid Hk Hph Hne. simpl in *.
    destruct (HW t' k h' tid Hk Hph Hne) as [Hlen Hpc].
    split; [done|]. intros pc' Hh' Hopen'.
    pose proof (current_None s HI Hc h' pc' Hh'). congruence.
Qed.

Lemma waits_dispatch L s :
  Inv s -> waits_ok L None s ->
  waits_ok [] None (fold_left (fun s t => checkState t s) L s).
Proof.
  revert s. induction L as [|t L IH]; intros s HI HW; simpl; [done|].
  apply IH; [by apply checkState_inv|by apply waits_checkState].
Qed.

Lemma waits_ice_timeout t s :
  Inv s -> waits_ok [] None s -> waits_ok [] None (ice_timeout t s).
Proof.
  intros HI HW. unfold ice_timeout.
  destruct (current s) as [[h pc]|] eqn:Hc; [|revert HW; by apply waits_frame].
  case_match; [done|].
  apply (waits_resolve_wait [] (Some t)); [by right|].
  apply waits_removeEventListener. revert HW. by apply waits_frame.
Qed.

Lemma waits__connectToZLM t s :
  Inv s -> waits_ok [] None s -> waits_ok [] None (_connectToZLM t s).
Proof.
  intros HI HW. unfold _connectToZLM.
  destruct (tasks s !! t) as [k|] eqn:Hk; [|done].
  set (s1 := _log ("Connecting to ZLMediaKit server: " +:+ url k) "info" s).
  assert (Inv s1) as HI1 by (by apply rtc_log_inv).
  assert (waits_ok [] None s1) as HW1 by (revert HW; by apply waits_frame).
  assert (tasks s1 !! t = Some k) as Hk1 by done.
  clearbody s1. unfold _waitForIceGathering.
  destruct (current s1) as [[h pc]|] eqn:Hc;
    [|apply (waits__connectToZLM_catch [] None); [by left|done]].
  destruct (current_open s1 h pc HI1 Hc) as (Hp & Hl & Hopen).
  destruct (is_complete (iceGatheringState pc)) eqn:Hcomp.
  { apply (waits__connectToZLM_send [] None); [by left|done|right; eauto]. }
  unfold add_timer. simpl.
  intros t' k' h' tid Hk' Hph _. simpl in *.
  rewrite length_alter. rewrite list_lookup_alter in Hk'. case_decide as Hd.
  - subst t'. rewrite Hk1 in Hk'. simplify_eq/=.
    split; [by eapply lookup_lt_Some|]. intros pc'.
    rewrite list_lookup_alter_eq, Hl. simpl. intros [= <-] _. simpl.
    split; [apply elem_of_app; right; by apply list_elem_of_singleton|].
    intros Hcm. by rewrite Hcm in Hcomp.
  - destruct (HW1 t' k' h' tid Hk' Hph) as [Hlen Hpc]; [done|].
    split; [done|]. intros pc'. rewrite list_lookup_alter.
    case_decide as Hd'; [subst h'|by apply Hpc].
    rewrite Hl. simpl. intros [= <-] _. simpl.
    destruct (Hpc pc Hl Hopen) as [Hin Hcm].
    split; [apply elem_of_app; by left|done].
Qed.

Lemma waits_play target s : waits_ok [] None s -> waits_ok [] None (play target s).
Proof.
  intros HW. unfold play. case_match.
  - intros t k h tid Hk Hph _. simpl in *.
    apply lookup_app_Some in Hk as [Hk|[_ Hk]]; [by apply (HW t k h tid)|].
    apply list_lookup_singleton_Some in Hk as [_ <-]. done.
  - set (s1 := stop (_log "Starting stream..." "info" s)).
    assert (waits_ok [] None s1) as HW1
      by (apply waits_stop; revert HW; by apply waits_frame).
    clearbody s1. intros t k h tid Hk Hph _. simpl in *.
    apply lookup_app_Some in Hk as [Hk|[_ Hk]];
      [|apply list_lookup_singleton_Some in Hk as [_ <-]; done].
    destruct (HW1 t k h tid Hk Hph) as [Hlen Hpc]; [done|].
    rewrite !length_alter, length_app. simpl. split; [lia|]. intros pc.
    rewrite !list_lookup_alter_ne by lia. rewrite lookup_app_l by done. apply Hpc.
Qed.

Lemma waits_step s e : Inv s -> waits_ok [] None s -> waits_ok [] None (step s e).
Proof.
  intros HI HW. destruct e; simpl.
  - by apply waits_play.
  - by apply waits_stop.
  - unfold play_offer. repeat case_match; try done;
      first [ by apply (waits_play_catch [] None); eauto
            | by apply (waits_set_phase [] None); eauto ].
  - unfold play_local. repeat case_match; try done;
      [by apply (waits_play_catch [] None); eauto|].
    apply waits__connectToZLM.
    + apply rtc_log_inv. by apply update_connection_inv.
    + eapply waits_frame; [..|apply (waits_update_connection [] None h (pc_set_local (Some sdp)) s)];
        done.
  - unfold _connectToZLM_response. repeat case_match; try done;
      first [ by apply (waits__connectToZLM_catch [] None); eauto
            | by apply (waits_set_phase [] None); eauto ].
  - unfold _connectToZLM_json. repeat case_match; try done;
      first [ by apply (waits__connectToZLM_catch [] None); eauto
            | apply (waits__connectToZLM_catch [] None); [by left|];
              revert HW; by apply waits_frame
            | apply (waits_set_phase [] None); [done|by left|];
              revert HW; by apply waits_frame ].
  - unfold _connectToZLM_remote. repeat case_match; try done;
      [by apply (waits__connectToZLM_catch [] None); eauto|].
    apply (waits_set_phase [] None); [done|by left|].
    eapply waits_frame;
      [..|apply (waits_update_connection [] None h (pc_set_remote (Some sdp)) s)]; done.
  - unfold on_open. destruct (connections s !! h) as [pc|] eqn:Hh; [|done].
    destruct (closed pc) eqn:Hopen; [done|].
    apply waits_dispatch; [by apply update_connection_inv|].
    intros t k h' tid Hk Hph _. simpl in *.
    destruct (HW t k h' tid Hk Hph) as [Hlen Hpc]; [done|].
    rewrite length_alter. split; [done|]. intros pc'.
    rewrite list_lookup_alter. case_decide as Hd.
    + subst h'. rewrite Hh. simpl. intros [= <-] _. simpl.
      destruct (Hpc pc Hh Hopen) as [Hin _]. done.
    + intros Hh' Hopen'. destruct (Hpc pc' Hh' Hopen') as [Hin Hcm].
      split; [done|]. intros Hcm'. by apply Hcm in Hcm'; apply not_elem_of_nil in Hcm'.
  - unfold on_open. repeat case_match; try done.
    unfold oniceconnectionstatechange, _startStatsMonitoring, add_timer.
    assert (waits_ok [] None (update_connection h (pc_set_ice i) s)) as HW1
      by (by apply waits_update_connection).
    repeat case_match; revert HW1; by apply waits_frame.
  - unfold on_open. repeat case_match; try done.
    unfold onconnectionstatechange.
    assert (waits_ok [] None (update_connection h (pc_set_connection c) s)) as HW1
      by (by apply waits_update_connection).
    repeat case_match; revert HW1; by apply waits_frame.
  - unfold on_open, onicecandidate. repeat case_match; try done.
    eapply waits_frame;
      [..|apply (waits_update_connection [] None h
                   (fun pc => pc_set_local
                                (option_map (fun d => d +:+ s0) (localDescription pc)) pc)
                   s)]; done.
  - unfold on_open. repeat case_match; try done; revert HW; by apply waits_frame.
  - unfold stats_ready. case_match; [done|].
    assert (forall s0, tasks s0 = tasks s -> connections s0 = connections s ->
              tasks (fold_left stats_report reports s0) = tasks s /\
              connections (fold_left stats_report reports s0) = connections s) as Hfold.
    { induction reports as [|r l IH]; intros s0 Ht Hc; simpl; [done|].
      apply IH; unfold stats_report; by repeat case_match. }
    destruct (Hfold (set_statsReads n s)) as [Ht Hc]; [done..|].
    revert HW. by apply waits_frame.
  - revert HW. by apply waits_frame.
  - unfold fire. repeat case_match; try done.
    + apply waits_ice_timeout; [by apply rtc_alter_timer_inv|].
      revert HW. by apply waits_frame.
    + unfold stats_tick. repeat case_match; revert HW; by apply waits_frame.
Qed.

Lemma waits_reachable s : reachable s -> waits_ok [] None s.
Proof.
  intros (w & sv & o & events & ->).
  assert (forall s, Inv s -> waits_ok [] None s -> waits_ok [] None (run s events)) as Hgen.
  { induction events as [|e l IH]; intros s HI HW; simpl; [done|].
    apply IH; [by apply rtc_step_inv|by apply waits_step]. }
  apply Hgen; [apply rtc_constructor_inv|]. intros t k h tid Hk. done.
Qed.

(** With a connection and its local description at hand, the call posts
    the offer and awaits the response. *)
Lemma send_ok t s k h pc sdp :
  tasks s !! t = Some k -> peerConnection s = Some h ->
  connections s !! h = Some pc -> localDescription pc = Some sdp ->
  let rq := signaling_request (url k) sdp (origin s) in
  _connectToZLM_send t s =
  set_phase t (AwaitFetch rq)
    (emit (Fetch rq)
       (_log ("Sending SDP offer (" +:+ pretty (String.length sdp) +:+ " bytes)") "info" s)).
Proof.
  intros Hk Hp Hl Hsdp. unfold _connectToZLM_send, current. by rewrite Hk, Hp, Hl, Hsdp.
Qed.

Lemma send_no_description t s k h pc :
  tasks s !! t = Some k -> peerConnection s = Some h ->
  connections s !! h = Some pc -> localDescription pc = None ->
  _connectToZLM_send t s = _connectToZLM_catch t (null_property "sdp") s.
Proof.
  intros Hk Hp Hl Hsdp. unfold _connectToZLM_send, current. by rewrite Hk, Hp, Hl, Hsdp.
Qed.

Lemma phase_of_catch t e s k :
  tasks s !! t = Some k -> phase_of t (_connectToZLM_catch t e s) = Some (Done (Rejected e)).
Proof.
  intros Hk. unfold _connectToZLM_catch, play_catch.
  apply (phase_of_set_phase _ _ _ k). by rewrite rtc_stop_tasks.
Qed.

(** The timeout of a waiting call whose session still holds a connection
    on which gathering is not complete: the wait ends and the offer is
    posted as it is. *)
Lemma ice_timeout_resolves s t k h0 tid id d h pc :
  tasks s !! t = Some k -> phase k = AwaitIce h0 tid ->
  timers s !! id = Some {| kind := IceTimeout t; due := d; live := true |} ->
  d <= now s ->
  peerConnection s = Some h -> connections s !! h = Some pc ->
  is_complete (iceGatheringState pc) = false ->
  let s' := step s (TimerFire id) in
  match localDescription pc with
  | Some sdp =>
      let rq := signaling_request (url k) sdp (origin s) in
      phase_of t s' = Some (AwaitFetch rq) /\
      trace s' =
        Fetch rq
        :: Log ("Sending SDP offer (" +:+ pretty (String.length sdp) +:+ " bytes)") "info"
        :: Log "ICE gathering timed out, continuing with available candidates" "info"
        :: trace s
  | None => phase_of t s' = Some (Done (Rejected (null_property "sdp")))
  end.
Proof.
  intros Hk Hph Hid Hd Hp Hl Hg. cbv zeta. unfold step, fire. rewrite Hid. simpl.
  rewrite (proj2 (Nat.leb_le _ _) Hd).
  unfold ice_timeout, current. simpl. rewrite Hp, Hl, Hg.
  unfold resolve_wait, phase_of. simpl. rewrite Hk. simpl. rewrite Hph.
  set (s1 := removeEventListener h t _).
  assert (tasks s1 !! t = Some k) as Hk1 by done.
  assert (peerConnection s1 = Some h) as Hp1 by done.
  assert (exists pc1, connections s1 !! h = Some pc1 /\
                      localDescription pc1 = localDescription pc) as (pc1 & Hl1 & Hsdp1).
  { unfold s1. simpl. rewrite list_lookup_alter_eq, Hl. simpl. eauto. }
  assert (origin s1 = origin s /\
          trace s1 = Log "ICE gathering timed out, continuing with available candidates"
                         "info" :: trace s) as [Ho1 Htr1] by done.
  clearbody s1. destruct (localDescription pc) as [sdp|] eqn:Hsdp.
  - rewrite (send_ok t s1 k h pc1 sdp Hk1 Hp1 Hl1 Hsdp1). rewrite Ho1. split.
    + by apply (phase_of_set_phase _ _ _ k).
    + simpl. by rewrite Htr1.
  - rewrite (send_no_description t s1 k h pc1 Hk1 Hp1 Hl1 Hsdp1).
    by apply (phase_of_catch _ _ _ k).
Qed.

(** The same timeout when stop() has taken the connection away: the
    callback throws, and the call keeps waiting. *)
Lemma ice_timeout_throws s t id d :
  timers s !! id = Some {| kind := IceTimeout t; due := d; live := true |} ->
  d <= now s -> peerConnection s = None ->
  let s' := step s (TimerFire id) in
  tasks s' = tasks s /\
  trace s' = Uncaught (null_property "iceGatheringState") :: trace s /\
  timers s' = alter cancel id (timers s).
Proof.
  intros Hid Hd Hp. cbv zeta. unfold step, fire. rewrite Hid. simpl.
  rewrite (proj2 (Nat.leb_le _ _) Hd).
  unfold ice_timeout, current. simpl. by rewrite Hp.
Qed.

(** One listener run while the session's connection is ready: a waiting
    call posts the offer, nothing else changes for the calls. *)
Lemma checkState_ready t0 s h sdp :
  ready h sdp s ->
  let s' := checkState t0 s in
  ready h sdp s' /\ origin s' = origin s /\
  forall t k, tasks s !! t = Some k ->
    tasks s' !! t =
    Some (if bool_decide (t = t0) && is_waiting (phase k)
          then {| url := url k;
                  phase := AwaitFetch (signaling_request (url k) sdp (origin s)) |}
          else k).
Proof.
  intros (Hp & pc & Hl & Hg & Hsdp). cbv zeta.
  unfold checkState, current. rewrite Hp, Hl, Hg. simpl.
  set (s1 := removeEventListener h t0 s).
  assert (ready h sdp s1) as Hr1.
  { split; [done|]. unfold s1. simpl. rewrite list_lookup_alter_eq, Hl. simpl. eauto. }
  assert (origin s1 = origin s /\ tasks s1 = tasks s) as [Ho1 Ht1] by done.
  clearbody s1. destruct Hr1 as (Hp1 & pc1 & Hl1 & Hg1 & Hsdp1).
  unfold resolve_wait, phase_of. rewrite Ht1.
  destruct (tasks s !! t0) as [k0|] eqn:Hk0; simpl.
  - destruct (phase k0) eqn:Hph0; simpl;
      try (split_and!; [by split; eauto|done|];
           intros t k Hk; rewrite Ht1, Hk; f_equal;
           case_bool_decide; [|done]; subst; simplify_eq; by rewrite Hph0).
    rewrite (send_ok t0 s1 k0 h pc1 sdp); [|by rewrite Ht1|done..].
    split_and!; [by split; eauto|done|].
    intros t k Hk. simpl. rewrite Ht1, Ho1, list_lookup_alter.
    case_decide as Hd.
    + subst. rewrite Hk0 in *. simplify_eq. simpl.
      rewrite bool_decide_eq_true_2 by done. by rewrite Hph0.
    + rewrite Hk. by rewrite bool_decide_eq_false_2 by congruence.
  - split_and!; [by split; eauto|done|].
    intros t k Hk. rewrite Ht1, Hk. f_equal.
    case_bool_decide; [|done]. subst. congruence.
Qed.

(** A whole dispatch while the connection is ready: every waiting call
    among the listeners posts the offer. *)
Lemma dispatch_ready L s h sdp :
  ready h sdp s ->
  forall t k, tasks s !! t = Some k ->
    phase_of t (fold_left (fun s t => checkState t s) L s) =
    Some (if bool_decide (t ∈ L) && is_waiting (phase k)
          then AwaitFetch (signaling_request (url k) sdp (origin s))
          else phase k).
Proof.
  revert s. induction L as [|t0 L IH]; intros s Hr t k Hk; simpl.
  - unfold phase_of. by rewrite Hk.
  - destruct (checkState_ready t0 s h sdp Hr) as (Hr1 & Ho1 & Ht1).
    rewrite (IH _ Hr1 t _ (Ht1 t k Hk)). rewrite Ho1. f_equal.
    destruct (decide (t = t0)) as [->|Hne].
    + rewrite (bool_decide_eq_true_2 (t0 = t0)) by done.
      rewrite (bool_decide_eq_true_2 (t0 ∈ t0 :: L)) by (by left).
      destruct (is_waiting (phase k)) eqn:Hw; simpl;
        [by rewrite andb_false_r|by rewrite Hw, andb_false_r].
    + rewrite (bool_decide_eq_false_2 (t = t0)) by done. simpl.
      destruct (decide (t ∈ L)) as [Hin|Hnin].
      * rewrite !bool_decide_eq_true_2; [done|by right|done].
      * rewrite !bool_decide_eq_false_2; [done| |done].
        intros [?|?]%elem_of_cons; done.
Qed.

(** Gathering reaching "complete" on the session's connection ends the
    wait of every call that waits on it. *)
Lemma gathering_complete_resolves s t k h tid pc sdp :
  Inv s -> waits_ok [] None s ->
  tasks s !! t = Some k -> phase k = AwaitIce h tid ->
  connections s !! h = Some pc -> closed pc = false ->
  localDescription pc = Some sdp ->
  phase_of t (step s (IceGatheringStateChange h Complete))
  = Some (AwaitFetch (signaling_request (url k) sdp (origin s))).
Proof.
  intros HI HW Hk Hph Hl Hopen Hsdp.
  destruct (HW t k h tid Hk Hph) as [_ Hpc]; [done|].
  destruct (Hpc pc Hl Hopen) as [Hin _].
  pose proof (open_is_current s HI h pc Hl Hopen) as Hp.
  unfold step, on_open. rewrite Hl, Hopen.
  set (s0 := update_connection h (pc_set_gathering Complete) s).
  assert (ready h sdp s0) as Hr0.
  { split; [done|]. unfold s0. simpl. rewrite list_lookup_alter_eq, Hl. simpl. eauto. }
  rewrite (dispatch_ready (listeners pc) s0 h sdp Hr0 t k Hk).
  rewrite bool_decide_eq_true_2 by done. by rewrite Hph.
Qed.

(** play() resumed after setLocalDescription on the connection the
    session holds: with gathering complete the offer is posted at once and
    no timer is set; otherwise the call registers its listener and a timer
    5000 ms ahead. *)
Lemma wait_entry s t k h sdp pc :
  tasks s !! t = Some k -> phase k = AwaitSetLocal h sdp ->
  peerConnection s = Some h -> connections s !! h = Some pc ->
  let s' := step s (LocalDescriptionSettled t None) in
  if is_complete (iceGatheringState pc)
  then phase_of t s' = Some (AwaitFetch (signaling_request (url k) sdp (origin s))) /\
       timers s' = timers s
  else phase_of t s' = Some (AwaitIce h (length (timers s))) /\
       timers s' = timers s ++ [{| kind := IceTimeout t; due := now s + 5000;
                                   live := true |}] /\
       exists pc', connections s' !! h = Some pc' /\ t ∈ listeners pc'.
Proof.
  intros Hk Hph Hp Hl. cbv zeta. unfold step, play_local, phase_of.
  rewrite Hk. simpl. rewrite Hph.
  set (s1 := _log "Local description set" "info" _).
  assert (tasks s1 !! t = Some k) as Hk1 by done.
  assert (peerConnection s1 = Some h) as Hp1 by done.
  assert (connections s1 !! h = Some (pc_set_local (Some sdp) pc)) as Hl1.
  { unfold s1. simpl. by rewrite list_lookup_alter_eq, Hl. }
  assert (origin s1 = origin s /\ timers s1 = timers s /\ now s1 = now s)
    as (Ho1 & Hti1 & Hn1) by done.
  clearbody s1. unfold _connectToZLM. rewrite Hk1.
  unfold _waitForIceGathering, current. simpl. rewrite Hp1, Hl1. simpl.
  destruct (is_complete (iceGatheringState pc)).
  - rewrite (send_ok t _ k h (pc_set_local (Some sdp) pc) sdp); try done.
    split; [|done]. simpl origin. rewrite Ho1. by apply (phase_of_set_phase _ _ _ k).
  - unfold add_timer. simpl. rewrite Hti1, Hn1. split_and!; [|done|].
    + unfold phase_of. simpl. by rewrite list_lookup_alter_eq, Hk1.
    + rewrite list_lookup_alter_eq, Hl1. simpl. eexists. split; [done|]. simpl.
      apply elem_of_app. right. by apply list_elem_of_singleton.
Qed.

Lemma abandoned_frame t s s' :
  tasks s' = tasks s -> timers s' = timers s -> connections s' = connections s ->
  abandoned t s -> abandoned t s'.
Proof. unfold abandoned. intros -> -> ->. done. Qed.

Lemma abandoned_set_phase t t' p s :
  t' <> t -> abandoned t s -> abandoned t (set_phase t' p s).
Proof.
  intros Hne (A1 & A2 & A3). split_and!; [|done..].
  destruct A1 as (k & h & tid & Hk & Hph). exists k, h, tid.
  simpl. by rewrite list_lookup_alter_ne.
Qed.

Lemma abandoned_update_connection t h f s :
  (forall pc, closed (f pc) = false -> closed pc = false) ->
  (forall pc, t ∈ listeners (f pc) -> t ∈ listeners pc) ->
  abandoned t s -> abandoned t (update_connection h f s).
Proof.
  intros Hc Hl (A1 & A2 & A3). split_and!; [done..|].
  intros h' pc. simpl. rewrite list_lookup_alter. case_decide; [subst|by apply A3].
  destruct (connections s !! h') as [pc0|] eqn:Hh; [|done]. simpl. intros [= <-] Hopen Hin.
  apply (A3 h' pc0 Hh); eauto.
Qed.

Lemma abandoned_add_timer t k d s id s' :
  add_timer k d s = (id, s') -> k <> IceTimeout t -> abandoned t s -> abandoned t s'.
Proof.
  intros [= <- <-] Hk (A1 & A2 & A3). split_and!; [done| |done].
  intros id tm. simpl. intros Hid Hkind.
  apply lookup_app_Some in Hid as [Hid|[_ Hid]]; [by eapply A2|].
  apply list_lookup_singleton_Some in Hid as [_ <-]. done.
Qed.

Lemma abandoned_alter_timer t f id s :
  (forall tm, kind (f tm) = kind tm) -> (forall tm, live tm = false -> live (f tm) = false) ->
  abandoned t s -> abandoned t (set_timers (alter f id (timers s)) s).
Proof.
  intros Hk Hl (A1 & A2 & A3). split_and!; [done| |done].
  intros id' tm. simpl. rewrite list_lookup_alter. case_decide; [subst|by apply A2].
  destruct (timers s !! id') as [tm0|] eqn:Hid; [|done]. simpl. intros [= <-].
  rewrite Hk. intros Hkind. apply Hl. by eapply A2.
Qed.

Lemma abandoned_stop t s : abandoned t s -> abandoned t (stop s).
Proof.
  intros (A1 & A2 & A3). split_and!.
  - by rewrite rtc_stop_tasks.
  - rewrite rtc_stop_timers. repeat case_match; try done.
    by apply (abandoned_alter_timer t cancel n s).
  - rewrite stop_connections. case_match; [|done].
    by apply (abandoned_update_connection t n pc_close s).
Qed.

Lemma abandoned_add_task t k s :
  abandoned t s -> abandoned t (set_tasks (tasks s ++ [k]) s).
Proof.
  intros (A1 & A2 & A3). split_and!; [|done..].
  destruct A1 as (k0 & h & tid & Hk & Hph). exists k0, h, tid. simpl.
  split; [|done]. by apply lookup_app_l_Some.
Qed.

Lemma abandoned_new_connection t v pc s :
  t ∉ listeners pc -> abandoned t s ->
  abandoned t (set_peerConnection v (set_connections (connections s ++ [pc]) s)).
Proof.
  intros Hnin (A1 & A2 & A3). split_and!; [done..|].
  intros h pc'. simpl. intros Hh.
  apply lookup_app_Some in Hh as [Hh|[_ Hh]]; [by apply (A3 h)|].
  apply list_lookup_singleton_Some in Hh as [_ <-]. done.
Qed.

Lemma abandoned_play t target s : abandoned t s -> abandoned t (play target s).
Proof.
  intros HA. unfold play. case_match; [by apply abandoned_add_task|].
  set (s1 := stop (_log "Starting stream..." "info" s)).
  assert (abandoned t s1) as HA1
    by (apply abandoned_stop; revert HA; by apply abandoned_frame).
  clearbody s1. cbv zeta.
  apply abandoned_add_task.
  apply (abandoned_update_connection t _ (pc_addTransceiver "audio" "recvonly"));
    [done..|].
  apply (abandoned_update_connection t _ (pc_addTransceiver "video" "recvonly"));
    [done..|].
  apply abandoned_new_connection; [|done]. apply not_elem_of_nil.
Qed.

Lemma abandoned_play_catch t t' e s :
  t' <> t -> abandoned t s -> abandoned t (play_catch t' e s).
Proof.
  intros Hne HA. unfold play_catch. apply abandoned_set_phase; [done|].
  apply abandoned_stop. revert HA. by apply abandoned_frame.
Qed.

Lemma abandoned__connectToZLM_catch t t' e s :
  t' <> t -> abandoned t s -> abandoned t (_connectToZLM_catch t' e s).
Proof.
  intros Hne HA. unfold _connectToZLM_catch. apply abandoned_play_catch; [done|].
  revert HA. by apply abandoned_frame.
Qed.

Lemma abandoned__connectToZLM_send t t' s :
  t' <> t -> abandoned t s -> abandoned t (_connectToZLM_send t' s).
Proof.
  intros Hne HA. unfold _connectToZLM_send.
  repeat case_match; try done; try (by apply abandoned__connectToZLM_catch).
  apply abandoned_set_phase; [done|]. revert HA. by apply abandoned_frame.
Qed.

Lemma abandoned_resolve_wait t t' s :
  t' <> t -> abandoned t s -> abandoned t (resolve_wait t' s).
Proof.
  intros Hne HA. unfold resolve_wait.
  repeat case_match; try done. by apply abandoned__connectToZLM_send.
Qed.

Lemma abandoned_removeEventListener t h t' s :
  abandoned t s -> abandoned t (removeEventListener h t' s).
Proof.
  intros HA. unfold removeEventListener. apply abandoned_update_connection; try done.
  intros pc Hin. simpl in Hin. by apply list_elem_of_filter in Hin as [_ ?].
Qed.

Lemma abandoned_checkState t t' s :
  t' <> t -> abandoned t s -> abandoned t (checkState t' s).
Proof.
  intros Hne HA. unfold checkState. repeat case_match; try done;
    first [ by apply abandoned_resolve_wait, abandoned_removeEventListener
          | revert HA; by apply abandoned_frame ].
Qed.

Lemma abandoned_dispatch t L s :
  t ∉ L -> abandoned t s -> abandoned t (fold_left (fun s t => checkState t s) L s).
Proof.
  revert s. induction L as [|t' L IH]; intros s Hnin HA; simpl; [done|].
  apply not_elem_of_cons in Hnin as [Hne Hnin].
  apply IH; [done|]. by apply abandoned_checkState.
Qed.

Lemma abandoned_ice_timeout t t' s :
  t' <> t -> abandoned t s -> abandoned t (ice_timeout t' s).
Proof.
  intros Hne HA. unfold ice_timeout. repeat case_match; try done;
    first [ apply abandoned_resolve_wait; [done|]; apply abandoned_removeEventListener;
            revert HA; by apply abandoned_frame
          | revert HA; by apply abandoned_frame ].
Qed.

Lemma abandoned__connectToZLM t t' s :
  t' <> t -> abandoned t s -> abandoned t (_connectToZLM t' s).
Proof.
  intros Hne HA. unfold _connectToZLM, _waitForIceGathering.
  destruct (tasks s !! t') as [k|]; [|done].
  set (s1 := _log _ "info" s).
  assert (abandoned t s1) as HA1 by (revert HA; by apply abandoned_frame).
  clearbody s1. destruct (current s1) as [[h pc]|];
    [|by apply abandoned__connectToZLM_catch].
  destruct (is_complete (iceGatheringState pc));
    [by apply abandoned__connectToZLM_send|].
  destruct (add_timer _ _ _) as [id s2] eqn:Hadd.
  apply abandoned_set_phase; [done|].
  eapply abandoned_add_timer; [done|congruence|].
  apply abandoned_update_connection; try done.
  intros pc' Hin. simpl in Hin. apply elem_of_app in Hin as [?|Hin]; [done|].
  apply list_elem_of_singleton in Hin. congruence.
Qed.

Lemma abandoned_phase t s :
  abandoned t s -> exists h tid, phase_of t s = Some (AwaitIce h tid).
Proof.
  intros ((k & h & tid & Hk & Hph) & _). exists h, tid. unfold phase_of.
  rewrite Hk. simpl. by f_equal.
Qed.

Lemma abandoned_step t s e : abandoned t s -> abandoned t (step s e).
Proof.
  intros HA. destruct (abandoned_phase t s HA) as (h0 & tid0 & Hph).
  destruct e as [target| |t' r|t' r|t' r|t'|t' r|h g|h i|h c|h candidate|h streams
                 |reports|ms|id]; simpl.
  - by apply abandoned_play.
  - by apply abandoned_stop.
  - unfold play_offer. destruct (decide (t' = t)) as [->|Hne]; [by rewrite Hph|].
    repeat case_match; try done;
      first [ by apply abandoned_play_catch | by apply abandoned_set_phase ].
  - unfold play_local. destruct (decide (t' = t)) as [->|Hne]; [by rewrite Hph|].
    repeat case_match; try done; [by apply abandoned_play_catch|].
    apply abandoned__connectToZLM; [done|].
    eapply abandoned_frame;
      [..|apply (abandoned_update_connection t h (pc_set_local (Some sdp)) s)]; done.
  - unfold _connectToZLM_response.
    destruct (decide (t' = t)) as [->|Hne]; [by rewrite Hph|].
    repeat case_match; try done;
      first [ by apply abandoned__connectToZLM_catch | by apply abandoned_set_phase ].
  - unfold _connectToZLM_json.
    destruct (decide (t' = t)) as [->|Hne]; [by rewrite Hph|].
    repeat case_match; try done;
      first [ by apply abandoned__connectToZLM_catch
            | apply abandoned__connectToZLM_catch; [done|];
              revert HA; by apply abandoned_frame
            | apply abandoned_set_phase; [done|]; revert HA; by apply abandoned_frame ].
  - unfold _connectToZLM_remote.
    destruct (decide (t' = t)) as [->|Hne]; [by rewrite Hph|].
    repeat case_match; try done; [by apply abandoned__connectToZLM_catch|].
    apply abandoned_set_phase; [done|].
    eapply abandoned_frame;
      [..|apply (abandoned_update_connection t h (pc_set_remote (Some sdp)) s)]; done.
  - unfold on_open. destruct (connections s !! h) as [pc|] eqn:Hh; [|done].
    destruct (closed pc) eqn:Hopen; [done|].
    apply abandoned_dispatch; [by apply (proj2 (proj2 HA) h pc)|].
    by apply abandoned_update_connection.
  - unfold on_open. repeat case_match; try done.
    unfold oniceconnectionstatechange, _startStatsMonitoring.
    assert (abandoned t (update_connection h (pc_set_ice i) s)) as HA1
      by (by apply abandoned_update_connection).
    repeat case_match; try (revert HA1; by apply abandoned_frame).
    all: eapply abandoned_frame;
      [..|eapply (abandoned_add_timer t StatsTimer 1000); [done|done|exact HA1]]; done.
  - unfold on_open. repeat case_match; try done.
    unfold onconnectionstatechange.
    assert (abandoned t (update_connection h (pc_set_connection c) s)) as HA1
      by (by apply abandoned_update_connection).
    repeat case_match; revert HA1; by apply abandoned_frame.
  - unfold on_open, onicecandidate. repeat case_match; try done.
    eapply abandoned_frame;
      [..|apply (abandoned_update_connection t h
                   (fun pc => pc_set_local
                                (option_map (fun d => d +:+ s0) (localDescription pc)) pc)
                   s)]; done.
  - unfold on_open. repeat case_match; try done; revert HA; by apply abandoned_frame.
  - unfold stats_ready. case_match; [done|].
    assert (forall s0, tasks s0 = tasks s -> timers s0 = timers s ->
              connections s0 = connections s ->
              tasks (fold_left stats_report reports s0) = tasks s /\
              timers (fold_left stats_report reports s0) = timers s /\
              connections (fold_left stats_report reports s0) = connections s) as Hfold.
    { induction reports as [|r l IH]; intros s0 Ht Hti Hc; simpl; [done|].
      apply IH; unfold stats_report; by repeat case_match. }
    destruct (Hfold (set_statsReads n s)) as (Ht & Hti & Hc); [done..|].
    revert HA. by apply abandoned_frame.
  - revert HA. by apply abandoned_frame.
  - unfold fire. destruct (timers s !! id) as [tm|] eqn:Hid; [|done].
    destruct (live tm) eqn:Hlive; [|done]. simpl. case_match; [|done].
    destruct (kind tm) as [|t'|] eqn:Hkind; [done|..].
    + destruct (decide (t' = t)) as [->|Hne].
      { pose proof (proj1 (proj2 HA) id tm Hid Hkind). congruence. }
      apply abandoned_ice_timeout; [done|]. by apply abandoned_alter_timer.
    + unfold stats_tick.
      assert (abandoned t (set_timers (alter (rearm 1000) id (timers s)) s)) as HA1
        by (by apply abandoned_alter_timer).
      repeat case_match; revert HA1; by apply abandoned_frame.
Qed.

(** An abandoned call waits forever. *)
Lemma abandoned_forever t s events :
  abandoned t s -> exists h tid, phase_of t (run s events) = Some (AwaitIce h tid).
Proof.
  intros HA. apply abandoned_phase. revert s HA.
  induction events as [|e l IH]; intros s HA; simpl; [done|].
  by apply IH, abandoned_step.
Qed.
End WebRTCFacts.


(* ===================================================================== *)
(** ** The timers of the real-time session *)
(* ===================================================================== *)

Module WebRTCTimers.
Import ZLMWebRTCPlayer WebRTCFacts.






















End WebRTCTimers.
(* ===================================================================== *)
(** ** The progressive session keeps its invariant *)
(* ===================================================================== *)

Module StreamFacts.
Import ZLMStreamPlayer.

Lemma flv_Inv_frame s s' :
  players s' = players s -> player s' = player s ->
  timers s' = timers s -> statsInterval s' = statsInterval s ->
  listeners (videoElement s') = listeners (videoElement s) ->
  maxReconnectAttempts s' = maxReconnectAttempts s ->
  Inv s -> Inv s'.
Proof.
  intros Hc Hp Ht Hi Hl Hm [].
  split; rewrite ?Hc, ?Hp, ?Ht, ?Hi, ?Hl, ?Hm; done.
Qed.

Lemma flv_emit_inv o s : Inv s -> Inv (emit o s).
Proof. by apply flv_Inv_frame. Qed.

Lemma flv_log_inv m ty s : Inv s -> Inv (_log m ty s).
Proof. apply flv_emit_inv. Qed.

Lemma flv_set_phase_inv t p s : Inv s -> Inv (set_phase t p s).
Proof. by apply flv_Inv_frame. Qed.

Lemma flv_set_now_inv n s : Inv s -> Inv (set_now n s).
Proof. by apply flv_Inv_frame. Qed.

Lemma flv_set_statsContainer_inv c s : Inv s -> Inv (set_statsContainer c s).
Proof. by apply flv_Inv_frame. Qed.

Lemma set_headRequests_inv c s : Inv s -> Inv (set_headRequests c s).
Proof. by apply flv_Inv_frame. Qed.

Lemma set_reconnectAttempts_inv c s : Inv s -> Inv (set_reconnectAttempts c s).
Proof. by apply flv_Inv_frame. Qed.

Lemma set_latencyStartTime_inv c s : Inv s -> Inv (set_latencyStartTime c s).
Proof. by apply flv_Inv_frame. Qed.

Lemma update_player_inv h f s :
  (forall p, destroyed (f p) = destroyed p) ->
  (forall p, observed p = true -> observed (f p) = true) ->
  Inv s -> Inv (update_player h f s).
Proof.
  intros Hf Ho [H1 H2 H3 H4 H5 H6 H7]. split; simpl; try done.
  - intros h' p. rewrite list_lookup_alter. case_decide as Hd.
    + subst. destruct (players s !! h') as [p0|] eqn:E; simpl; [|done].
      intros [= <-]. rewrite Hf. eauto.
    + eauto.
  - intros h' Hh'. destruct (H2 h' Hh') as (p & Hp & Halive & Hobs).
    rewrite list_lookup_alter. case_decide; subst.
    + rewrite Hp. simpl. eexists. split; [done|]. rewrite Hf. eauto.
    + eauto.
Qed.

Lemma flv_add_timer_inv k d s id s' :
  add_timer k d s = (id, s') -> k <> StatsTimer -> Inv s -> Inv s'.
Proof.
  intros [= <- <-] Hk [H1 H2 H3 H4 H5 H6 H7]. split; simpl; try done.
  - intros id tm Hid Hkind Hlive.
    apply lookup_app_Some in Hid as [Hid|[_ Hid]]; [eauto|].
    apply list_lookup_singleton_Some in Hid as [_ <-]. done.
  - intros id Hid. rewrite length_app. simpl. specialize (H4 id Hid). lia.
  - rewrite length_app. lia.
Qed.

Lemma flv_alter_timer_inv f id s :
  (forall tm, kind (f tm) = kind tm) -> (forall tm, live (f tm) = true -> live tm = true) ->
  Inv s -> Inv (set_timers (alter f id (timers s)) s).
Proof.
  intros Hk Hl [H1 H2 H3 H4 H5 H6 H7]. split; simpl; try done.
  - intros id' tm. rewrite list_lookup_alter. case_decide; subst; [|eauto].
    destruct (timers s !! id') as [tm0|] eqn:E; simpl; [|done].
    intros [= <-]. rewrite Hk. eauto.
  - intros id' Hid'. rewrite length_alter. eauto.
  - by rewrite length_alter.
Qed.

Ltac flv_stop_cases :=
  unfold stop, clearTimer, update_player, _log;
  repeat case_match; simpl in *; simplify_eq/=.

Lemma stop_player s : player (stop s) = None.
Proof. flv_stop_cases; congruence. Qed.

Lemma flv_stop_tasks s : tasks (stop s) = tasks s.
Proof. flv_stop_cases; congruence. Qed.

Lemma flv_stop_now s : now (stop s) = now s.
Proof. flv_stop_cases; congruence. Qed.

Lemma stop_listeners s : listeners (videoElement (stop s)) = listeners (videoElement s).
Proof. flv_stop_cases; congruence. Qed.

Lemma stop_max s : maxReconnectAttempts (stop s) = maxReconnectAttempts s.
Proof. flv_stop_cases; congruence. Qed.

Lemma stop_reconnectAttempts s : reconnectAttempts (stop s) = reconnectAttempts s.
Proof. flv_stop_cases; congruence. Qed.

Lemma flv_stop_statsInterval s :
  statsInterval (stop s) = if timer_set (statsInterval s) then None else statsInterval s.
Proof. flv_stop_cases; congruence. Qed.

Lemma stop_players s :
  players (stop s) =
  match player s with
  | Some h => alter destroy h (players s)
  | None => players s
  end.
Proof. flv_stop_cases; congruence. Qed.

Lemma flv_stop_timers s :
  timers (stop s) =
  if timer_set (statsInterval s)
  then match statsInterval s with
       | Some i => alter cancel i (timers s)
       | None => timers s
       end
  else timers s.
Proof. flv_stop_cases; congruence. Qed.

Lemma flv_timer_set_inv s id : Inv s -> statsInterval s = Some id -> timer_set (Some id) = true.
Proof.
  intros HI Hid. destruct (stats_positive s HI id Hid) as [Hpos _].
  destruct id; [lia|done].
Qed.

Lemma flv_stop_inv s : Inv s -> Inv (stop s).
Proof.
  intros HI. pose proof HI as [H1 H2 H3 H4 H5 H6 H7].
  split; rewrite ?stop_player, ?stop_listeners, ?stop_max,
           ?stop_players, ?flv_stop_timers, ?flv_stop_statsInterval; try done.
  - intros h p Hh Halive. exfalso.
    destruct (player s) as [h0|] eqn:Hp.
    + rewrite list_lookup_alter in Hh. case_decide; subst.
      * destruct (players s !! h); simplify_eq/=.
      * specialize (H1 h p Hh Halive). congruence.
    + specialize (H1 h p Hh Halive). congruence.
  - destruct (statsInterval s) as [id|] eqn:Hid; [|done].
    rewrite (flv_timer_set_inv s id HI Hid).
    intros id' tm Hid' Hk Hl. exfalso.
    rewrite list_lookup_alter in Hid'. case_decide; subst.
    + destruct (timers s !! id'); simplify_eq/=.
    + specialize (H3 id' tm Hid' Hk Hl). congruence.
  - destruct (statsInterval s) as [id|] eqn:Hid; [|done].
    by rewrite (flv_timer_set_inv s id HI Hid).
  - destruct (statsInterval s) as [id|] eqn:Hid; [|done].
    rewrite (flv_timer_set_inv s id HI Hid). by rewrite length_alter.
Qed.

Lemma flv_stop_statsInterval_inv s : Inv s -> statsInterval (stop s) = None.
Proof.
  intros HI. rewrite flv_stop_statsInterval.
  destruct (statsInterval s) as [id|] eqn:Hid; [|done].
  by rewrite (flv_timer_set_inv s id HI Hid).
Qed.

Lemma flv_startStatsMonitoring_inv s : Inv s -> Inv (_startStatsMonitoring s).
Proof.
  intros HI. unfold _startStatsMonitoring.
  destruct (timer_set (statsInterval s)) eqn:Hset; [done|].
  assert (statsInterval s = None) as Hnone.
  { destruct (statsInterval s) as [id|] eqn:Hid; [|done].
    rewrite (flv_timer_set_inv s id HI Hid) in Hset. done. }
  destruct HI as [H1 H2 H3 H4 H5 H6 H7]. simpl. split; simpl; try done.
  - intros id tm Hid Hk Hl. apply lookup_app_Some in Hid as [Hid|[Hlen Hid]].
    + specialize (H3 id tm Hid Hk Hl). congruence.
    + apply list_lookup_singleton_Some in Hid as [Hz _]. f_equal. lia.
  - intros id [= <-]. rewrite length_app. simpl. lia.
  - rewrite length_app. lia.
Qed.

Lemma flv_play_inv b target type s : Inv s -> Inv (play b target type s).
Proof.
  intros HI. unfold play. case_match.
  { case_match; [apply flv_log_inv|]; by apply (flv_Inv_frame s). }
  match goal with |- context [stop ?s0] => set (s1 := stop s0) end.
  assert (Inv s1) as HI1 by (unfold s1; apply flv_stop_inv; by apply flv_log_inv).
  assert (player s1 = None) as Hp1 by apply stop_player.
  clearbody s1.
  destruct HI1 as [H1 H2 H3 H4 H5 H6 H7].
  unfold _setupEventListeners, add_timer. simpl.
  split; simpl; try done.
  - intros h p Hh Halive.
    destruct (decide (h = length (players s1))) as [->|Hne]; [done|].
    rewrite !list_lookup_alter_ne in Hh by done.
    apply lookup_app_Some in Hh as [Hh|[Hlen Hh]].
    + specialize (H1 h p Hh Halive). congruence.
    + apply list_lookup_singleton_Some in Hh as [Hz _]. lia.
  - intros h [= <-]. rewrite !list_lookup_alter_eq.
    rewrite lookup_app_r by lia. rewrite Nat.sub_diag. simpl. eauto.
  - intros id tm Hid Hk Hl. apply lookup_app_Some in Hid as [Hid|[Hlen Hid]]; [eauto|].
    apply list_lookup_singleton_Some in Hid as [_ <-]. done.
  - intros id Hid. rewrite length_app. simpl. specialize (H4 id Hid). lia.
  - rewrite length_app. lia.
  - lia.
Qed.

Lemma flv_play_catch_inv t e s : Inv s -> Inv (play_catch t e s).
Proof.
  intros HI. unfold play_catch.
  repeat case_match; try done;
    repeat first [ apply flv_log_inv | apply flv_set_phase_inv | apply flv_stop_inv
                 | apply flv_emit_inv ]; done.
Qed.

Lemma play_started_inv t r s : Inv s -> Inv (play_started t r s).
Proof.
  intros HI. unfold play_started, clearTimer.
  repeat case_match; try done; [by apply flv_play_catch_inv|].
  apply flv_set_phase_inv, flv_emit_inv, flv_startStatsMonitoring_inv, flv_log_inv.
  by apply flv_alter_timer_inv.
Qed.

Lemma watchdog_inv target s : Inv s -> Inv (watchdog target s).
Proof.
  intros HI. unfold watchdog. case_match; [|done].
  by apply set_headRequests_inv, flv_emit_inv, flv_log_inv.
Qed.

Lemma head_settled_inv r s : Inv s -> Inv (head_settled r s).
Proof.
  intros HI. unfold head_settled.
  repeat case_match; try done; by apply flv_log_inv, set_headRequests_inv.
Qed.

Lemma reconnect_inv target type s : Inv s -> Inv (reconnect target type s).
Proof. intros HI. by apply flv_play_inv, flv_stop_inv. Qed.

Lemma on_any_inv name args s : Inv s -> Inv (on_any name args s).
Proof. intros HI. unfold on_any. repeat case_match; try done; by apply flv_log_inv. Qed.

Lemma on_error_inv ty detail s : Inv s -> Inv (on_error ty detail s).
Proof.
  intros HI. unfold on_error.
  match goal with |- context [emit (OnError ?e) ?s0] =>
    assert (Inv (emit (OnError e) s0)) as HI0
      by (apply flv_emit_inv; repeat case_match; by repeat apply flv_log_inv);
    generalize dependent (emit (OnError e) s0)
  end.
  intros s0 HI0. repeat case_match; try done.
  - eapply flv_add_timer_inv; [by erewrite <- surjective_pairing|done|].
    by apply flv_log_inv, set_reconnectAttempts_inv.
  - by apply flv_emit_inv, flv_log_inv, set_reconnectAttempts_inv.
  - by apply flv_emit_inv, flv_log_inv, set_reconnectAttempts_inv.
Qed.

Lemma video_listener_inv ev s : Inv s -> Inv (video_listener ev s).
Proof.
  intros HI. destruct ev; simpl;
    repeat first [ apply flv_log_inv | apply set_reconnectAttempts_inv ]; done.
Qed.

Lemma video_listeners_inv n ev s : Inv s -> Inv (Nat.iter n (video_listener ev) s).
Proof. intros HI. induction n as [|n IH]; simpl; [done|]. by apply video_listener_inv. Qed.

Lemma stats_tick_inv s : Inv s -> Inv (stats_tick s).
Proof.
  intros HI. unfold stats_tick.
  repeat case_match; try done;
    repeat first [ apply flv_emit_inv | apply flv_set_statsContainer_inv ]; done.
Qed.

Lemma flv_fire_inv id s : Inv s -> Inv (fire id s).
Proof.
  intros HI. unfold fire.
  repeat case_match; try done;
    repeat first [ apply watchdog_inv | apply reconnect_inv | apply stats_tick_inv
                 | apply flv_alter_timer_inv; [done|done|] ]; done.
Qed.

Lemma flv_step_inv s e : Inv s -> Inv (step s e).
Proof.
  intros HI. destruct e; simpl.
  - by apply flv_play_inv.
  - by apply flv_stop_inv.
  - by apply play_started_inv.
  - unfold on_alive. repeat case_match; try done. by apply on_error_inv, on_any_inv.
  - unfold on_alive. repeat case_match; try done. by apply on_any_inv.
  - unfold on_alive. repeat case_match; try done. by apply update_player_inv.
  - by apply video_listeners_inv.
  - revert HI. by apply flv_Inv_frame.
  - by apply head_settled_inv.
  - by apply flv_set_now_inv.
  - by apply flv_fire_inv.
Qed.

Lemma flv_constructor_inv lib stats options type :
  Inv (constructor lib stats options type).
Proof. split; simpl; try done; try lia. intros [|?] ?; naive_solver. Qed.

Lemma flv_run_inv events s : Inv s -> Inv (run s events).
Proof.
  revert s. induction events as [|e l IH]; intros s HI; simpl; [done|].
  by apply IH, flv_step_inv.
Qed.

Lemma flv_reachable_inv s : reachable s -> Inv s.
Proof. intros (lib & w & sv & o & ev & ->). apply flv_run_inv, flv_constructor_inv. Qed.

Lemma live_players_le s : Inv s -> length (live_players s) <= 1.
Proof.
  intros HI. apply filter_at_most_one. intros i j x y Hi Hj Hx Hy.
  pose proof (alive_is_current s HI i x Hi Hx).
  pose proof (alive_is_current s HI j y Hj Hy). congruence.
Qed.

Lemma live_players_idle s : Inv s -> player s = None -> live_players s = [].
Proof.
  intros HI Hp. apply filter_none. intros i x Hi Hx.
  pose proof (alive_is_current s HI i x Hi Hx). congruence.
Qed.

Lemma flv_live_stats_timers_le s : Inv s -> length (live_stats_timers s) <= 1.
Proof.
  intros HI. apply filter_at_most_one. intros i j x y Hi Hj [Hx1 Hx2] [Hy1 Hy2].
  pose proof (stats_is_current s HI i x Hi Hx1 Hx2).
  pose proof (stats_is_current s HI j y Hj Hy1 Hy2). congruence.
Qed.

Lemma flv_live_stats_timers_idle s :
  Inv s -> statsInterval s = None -> live_stats_timers s = [].
Proof.
  intros HI Hp. apply filter_none. intros i x Hi [Hx1 Hx2].
  pose proof (stats_is_current s HI i x Hi Hx1 Hx2). congruence.
Qed.

Lemma stop_length_players s : length (players (stop s)) = length (players s).
Proof. rewrite stop_players. case_match; [apply length_alter|done]. Qed.

Lemma play_player b target type s :
  target <> "" -> player (play b target type s) = Some (length (players s)).
Proof.
  intros Hne. unfold play. rewrite (proj2 (String.eqb_neq _ _) Hne).
  match goal with |- context [stop ?s0] =>
    pose proof (stop_length_players s0) as Hlen; generalize dependent (stop s0)
  end.
  intros s1 Hlen. unfold _setupEventListeners, add_timer. simpl. by rewrite Hlen.
Qed.

Lemma flv_play_fresh b target type s :
  Inv s -> target <> "" ->
  let s' := play b target type s in
  player s' = Some (length (players s)) /\
  length (live_players s') = 1 /\
  forall h p, h < length (players s) -> players s' !! h = Some p -> destroyed p = true.
Proof.
  intros HI Hne s'.
  assert (Inv s') as HI' by by apply flv_play_inv.
  assert (player s' = Some (length (players s))) as Hp by by apply play_player.
  split_and!; [done| |].
  - pose proof (live_players_le s' HI').
    destruct (current_is_alive s' HI' _ Hp) as (p & Hpl & Halive & _).
    pose proof (filter_some (fun p => destroyed p = false) _ _ _ Hpl Halive).
    unfold live_players in *. lia.
  - intros h p Hh Hpl. destruct (destroyed p) eqn:Hc; [done|].
    pose proof (alive_is_current s' HI' h p Hpl Hc) as Hcur.
    assert (h = length (players s)) by congruence. lia.
Qed.

Lemma flv_startStatsMonitoring_guard s :
  timer_set (statsInterval s) = true -> _startStatsMonitoring s = s.
Proof. intros Hs. unfold _startStatsMonitoring. by rewrite Hs. Qed.

Lemma flv_stop_statsContainer s :
  statsContainer (stop s) =
  match statsContainer s with Some _ => Some Blank | None => None end.
Proof. flv_stop_cases; repeat case_match; congruence. Qed.

Lemma stop_src s : src (videoElement (stop s)) = Some "".
Proof. flv_stop_cases; congruence. Qed.

(** stop() without a player still resets the video source, clears the
    stats timer and container, and calls onDisconnected. *)
Lemma flv_stop_idle s :
  player s = None ->
  player (stop s) = None /\ players (stop s) = players s /\
  tasks (stop s) = tasks s /\ reconnectAttempts (stop s) = reconnectAttempts s /\
  trace (stop s) = OnDisconnected :: trace s.
Proof. intros Hp. split_and!; flv_stop_cases; congruence. Qed.

Lemma flv_stop_stop s : Inv s -> stop (stop s) = emit OnDisconnected (stop s).
Proof.
  intros HI.
  pose proof (flv_stop_statsInterval_inv s HI) as Hsi.
  pose proof (stop_player s) as Hp.
  pose proof (stop_src s) as Hsrc.
  pose proof (flv_stop_statsContainer s) as Hc.
  assert (statsContainer (stop s) = None \/ statsContainer (stop s) = Some Blank) as Hc'
    by (destruct (statsContainer s); rewrite Hc; eauto).
  clear Hc. generalize dependent (stop s). intros s1 Hsi Hp Hsrc Hc.
  unfold stop. rewrite Hsi. simpl. rewrite Hp.
  destruct s1 as [? [] ? ? ? ? ? ? ? ? ? ? ? ? ? ?]; simpl in *; subst.
  destruct Hc as [->| ->]; done.
Qed.

Lemma Budget_frame r0 a0 s s' :
  timers s' = timers s -> reconnectAttempts s' = reconnectAttempts s ->
  maxReconnectAttempts s' = maxReconnectAttempts s ->
  Budget r0 a0 s -> Budget r0 a0 s'.
Proof. unfold Budget, reconnections. intros -> -> ->. done. Qed.

Lemma reconnections_add k d s :
  reconnections (add_timer k d s).2 =
  reconnections s + (if is_reconnect {| kind := k; due := now s + d; live := true |}
                     then 1 else 0).
Proof.
  unfold reconnections, add_timer. simpl. rewrite filter_app, length_app.
  f_equal. rewrite filter_cons, filter_nil. by repeat case_match.
Qed.

Lemma reconnections_alter f id s :
  (forall tm, kind (f tm) = kind tm) ->
  reconnections (set_timers (alter f id (timers s)) s) = reconnections s.
Proof.
  intros Hf. unfold reconnections. simpl. apply filter_alter_length.
  intros tm. unfold is_reconnect. by rewrite Hf.
Qed.

Lemma Budget_add r0 a0 k d s id s' :
  add_timer k d s = (id, s') -> (forall u ty, k <> Reconnect u ty) ->
  Budget r0 a0 s -> Budget r0 a0 s'.
Proof.
  intros Hadd Hk [Hb Hm]. assert (s' = (add_timer k d s).2) as -> by by rewrite Hadd.
  split; [|done]. rewrite reconnections_add.
  unfold is_reconnect. simpl. destruct k; try done; try (simpl in *; lia).
  by destruct (Hk target type).
Qed.

Lemma Budget_alter r0 a0 f id s :
  (forall tm, kind (f tm) = kind tm) ->
  Budget r0 a0 s -> Budget r0 a0 (set_timers (alter f id (timers s)) s).
Proof. intros Hf [Hb Hm]. split; [|done]. by rewrite reconnections_alter. Qed.

Lemma stop_Budget r0 a0 s : Budget r0 a0 s -> Budget r0 a0 (stop s).
Proof.
  intros [Hb Hm]. unfold Budget. rewrite stop_reconnectAttempts, stop_max.
  split; [|done]. unfold reconnections. rewrite flv_stop_timers.
  repeat case_match; try done.
  by rewrite filter_alter_length.
Qed.

Ltac budget :=
  repeat first
    [ done
    | apply stop_Budget
    | apply Budget_alter; [done|]
    | eapply Budget_add; [by erewrite <- surjective_pairing|done|]
    | eapply Budget_frame; [reflexivity..|] ].

Lemma _startStatsMonitoring_Budget r0 a0 s :
  Budget r0 a0 s -> Budget r0 a0 (_startStatsMonitoring s).
Proof.
  intros HB. unfold _startStatsMonitoring. case_match; [done|].
  eapply Budget_frame; [..|eapply (Budget_add _ _ StatsTimer 1000 s); [done..]]; done.
Qed.

Lemma play_Budget r0 a0 b target type s :
  Budget r0 a0 s -> Budget r0 a0 (play b target type s).
Proof.
  intros HB. unfold play. case_match.
  { case_match; by eapply Budget_frame. }
  match goal with |- context [stop ?s0] =>
    assert (Budget r0 a0 (stop s0)) as HB1
      by (apply stop_Budget; by eapply Budget_frame);
    generalize dependent (stop s0)
  end.
  intros s1 HB1. unfold _setupEventListeners. simpl.
  eapply Budget_frame; [..|eapply (Budget_add _ _ (Watchdog target) 5000 s1); [done..]];
    done.
Qed.

Lemma play_catch_Budget r0 a0 t e s :
  Budget r0 a0 s -> Budget r0 a0 (play_catch t e s).
Proof.
  intros HB. unfold play_catch.
  assert (Budget r0 a0 (stop (emit (OnError e) (_log ("Error: " +:+ message e) "error" s))))
    by (apply stop_Budget; by eapply Budget_frame).
  repeat case_match; try done; by eapply Budget_frame.
Qed.

Lemma play_started_Budget r0 a0 t r s :
  Budget r0 a0 s -> Budget r0 a0 (play_started t r s).
Proof.
  intros HB. unfold play_started, clearTimer.
  repeat case_match; try done; [by apply play_catch_Budget|].
  eapply Budget_frame;
    [..|apply _startStatsMonitoring_Budget; eapply Budget_frame;
        [..|apply (Budget_alter r0 a0 cancel playTimeout s); done]]; done.
Qed.

Lemma on_error_Budget r0 a0 ty detail s :
  Budget r0 a0 s -> Budget r0 a0 (on_error ty detail s).
Proof.
  intros HB. unfold on_error.
  match goal with |- context [emit (OnError ?e) ?s0] =>
    assert (Budget r0 a0 (emit (OnError e) s0)) as HB0
      by (eapply Budget_frame; [..|exact HB]; by repeat case_match);
    generalize dependent (emit (OnError e) s0)
  end.
  intros s0 [Hb Hm]. case_match; [|done].
  apply andb_prop in H as [_ Hlt]. apply Nat.ltb_lt in Hlt.
  case_match; [destruct p as [h p]; destruct (_config p)|].
  - split; [|simpl; lia].
    rewrite reconnections_add. unfold reconnections in *. simpl. lia.
  - split; simpl; unfold reconnections in *; simpl; lia.
  - split; simpl; unfold reconnections in *; simpl; lia.
Qed.

Lemma video_listener_Budget r0 a0 ev s :
  ev <> playing -> Budget r0 a0 s -> Budget r0 a0 (video_listener ev s).
Proof. intros Hev HB. destruct ev; try done; simpl; by eapply Budget_frame. Qed.

Lemma fire_Budget r0 a0 id s : Budget r0 a0 s -> Budget r0 a0 (fire id s).
Proof.
  intros HB. unfold fire.
  destruct (timers s !! id) as [tm|]; [|done].
  case_match; [|done].
  assert (forall f, (forall tm, kind (f tm) = kind tm) ->
                    Budget r0 a0 (set_timers (alter f id (timers s)) s)) as Halt
    by (intros f Hf; by apply Budget_alter).
  destruct (kind tm); [done|..].
  - unfold watchdog. case_match; [|by apply Halt].
    eapply Budget_frame; [..|by apply (Halt cancel)]; done.
  - unfold reconnect. apply play_Budget, stop_Budget. by apply Halt.
  - unfold stats_tick. repeat case_match; try by apply Halt.
    all: eapply Budget_frame; [..|by apply (Halt (rearm 1000))]; done.
Qed.

Lemma step_Budget r0 a0 s e :
  is_playing e = false -> Budget r0 a0 s -> Budget r0 a0 (step s e).
Proof.
  intros He HB. destruct e; simpl.
  - by apply play_Budget.
  - by apply stop_Budget.
  - by apply play_started_Budget.
  - unfold on_alive. repeat case_match; try done.
    apply on_error_Budget. unfold on_any. simpl. by eapply Budget_frame.
  - unfold on_alive, on_any. repeat case_match; try done; by eapply Budget_frame.
  - unfold on_alive. repeat case_match; try done; by eapply Budget_frame.
  - assert (ev <> playing) as Hev by (by destruct ev).
    induction (listeners (videoElement s)) as [|n IH]; simpl; [done|].
    by apply video_listener_Budget.
  - by eapply Budget_frame.
  - unfold head_settled. repeat case_match; try done; by eapply Budget_frame.
  - by eapply Budget_frame.
  - by apply fire_Budget.
Qed.

Lemma run_Budget r0 a0 events s :
  Forall (fun e => is_playing e = false) events ->
  Budget r0 a0 s -> Budget r0 a0 (run s events).
Proof.
  revert s. induction events as [|e l IH]; intros s Hev HB; simpl; [done|].
  inversion Hev; subst. apply IH; [done|]. by apply step_Budget.
Qed.

Lemma constructor_Budget lib stats options type :
  Budget 0 0 (constructor lib stats options type).
Proof. split; simpl; lia. Qed.

(** The counter never exceeds its maximum. *)
Lemma attempts_le_max s : reachable s -> reconnectAttempts s <= 3.
Proof.
  intros (lib & w & o & ty & events & ->).
  assert (forall s, Inv s -> reconnectAttempts s <= 3 ->
                    reconnectAttempts (run s events) <= 3) as Hgen.
  { induction events as [|e l IH]; intros s HI Hle; simpl; [done|].
    apply IH; [by apply flv_step_inv|].
    destruct (is_playing e) eqn:He.
    - destruct e; try done. destruct ev; try done. simpl.
      destruct (listeners (videoElement s)); simpl; lia.
    - assert (Budget (reconnections s) (reconnectAttempts s) s) as HB.
      { split; [lia|]. rewrite (max_is_three s HI). lia. }
      apply (step_Budget _ _ s e He) in HB as [_ Hm].
      rewrite (max_is_three _ (flv_step_inv s e HI)) in Hm. done. }
  apply Hgen; [apply flv_constructor_inv|simpl; lia].
Qed.

(** Without a "playing" event in between, at most [3 - counter] further
    reconnections are ever scheduled. *)
Lemma reconnections_bounded s events :
  reachable s -> Forall (fun e => is_playing e = false) events ->
  reconnections (run s events) + reconnectAttempts s <= reconnections s + 3.
Proof.
  intros Hr Hev. pose proof (flv_reachable_inv s Hr) as HI.
  assert (Budget (reconnections s) (reconnectAttempts s) s) as HB.
  { split; [lia|]. rewrite (max_is_three s HI). by apply attempts_le_max. }
  apply (run_Budget _ _ events s Hev) in HB as [Hb Hm].
  rewrite (max_is_three _ (flv_run_inv events s HI)) in Hm. lia.
Qed.

Lemma alive_observed s h p :
  Inv s -> players s !! h = Some p -> destroyed p = false ->
  player s = Some h /\ observed p = true.
Proof.
  intros HI Hp Hd. pose proof (alive_is_current s HI h p Hp Hd) as Hcur.
  destruct (current_is_alive s HI h Hcur) as (p' & Hp' & _ & Ho).
  split; [done|]. congruence.
Qed.

(** The ERROR handler on a live player. *)
Lemma error_effect s h p ty detail args :
  Inv s -> players s !! h = Some p -> destroyed p = false ->
  let s' := step s (PlayerError h ty detail args) in
  let e := OnError (Error (ty +:+ ": " +:+ detail)) in
  player s' = player s /\ players s' = players s /\ tasks s' = tasks s /\
  if String.eqb ty NETWORK_ERROR
     && Nat.ltb (reconnectAttempts s) (maxReconnectAttempts s)
  then reconnectAttempts s' = S (reconnectAttempts s) /\
       match _config p with
       | Some c =>
           timers s' = timers s ++ [{| kind := Reconnect (cfg_url c) (cfg_type c);
                                       due := now s + 2000; live := true |}] /\
           trace s' !! 1 = Some e
       | None =>
           timers s' = timers s /\
           trace s' !! 0 = Some (Uncaught (undefined_property "url")) /\
           trace s' !! 2 = Some e
       end
  else reconnectAttempts s' = reconnectAttempts s /\ timers s' = timers s /\
       trace s' !! 0 = Some e.
Proof.
  intros HI Hp Hd. destruct (alive_observed s h p HI Hp Hd) as [Hcur Ho].
  cbv zeta. unfold step, on_alive. rewrite Hp, Hd, Ho.
  change (if false || negb true then s else ?x) with x.
  unfold on_error.
  match goal with |- context [emit (OnError ?e) ?s0] =>
    assert (same_but_trace s (emit (OnError e) s0) /\
            trace (emit (OnError e) s0) !! 0 = Some (OnError e)) as [Hsame Htr]
      by (unfold on_any; simpl; by repeat case_match);
    generalize dependent (emit (OnError e) s0)
  end.
  intros s0 (Hv & Hc & Hpl & Hsi & Hra & Hm & Hps & Htm & Htk & Hn) Htr.
  rewrite Hra, Hm.
  destruct (String.eqb ty NETWORK_ERROR && _); [|by rewrite Hpl, Hps, Htk, Hra, Htm].
  unfold current. simpl. rewrite Hpl, Hcur, Hps, Hp. simpl.
  destruct (_config p) as [c|]; simpl;
    by rewrite ?Hpl, ?Hcur, ?Hps, ?Htk, ?Hra, ?Htm, ?Hn.
Qed.

(** The reconnection timer does nothing before it is due; once due it
    stops the session and calls play() with the URL and type it was given. *)
Lemma reconnect_fires s id target type d :
  timers s !! id = Some {| kind := Reconnect target type; due := d; live := true |} ->
  (now s < d -> step s (TimerFire id) = s) /\
  (d <= now s ->
   step s (TimerFire id) =
   play true (default "" target) type
     (stop (set_timers (alter cancel id (timers s)) s))).
Proof.
  intros Hid. unfold step, fire. rewrite Hid. simpl. split; intros Hd.
  - by rewrite (proj2 (Nat.leb_gt _ _) Hd).
  - by rewrite (proj2 (Nat.leb_le _ _) Hd).
Qed.

(** An error of a player that is gone reaches no handler. *)
Lemma error_ignored s h ty detail args :
  (forall p, players s !! h = Some p -> destroyed p = true) ->
  step s (PlayerError h ty detail args) = s.
Proof.
  intros Hgone. unfold step, on_alive.
  destruct (players s !! h) as [p|] eqn:Hp; [|done]. by rewrite (Hgone p).
Qed.

(** "playing" resets the counter once play() has installed its listeners. *)
Lemma playing_resets s :
  0 < listeners (videoElement s) ->
  let s' := step s (VideoEvent playing) in
  reconnectAttempts s' = 0 /\ player s' = player s /\ players s' = players s /\
  timers s' = timers s /\ maxReconnectAttempts s' = maxReconnectAttempts s.
Proof.
  intros Hl. simpl. destruct (listeners (videoElement s)) as [|n]; [lia|].
  simpl. split; [done|]. clear Hl. induction n as [|n IH]; simpl; [done|]. apply IH.
Qed.

Lemma flv_reachable_step s e : reachable s -> reachable (step s e).
Proof.
  intros (lib & w & o & ty & events & ->). exists lib, w, o, ty, (events ++ [e]).
  unfold run. by rewrite fold_left_app.
Qed.
End StreamFacts.


(* ===================================================================== *)
(** ** More facts about the real-time session *)
(* ===================================================================== *)

Section CountFacts.
Context {A : Type} (P : A -> Prop) `{!forall x, Decision (P x)}.

(** Changing one element changes the number of elements with [P] by what
    that element contributes. *)
Lemma filter_alter_count (f : A -> A) i (l : list A) x :
  l !! i = Some x ->
  length (filter P (alter f i l)) + (if decide (P x) then 1 else 0)
  = length (filter P l) + (if decide (P (f x)) then 1 else 0).
Proof.
  revert i. induction l as [|a l IH]; intros i Hi; [done|].
  destruct i as [|i]; simpl in *.
  - simplify_eq. rewrite !filter_cons. repeat case_decide; simpl; lia.
  - specialize (IH i Hi). rewrite !filter_cons.
    destruct (decide (P a)); simpl; [f_equal|]; exact IH.
Qed.

Lemma alter_missing (f : A -> A) i (l : list A) : l !! i = None -> alter f i l = l.
Proof.
  revert i. induction l as [|a l IH]; intros i Hi; [done|].
  destruct i as [|i]; [done|]. simpl in *. f_equal. by apply IH.
Qed.

End CountFacts.

Module WebRTCMore.
Import ZLMWebRTCPlayer WebRTCFacts.

(** Log lines and stopped tracks carry no callback, request or exception. *)
Lemma quiet_no_error pre :
  Forall quiet pre ->
  omap (fun o => match o with OnError e => Some e | _ => None end) pre = [].
Proof. induction 1 as [|o l Ho _ IH]; [done|]. destruct o; try done; simpl; by rewrite IH. Qed.

Lemma rejected_reports_once t e s s' :
  rejected t e s s' -> errors_reported s' = e :: errors_reported s.
Proof.
  intros (_ & _ & _ & _ & pre & post & Htr & Hpre & Hpost).
  unfold errors_reported. rewrite Htr, omap_app. simpl. rewrite omap_app.
  by rewrite (quiet_no_error pre Hpre), (quiet_no_error post Hpost).
Qed.

(** A promise of call [t] that fails while the call awaits it. *)
Lemma offer_fails t e s :
  Inv s -> phase_of t s = Some AwaitOffer ->
  rejected t e s (step s (OfferSettled t (inl e))).
Proof.
  intros HI Hph. destruct (phase_of_Some _ _ _ Hph) as (k & Hk & _).
  simpl. unfold play_offer. rewrite Hph.
  by apply (play_catch_rejected t e s s k []).
Qed.

Lemma local_description_fails t h sdp e s :
  Inv s -> phase_of t s = Some (AwaitSetLocal h sdp) ->
  rejected t e s (step s (LocalDescriptionSettled t (Some e))).
Proof.
  intros HI Hph. destruct (phase_of_Some _ _ _ Hph) as (k & Hk & _).
  simpl. unfold play_local. rewrite Hph.
  by apply (play_catch_rejected t e s s k []).
Qed.

Lemma fetch_fails t rq e s :
  Inv s -> phase_of t s = Some (AwaitFetch rq) ->
  rejected t e s (step s (FetchSettled t (inl e))).
Proof.
  intros HI Hph. destruct (phase_of_Some _ _ _ Hph) as (k & Hk & _).
  simpl. unfold _connectToZLM_response. rewrite Hph.
  by apply (_connectToZLM_catch_rejected t e s s k []).
Qed.

Lemma remote_description_fails t h sdp e s :
  Inv s -> phase_of t s = Some (AwaitSetRemote h sdp) ->
  rejected t e s (step s (RemoteDescriptionSettled t (Some e))).
Proof.
  intros HI Hph. destruct (phase_of_Some _ _ _ Hph) as (k & Hk & _).
  simpl. unfold _connectToZLM_remote. rewrite Hph.
  by apply (_connectToZLM_catch_rejected t e s s k []).
Qed.

(** play() on a URL adds one call and leaves the others as they are. *)
Lemma play_tasks target s :
  target <> "" ->
  tasks (play target s) = tasks s ++ [{| url := target; phase := AwaitOffer |}].
Proof.
  intros Hne. unfold play. rewrite (proj2 (String.eqb_neq _ _) Hne). simpl.
  by rewrite rtc_stop_tasks.
Qed.

Lemma phase_of_play_old target t p s :
  target <> "" -> phase_of t s = Some p -> phase_of t (play target s) = Some p.
Proof.
  intros Hne Hph. unfold phase_of in *. rewrite (play_tasks _ _ Hne).
  destruct (tasks s !! t) as [k|] eqn:Hk; [|done].
  by rewrite (lookup_app_l_Some _ _ _ _ Hk).
Qed.

Lemma phase_of_play_new target s :
  target <> "" -> phase_of (length (tasks s)) (play target s) = Some AwaitOffer.
Proof.
  intros Hne. unfold phase_of. rewrite (play_tasks _ _ Hne).
  by rewrite list_lookup_middle.
Qed.

(** The [catch] block of one call leaves the other calls where they are. *)
Lemma phase_of_play_catch_other t t' e s :
  t <> t' -> phase_of t' (play_catch t e s) = phase_of t' s.
Proof.
  intros Hne. unfold play_catch, phase_of, set_phase. simpl.
  rewrite list_lookup_alter_ne by done. by rewrite rtc_stop_tasks.
Qed.

(** A call whose createOffer settles when the session holds no connection
    fails on the null [this.peerConnection]. *)
Lemma offer_without_connection t sdp s :
  Inv s -> phase_of t s = Some AwaitOffer -> peerConnection s = None ->
  rejected t (null_property "setLocalDescription") s (step s (OfferSettled t (inr sdp))).
Proof.
  intros HI Hph Hp. destruct (phase_of_Some _ _ _ Hph) as (k & Hk & _).
  simpl. unfold play_offer. rewrite Hph, Hp.
  by apply (play_catch_rejected t _ s s k []).
Qed.

(** A call superseded by a later play() and failing afterwards takes the
    connection of the later call down with it. *)
Lemma superseded_failure t target e sdp s :
  Inv s -> phase_of t s = Some AwaitOffer -> target <> "" ->
  let t' := length (tasks s) in
  let s1 := step s (CallPlay target) in
  let s2 := step s1 (OfferSettled t (inl e)) in
  let s3 := step s2 (OfferSettled t' (inr sdp)) in
  peerConnection s1 = Some (length (connections s)) /\
  rejected t e s1 s2 /\
  phase_of t' s2 = Some AwaitOffer /\
  rejected t' (null_property "setLocalDescription") s2 s3.
Proof.
  intros HI Hph Hne t' s1 s2 s3.
  assert (Inv s1) as HI1 by (by apply rtc_step_inv).
  assert (phase_of t s1 = Some AwaitOffer) as Hph1 by (by apply phase_of_play_old).
  assert (phase_of t' s1 = Some AwaitOffer) as Hph1' by (by apply phase_of_play_new).
  assert (peerConnection s1 = Some (length (connections s))) as Hp1
    by (by apply rtc_play_fresh).
  assert (t <> t') as Htt.
  { destruct (phase_of_Some _ _ _ Hph) as (k & Hk & _).
    apply lookup_lt_Some in Hk. unfold t'. lia. }
  clearbody s1.
  assert (Inv s2) as HI2 by (by apply rtc_step_inv).
  assert (rejected t e s1 s2) as Hrej by (by apply offer_fails).
  assert (phase_of t' s2 = Some AwaitOffer) as Hph2.
  { unfold s2. simpl. unfold play_offer. rewrite Hph1.
    by rewrite phase_of_play_catch_other. }
  clearbody s2. split_and!; try done.
  apply offer_without_connection; try done. by destruct Hrej as (_ & ? & _).
Qed.

(** *** The handler of the ICE connection state *)

Lemma ice_state_step s h pc st :
  Inv s -> connections s !! h = Some pc -> closed pc = false ->
  step s (IceConnectionStateChange h st) =
  let s1 := _log ("ICE Connection State: " +:+ ice_state_name st) "info"
              (update_connection h (pc_set_ice st) s) in
  match st with
  | Connected => emit OnConnected (_startStatsMonitoring s1)
  | Disconnected | Failed | Closed => emit OnDisconnected s1
  | _ => s1
  end.
Proof.
  intros HI Hpc Hc. simpl. unfold on_open. rewrite Hpc, Hc.
  pose proof (open_is_current s HI h pc Hpc Hc) as Hcur.
  unfold oniceconnectionstatechange, current. simpl.
  rewrite Hcur, list_lookup_alter_eq, Hpc. done.
Qed.


(** *** Tracks *)

Lemma tracks_obs_stopped tracks acc :
  omap (fun o => match o with TrackStopped track => Some track | _ => None end)
       (tracks_obs tracks acc)
  = rev tracks ++
    omap (fun o => match o with TrackStopped track => Some track | _ => None end) acc.
Proof.
  revert acc. induction tracks as [|a l IH]; intros acc; [done|].
  unfold tracks_obs in *. simpl. rewrite IH. simpl. by rewrite <- app_assoc.
Qed.

(** stop() stops the tracks of the attached stream, each once, in order. *)
Lemma stop_stopped_tracks s :
  stopped_tracks (stop s) = rev (default [] (srcObject s)) ++ stopped_tracks s.
Proof.
  unfold stopped_tracks.
  rtc_stop_cases; rewrite ?tracks_obs_stopped; simpl;
    repeat match goal with H : srcObject _ = _ |- _ => rewrite H end; done.
Qed.

Lemma ontrack_step s h pc streams :
  connections s !! h = Some pc -> closed pc = false ->
  step s (TrackEvent h streams) = ontrack streams s.
Proof. intros Hpc Hc. simpl. unfold on_open. by rewrite Hpc, Hc. Qed.

(** *** Stats samples *)

Lemma stats_report_eq s r :
  stats_report s r =
  if inbound_video r then
    emit (OnStats (stats_data r))
         (match statsContainer s with
          | Some _ => set_statsContainer (Some (stats_html r)) s
          | None => s
          end)
  else s.
Proof. unfold stats_report, inbound_video. by case_match. Qed.

Lemma stats_fold_filter reports s :
  fold_left stats_report (filter (fun r => inbound_video r = true) reports) s
  = fold_left stats_report reports s.
Proof.
  revert s. induction reports as [|r l IH]; intros s; [done|].
  rewrite filter_cons. simpl. case_decide as Hr.
  - simpl. apply IH.
  - rewrite IH. f_equal. rewrite stats_report_eq. by destruct (inbound_video r).
Qed.

Lemma stats_fold_reported reports s :
  stats_reported (fold_left stats_report reports s)
  = rev (stats_data <$> filter (fun r => inbound_video r = true) reports)
    ++ stats_reported s.
Proof.
  revert s. induction reports as [|r l IH]; intros s; [done|].
  rewrite filter_cons. simpl. rewrite IH, stats_report_eq. case_decide as Hr.
  - rewrite Hr. simpl. rewrite <- app_assoc. f_equal. unfold stats_reported. simpl.
    by destruct (statsContainer s).
  - by destruct (inbound_video r).
Qed.

Lemma stats_report_frame s r :
  let s' := stats_report s r in
  peerConnection s' = peerConnection s /\ connections s' = connections s /\
  timers s' = timers s /\ tasks s' = tasks s /\ statsInterval s' = statsInterval s /\
  statsReads s' = statsReads s /\ srcObject s' = srcObject s /\ stream s' = stream s /\
  now s' = now s.
Proof.
  simpl. rewrite stats_report_eq.
  destruct (inbound_video r); [|done]. by destruct (statsContainer s).
Qed.

Lemma stats_fold_container reports s :
  statsContainer (fold_left stats_report reports s)
  = match statsContainer s with
    | Some c =>
        Some (default c (stats_html <$>
                           last (filter (fun r => inbound_video r = true) reports)))
    | None => None
    end.
Proof.
  revert s. induction reports as [|r l IH]; intros s.
  { simpl. by destruct (statsContainer s). }
  rewrite filter_cons. simpl. rewrite IH, stats_report_eq. case_decide as Hr.
  - rewrite Hr. destruct (statsContainer s) as [c|] eqn:Hc; simpl; [|by rewrite Hc].
    f_equal. rewrite last_cons.
    by destruct (last (filter (fun r => inbound_video r = true) l)).
  - by destruct (inbound_video r).
Qed.

Lemma stop_statsReads s : statsReads (stop s) = statsReads s.
Proof. rtc_stop_cases; congruence. Qed.

Lemma stop_stats_reported s : stats_reported (stop s) = stats_reported s.
Proof.
  unfold stats_reported. destruct (stop_trace s) as (pre & -> & Hq).
  rewrite omap_app.
  assert (omap (fun o => match o with OnStats d => Some d | _ => None end) pre = []) as ->;
    [|done].
  clear -Hq. induction Hq as [|o l Ho _ IH]; [done|]. destruct o; try done; simpl; by rewrite IH.
Qed.


Lemma stats_fold_frame reports s :
  peerConnection (fold_left stats_report reports s) = peerConnection s /\
  connections (fold_left stats_report reports s) = connections s.
Proof.
  revert s. induction reports as [|r l IH]; intros s; [done|]. simpl.
  destruct (IH (stats_report s r)) as [-> ->].
  by destruct (stats_report_frame s r) as (-> & -> & _).
Qed.

(** A stats sample that arrives while one is awaited. *)
Lemma stats_ready_effect reports s :
  statsReads s <> 0 ->
  let s' := stats_ready reports s in
  let video := filter (fun r => inbound_video r = true) reports in
  stats_reported s' = rev (stats_data <$> video) ++ stats_reported s /\
  s' = stats_ready video s /\
  statsContainer s'
    = match statsContainer s with
      | Some c => Some (default c (stats_html <$> last video))
      | None => None
      end /\
  peerConnection s' = peerConnection s /\ connections s' = connections s.
Proof.
  intros Hn. simpl. unfold stats_ready. destruct (statsReads s) as [|n]; [done|].
  split_and!.
  - by rewrite stats_fold_reported.
  - by rewrite stats_fold_filter.
  - by rewrite stats_fold_container.
  - by destruct (stats_fold_frame reports (set_statsReads n s)) as [-> _].
  - by destruct (stats_fold_frame reports (set_statsReads n s)) as [_ ->].
Qed.

(** *** Requests and calls *)

Lemma phase_of_lookup t s p k :
  phase_of t s = Some p -> tasks s !! t = Some k -> phase k = p.
Proof. unfold phase_of. intros Hph Hk. rewrite Hk in Hph. by simplify_eq/=. Qed.

Lemma posts_refl s : posts_le s s.
Proof. unfold posts_le. lia. Qed.

Lemma posts_trans s1 s2 s3 : posts_le s1 s2 -> posts_le s2 s3 -> posts_le s1 s3.
Proof. unfold posts_le. lia. Qed.

Lemma posts_frame s s' :
  tasks s' = tasks s -> requests_sent s' = requests_sent s -> posts_le s s'.
Proof. unfold posts_le, past_calls. intros -> ->. lia. Qed.

Lemma posts_set_phase t p s :
  (forall k, tasks s !! t = Some k -> past_wait (phase k) = true -> past_wait p = true) ->
  posts_le s (set_phase t p s).
Proof.
  intros Hp. unfold posts_le, past_calls, set_phase. simpl.
  change (requests_sent (set_tasks ?v s)) with (requests_sent s).
  destruct (tasks s !! t) as [k|] eqn:Hk.
  - pose proof (filter_alter_count (fun k => past_wait (phase k) = true)
                  (fun k => {| url := url k; phase := p |}) t (tasks s) k Hk) as Hc.
    simpl in Hc. specialize (Hp k eq_refl).
    repeat case_decide; try lia. by destruct Hp.
  - rewrite alter_missing by done. lia.
Qed.

Lemma posts_stop s : posts_le s (stop s).
Proof.
  apply posts_frame; [apply rtc_stop_tasks|].
  unfold requests_sent. destruct (stop_trace s) as (pre & -> & Hq).
  rewrite omap_app.
  assert (omap (fun o => match o with Fetch rq => Some rq | _ => None end) pre = []) as ->;
    [|done].
  clear -Hq. induction Hq as [|o l Ho _ IH]; [done|]. destruct o; try done; simpl; by rewrite IH.
Qed.

Lemma posts_play_catch t e s : posts_le s (play_catch t e s).
Proof.
  unfold play_catch.
  eapply posts_trans; [|by apply posts_set_phase].
  eapply posts_trans; [|apply posts_stop]. by apply posts_frame.
Qed.

Lemma posts__connectToZLM_catch t e s : posts_le s (_connectToZLM_catch t e s).
Proof.
  unfold _connectToZLM_catch.
  eapply posts_trans; [|apply posts_play_catch]. by apply posts_frame.
Qed.

(** The one place where a request is sent: the call moves past its wait. *)
Lemma posts__connectToZLM_send t s :
  (forall k, tasks s !! t = Some k -> past_wait (phase k) = false) ->
  posts_le s (_connectToZLM_send t s).
Proof.
  intros Hp. unfold _connectToZLM_send.
  destruct (tasks s !! t) as [k|] eqn:Hk; [|apply posts_refl].
  destruct (current s) as [[h pc]|]; [|apply posts__connectToZLM_catch].
  destruct (localDescription pc) as [sdp|]; [|apply posts__connectToZLM_catch].
  specialize (Hp k eq_refl).
  pose proof (filter_alter_count (fun k => past_wait (phase k) = true)
                (fun k0 => {| url := url k0;
                              phase := AwaitFetch (signaling_request (url k) sdp (origin s)) |})
                t (tasks s) k Hk) as Hc.
  rewrite decide_False in Hc by congruence. rewrite decide_True in Hc by done.
  unfold posts_le.
  match goal with |- context [set_phase t ?p ?s0] =>
    assert (length (requests_sent (set_phase t p s0)) = S (length (requests_sent s)))
      as -> by reflexivity;
    assert (length (past_calls (set_phase t p s0)) = S (length (past_calls s))) as ->
      by (rewrite Nat.add_0_r, Nat.add_1_r in Hc; exact Hc)
  end.
  lia.
Qed.

Lemma posts_resolve_wait t s : posts_le s (resolve_wait t s).
Proof.
  unfold resolve_wait. destruct (phase_of t s) as [p|] eqn:Hph; [|apply posts_refl].
  destruct p; try apply posts_refl.
  apply posts__connectToZLM_send. intros k Hk.
  by rewrite (phase_of_lookup _ _ _ _ Hph Hk).
Qed.

Lemma posts_removeEventListener h t s : posts_le s (removeEventListener h t s).
Proof. by apply posts_frame. Qed.

Lemma posts_checkState t s : posts_le s (checkState t s).
Proof.
  unfold checkState. destruct (current s) as [[h pc]|]; [|by apply posts_frame].
  case_match; [|apply posts_refl].
  eapply posts_trans; [apply (posts_removeEventListener h t)|apply posts_resolve_wait].
Qed.

Lemma posts_dispatch l s : posts_le s (fold_left (fun s t => checkState t s) l s).
Proof.
  revert s. induction l as [|t l IH]; intros s; simpl; [apply posts_refl|].
  eapply posts_trans; [apply (posts_checkState t)|apply IH].
Qed.

Lemma posts_ice_timeout t s : posts_le s (ice_timeout t s).
Proof.
  unfold ice_timeout. destruct (current s) as [[h pc]|]; [|by apply posts_frame].
  case_match; [apply posts_refl|].
  eapply posts_trans; [|apply posts_resolve_wait]. by apply posts_frame.
Qed.

Lemma posts__connectToZLM t s :
  (forall k, tasks s !! t = Some k -> past_wait (phase k) = false) ->
  posts_le s (_connectToZLM t s).
Proof.
  intros Hp. unfold _connectToZLM.
  destruct (tasks s !! t) as [k|] eqn:Hk; [|apply posts_refl].
  set (s0 := _log ("Connecting to ZLMediaKit server: " +:+ url k) "info" s).
  assert (posts_le s s0) as H0 by (by apply posts_frame).
  assert (forall k, tasks s0 !! t = Some k -> past_wait (phase k) = false) as Hp0
    by (intros k0 Hk0; apply Hp; by rewrite <- Hk0).
  clearbody s0. unfold _waitForIceGathering.
  destruct (current s0) as [[h pc]|];
    [|eapply posts_trans; [exact H0|apply posts__connectToZLM_catch]].
  destruct (is_complete (iceGatheringState pc)).
  - eapply posts_trans; [exact H0|by apply posts__connectToZLM_send].
  - simpl. eapply posts_trans; [exact H0|].
    eapply posts_trans; [|apply posts_set_phase]; [by apply posts_frame|].
    simpl. intros k0 Hk0 Hpast. rewrite (Hp0 k0 Hk0) in Hpast. done.
Qed.

Lemma posts_play target s : posts_le s (play target s).
Proof.
  unfold play. case_match.
  - unfold posts_le, past_calls. simpl. rewrite filter_app, length_app.
    change (requests_sent (set_tasks ?v s)) with (requests_sent s). lia.
  - match goal with |- context [stop ?s0] =>
      assert (posts_le s (stop s0)) as H1
        by (eapply posts_trans; [|apply posts_stop]; by apply posts_frame);
      generalize dependent (stop s0)
    end.
    intros s1 H1. eapply posts_trans; [exact H1|].
    unfold posts_le, past_calls. simpl. rewrite filter_app, length_app.
    unfold requests_sent. simpl. lia.
Qed.

Lemma posts_stats_ready reports s : posts_le s (stats_ready reports s).
Proof.
  unfold stats_ready. destruct (statsReads s) as [|n]; [apply posts_refl|].
  eapply posts_trans; [apply (posts_frame s (set_statsReads n s)); done|].
  generalize (set_statsReads n s). clear s. intros s.
  revert s. induction reports as [|r l IH]; intros s; simpl; [apply posts_refl|].
  eapply posts_trans; [|apply IH].
  rewrite stats_report_eq. destruct (inbound_video r); [|apply posts_refl].
  destruct (statsContainer s); by apply posts_frame.
Qed.

Lemma posts_fire id s : posts_le s (fire id s).
Proof.
  unfold fire. destruct (timers s !! id) as [tm|]; [|apply posts_refl].
  case_match; [|apply posts_refl].
  destruct (kind tm); [apply posts_refl| |].
  - eapply posts_trans; [|apply posts_ice_timeout]. by apply posts_frame.
  - unfold stats_tick. simpl. destruct (peerConnection s); by apply posts_frame.
Qed.

Lemma posts_step s e : posts_le s (step s e).
Proof.
  destruct e; simpl.
  - apply posts_play.
  - apply posts_stop.
  - unfold play_offer. destruct (phase_of t s) as [[]|] eqn:Hph; try apply posts_refl.
    destruct r; [apply posts_play_catch|].
    destruct (peerConnection s); [|apply posts_play_catch].
    apply posts_set_phase. intros k Hk. by rewrite (phase_of_lookup _ _ _ _ Hph Hk).
  - unfold play_local. destruct (phase_of t s) as [[]|] eqn:Hph; try apply posts_refl.
    destruct r; [apply posts_play_catch|].
    eapply posts_trans; [|apply posts__connectToZLM]; [by apply posts_frame|].
    simpl. intros k Hk. by rewrite (phase_of_lookup _ _ _ _ Hph Hk).
  - unfold _connectToZLM_response.
    destruct (phase_of t s) as [[]|] eqn:Hph; try apply posts_refl.
    destruct r; [apply posts__connectToZLM_catch|].
    case_match; [apply posts__connectToZLM_catch|]. by apply posts_set_phase.
  - unfold _connectToZLM_json.
    destruct (phase_of t s) as [[]|] eqn:Hph; try apply posts_refl.
    destruct (body rs); [apply posts__connectToZLM_catch|].
    destruct (read_answer j);
      [eapply posts_trans; [|apply posts__connectToZLM_catch]; by apply posts_frame|].
    simpl. destruct (peerConnection s);
      [|eapply posts_trans; [|apply posts__connectToZLM_catch]; by apply posts_frame].
    eapply posts_trans; [|by apply posts_set_phase]. by apply posts_frame.
  - unfold _connectToZLM_remote.
    destruct (phase_of t s) as [[]|] eqn:Hph; try apply posts_refl.
    destruct r; [apply posts__connectToZLM_catch|].
    eapply posts_trans; [|by apply posts_set_phase]. by apply posts_frame.
  - unfold on_open. destruct (connections s !! h) as [pc|]; [|apply posts_refl].
    case_match; [apply posts_refl|].
    eapply posts_trans; [|apply posts_dispatch]. by apply posts_frame.
  - unfold on_open. destruct (connections s !! h) as [pc|]; [|apply posts_refl].
    case_match; [apply posts_refl|].
    unfold oniceconnectionstatechange.
    match goal with |- context [current ?s0] => destruct (current s0) as [[h' pc']|] end;
      [|by apply posts_frame].
    destruct (iceConnectionState pc'); unfold _startStatsMonitoring, add_timer;
      repeat case_match; by apply posts_frame.
  - unfold on_open. destruct (connections s !! h) as [pc|]; [|apply posts_refl].
    case_match; [apply posts_refl|].
    unfold onconnectionstatechange.
    match goal with |- context [current ?s0] => destruct (current s0) as [[h' pc']|] end;
      by apply posts_frame.
  - unfold on_open. destruct (connections s !! h) as [pc|]; [|apply posts_refl].
    case_match; [apply posts_refl|].
    destruct candidate; by apply posts_frame.
  - unfold on_open. destruct (connections s !! h) as [pc|]; [|apply posts_refl].
    case_match; [apply posts_refl|]. by apply posts_frame.
  - apply posts_stats_ready.
  - by apply posts_frame.
  - apply posts_fire.
Qed.

Lemma posts_run events s : posts_le s (run s events).
Proof.
  revert s. induction events as [|e l IH]; intros s; simpl; [apply posts_refl|].
  eapply posts_trans; [apply posts_step|apply IH].
Qed.

End WebRTCMore.

(* ===================================================================== *)
(** ** More facts about the progressive session *)
(* ===================================================================== *)

Module StreamMore.
Import ZLMStreamPlayer StreamFacts.

(** *** What the session keeps of what it registered *)

Lemma Kept_timers s s' :
  listeners (videoElement s') = listeners (videoElement s) ->
  length (players s') = length (players s) ->
  statsInterval s' = statsInterval s -> tasks s' = tasks s ->
  (forall id tm, timers s !! id = Some tm ->
     exists tm', timers s' !! id = Some tm' /\ kind tm' = kind tm /\
                 (kind tm = StatsTimer -> live tm' = live tm)) ->
  Kept s -> Kept s'.
Proof.
  intros Hl Hp Hsi Htk Htm [K1 K2 K3]. split.
  - congruence.
  - rewrite Hsi. intros id Hid. destruct (K2 id Hid) as (tm & Hlk & Hk & Hlive).
    destruct (Htm id tm Hlk) as (tm' & Hlk' & Hk' & Hlive').
    exists tm'. split_and!; [done|congruence|]. rewrite Hlive'; done.
  - rewrite Htk. intros t k id Hk Hph.
    destruct (K3 t k id Hk Hph) as (tm & target & Hlk & Hkd).
    destruct (Htm id tm Hlk) as (tm' & Hlk' & Hk' & _).
    exists tm', target. split; congruence.
Qed.

Lemma Kept_frame s s' :
  listeners (videoElement s') = listeners (videoElement s) ->
  length (players s') = length (players s) ->
  statsInterval s' = statsInterval s -> timers s' = timers s -> tasks s' = tasks s ->
  Kept s -> Kept s'.
Proof.
  intros Hl Hp Hsi Htm Htk. apply Kept_timers; try done.
  intros id tm Hid. exists tm. by rewrite Htm.
Qed.

Lemma kept_update_player h f s : Kept s -> Kept (update_player h f s).
Proof. apply Kept_frame; try done. simpl. by rewrite length_alter. Qed.

Lemma kept_add_timer k d s : Kept s -> Kept (add_timer k d s).2.
Proof.
  apply Kept_timers; try done. simpl. intros id tm Hid.
  exists tm. by rewrite (lookup_app_l_Some _ _ _ _ Hid).
Qed.

Lemma kept_alter_timer f id s :
  (forall tm, kind (f tm) = kind tm) ->
  (forall tm, timers s !! id = Some tm -> kind tm = StatsTimer -> live (f tm) = live tm) ->
  Kept s -> Kept (set_timers (alter f id (timers s)) s).
Proof.
  intros Hk Hlive. apply Kept_timers; try done. simpl. intros i tm Hi.
  rewrite list_lookup_alter. case_decide as Hc.
  - subst. rewrite Hi. simpl. exists (f tm). split_and!; [done|apply Hk|by apply Hlive].
  - by exists tm.
Qed.

Lemma kept_set_phase t p s :
  (forall id, p = AwaitVideoPlay id ->
     exists tm target, timers s !! id = Some tm /\ kind tm = Watchdog target) ->
  Kept s -> Kept (set_phase t p s).
Proof.
  intros Hp [K1 K2 K3]. split; [done..|].
  unfold set_phase. simpl. intros t' k id Hk Hph.
  rewrite list_lookup_alter in Hk. case_decide as Hc.
  - subst. destruct (tasks s !! t') as [k0|] eqn:Hk0; simplify_eq/=. by apply Hp.
  - by apply (K3 t' k id).
Qed.

Lemma kept_stop s : Inv s -> Kept s -> Kept (stop s).
Proof.
  intros HI [K1 K2 K3]. split.
  - by rewrite stop_listeners, stop_length_players.
  - rewrite (flv_stop_statsInterval_inv s HI). done.
  - rewrite flv_stop_tasks, flv_stop_timers. intros t k id Hk Hph.
    destruct (K3 t k id Hk Hph) as (tm & target & Hlk & Hkd).
    destruct (timer_set (statsInterval s)); [|by eauto].
    destruct (statsInterval s) as [i|]; [|by eauto].
    rewrite list_lookup_alter. case_decide; [|by eauto].
    subst. rewrite Hlk. simpl. by exists (cancel tm), target.
Qed.

Lemma kept__startStatsMonitoring s : Inv s -> Kept s -> Kept (_startStatsMonitoring s).
Proof.
  intros HI HK. unfold _startStatsMonitoring.
  destruct (timer_set (statsInterval s)) eqn:Hset; [done|].
  destruct HK as [K1 K2 K3]. simpl. split; simpl; [done| |].
  - intros id [= <-]. rewrite list_lookup_middle by done. eauto.
  - intros t k id Hk Hph. destruct (K3 t k id Hk Hph) as (tm & target & Hlk & Hkd).
    exists tm, target. by rewrite (lookup_app_l_Some _ _ _ _ Hlk).
Qed.

Lemma kept_play b target type s : Inv s -> Kept s -> Kept (play b target type s).
Proof.
  intros HI HK. unfold play. case_match.
  { assert (Kept (set_tasks
                    (tasks s ++ [{| reconnecting := b; streamTypeOf := "";
                                    phase := Done (Rejected (Error "Stream URL is required")) |}])
                    s)) as HK'.
    { destruct HK as [K1 K2 K3]. split; [done..|]. simpl. intros t k id Hk Hph.
      apply lookup_app_Some in Hk as [Hk|[_ Hk]]; [by apply (K3 t k id)|].
      apply list_lookup_singleton_Some in Hk as [_ <-]. done. }
    case_match; [|done]. revert HK'. by apply Kept_frame. }
  match goal with |- context [stop ?s0] => set (s1 := stop s0) end.
  assert (Kept s1) as HK1.
  { unfold s1. apply kept_stop; [by apply flv_log_inv|]. revert HK. by apply Kept_frame. }
  assert (statsInterval s1 = None) as Hsi1
    by (unfold s1; apply flv_stop_statsInterval_inv; by apply flv_log_inv).
  clearbody s1. destruct HK1 as [K1 K2 K3].
  unfold _setupEventListeners, add_timer. simpl.
  split; simpl.
  - rewrite !length_alter, length_app. simpl. lia.
  - by rewrite Hsi1.
  - intros t k id Hk Hph. apply lookup_app_Some in Hk as [Hk|[_ Hk]].
    + destruct (K3 t k id Hk Hph) as (tm & tg & Hlk & Hkd).
      exists tm, tg. by rewrite (lookup_app_l_Some _ _ _ _ Hlk).
    + apply list_lookup_singleton_Some in Hk as [_ <-]. simpl in Hph. simplify_eq.
      rewrite list_lookup_middle by done. eauto.
Qed.

Lemma kept_play_catch t e s : Inv s -> Kept s -> Kept (play_catch t e s).
Proof.
  intros HI HK. unfold play_catch. destruct (tasks s !! t) as [k|]; [|done].
  match goal with |- context [stop ?s0] =>
    assert (Kept (stop s0)) as HK1
      by (apply kept_stop; [by apply flv_emit_inv, flv_log_inv|];
          revert HK; by apply Kept_frame);
    generalize dependent (stop s0)
  end.
  intros s1 HK1.
  assert (Kept (set_phase t (Done (Rejected e)) s1)) as HK2 by (by apply kept_set_phase).
  case_match; [|done]. revert HK2. by apply Kept_frame.
Qed.

Lemma kept_play_started t r s : Inv s -> Kept s -> Kept (play_started t r s).
Proof.
  intros HI HK. unfold play_started.
  destruct (tasks s !! t) as [k|] eqn:Hk; [|done].
  destruct (phase k) as [playTimeout|] eqn:Hph; [|done].
  destruct r as [e|]; [by apply kept_play_catch|].
  destruct (watchdog_there s HK t k playTimeout Hk Hph) as (tm & target & Hlk & Hkd).
  unfold clearTimer.
  set (s1 := set_timers (alter cancel playTimeout (timers s)) s).
  assert (Kept s1) as HK1.
  { apply kept_alter_timer; [done| |done]. intros tm' Hlk' Hk'. congruence. }
  assert (Inv s1) as HI1 by (by apply flv_alter_timer_inv).
  clearbody s1.
  apply kept_set_phase; [done|].
  match goal with |- Kept (emit _ (_startStatsMonitoring ?s0)) =>
    assert (Kept (_startStatsMonitoring s0)) as HK2
      by (apply kept__startStatsMonitoring; [by apply flv_log_inv|];
          revert HK1; by apply Kept_frame);
    generalize dependent (_startStatsMonitoring s0)
  end.
  intros s2 HK2. revert HK2. by apply Kept_frame.
Qed.

Lemma kept_on_error ty detail s : Kept s -> Kept (on_error ty detail s).
Proof.
  intros HK. unfold on_error.
  match goal with |- context [emit (OnError ?e) ?s0] =>
    assert (Kept (emit (OnError e) s0)) as HK0
      by (revert HK; apply Kept_frame; by repeat case_match);
    generalize dependent (emit (OnError e) s0)
  end.
  intros s0 HK0. case_match; [|done].
  match goal with |- context [current ?s1] =>
    assert (Kept s1) as HK1 by (revert HK0; by apply Kept_frame);
    generalize dependent s1
  end.
  intros s1 HK1. destruct (current s1) as [[h p]|].
  - destruct (_config p) as [c|]; [by apply kept_add_timer|].
    revert HK1. by apply Kept_frame.
  - revert HK1. by apply Kept_frame.
Qed.

Lemma kept_video_listeners n ev s : Kept s -> Kept (Nat.iter n (video_listener ev) s).
Proof.
  intros HK. induction n as [|n IH]; simpl; [done|].
  revert IH. apply Kept_frame; by destruct ev.
Qed.

Lemma kept_fire id s : Inv s -> Kept s -> Kept (fire id s).
Proof.
  intros HI HK. unfold fire.
  destruct (timers s !! id) as [tm|] eqn:Hid; [|done].
  case_match; [|done].
  destruct (kind tm) eqn:Hkd; [done|..].
  - assert (Kept (set_timers (alter cancel id (timers s)) s)) as HK1
      by (apply kept_alter_timer; [done| |done]; intros; congruence).
    unfold watchdog. case_match; [|done]. revert HK1. by apply Kept_frame.
  - assert (Kept (set_timers (alter cancel id (timers s)) s)) as HK1
      by (apply kept_alter_timer; [done| |done]; intros; congruence).
    unfold reconnect.
    assert (Inv (set_timers (alter cancel id (timers s)) s)) as HI1
      by (by apply flv_alter_timer_inv).
    apply kept_play; [by apply flv_stop_inv|by apply kept_stop].
  - assert (Kept (set_timers (alter (rearm 1000) id (timers s)) s)) as HK1
      by (by apply kept_alter_timer).
    unfold stats_tick.
    match goal with |- context [current ?s1] => destruct (current s1) as [[h p]|] end;
      [|done].
    revert HK1. apply Kept_frame; simpl; by repeat case_match.
Qed.

Lemma kept_step s e : Inv s -> Kept s -> Kept (step s e).
Proof.
  intros HI HK. destruct e; simpl.
  - by apply kept_play.
  - by apply kept_stop.
  - by apply kept_play_started.
  - unfold on_alive. repeat case_match; try done.
    apply kept_on_error. revert HK. apply Kept_frame; unfold on_any; by repeat case_match.
  - unfold on_alive. repeat case_match; try done.
    revert HK. apply Kept_frame; unfold on_any; by repeat case_match.
  - unfold on_alive. repeat case_match; try done. by apply kept_update_player.
  - by apply kept_video_listeners.
  - revert HK. by apply Kept_frame.
  - unfold head_settled. repeat case_match; try done; revert HK; by apply Kept_frame.
  - revert HK. by apply Kept_frame.
  - by apply kept_fire.
Qed.

Lemma kept_reachable s : reachable s -> Kept s.
Proof.
  intros (lib & w & o & ty & events & ->).
  assert (forall s, Inv s -> Kept s -> Kept (run s events)) as Hgen.
  { induction events as [|e l IH]; intros s HI HK; simpl; [done|].
    apply IH; [by apply flv_step_inv|by apply kept_step]. }
  apply Hgen; [apply flv_constructor_inv|]. split; simpl; done.
Qed.

(** *** Timers are never removed and never revived *)

Lemma grow_refl s : timers_grow s s.
Proof. intros id tm Hid. by exists tm. Qed.

Lemma grow_trans s1 s2 s3 : timers_grow s1 s2 -> timers_grow s2 s3 -> timers_grow s1 s3.
Proof.
  intros H12 H23 id tm Hid.
  destruct (H12 id tm Hid) as (tm2 & Hid2 & Hk2 & Hl2).
  destruct (H23 id tm2 Hid2) as (tm3 & Hid3 & Hk3 & Hl3).
  exists tm3. split_and!; [done|congruence|tauto].
Qed.

Lemma grow_frame s s' : timers s' = timers s -> timers_grow s s'.
Proof. intros Htm id tm Hid. exists tm. by rewrite Htm. Qed.

Lemma grow_add_timer k d s : timers_grow s (add_timer k d s).2.
Proof. intros id tm Hid. exists tm. simpl. by rewrite (lookup_app_l_Some _ _ _ _ Hid). Qed.

Lemma grow_alter_timer f id s :
  (forall tm, kind (f tm) = kind tm) -> (forall tm, live (f tm) = true -> live tm = true) ->
  timers_grow s (set_timers (alter f id (timers s)) s).
Proof.
  intros Hk Hl i tm Hi. simpl. rewrite list_lookup_alter. case_decide as Hc.
  - subst. rewrite Hi. simpl. exists (f tm). split_and!; [done|apply Hk|apply Hl].
  - by exists tm.
Qed.

Lemma grow_stop s : timers_grow s (stop s).
Proof.
  intros id tm Hid. rewrite flv_stop_timers.
  destruct (timer_set (statsInterval s)); [|by exists tm].
  destruct (statsInterval s) as [i|]; [|by exists tm].
  by apply (grow_alter_timer cancel i s).
Qed.

Lemma grow__startStatsMonitoring s : timers_grow s (_startStatsMonitoring s).
Proof.
  unfold _startStatsMonitoring. case_match; [apply grow_refl|].
  eapply grow_trans; [apply (grow_add_timer StatsTimer 1000)|]. by apply grow_frame.
Qed.

Lemma grow_play b target type s : timers_grow s (play b target type s).
Proof.
  unfold play. case_match.
  { case_match; by apply grow_frame. }
  match goal with |- context [stop ?s0] =>
    assert (timers_grow s (stop s0)) as H1
      by (eapply grow_trans; [|apply grow_stop]; by apply grow_frame);
    generalize dependent (stop s0)
  end.
  intros s1 H1. eapply grow_trans; [exact H1|].
  unfold _setupEventListeners, add_timer. simpl.
  intros id tm Hid. exists tm. simpl. by rewrite (lookup_app_l_Some _ _ _ _ Hid).
Qed.

Lemma grow_play_catch t e s : timers_grow s (play_catch t e s).
Proof.
  unfold play_catch. destruct (tasks s !! t); [|apply grow_refl].
  match goal with |- context [stop ?s0] =>
    assert (timers_grow s (stop s0)) as H1
      by (eapply grow_trans; [|apply grow_stop]; by apply grow_frame);
    generalize dependent (stop s0)
  end.
  intros s1 H1. eapply grow_trans; [exact H1|]. case_match; by apply grow_frame.
Qed.

Lemma grow_play_started t r s : timers_grow s (play_started t r s).
Proof.
  unfold play_started. destruct (tasks s !! t) as [k|]; [|apply grow_refl].
  destruct (phase k) as [playTimeout|]; [|apply grow_refl].
  destruct r as [e|]; [apply grow_play_catch|].
  unfold clearTimer.
  eapply grow_trans; [by apply (grow_alter_timer cancel playTimeout s)|].
  match goal with |- timers_grow ?s0 _ => generalize s0 end. intros s0.
  match goal with |- context [_startStatsMonitoring ?s1] =>
    assert (timers_grow s0 (_startStatsMonitoring s1)) as H1
      by (eapply grow_trans; [|apply grow__startStatsMonitoring]; by apply grow_frame);
    generalize dependent (_startStatsMonitoring s1)
  end.
  intros s2 H2. eapply grow_trans; [exact H2|]. by apply grow_frame.
Qed.

Lemma grow_on_error ty detail s : timers_grow s (on_error ty detail s).
Proof.
  unfold on_error.
  match goal with |- context [emit (OnError ?e) ?s0] =>
    assert (timers_grow s (emit (OnError e) s0)) as H0
      by (apply grow_frame; by repeat case_match);
    generalize dependent (emit (OnError e) s0)
  end.
  intros s0 H0. eapply grow_trans; [exact H0|]. case_match; [|apply grow_refl].
  match goal with |- context [current ?s1] =>
    assert (timers_grow s0 s1) as H1 by (by apply grow_frame);
    generalize dependent s1
  end.
  intros s1 H1. eapply grow_trans; [exact H1|].
  destruct (current s1) as [[h p]|]; [|by apply grow_frame].
  destruct (_config p) as [c|]; [apply grow_add_timer|by apply grow_frame].
Qed.

Lemma grow_video_listeners n ev s : timers_grow s (Nat.iter n (video_listener ev) s).
Proof.
  induction n as [|n IH]; simpl; [apply grow_refl|].
  eapply grow_trans; [exact IH|]. apply grow_frame. by destruct ev.
Qed.

Lemma grow_fire id s : timers_grow s (fire id s).
Proof.
  unfold fire. destruct (timers s !! id) as [tm|]; [|apply grow_refl].
  case_match; [|apply grow_refl].
  destruct (kind tm); [apply grow_refl|..].
  - eapply grow_trans; [by apply (grow_alter_timer cancel id s)|].
    unfold watchdog. case_match; [|apply grow_refl]. by apply grow_frame.
  - eapply grow_trans; [by apply (grow_alter_timer cancel id s)|].
    unfold reconnect. eapply grow_trans; [apply grow_stop|apply grow_play].
  - eapply grow_trans; [by apply (grow_alter_timer (rearm 1000) id s)|].
    unfold stats_tick.
    match goal with |- context [current ?s1] => destruct (current s1) as [[h p]|] end;
      [|apply grow_refl].
    apply grow_frame; simpl; by repeat case_match.
Qed.

Lemma grow_step s e : timers_grow s (step s e).
Proof.
  destruct e; simpl.
  - apply grow_play.
  - apply grow_stop.
  - apply grow_play_started.
  - unfold on_alive. repeat case_match; try apply grow_refl.
    eapply grow_trans; [|apply grow_on_error].
    apply grow_frame; unfold on_any; by repeat case_match.
  - unfold on_alive. repeat case_match; try apply grow_refl.
    apply grow_frame; unfold on_any; by repeat case_match.
  - unfold on_alive. repeat case_match; try apply grow_refl. by apply grow_frame.
  - apply grow_video_listeners.
  - by apply grow_frame.
  - unfold head_settled. repeat case_match; try apply grow_refl; by apply grow_frame.
  - by apply grow_frame.
  - apply grow_fire.
Qed.

Lemma grow_run events s : timers_grow s (run s events).
Proof.
  revert s. induction events as [|e l IH]; intros s; simpl; [apply grow_refl|].
  eapply grow_trans; [apply grow_step|apply IH].
Qed.

(** A timer that is not alive does nothing when the browser would fire it. *)
Lemma fire_dead id tm s : timers s !! id = Some tm -> live tm = false -> fire id s = s.
Proof. intros Hid Hl. unfold fire. by rewrite Hid, Hl. Qed.

(** play() resumed by a resolved [videoElement.play()] clears its timeout. *)
Lemma play_started_cancels t k id s :
  Kept s -> tasks s !! t = Some k -> phase k = AwaitVideoPlay id ->
  exists tm, timers (play_started t None s) !! id = Some tm /\ live tm = false.
Proof.
  intros HK Hk Hph.
  destruct (watchdog_there s HK t k id Hk Hph) as (tm & target & Hlk & Hkd).
  unfold play_started. rewrite Hk, Hph. unfold clearTimer. simpl.
  unfold _startStatsMonitoring. case_match; simpl.
  - rewrite list_lookup_alter_eq, Hlk. simpl. by exists (cancel tm).
  - exists (cancel tm). split; [|done].
    apply lookup_app_l_Some. by rewrite list_lookup_alter_eq, Hlk.
Qed.

(** *** stop() and the callbacks *)

Lemma stop_errors_reported s : errors_reported (stop s) = errors_reported s.
Proof. unfold errors_reported. flv_stop_cases; done. Qed.

Lemma stop_head_requests s : head_requests (stop s) = head_requests s.
Proof. unfold head_requests. flv_stop_cases; done. Qed.

Lemma stop_reconnections s : reconnections (stop s) = reconnections s.
Proof.
  unfold reconnections. rewrite flv_stop_timers.
  repeat case_match; try done. by rewrite filter_alter_length.
Qed.

(** stop() cancels the stats interval and no other timer. *)
Lemma stop_keeps_timer id tm s :
  Kept s -> timers s !! id = Some tm -> kind tm <> StatsTimer ->
  timers (stop s) !! id = Some tm.
Proof.
  intros HK Hid Hk. rewrite flv_stop_timers.
  destruct (timer_set (statsInterval s)); [|done].
  destruct (statsInterval s) as [i|] eqn:Hi; [|done].
  destruct (stats_running s HK i Hi) as (tm' & Hi' & Hk' & _).
  rewrite list_lookup_alter_ne; [done|]. intros ->. congruence.
Qed.

(** A rejected [videoElement.play()]. *)
Lemma video_play_fails t k id e s :
  Inv s -> Kept s -> tasks s !! t = Some k -> phase k = AwaitVideoPlay id ->
  let s' := step s (VideoPlaySettled t (Some e)) in
  phase <$> tasks s' !! t = Some (Done (Rejected e)) /\
  player s' = None /\ live_players s' = [] /\
  errors_reported s' = e :: errors_reported s /\
  reconnectAttempts s' = reconnectAttempts s /\
  reconnections s' = reconnections s /\
  timers s' !! id = timers s !! id.
Proof.
  intros HI HK Hk Hph. simpl. unfold play_started. rewrite Hk, Hph.
  unfold play_catch. rewrite Hk.
  set (s0 := emit (OnError e) (_log ("Error: " +:+ message e) "error" s)).
  assert (Inv s0) as HI0 by (by apply flv_emit_inv, flv_log_inv).
  assert (Kept s0) as HK0 by (revert HK; by apply Kept_frame).
  assert (errors_reported s0 = e :: errors_reported s) as He0 by done.
  assert (reconnectAttempts s0 = reconnectAttempts s /\ timers s0 = timers s /\
          tasks s0 = tasks s) as (Hra0 & Htm0 & Htk0) by done.
  clearbody s0.
  pose proof (flv_stop_inv s0 HI0) as HI1.
  pose proof (stop_player s0) as Hp1.
  pose proof (stop_errors_reported s0) as He1.
  pose proof (stop_reconnectAttempts s0) as Hra1.
  pose proof (stop_reconnections s0) as Hrc1.
  pose proof (flv_stop_tasks s0) as Htk1.
  destruct (watchdog_there s HK t k id Hk Hph) as (tm & target & Hlk & Hkd).
  assert (timers (stop s0) !! id = Some tm) as Htm1
    by (apply stop_keeps_timer; [done|by rewrite Htm0|congruence]).
  assert (live_players (stop s0) = []) as Hlp1 by (by apply live_players_idle).
  generalize dependent (stop s0). intros s1 HI1 Hp1 He1 Hra1 Hrc1 Htk1 Htm1 Hlp1.
  assert (phase <$> tasks (set_phase t (Done (Rejected e)) s1) !! t
          = Some (Done (Rejected e))) as Hph2.
  { unfold set_phase. simpl. rewrite list_lookup_alter_eq, Htk1, Htk0, Hk. done. }
  unfold reconnections in *. rewrite <- Htm0.
  destruct (reconnecting k); simpl; split_and!; try done; try congruence.
  all: change (errors_reported s1 = e :: errors_reported s); congruence.
Qed.

(** *** A resolved [videoElement.play()] *)

Lemma flv_startStatsMonitoring_set s :
  Inv s -> timer_set (statsInterval (_startStatsMonitoring s)) = true.
Proof.
  intros HI. unfold _startStatsMonitoring.
  destruct (timer_set (statsInterval s)) eqn:Hs; [done|]. simpl.
  pose proof (timers_reserved s HI). destruct (length (timers s)); [lia|done].
Qed.

Lemma running_stats_timer s :
  Inv s -> Kept s -> timer_set (statsInterval s) = true ->
  length (live_stats_timers s) = 1.
Proof.
  intros HI HK Hset. pose proof (flv_live_stats_timers_le s HI) as Hle.
  destruct (statsInterval s) as [id|] eqn:Hid; [|done].
  destruct (stats_running s HK id Hid) as (tm & Hlk & Hk & Hl).
  pose proof (filter_some (fun tm => kind tm = StatsTimer /\ live tm = true) _ _ _ Hlk
                (conj Hk Hl)).
  unfold live_stats_timers in *. lia.
Qed.

Lemma video_play_resolves t k id s :
  Inv s -> Kept s -> tasks s !! t = Some k -> phase k = AwaitVideoPlay id ->
  let s' := step s (VideoPlaySettled t None) in
  phase <$> tasks s' !! t = Some (Done Resolved) /\
  trace s' = OnConnected :: Log (toUpperCase (streamTypeOf k) +:+ " stream started") "success"
               :: trace s /\
  player s' = player s /\ players s' = players s /\
  timer_set (statsInterval s') = true /\
  length (live_stats_timers s') = 1.
Proof.
  intros HI HK Hk Hph s'.
  assert (Inv s') as HI' by (by apply flv_step_inv).
  assert (Kept s') as HK' by (by apply kept_step).
  assert (timer_set (statsInterval s') = true) as Hset.
  { unfold s'. simpl. unfold play_started. rewrite Hk, Hph. simpl.
    apply (flv_startStatsMonitoring_set _).
    apply flv_log_inv. unfold clearTimer. by apply flv_alter_timer_inv. }
  split_and!; [| | | |done|by apply running_stats_timer].
  all: unfold s'; simpl; unfold play_started; rewrite Hk, Hph; simpl.
  - rewrite list_lookup_alter_eq.
    unfold _startStatsMonitoring. case_match; simpl; by rewrite Hk.
  - unfold _startStatsMonitoring. by case_match.
  - unfold _startStatsMonitoring. by case_match.
  - unfold _startStatsMonitoring. by case_match.
Qed.

(** *** Video listeners *)

Lemma video_listener_logged ev s :
  length (logged (video_listener ev s)) = S (length (logged s)).
Proof. by destruct ev. Qed.

Lemma video_listeners_logged n ev s :
  length (logged (Nat.iter n (video_listener ev) s)) = n + length (logged s).
Proof.
  induction n as [|n IH]; simpl; [done|]. by rewrite video_listener_logged, IH.
Qed.

(** *** The reconnect counter *)

Lemma attempts_stop s : reconnectAttempts (stop s) = reconnectAttempts s.
Proof. apply stop_reconnectAttempts. Qed.

Lemma attempts_play b target type s :
  reconnectAttempts (play b target type s) = reconnectAttempts s.
Proof.
  unfold play. case_match; [by case_match|].
  match goal with |- context [stop ?s0] =>
    assert (reconnectAttempts (stop s0) = reconnectAttempts s) as H1
      by (by rewrite stop_reconnectAttempts);
    generalize dependent (stop s0)
  end.
  intros s1 H1. unfold _setupEventListeners, add_timer. simpl. done.
Qed.

Lemma attempts_play_catch t e s :
  reconnectAttempts (play_catch t e s) = reconnectAttempts s.
Proof.
  unfold play_catch. destruct (tasks s !! t); [|done].
  match goal with |- context [stop ?s0] =>
    assert (reconnectAttempts (stop s0) = reconnectAttempts s) as H1
      by (by rewrite stop_reconnectAttempts);
    generalize dependent (stop s0)
  end.
  intros s1 H1. by case_match.
Qed.

Lemma attempts_step s e :
  is_playing e = false -> reconnectAttempts s <= reconnectAttempts (step s e).
Proof.
  intros He. destruct e; unfold step.
  - by rewrite attempts_play.
  - by rewrite attempts_stop.
  - unfold play_started. destruct (tasks s !! t) as [k|]; [|done].
    destruct (phase k); [|done]. destruct r; [by rewrite attempts_play_catch|].
    unfold _startStatsMonitoring, clearTimer. by case_match.
  - unfold on_alive. repeat case_match; try done.
    all: unfold on_error, on_any in *; simpl in *; repeat case_match; simpl; lia.
  - unfold on_alive, on_any. by repeat case_match.
  - unfold on_alive. by repeat case_match.
  - assert (ev <> playing) as Hev by (by destruct ev).
    induction (listeners (videoElement s)) as [|n IH]; simpl; [done|].
    by destruct ev.
  - done.
  - unfold head_settled. by repeat case_match.
  - done.
  - unfold fire. destruct (timers s !! id) as [tm|]; [|done].
    case_match; [|done]. destruct (kind tm); [done|..].
    + unfold watchdog. by case_match.
    + unfold reconnect. by rewrite attempts_play, attempts_stop.
    + unfold stats_tick. by repeat case_match.
Qed.

Lemma attempts_run events s :
  Forall (fun e => is_playing e = false) events ->
  reconnectAttempts s <= reconnectAttempts (run s events).
Proof.
  revert s. induction events as [|e l IH]; intros s Hev; simpl; [done|].
  inversion Hev; subst. etrans; [by apply attempts_step|by apply IH].
Qed.

(** *** The stuck-stream check *)

Lemma watchdog_step id tm target s :
  timers s !! id = Some tm -> kind tm = Watchdog target -> live tm = true ->
  step s (TimerFire id) =
  if Nat.leb (due tm) (now s)
  then watchdog target (set_timers (alter cancel id (timers s)) s)
  else s.
Proof. intros Hid Hk Hl. unfold step, fire. rewrite Hid, Hl, Hk. simpl. by case_match. Qed.

Lemma head_settled_same r s : same_but_trace s (step s (HeadSettled r)).
Proof. unfold step, head_settled. by repeat case_match. Qed.

Lemma head_settled_trace r s :
  step s (HeadSettled r) = s \/
  exists msg type, trace (step s (HeadSettled r)) = Log msg type :: trace s.
Proof. unfold step, head_settled. repeat case_match; eauto. Qed.

Lemma flv_reachable_run s events : reachable s -> reachable (run s events).
Proof.
  intros (lib & w & o & ty & evs & ->). exists lib, w, o, ty, (evs ++ events).
  unfold run. by rewrite fold_left_app.
Qed.



(** What stop() does to the video element and the stats container. *)
Lemma stop_videoElement s :
  videoElement (stop s) =
  {| src := Some ""; readyState := readyState (videoElement s);
     currentTime := currentTime (videoElement s);
     bufferedEnd := bufferedEnd (videoElement s);
     videoError := videoError (videoElement s);
     listeners := listeners (videoElement s) |}.
Proof. flv_stop_cases; congruence. Qed.

(** *** On a library whose players have no [_config] *)

Lemma Silent_frame s s' :
  mpegts s' = mpegts s -> players s' = players s -> timers s' = timers s ->
  Silent s -> Silent s'.
Proof. unfold Silent, reconnections. by intros -> -> ->. Qed.

Lemma silent_update_player h f s :
  (forall p, _config (f p) = _config p) -> Silent s -> Silent (update_player h f s).
Proof.
  intros Hf (Hm & Hp & Hr). split_and!; [done| |done].
  simpl. intros h' p. rewrite list_lookup_alter. case_decide; subst; [|by apply Hp].
  destruct (players s !! h') as [p0|] eqn:E; simpl; [|done].
  intros [= <-]. rewrite Hf. by apply (Hp h').
Qed.

Lemma silent_add_timer k d s :
  (forall u ty, k <> Reconnect u ty) -> Silent s -> Silent (add_timer k d s).2.
Proof.
  intros Hk (Hm & Hp & Hr). split_and!; [done..|].
  rewrite reconnections_add, Hr. unfold is_reconnect. simpl.
  destruct k; try done. by destruct (Hk target type).
Qed.

Lemma silent_alter_timer f id s :
  (forall tm, kind (f tm) = kind tm) ->
  Silent s -> Silent (set_timers (alter f id (timers s)) s).
Proof. intros Hf (Hm & Hp & Hr). split_and!; [done..|]. by rewrite reconnections_alter. Qed.

Lemma silent_stop s : Silent s -> Silent (stop s).
Proof.
  intros (Hm & Hp & Hr). split_and!.
  - rewrite <- Hm. flv_stop_cases; congruence.
  - rewrite stop_players. destruct (player s) as [h0|]; [|done].
    intros h p. rewrite list_lookup_alter. case_decide; subst; [|by apply Hp].
    destruct (players s !! h) as [p0|] eqn:E; simpl; [|done].
    intros [= <-]. simpl. by apply (Hp h).
  - by rewrite stop_reconnections.
Qed.

Lemma silent__startStatsMonitoring s : Silent s -> Silent (_startStatsMonitoring s).
Proof.
  intros HS. unfold _startStatsMonitoring. case_match; [done|].
  assert (Silent (add_timer StatsTimer 1000 s).2) as H1 by (by apply silent_add_timer).
  revert H1. by apply Silent_frame.
Qed.

Lemma silent_play b target type s : Silent s -> Silent (play b target type s).
Proof.
  intros HS. unfold play. case_match.
  { case_match; revert HS; by apply Silent_frame. }
  match goal with |- context [stop ?s0] =>
    assert (Silent (stop s0)) as H1
      by (apply silent_stop; revert HS; by apply Silent_frame);
    generalize dependent (stop s0)
  end.
  intros s1 (Hm & Hp & Hr). unfold _setupEventListeners, add_timer. simpl.
  match goal with |- context [createPlayer ?l ?a ?b ?c] =>
    assert (_config (createPlayer l a b c) = None) as Hnew
      by (unfold createPlayer; simpl; by rewrite Hm);
    generalize dependent (createPlayer l a b c)
  end.
  intros np Hnew. split_and!; [done| |].
  - simpl. intros h p. rewrite !list_lookup_alter.
    intros Hlk.
    assert (exists p0, (players s1 ++ [np]) !! h = Some p0 /\ _config p = _config p0)
      as (p0 & Hp0 & ->).
    { repeat case_decide; subst;
        destruct ((players s1 ++ _) !! _) as [p0|]; simplify_eq/=; eauto. }
    apply lookup_app_Some in Hp0 as [Hp0|[_ Hp0]]; [by apply (Hp h)|].
    by apply list_lookup_singleton_Some in Hp0 as [_ <-].
  - unfold reconnections in *. simpl. rewrite filter_app, length_app, Hr.
    rewrite filter_cons, filter_nil. by case_match.
Qed.

Lemma silent_play_catch t e s : Silent s -> Silent (play_catch t e s).
Proof.
  intros HS. unfold play_catch. destruct (tasks s !! t) as [k|]; [|done].
  match goal with |- context [stop ?s0] =>
    assert (Silent (stop s0)) as H1
      by (apply silent_stop; revert HS; by apply Silent_frame);
    generalize dependent (stop s0)
  end.
  intros s1 H1. case_match; revert H1; by apply Silent_frame.
Qed.

Lemma silent_play_started t r s : Silent s -> Silent (play_started t r s).
Proof.
  intros HS. unfold play_started. destruct (tasks s !! t) as [k|]; [|done].
  destruct (phase k) as [playTimeout|]; [|done].
  destruct r as [e|]; [by apply silent_play_catch|].
  unfold clearTimer.
  assert (Silent (set_timers (alter cancel playTimeout (timers s)) s)) as H1
    by (by apply silent_alter_timer).
  revert H1. generalize (set_timers (alter cancel playTimeout (timers s)) s). intros s1 H1.
  match goal with |- context [_startStatsMonitoring ?s0] =>
    assert (Silent (_startStatsMonitoring s0)) as H2
      by (apply silent__startStatsMonitoring; revert H1; by apply Silent_frame);
    generalize dependent (_startStatsMonitoring s0)
  end.
  intros s2 H2. revert H2. by apply Silent_frame.
Qed.

Lemma silent_on_error ty detail s : Silent s -> Silent (on_error ty detail s).
Proof.
  intros HS. unfold on_error.
  match goal with |- context [emit (OnError ?e) ?s0] =>
    assert (Silent (emit (OnError e) s0)) as H0
      by (revert HS; apply Silent_frame; by repeat case_match);
    generalize dependent (emit (OnError e) s0)
  end.
  intros s0 H0. case_match; [|done].
  match goal with |- context [current ?s1] =>
    assert (Silent s1) as H1 by (revert H0; by apply Silent_frame);
    generalize dependent s1
  end.
  intros s1 H1. destruct (current s1) as [[h p]|] eqn:Hc;
    [|revert H1; by apply Silent_frame].
  assert (_config p = None) as ->.
  { destruct H1 as (_ & Hp & _). unfold current in Hc.
    destruct (player s1) as [h0|]; [|done].
    destruct (players s1 !! h0) as [p0|] eqn:E; simplify_eq. by apply (Hp h). }
  revert H1. by apply Silent_frame.
Qed.

Lemma silent_video_listeners n ev s : Silent s -> Silent (Nat.iter n (video_listener ev) s).
Proof.
  intros HS. induction n as [|n IH]; simpl; [done|].
  revert IH. apply Silent_frame; by destruct ev.
Qed.

Lemma silent_fire id s : Silent s -> Silent (fire id s).
Proof.
  intros HS. unfold fire.
  destruct (timers s !! id) as [tm|] eqn:Hid; [|done].
  case_match; [|done].
  destruct (kind tm) eqn:Hkd; [done|..].
  - assert (Silent (set_timers (alter cancel id (timers s)) s)) as H1
      by (by apply silent_alter_timer).
    unfold watchdog. case_match; [|done]. revert H1. by apply Silent_frame.
  - unfold reconnect. apply silent_play, silent_stop. by apply silent_alter_timer.
  - assert (Silent (set_timers (alter (rearm 1000) id (timers s)) s)) as H1
      by (by apply silent_alter_timer).
    unfold stats_tick.
    match goal with |- context [current ?s1] => destruct (current s1) as [[h p]|] end;
      [|done].
    revert H1. apply Silent_frame; simpl; by repeat case_match.
Qed.

Lemma silent_step s e : Silent s -> Silent (step s e).
Proof.
  intros HS. destruct e; simpl.
  - by apply silent_play.
  - by apply silent_stop.
  - by apply silent_play_started.
  - unfold on_alive. repeat case_match; try done.
    apply silent_on_error. revert HS. apply Silent_frame; unfold on_any; by repeat case_match.
  - unfold on_alive. repeat case_match; try done.
    revert HS. apply Silent_frame; unfold on_any; by repeat case_match.
  - unfold on_alive. repeat case_match; try done. by apply silent_update_player.
  - by apply silent_video_listeners.
  - revert HS. by apply Silent_frame.
  - unfold head_settled. repeat case_match; try done; revert HS; by apply Silent_frame.
  - revert HS. by apply Silent_frame.
  - by apply silent_fire.
Qed.

Lemma silent_run events s : Silent s -> Silent (run s events).
Proof.
  revert s. induction events as [|e l IH]; intros s HS; simpl; [done|].
  by apply IH, silent_step.
Qed.

Lemma silent_constructor with_stats options type :
  Silent (constructor no_config with_stats options type).
Proof. by split_and!. Qed.

End StreamMore.

(* ===================================================================== *)
(** ** Facts about the comparison page *)
(* ===================================================================== *)

Module PageFacts.
Import ComparisonPage.

(** *** URL parameters *)

Lemma params_get_set k v l : params_get k (params_set k v l) = Some v.
Proof.
  unfold params_get. induction l as [|kv l IH]; simpl.
  - rewrite filter_cons. by rewrite decide_True.
  - destruct (String.eqb (fst kv) k) eqn:Hk.
    + rewrite filter_cons. by rewrite decide_True.
    + apply String.eqb_neq in Hk. rewrite filter_cons. by rewrite decide_False.
Qed.

Lemma filter_other_key (k k' : string) (l : list (string * string)) :
  k' <> k ->
  filter (fun kv => fst kv = k') (filter (fun kv => fst kv <> k) l)
  = filter (fun kv => fst kv = k') l.
Proof.
  intros Hne. induction l as [|kv l IH]; [done|].
  rewrite !filter_cons. destruct (decide (fst kv <> k)) as [Hk|Hk].
  - rewrite filter_cons. destruct (decide (fst kv = k')); by rewrite IH.
  - assert (fst kv = k) as Heq by (by destruct (decide (fst kv = k))).
    rewrite decide_False by congruence. done.
Qed.

Lemma params_get_set_other k k' v l :
  k' <> k -> params_get k' (params_set k v l) = params_get k' l.
Proof.
  intros Hne. unfold params_get. induction l as [|kv l IH]; simpl.
  - rewrite filter_cons. by rewrite decide_False by (simpl; congruence).
  - destruct (String.eqb (fst kv) k) eqn:Hk.
    + apply String.eqb_eq in Hk. rewrite !filter_cons.
      rewrite !decide_False by (simpl; congruence).
      by rewrite filter_other_key.
    + rewrite !filter_cons. destruct (decide (fst kv = k')); [done|]. apply IH.
Qed.

Lemma getUrlParams_update streamName serverBase pg :
  getUrlParams (search (updateUrlParams streamName serverBase pg))
  = (Some streamName, Some serverBase).
Proof.
  unfold getUrlParams, updateUrlParams. simpl. f_equal.
  - rewrite params_get_set_other by done. apply params_get_set.
  - apply params_get_set.
Qed.

(** *** The callbacks only write to the document *)

Lemma same_controls_refl pg : same_controls pg pg.
Proof. by repeat split. Qed.

Lemma same_controls_trans pg1 pg2 pg3 :
  same_controls pg1 pg2 -> same_controls pg2 pg3 -> same_controls pg1 pg3.
Proof.
  unfold same_controls. intros (?&?&?&?&?&?&?&?&?&?&?) (?&?&?&?&?&?&?&?&?&?&?).
  split_and!; congruence.
Qed.

Lemma webrtc_callbacks_same l pg : same_controls pg (fold_left webrtc_callback l pg).
Proof.
  revert pg. induction l as [|o l IH]; intros pg; simpl; [apply same_controls_refl|].
  eapply same_controls_trans; [|apply IH]. destruct o; by repeat split.
Qed.

Lemma flv_callbacks_same l pg : same_controls pg (fold_left flv_callback l pg).
Proof.
  revert pg. induction l as [|o l IH]; intros pg; simpl; [apply same_controls_refl|].
  eapply same_controls_trans; [|apply IH]. destruct o; by repeat split.
Qed.

Lemma catches_same l pg :
  same_controls pg
    (fold_left (fun pg e => showError ("Stream Error: " +:+ message e) pg) l pg).
Proof.
  revert pg. induction l as [|o l IH]; intros pg; simpl; [apply same_controls_refl|].
  eapply same_controls_trans; [|apply IH]. by repeat split.
Qed.

(** A step of one session on the page: that session makes the step, and
    nothing else changes but what the page shows. *)
Lemma drive_webrtc_same f pg :
  same_controls (set_webrtcPlayer (f (webrtcPlayer pg)) pg) (drive_webrtc f pg).
Proof. unfold drive_webrtc. apply webrtc_callbacks_same. Qed.

Lemma drive_flv_same f pg :
  same_controls (set_flvPlayer (f (flvPlayer pg)) pg) (drive_flv f pg).
Proof.
  unfold drive_flv. eapply same_controls_trans; [apply flv_callbacks_same|apply catches_same].
Qed.

Lemma drive_webrtc_fields f pg :
  let pg' := drive_webrtc f pg in
  webrtcPlayer pg' = f (webrtcPlayer pg) /\ flvPlayer pg' = flvPlayer pg /\
  search pg' = search pg /\
  startDisabled pg' = startDisabled pg /\ stopDisabled pg' = stopDisabled pg /\
  timers pg' = timers pg /\ now pg' = now pg.
Proof.
  destruct (drive_webrtc_same f pg) as (?&?&?&?&?&?&?&?&?&?&?). by split_and!.
Qed.

Lemma drive_flv_fields f pg :
  let pg' := drive_flv f pg in
  webrtcPlayer pg' = webrtcPlayer pg /\ flvPlayer pg' = f (flvPlayer pg) /\
  search pg' = search pg /\
  startDisabled pg' = startDisabled pg /\ stopDisabled pg' = stopDisabled pg /\
  timers pg' = timers pg /\ now pg' = now pg.
Proof.
  destruct (drive_flv_same f pg) as (?&?&?&?&?&?&?&?&?&?&?). by split_and!.
Qed.

(** *** The handlers *)

Lemma start_fields streamName serverBase pg :
  streamName <> "" -> serverBase <> "" ->
  let pg' := start streamName serverBase pg in
  let webrtcUrl := serverBase +:+ "/index/api/webrtc?app=live&stream=" +:+ streamName
                   +:+ "&type=play" in
  let flvUrl := serverBase +:+ "/live/" +:+ streamName +:+ ".live.flv" in
  webrtcPlayer pg'
    = ZLMWebRTCPlayer.step (webrtcPlayer pg) (ZLMWebRTCPlayer.CallPlay webrtcUrl) /\
  flvPlayer pg' = flvPlayer pg /\
  getUrlParams (search pg') = (Some streamName, Some serverBase) /\
  startDisabled pg' = true /\ stopDisabled pg' = false /\
  timers pg' = timers pg ++ [{| kind := FlvStart flvUrl; due := now pg + 1000;
                                live := true |}] /\
  now pg' = now pg.
Proof.
  intros Hn Hb. cbv zeta. unfold start.
  rewrite (proj2 (String.eqb_neq _ _) Hn), (proj2 (String.eqb_neq _ _) Hb). simpl orb.
  cbv iota.
  match goal with |- context [drive_webrtc ?f ?pg0] =>
    destruct (drive_webrtc_fields f pg0) as (H1 & H2 & H3 & H4 & H5 & H6 & H7);
    generalize dependent (drive_webrtc f pg0)
  end.
  intros pg1 H1 H2 H3 H4 H5 H6 H7. unfold add_timer. simpl.
  rewrite H1, H2, H3, H4, H5, H6, H7. split_and!; try done.
  apply (getUrlParams_update streamName serverBase pg).
Qed.

Lemma stop_all_fields pg :
  let pg' := stop_all pg in
  webrtcPlayer pg' = ZLMWebRTCPlayer.stop (webrtcPlayer pg) /\
  flvPlayer pg' = ZLMStreamPlayer.stop (flvPlayer pg) /\
  search pg' = search pg /\
  startDisabled pg' = false /\ stopDisabled pg' = true /\
  timers pg' = timers pg /\ now pg' = now pg /\
  webrtcLatencyDisplay pg' = Dash /\ flvLatencyDisplay pg' = Dash.
Proof.
  cbv zeta. unfold stop_all.
  destruct (drive_webrtc_fields ZLMWebRTCPlayer.stop pg) as (H1 & H2 & H3 & H4 & H5 & H6 & H7).
  generalize dependent (drive_webrtc ZLMWebRTCPlayer.stop pg).
  intros pg1 H1 H2 H3 H4 H5 H6 H7.
  destruct (drive_flv_fields ZLMStreamPlayer.stop pg1) as (G1 & G2 & G3 & G4 & G5 & G6 & G7).
  generalize dependent (drive_flv ZLMStreamPlayer.stop pg1).
  intros pg2 G1 G2 G3 G4 G5 G6 G7. simpl.
  rewrite G1, G2, G3, G6, G7, H1, H2, H3, H6, H7. by split_and!.
Qed.

Lemma start_flv_fields flvUrl pg :
  let pg' := start_flv flvUrl pg in
  webrtcPlayer pg' = webrtcPlayer pg /\
  flvPlayer pg'
    = ZLMStreamPlayer.step (flvPlayer pg) (ZLMStreamPlayer.CallPlay flvUrl None) /\
  search pg' = search pg /\
  startDisabled pg' = startDisabled pg /\ stopDisabled pg' = stopDisabled pg /\
  timers pg' = timers pg /\ now pg' = now pg.
Proof.
  cbv zeta. unfold start_flv.
  match goal with |- context [drive_flv ?f ?pg0] =>
    destruct (drive_flv_fields f pg0) as (H1 & H2 & H3 & H4 & H5 & H6 & H7)
  end.
  by split_and!.
Qed.

Lemma copy_link_fields streamName serverBase pg :
  streamName <> "" -> serverBase <> "" ->
  let pg' := copy_link streamName serverBase pg in
  getUrlParams (search pg') = (Some streamName, Some serverBase) /\
  webrtcPlayer pg' = webrtcPlayer pg /\ flvPlayer pg' = flvPlayer pg /\
  startDisabled pg' = startDisabled pg /\ stopDisabled pg' = stopDisabled pg /\
  timers pg' = timers pg /\ clipboardWrites pg' = S (clipboardWrites pg).
Proof.
  intros Hn Hb. cbv zeta. unfold copy_link.
  rewrite (proj2 (String.eqb_neq _ _) Hn), (proj2 (String.eqb_neq _ _) Hb). simpl.
  split_and!; try done. apply (getUrlParams_update streamName serverBase pg).
Qed.

(** What a step of the page does to the two sessions: each makes a step
    of its own or stays as it is. *)
Lemma step_sessions pg e :
  (webrtcPlayer (step pg e) = webrtcPlayer pg \/
   exists e', webrtcPlayer (step pg e) = ZLMWebRTCPlayer.step (webrtcPlayer pg) e') /\
  (flvPlayer (step pg e) = flvPlayer pg \/
   exists e', flvPlayer (step pg e) = ZLMStreamPlayer.step (flvPlayer pg) e').
Proof.
  destruct e; unfold step.
  - destruct (startDisabled pg); [by split; left|].
    destruct (String.eqb streamName "") eqn:Hn;
      [unfold start; rewrite Hn; by split; left|].
    destruct (String.eqb serverBase "") eqn:Hb;
      [unfold start; rewrite Hn, Hb; by split; left|].
    apply String.eqb_neq in Hn, Hb.
    destruct (start_fields streamName serverBase pg Hn Hb) as (H1 & H2 & _).
    rewrite H1, H2. split; [right; eauto|by left].
  - destruct (stopDisabled pg); [by split; left|].
    destruct (stop_all_fields pg) as (H1 & H2 & _). rewrite H1, H2.
    split; right; [by exists ZLMWebRTCPlayer.CallStop|by exists ZLMStreamPlayer.CallStop].
  - unfold copy_link. case_match; by split; left.
  - unfold copy_settled. repeat case_match; by split; left.
  - destruct (rtc_delivered e); [|by split; left].
    match goal with |- context [drive_webrtc ?f ?pg0] =>
      destruct (drive_webrtc_fields f pg0) as (H1 & H2 & _)
    end.
    rewrite H1, H2. split; [right; eauto|by left].
  - destruct (flv_delivered e); [|by split; left].
    match goal with |- context [drive_flv ?f ?pg0] =>
      destruct (drive_flv_fields f pg0) as (H1 & H2 & _)
    end.
    rewrite H1, H2. split; [by left|right; eauto].
  - split; right; [by exists (ZLMWebRTCPlayer.Elapse ms)|by exists (ZLMStreamPlayer.Elapse ms)].
  - unfold fire. destruct (timers pg !! id) as [tm|]; [|by split; left].
    case_match; [|by split; left].
    destruct (kind tm); [by split; left| |by split; left].
    match goal with |- context [start_flv ?u ?pg0] =>
      destruct (start_flv_fields u pg0) as (H1 & H2 & _)
    end.
    rewrite H1, H2. split; [by left|right; eauto].
Qed.

Lemma sessions_reachable pg :
  reachable pg ->
  ZLMWebRTCPlayer.reachable (webrtcPlayer pg) /\ ZLMStreamPlayer.reachable (flvPlayer pg).
Proof.
  intros (lib & params & o & events & ->).
  assert (forall pg,
            ZLMWebRTCPlayer.reachable (webrtcPlayer pg) /\
            ZLMStreamPlayer.reachable (flvPlayer pg) ->
            ZLMWebRTCPlayer.reachable (webrtcPlayer (run pg events)) /\
            ZLMStreamPlayer.reachable (flvPlayer (run pg events))) as Hgen.
  { induction events as [|e l IH]; intros pg [Hw Hf]; simpl; [done|].
    apply IH. destruct (step_sessions pg e) as [[->|[e1 ->]] [->|[e2 ->]]];
      split; try done;
      first [by apply WebRTCFacts.rtc_reachable_step | by apply StreamFacts.flv_reachable_step]. }
  apply Hgen. split.
  - by exists true, None, o, [].
  - by exists lib, true, [], (Some "flv"), [].
Qed.

(** Nothing but the Stop button enables the Start button again. *)
Lemma start_stays_disabled pg e :
  e <> ClickStop -> startDisabled pg = true -> startDisabled (step pg e) = true.
Proof.
  intros He Hd. destruct e; unfold step; try done.
  - by rewrite Hd.
  - unfold copy_link. by case_match.
  - unfold copy_settled. by repeat case_match.
  - destruct (rtc_delivered e); [|done].
    match goal with |- context [drive_webrtc ?f ?pg0] =>
      destruct (drive_webrtc_fields f pg0) as (_ & _ & _ & -> & _)
    end. done.
  - destruct (flv_delivered e); [|done].
    match goal with |- context [drive_flv ?f ?pg0] =>
      destruct (drive_flv_fields f pg0) as (_ & _ & _ & -> & _)
    end. done.
  - unfold fire. destruct (timers pg !! id) as [tm|]; [|done].
    case_match; [|done]. destruct (kind tm); try done.
    match goal with |- context [start_flv ?u ?pg0] =>
      destruct (start_flv_fields u pg0) as (_ & _ & _ & -> & _)
    end. done.
Qed.

(** The inputs of a page that has just been opened. *)
Lemma load_inputs lib params page_origin :
  streamNameInput (load lib params page_origin) = default "" (fst (getUrlParams params)) /\
  serverBaseInput (load lib params page_origin) = default "" (snd (getUrlParams params)).
Proof. unfold load. simpl. split; by case_match. Qed.

End PageFacts.
(* ===================================================================== *)
(** ** The claims *)
(* ===================================================================== *)



(** C10. Starting stats monitoring does nothing when a stats timer exists,
    and no session ever holds two stats timers: this holds in every reachable
    state, stop() leaves none, and a connection that reports 'connected'
    twice in a row gets no second timer. Both sessions. *)
Theorem C10_single_stats_timer :
  (forall s, ZLMWebRTCPlayer.timer_set (ZLMWebRTCPlayer.statsInterval s) = true ->
             ZLMWebRTCPlayer._startStatsMonitoring s = s) /\
  (forall s, ZLMWebRTCPlayer.reachable s ->
     length (ZLMWebRTCPlayer.live_stats_timers s) <= 1 /\
     ZLMWebRTCPlayer.live_stats_timers (ZLMWebRTCPlayer.stop s) = [] /\
     forall h,
       let s1 := ZLMWebRTCPlayer.step s
                   (ZLMWebRTCPlayer.IceConnectionStateChange h ZLMWebRTCPlayer.Connected) in
       ZLMWebRTCPlayer.timers
         (ZLMWebRTCPlayer.step s1
            (ZLMWebRTCPlayer.IceConnectionStateChange h ZLMWebRTCPlayer.Connected))
       = ZLMWebRTCPlayer.timers s1) /\
  (forall s, ZLMStreamPlayer.timer_set (ZLMStreamPlayer.statsInterval s) = true ->
             ZLMStreamPlayer._startStatsMonitoring s = s) /\
  (forall s, ZLMStreamPlayer.reachable s ->
     length (ZLMStreamPlayer.live_stats_timers s) <= 1 /\
     ZLMStreamPlayer.live_stats_timers (ZLMStreamPlayer.stop s) = []).
Proof.
  split_and!.
  - apply WebRTCFacts.rtc_startStatsMonitoring_guard.
  - intros s Hr. pose proof (WebRTCFacts.rtc_reachable_inv s Hr) as HI. split_and!.
    + by apply WebRTCFacts.rtc_live_stats_timers_le.
    + apply WebRTCFacts.rtc_live_stats_timers_idle;
        [by apply WebRTCFacts.rtc_stop_inv|by apply WebRTCFacts.rtc_stop_statsInterval_inv].
    + intros h. by apply WebRTCFacts.connected_twice.
  - apply StreamFacts.flv_startStatsMonitoring_guard.
  - intros s Hr. pose proof (StreamFacts.flv_reachable_inv s Hr) as HI. split_and!.
    + by apply StreamFacts.flv_live_stats_timers_le.
    + apply StreamFacts.flv_live_stats_timers_idle;
        [by apply StreamFacts.flv_stop_inv|by apply StreamFacts.flv_stop_statsInterval_inv].
Qed.

(** C6, as amended. stop() without a connection handle creates and destroys
    nothing and leaves the session without handle; the real-time session
    fires no callback and changes nothing but the stats container, which it
    clears; the progressive session keeps its players, tasks and counter,
    sets the source of the video element to the empty string and leaves the
    rest of the element alone, clears the stats container and the stats
    interval, keeps every other timer, and always calls onDisconnected. A
    second stop() leaves the state as the first left it (the progressive one
    calling onDisconnected again). *)
Theorem C6_stop_without_handle :
  (forall s, ZLMWebRTCPlayer.reachable s -> ZLMWebRTCPlayer.peerConnection s = None ->
     ZLMWebRTCPlayer.stop s =
       match ZLMWebRTCPlayer.statsContainer s with
       | Some _ => ZLMWebRTCPlayer.set_statsContainer (Some ZLMWebRTCPlayer.Blank) s
       | None => s
       end /\
     ZLMWebRTCPlayer.trace (ZLMWebRTCPlayer.stop s) = ZLMWebRTCPlayer.trace s) /\
  (forall s, ZLMWebRTCPlayer.reachable s ->
     ZLMWebRTCPlayer.stop (ZLMWebRTCPlayer.stop s) = ZLMWebRTCPlayer.stop s) /\
  (forall s, ZLMStreamPlayer.reachable s -> ZLMStreamPlayer.player s = None ->
     ZLMStreamPlayer.player (ZLMStreamPlayer.stop s) = None /\
     ZLMStreamPlayer.players (ZLMStreamPlayer.stop s) = ZLMStreamPlayer.players s /\
     ZLMStreamPlayer.tasks (ZLMStreamPlayer.stop s) = ZLMStreamPlayer.tasks s /\
     ZLMStreamPlayer.reconnectAttempts (ZLMStreamPlayer.stop s)
       = ZLMStreamPlayer.reconnectAttempts s /\
     ZLMStreamPlayer.trace (ZLMStreamPlayer.stop s)
       = ZLMStreamPlayer.OnDisconnected :: ZLMStreamPlayer.trace s /\
     ZLMStreamPlayer.videoElement (ZLMStreamPlayer.stop s) =
       (let v := ZLMStreamPlayer.videoElement s in
        {| ZLMStreamPlayer.src := Some "";
           ZLMStreamPlayer.readyState := ZLMStreamPlayer.readyState v;
           ZLMStreamPlayer.currentTime := ZLMStreamPlayer.currentTime v;
           ZLMStreamPlayer.bufferedEnd := ZLMStreamPlayer.bufferedEnd v;
           ZLMStreamPlayer.videoError := ZLMStreamPlayer.videoError v;
           ZLMStreamPlayer.listeners := ZLMStreamPlayer.listeners v |}) /\
     ZLMStreamPlayer.statsContainer (ZLMStreamPlayer.stop s) =
       match ZLMStreamPlayer.statsContainer s with
       | Some _ => Some ZLMStreamPlayer.Blank
       | None => None
       end /\
     ZLMStreamPlayer.statsInterval (ZLMStreamPlayer.stop s) = None /\
     ZLMStreamPlayer.live_stats_timers (ZLMStreamPlayer.stop s) = [] /\
     forall id tm,
       ZLMStreamPlayer.timers s !! id = Some tm ->
       ZLMStreamPlayer.kind tm <> ZLMStreamPlayer.StatsTimer ->
       ZLMStreamPlayer.timers (ZLMStreamPlayer.stop s) !! id = Some tm) /\
  (forall s, ZLMStreamPlayer.reachable s ->
     ZLMStreamPlayer.stop (ZLMStreamPlayer.stop s)
       = ZLMStreamPlayer.emit ZLMStreamPlayer.OnDisconnected (ZLMStreamPlayer.stop s)).
Proof.
  split_and!.
  - intros s Hr Hp. pose proof (WebRTCFacts.rtc_reachable_inv s Hr) as HI.
    split; [by apply WebRTCFacts.rtc_stop_idle|by apply WebRTCFacts.stop_idle_trace].
  - intros s Hr. by apply WebRTCFacts.rtc_stop_stop, WebRTCFacts.rtc_reachable_inv.
  - intros s Hr Hp. pose proof (StreamFacts.flv_reachable_inv s Hr) as HI.
    destruct (StreamFacts.flv_stop_idle s Hp) as (H1 & H2 & H3 & H4 & H5).
    split_and!; try done.
    + apply StreamMore.stop_videoElement.
    + apply StreamFacts.flv_stop_statsContainer.
    + by apply StreamFacts.flv_stop_statsInterval_inv.
    + apply StreamFacts.flv_live_stats_timers_idle;
        [by apply StreamFacts.flv_stop_inv|by apply StreamFacts.flv_stop_statsInterval_inv].
    + intros id tm Hid Hk. apply StreamMore.stop_keeps_timer; [|done..].
      by apply StreamMore.kept_reachable.
  - intros s Hr. by apply StreamFacts.flv_stop_stop, StreamFacts.flv_reachable_inv.
Qed.

(** C6 as stated does not hold: stop() on a progressive session that has no
    player fires the onDisconnected callback. *)
Lemma C6_counterexample :
  ~ (forall s, ZLMStreamPlayer.reachable s -> ZLMStreamPlayer.player s = None ->
               ZLMStreamPlayer.trace (ZLMStreamPlayer.stop s) = ZLMStreamPlayer.trace s).
Proof.
  intros H.
  specialize (H (ZLMStreamPlayer.constructor ZLMStreamPlayer.no_config true [] None)).
  discriminate H; [|done]. by exists ZLMStreamPlayer.no_config, true, [], None, [].
Qed.

(** C2. What the ERROR handler of the progressive session does. A
    network-class error of the live player with the counter below the
    maximum of 3 increments the counter and then reads the URL and type to
    play again from the private property [_config] of the player: on a
    player that has no such property the read throws, the exception escapes
    the handler and no timer is set; on a player that has one, a timer is
    set 2000 ms ahead whose callback stops the session and calls play() with
    what was read. With the counter at 3, or for any other error class, the
    error is only passed to onError, and without a "playing" event no more
    than 3 reconnections are ever scheduled. On a library whose players have
    no [_config] no reconnection is ever scheduled; the stream that fails at
    once shows it. *)
Theorem C2_network_error_handling :
  (forall s h p detail args,
     ZLMStreamPlayer.reachable s ->
     ZLMStreamPlayer.players s !! h = Some p -> ZLMStreamPlayer.destroyed p = false ->
     let s' := ZLMStreamPlayer.step s
                 (ZLMStreamPlayer.PlayerError h ZLMStreamPlayer.NETWORK_ERROR detail args) in
     let e := ZLMStreamPlayer.OnError
                (Error (ZLMStreamPlayer.NETWORK_ERROR +:+ ": " +:+ detail)) in
     ZLMStreamPlayer.maxReconnectAttempts s = 3 /\
     (ZLMStreamPlayer.reconnectAttempts s < 3 ->
      ZLMStreamPlayer.reconnectAttempts s' = S (ZLMStreamPlayer.reconnectAttempts s) /\
      match ZLMStreamPlayer._config p with
      | Some c =>
          ZLMStreamPlayer.timers s' =
            ZLMStreamPlayer.timers s ++
            [{| ZLMStreamPlayer.kind :=
                  ZLMStreamPlayer.Reconnect (ZLMStreamPlayer.cfg_url c)
                                            (ZLMStreamPlayer.cfg_type c);
                ZLMStreamPlayer.due := ZLMStreamPlayer.now s + 2000;
                ZLMStreamPlayer.live := true |}] /\
          ZLMStreamPlayer.trace s' !! 1 = Some e
      | None =>
          ZLMStreamPlayer.timers s' = ZLMStreamPlayer.timers s /\
          ZLMStreamPlayer.trace s' !! 0
            = Some (ZLMStreamPlayer.Uncaught (undefined_property "url")) /\
          ZLMStreamPlayer.trace s' !! 2 = Some e
      end) /\
     (3 <= ZLMStreamPlayer.reconnectAttempts s ->
      ZLMStreamPlayer.reconnectAttempts s' = ZLMStreamPlayer.reconnectAttempts s /\
      ZLMStreamPlayer.timers s' = ZLMStreamPlayer.timers s /\
      ZLMStreamPlayer.player s' = ZLMStreamPlayer.player s /\
      ZLMStreamPlayer.players s' = ZLMStreamPlayer.players s /\
      ZLMStreamPlayer.trace s' !! 0 = Some e)) /\
  (forall s id target type d,
     ZLMStreamPlayer.timers s !! id =
       Some {| ZLMStreamPlayer.kind := ZLMStreamPlayer.Reconnect target type;
               ZLMStreamPlayer.due := d; ZLMStreamPlayer.live := true |} ->
     (ZLMStreamPlayer.now s < d ->
      ZLMStreamPlayer.step s (ZLMStreamPlayer.TimerFire id) = s) /\
     (d <= ZLMStreamPlayer.now s ->
      ZLMStreamPlayer.step s (ZLMStreamPlayer.TimerFire id) =
      ZLMStreamPlayer.play true (default "" target) type
        (ZLMStreamPlayer.stop
           (ZLMStreamPlayer.set_timers
              (alter ZLMStreamPlayer.cancel id (ZLMStreamPlayer.timers s)) s)))) /\
  (forall s h p errorType detail args,
     ZLMStreamPlayer.reachable s ->
     ZLMStreamPlayer.players s !! h = Some p -> ZLMStreamPlayer.destroyed p = false ->
     errorType <> ZLMStreamPlayer.NETWORK_ERROR ->
     let s' := ZLMStreamPlayer.step s
                 (ZLMStreamPlayer.PlayerError h errorType detail args) in
     ZLMStreamPlayer.reconnectAttempts s' = ZLMStreamPlayer.reconnectAttempts s /\
     ZLMStreamPlayer.timers s' = ZLMStreamPlayer.timers s /\
     ZLMStreamPlayer.player s' = ZLMStreamPlayer.player s /\
     ZLMStreamPlayer.players s' = ZLMStreamPlayer.players s /\
     ZLMStreamPlayer.trace s' !! 0 =
       Some (ZLMStreamPlayer.OnError (Error (errorType +:+ ": " +:+ detail)))) /\
  (forall s events,
     ZLMStreamPlayer.reachable s ->
     Forall (fun e => ZLMStreamPlayer.is_playing e = false) events ->
     ZLMStreamPlayer.reconnections (ZLMStreamPlayer.run s events)
       + ZLMStreamPlayer.reconnectAttempts s
     <= ZLMStreamPlayer.reconnections s + 3) /\
  (forall with_stats options type events,
     ZLMStreamPlayer.reconnections
       (ZLMStreamPlayer.run
          (ZLMStreamPlayer.constructor ZLMStreamPlayer.no_config with_stats options type)
          events) = 0) /\
  (let s := ZLMStreamPlayer.run
              (ZLMStreamPlayer.constructor ZLMStreamPlayer.no_config true [] None)
              ZLMStreamPlayer.failing_stream in
   ZLMStreamPlayer.reconnectAttempts s = 1 /\
   ZLMStreamPlayer.reconnections s = 0 /\
   ZLMStreamPlayer.errors_reported s = [Error "NetworkError: Exception"] /\
   head (ZLMStreamPlayer.trace s)
     = Some (ZLMStreamPlayer.Uncaught (undefined_property "url")) /\
   length (ZLMStreamPlayer.players s) = 1 /\
   ZLMStreamPlayer.timers s =
     [ {| ZLMStreamPlayer.kind := ZLMStreamPlayer.Reserved;
          ZLMStreamPlayer.due := 0; ZLMStreamPlayer.live := false |};
       {| ZLMStreamPlayer.kind := ZLMStreamPlayer.Watchdog "https://host/live/cam.live.flv";
          ZLMStreamPlayer.due := 5000; ZLMStreamPlayer.live := true |} ]).
Proof.
  split_and!.
  - intros s h p detail args Hr Hp Hd s' e.
    pose proof (StreamFacts.flv_reachable_inv s Hr) as HI.
    pose proof (StreamFacts.error_effect s h p ZLMStreamPlayer.NETWORK_ERROR detail args
                  HI Hp Hd) as (Hpl & Hps & Htk & Hrest).
    fold s' in Hpl, Hps, Htk, Hrest. rewrite (ZLMStreamPlayer.max_is_three s HI) in *.
    split; [done|]. split; intros Hlt.
    + rewrite (proj2 (Nat.ltb_lt _ _) Hlt) in Hrest. exact Hrest.
    + rewrite (proj2 (Nat.ltb_ge _ _) Hlt) in Hrest.
      destruct Hrest as (? & ? & ?). by rewrite Hpl, Hps.
  - intros s id target type d Hid. by apply StreamFacts.reconnect_fires.
  - intros s h p errorType detail args Hr Hp Hd Hne s'.
    pose proof (StreamFacts.flv_reachable_inv s Hr) as HI.
    pose proof (StreamFacts.error_effect s h p errorType detail args
                  HI Hp Hd) as (Hpl & Hps & Htk & Hrest).
    fold s' in Hpl, Hps, Htk, Hrest.
    rewrite (proj2 (String.eqb_neq _ _) Hne) in Hrest.
    destruct Hrest as (? & ? & ?). by rewrite Hpl, Hps.
  - intros s events Hr Hev. by apply StreamFacts.reconnections_bounded.
  - intros with_stats options type events.
    apply (StreamMore.silent_run events), StreamMore.silent_constructor.
  - vm_compute. by split_and!.
Qed.

(** C7. In the progressive session a "playing" event of the video surface
    sets the reconnect counter to 0 (once play() has installed its
    listeners, which it has whenever a player is alive), and no more than 3
    reconnections are scheduled from then on until the next "playing". The
    next network-class error of the live player passes the guard of the
    handler and counts as the first: the counter becomes 1, and the handler
    goes on to read [_config] of the player, with a timer 2000 ms ahead on a
    player that has one, and an exception and no timer on a player that has
    none. A stream that used up the counter, then plays and fails again,
    shows the latter. *)
Theorem C7_playing_resets_counter :
  (forall s,
     0 < ZLMStreamPlayer.listeners (ZLMStreamPlayer.videoElement s) ->
     ZLMStreamPlayer.reconnectAttempts
       (ZLMStreamPlayer.step s (ZLMStreamPlayer.VideoEvent ZLMStreamPlayer.playing)) = 0) /\
  (forall s h p detail args,
     ZLMStreamPlayer.reachable s ->
     ZLMStreamPlayer.players s !! h = Some p -> ZLMStreamPlayer.destroyed p = false ->
     let s1 := ZLMStreamPlayer.step s (ZLMStreamPlayer.VideoEvent ZLMStreamPlayer.playing) in
     let s2 := ZLMStreamPlayer.step s1
                 (ZLMStreamPlayer.PlayerError h ZLMStreamPlayer.NETWORK_ERROR detail args) in
     ZLMStreamPlayer.reconnectAttempts s1 = 0 /\
     ZLMStreamPlayer.reconnectAttempts s2 = 1 /\
     match ZLMStreamPlayer._config p with
     | Some c =>
         ZLMStreamPlayer.timers s2 =
           ZLMStreamPlayer.timers s ++
           [{| ZLMStreamPlayer.kind :=
                 ZLMStreamPlayer.Reconnect (ZLMStreamPlayer.cfg_url c)
                                           (ZLMStreamPlayer.cfg_type c);
               ZLMStreamPlayer.due := ZLMStreamPlayer.now s1 + 2000;
               ZLMStreamPlayer.live := true |}]
     | None =>
         ZLMStreamPlayer.timers s2 = ZLMStreamPlayer.timers s /\
         ZLMStreamPlayer.trace s2 !! 0
           = Some (ZLMStreamPlayer.Uncaught (undefined_property "url"))
     end) /\
  (forall s events,
     ZLMStreamPlayer.reachable s ->
     0 < ZLMStreamPlayer.listeners (ZLMStreamPlayer.videoElement s) ->
     Forall (fun e => ZLMStreamPlayer.is_playing e = false) events ->
     ZLMStreamPlayer.reconnections
       (ZLMStreamPlayer.run
          (ZLMStreamPlayer.step s (ZLMStreamPlayer.VideoEvent ZLMStreamPlayer.playing))
          events)
     <= ZLMStreamPlayer.reconnections s + 3) /\
  (let s := ZLMStreamPlayer.run
              (ZLMStreamPlayer.constructor ZLMStreamPlayer.no_config true [] None)
              ZLMStreamPlayer.three_failures in
   let s' := ZLMStreamPlayer.run s ZLMStreamPlayer.recovery_then_failure in
   ZLMStreamPlayer.reconnectAttempts s = 3 /\
   ZLMStreamPlayer.reconnectAttempts (ZLMStreamPlayer.run s ZLMStreamPlayer.recovery) = 0 /\
   ZLMStreamPlayer.reconnectAttempts s' = 1 /\
   ZLMStreamPlayer.reconnections s' = 0 /\
   head (ZLMStreamPlayer.trace s')
     = Some (ZLMStreamPlayer.Uncaught (undefined_property "url")) /\
   length (ZLMStreamPlayer.players s') = 4).
Proof.
  split_and!.
  - intros s Hl. by apply StreamFacts.playing_resets.
  - intros s h p detail args Hr Hp Hd s1 s2.
    pose proof (StreamFacts.flv_reachable_inv s Hr) as HI.
    destruct (StreamFacts.alive_observed s h p HI Hp Hd) as [Hcur _].
    assert (0 < ZLMStreamPlayer.listeners (ZLMStreamPlayer.videoElement s)) as Hl
      by (apply (ZLMStreamPlayer.listening s HI); congruence).
    destruct (StreamFacts.playing_resets s Hl) as (Hra & Hpl & Hps & Htm & Hm).
    fold s1 in Hra, Hpl, Hps, Htm, Hm.
    assert (ZLMStreamPlayer.Inv s1) as HI1 by (by apply StreamFacts.flv_step_inv).
    assert (ZLMStreamPlayer.players s1 !! h = Some p) as Hp1 by (by rewrite Hps).
    pose proof (StreamFacts.error_effect s1 h p ZLMStreamPlayer.NETWORK_ERROR detail args
                  HI1 Hp1 Hd) as (_ & _ & _ & Hrest).
    fold s2 in Hrest.
    rewrite Hra, Hm, (ZLMStreamPlayer.max_is_three s HI), Htm in Hrest.
    destruct Hrest as (Hc & Hrest). split_and!; [done..|].
    destruct (ZLMStreamPlayer._config p); [by destruct Hrest|].
    by destruct Hrest as (? & ? & ?).
  - intros s events Hr Hl Hev.
    pose proof (StreamFacts.reconnections_bounded
                  (ZLMStreamPlayer.step s (ZLMStreamPlayer.VideoEvent ZLMStreamPlayer.playing))
                  events (StreamFacts.flv_reachable_step _ _ Hr) Hev) as Hb.
    destruct (StreamFacts.playing_resets s Hl) as (Hra & _ & _ & Htm & _).
    unfold ZLMStreamPlayer.reconnections in *. rewrite Htm in Hb. lia.
  - vm_compute. by split_and!.
Qed.

(** C9. In the real-time session a JSON response whose [code] is absent or
    is anything but the number 0 makes play() reject: onError is called,
    stop() leaves no connection, and no remote description is applied.
    Conversely, a call reaches setRemoteDescription only on a response whose
    [code] is the number 0. *)
Theorem C9_code_must_be_zero :
  (forall result,
     get "code" result <> Some (JNum 0) ->
     exists e, ZLMWebRTCPlayer.read_answer result = inl e) /\
  (forall s t rq response result,
     ZLMWebRTCPlayer.reachable s ->
     ZLMWebRTCPlayer.phase_of t s = Some (ZLMWebRTCPlayer.AwaitFetch rq) ->
     ZLMWebRTCPlayer.body response = inr result ->
     get "code" result <> Some (JNum 0) ->
     exists e, ZLMWebRTCPlayer.rejected t e s (ZLMWebRTCPlayer.deliver t response s)) /\
  (forall s t rq response h sdp,
     ZLMWebRTCPlayer.reachable s ->
     ZLMWebRTCPlayer.phase_of t s = Some (ZLMWebRTCPlayer.AwaitFetch rq) ->
     ZLMWebRTCPlayer.phase_of t (ZLMWebRTCPlayer.deliver t response s)
       = Some (ZLMWebRTCPlayer.AwaitSetRemote h sdp) ->
     exists result,
       ZLMWebRTCPlayer.ok response = true /\
       ZLMWebRTCPlayer.body response = inr result /\
       get "code" result = Some (JNum 0)).
Proof.
  split_and!.
  - apply WebRTCFacts.read_answer_bad_code.
  - intros s t rq response result Hr Hph Hbody Hcode.
    pose proof (WebRTCFacts.rtc_reachable_inv s Hr) as HI.
    destruct (ZLMWebRTCPlayer.ok response) eqn:Hok.
    + pose proof (WebRTCFacts.deliver_body t rq response s HI Hph Hok) as Hd.
      rewrite Hbody in Hd.
      destruct (WebRTCFacts.read_answer_bad_code result Hcode) as [e He].
      rewrite He in Hd. eauto.
    + eexists. by eapply WebRTCFacts.deliver_not_ok.
  - intros s t rq response h sdp Hr Hph Hres.
    pose proof (WebRTCFacts.rtc_reachable_inv s Hr) as HI.
    destruct (ZLMWebRTCPlayer.ok response) eqn:Hok.
    + pose proof (WebRTCFacts.deliver_body t rq response s HI Hph Hok) as Hd.
      destruct (ZLMWebRTCPlayer.body response) as [e|result].
      { destruct Hd as (Hd & _). congruence. }
      exists result. split_and!; try done.
      destruct (ZLMWebRTCPlayer.read_answer result) as [e|answerSdp] eqn:Hra.
      { destruct Hd as (Hd & _). congruence. }
      by apply WebRTCFacts.read_answer_code in Hra as (? & _).
    + pose proof (WebRTCFacts.deliver_not_ok t rq response s HI Hph Hok) as (Hd & _).
      congruence.
Qed.

(** C4, as amended. In the real-time session a response with a 2xx status
    whose JSON body has a [code] other than the number 0 makes play() reject
    with the error "ZLMediaKit error: <msg>" ("Unknown error" when [msg] is
    absent or empty), calls onError with it and leaves no connection; a
    response with any other status is rejected before its body is read, with
    an error that names the status instead. *)
Theorem C4_nonzero_code_rejects :
  (forall s t rq response result msg,
     ZLMWebRTCPlayer.reachable s ->
     ZLMWebRTCPlayer.phase_of t s = Some (ZLMWebRTCPlayer.AwaitFetch rq) ->
     ZLMWebRTCPlayer.ok response = true ->
     ZLMWebRTCPlayer.body response = inr result ->
     result <> JNull ->
     strict_neq_zero (get "code" result) = true ->
     get "msg" result = Some (JStr msg) -> msg <> "" ->
     ZLMWebRTCPlayer.rejected t (Error ("ZLMediaKit error: " +:+ msg)) s
       (ZLMWebRTCPlayer.deliver t response s)) /\
  (forall s t rq response result,
     ZLMWebRTCPlayer.reachable s ->
     ZLMWebRTCPlayer.phase_of t s = Some (ZLMWebRTCPlayer.AwaitFetch rq) ->
     ZLMWebRTCPlayer.ok response = true ->
     ZLMWebRTCPlayer.body response = inr result ->
     result <> JNull ->
     strict_neq_zero (get "code" result) = true ->
     truthy (get "msg" result) = false ->
     ZLMWebRTCPlayer.rejected t (Error "ZLMediaKit error: Unknown error") s
       (ZLMWebRTCPlayer.deliver t response s)) /\
  (forall s t rq response,
     ZLMWebRTCPlayer.reachable s ->
     ZLMWebRTCPlayer.phase_of t s = Some (ZLMWebRTCPlayer.AwaitFetch rq) ->
     ZLMWebRTCPlayer.ok response = false ->
     ZLMWebRTCPlayer.rejected t
       (Error ("Server returned " +:+ pretty (ZLMWebRTCPlayer.status response) +:+ ": "
               +:+ ZLMWebRTCPlayer.statusText response)) s
       (ZLMWebRTCPlayer.deliver t response s)).
Proof.
  split_and!.
  - intros s t rq response result msg Hr Hph Hok Hbody Hnull Hcode Hmsg Hne.
    pose proof (WebRTCFacts.rtc_reachable_inv s Hr) as HI.
    pose proof (WebRTCFacts.deliver_body t rq response s HI Hph Hok) as Hd.
    rewrite Hbody, (WebRTCFacts.read_answer_error result Hnull Hcode) in Hd.
    unfold or_else in Hd. rewrite Hmsg in Hd. simpl in Hd.
    rewrite (proj2 (String.eqb_neq _ _) Hne) in Hd. exact Hd.
  - intros s t rq response result Hr Hph Hok Hbody Hnull Hcode Hmsg.
    pose proof (WebRTCFacts.rtc_reachable_inv s Hr) as HI.
    pose proof (WebRTCFacts.deliver_body t rq response s HI Hph Hok) as Hd.
    rewrite Hbody, (WebRTCFacts.read_answer_error result Hnull Hcode) in Hd.
    unfold or_else in Hd. rewrite Hmsg in Hd. exact Hd.
  - intros s t rq response Hr Hph Hok.
    apply (WebRTCFacts.deliver_not_ok t rq); [|done..].
    by apply WebRTCFacts.rtc_reachable_inv.
Qed.

(** C4 as stated does not hold: a response with status 500 whose body is
    {code: 1, msg: "stream not found"} rejects play() with the status error,
    which does not carry [msg]. *)
Lemma C4_counterexample :
  ~ (forall s t rq response result msg,
       ZLMWebRTCPlayer.reachable s ->
       ZLMWebRTCPlayer.phase_of t s = Some (ZLMWebRTCPlayer.AwaitFetch rq) ->
       ZLMWebRTCPlayer.body response = inr result ->
       strict_neq_zero (get "code" result) = true ->
       get "msg" result = Some (JStr msg) ->
       ZLMWebRTCPlayer.phase_of t (ZLMWebRTCPlayer.deliver t response s)
       = Some (ZLMWebRTCPlayer.Done
                 (ZLMWebRTCPlayer.Rejected (Error ("ZLMediaKit error: " +:+ msg))))).
Proof.
  intros H.
  pose (s := ZLMWebRTCPlayer.run
               (ZLMWebRTCPlayer.constructor true None "https://page.example")
               ZLMWebRTCPlayer.until_request).
  assert (ZLMWebRTCPlayer.reachable s) as Hr by (by eexists _, _, _, _).
  assert (exists rq, ZLMWebRTCPlayer.phase_of 0 s = Some (ZLMWebRTCPlayer.AwaitFetch rq))
    as [rq Hph] by (vm_compute; eauto).
  specialize (H s 0 rq ZLMWebRTCPlayer.stream_not_found _ "stream not found" Hr Hph
                eq_refl eq_refl eq_refl).
  vm_compute in H. discriminate H.
Qed.

(** C5, as amended. In the real-time session the answer SDP is the first
    truthy value among [sdp], [answer] and [data.sdp] of the body. A
    response with a 2xx status whose body has [code] equal to the number 0
    and none of the three fields makes play() reject with the error "No SDP
    answer found in response", after which no connection is left; a body
    without the three fields whose [code] is not the number 0 is rejected by
    the check before, with a "ZLMediaKit error: ..." error; with an answer
    that is a string the call goes on to setRemoteDescription with it. *)
Theorem C5_missing_answer :
  (forall result,
     truthy (get "sdp" result) = true ->
     ZLMWebRTCPlayer.answer_of result = get "sdp" result) /\
  (forall result,
     truthy (get "sdp" result) = false -> truthy (get "answer" result) = true ->
     ZLMWebRTCPlayer.answer_of result = get "answer" result) /\
  (forall result,
     truthy (get "sdp" result) = false -> truthy (get "answer" result) = false ->
     ZLMWebRTCPlayer.answer_of result = get_optional "sdp" (get "data" result)) /\
  (forall s t rq response result,
     ZLMWebRTCPlayer.reachable s ->
     ZLMWebRTCPlayer.phase_of t s = Some (ZLMWebRTCPlayer.AwaitFetch rq) ->
     ZLMWebRTCPlayer.ok response = true ->
     ZLMWebRTCPlayer.body response = inr result ->
     get "code" result = Some (JNum 0) ->
     get "sdp" result = None -> get "answer" result = None ->
     get_optional "sdp" (get "data" result) = None ->
     ZLMWebRTCPlayer.rejected t (Error "No SDP answer found in response") s
       (ZLMWebRTCPlayer.deliver t response s)) /\
  (forall s t rq response result,
     ZLMWebRTCPlayer.reachable s ->
     ZLMWebRTCPlayer.phase_of t s = Some (ZLMWebRTCPlayer.AwaitFetch rq) ->
     ZLMWebRTCPlayer.ok response = true ->
     ZLMWebRTCPlayer.body response = inr result ->
     result <> JNull ->
     get "code" result <> Some (JNum 0) ->
     get "sdp" result = None -> get "answer" result = None ->
     get_optional "sdp" (get "data" result) = None ->
     exists msg,
       ZLMWebRTCPlayer.rejected t (Error ("ZLMediaKit error: " +:+ msg)) s
         (ZLMWebRTCPlayer.deliver t response s)) /\
  (forall s t rq response result answerSdp h,
     ZLMWebRTCPlayer.reachable s ->
     ZLMWebRTCPlayer.phase_of t s = Some (ZLMWebRTCPlayer.AwaitFetch rq) ->
     ZLMWebRTCPlayer.ok response = true ->
     ZLMWebRTCPlayer.body response = inr result ->
     get "code" result = Some (JNum 0) ->
     ZLMWebRTCPlayer.answer_of result = Some (JStr answerSdp) ->
     answerSdp <> "" ->
     ZLMWebRTCPlayer.peerConnection s = Some h ->
     ZLMWebRTCPlayer.phase_of t (ZLMWebRTCPlayer.deliver t response s)
     = Some (ZLMWebRTCPlayer.AwaitSetRemote h answerSdp)).
Proof.
  split_and!.
  - intros result Hs. unfold ZLMWebRTCPlayer.answer_of, or_else. by rewrite Hs, Hs.
  - intros result Hs Ha. unfold ZLMWebRTCPlayer.answer_of, or_else. by rewrite Hs, Ha.
  - intros result Hs Ha. unfold ZLMWebRTCPlayer.answer_of, or_else.
    rewrite Hs, Ha. by destruct (truthy (get_optional "sdp" (get "data" result))).
  - intros s t rq response result Hr Hph Hok Hbody Hcode Hs Ha Hd.
    pose proof (WebRTCFacts.rtc_reachable_inv s Hr) as HI.
    pose proof (WebRTCFacts.deliver_body t rq response s HI Hph Hok) as Hdel.
    rewrite Hbody in Hdel.
    rewrite (WebRTCFacts.read_answer_missing result) in Hdel; [done| | |].
    + intros ->. done.
    + by rewrite Hcode.
    + by apply WebRTCFacts.answer_of_missing.
  - intros s t rq response result Hr Hph Hok Hbody Hnull Hcode Hs Ha Hd.
    pose proof (WebRTCFacts.rtc_reachable_inv s Hr) as HI.
    pose proof (WebRTCFacts.deliver_body t rq response s HI Hph Hok) as Hdel.
    rewrite Hbody in Hdel.
    assert (strict_neq_zero (get "code" result) = true) as Hc.
    { destruct (get "code" result) as [[| |z| | |]|]; try done.
      simpl. apply negb_true_iff, Z.eqb_neq. intros ->. done. }
    rewrite (WebRTCFacts.read_answer_error result Hnull Hc) in Hdel. eauto.
  - intros s t rq response result answerSdp h Hr Hph Hok Hbody Hcode Hans Hne Hpc.
    pose proof (WebRTCFacts.rtc_reachable_inv s Hr) as HI.
    pose proof (WebRTCFacts.deliver_body t rq response s HI Hph Hok) as Hdel.
    rewrite Hbody in Hdel.
    assert (ZLMWebRTCPlayer.read_answer result = inr (JStr answerSdp)) as Hra.
    { unfold ZLMWebRTCPlayer.read_answer. rewrite Hcode, Hans. simpl.
      rewrite (proj2 (String.eqb_neq _ _) Hne). destruct result; try done. }
    rewrite Hra, Hpc in Hdel. by destruct Hdel.
Qed.

(** C5 as stated does not hold: a response with status 200 whose body is the
    empty object has none of [sdp], [answer] and [data.sdp], and play()
    rejects with the error of the check on [code], not with the error for a
    missing answer. *)
Lemma C5_counterexample :
  ~ (forall s t rq response result,
       ZLMWebRTCPlayer.reachable s ->
       ZLMWebRTCPlayer.phase_of t s = Some (ZLMWebRTCPlayer.AwaitFetch rq) ->
       ZLMWebRTCPlayer.body response = inr result ->
       get "sdp" result = None -> get "answer" result = None ->
       get_optional "sdp" (get "data" result) = None ->
       ZLMWebRTCPlayer.phase_of t (ZLMWebRTCPlayer.deliver t response s)
       = Some (ZLMWebRTCPlayer.Done
                 (ZLMWebRTCPlayer.Rejected (Error "No SDP answer found in response")))).
Proof.
  intros H.
  pose (s := ZLMWebRTCPlayer.run
               (ZLMWebRTCPlayer.constructor true None "https://page.example")
               ZLMWebRTCPlayer.until_request).
  assert (ZLMWebRTCPlayer.reachable s) as Hr by (by eexists _, _, _, _).
  assert (exists rq, ZLMWebRTCPlayer.phase_of 0 s = Some (ZLMWebRTCPlayer.AwaitFetch rq))
    as [rq Hph] by (vm_compute; eauto).
  specialize (H s 0 rq (ZLMWebRTCPlayer.response_of (JObj [])) (JObj []) Hr Hph
                eq_refl eq_refl eq_refl eq_refl).
  vm_compute in H. discriminate H.
Qed.

(** C3. A call of play() whose ICE wait is cut short by stop() never
    settles. Left alone, the call waits with a timer 5000 ms ahead, and when
    the timer fires the offer is posted. When stop() is called during the
    wait, the timer still fires, its callback reads the gathering state of
    the connection the session no longer has and throws, the wait is not
    resolved, and whatever happens afterwards the call stays where it is. *)
Theorem C3_stop_during_ice_wait :
  let c := ZLMWebRTCPlayer.constructor true None "https://page.example" in
  let target := "https://host/index/api/webrtc?app=live&stream=cam&type=play" in
  let alone := ZLMWebRTCPlayer.run c ZLMWebRTCPlayer.waiting_five_seconds in
  let s := ZLMWebRTCPlayer.run c ZLMWebRTCPlayer.stopped_while_waiting in
  let s' := ZLMWebRTCPlayer.step s (ZLMWebRTCPlayer.TimerFire 1) in
  (ZLMWebRTCPlayer.phase_of 0 alone = Some (ZLMWebRTCPlayer.AwaitIce 0 1) /\
   ZLMWebRTCPlayer.phase_of 0 (ZLMWebRTCPlayer.step alone (ZLMWebRTCPlayer.TimerFire 1))
   = Some (ZLMWebRTCPlayer.AwaitFetch
             (ZLMWebRTCPlayer.signaling_request target "v=0" "https://page.example"))) /\
  ZLMWebRTCPlayer.phase_of 0 s = Some (ZLMWebRTCPlayer.AwaitIce 0 1) /\
  ZLMWebRTCPlayer.peerConnection s = None /\
  ZLMWebRTCPlayer.timers s !! 1 =
    Some {| ZLMWebRTCPlayer.kind := ZLMWebRTCPlayer.IceTimeout 0;
            ZLMWebRTCPlayer.due := 5000; ZLMWebRTCPlayer.live := true |} /\
  ZLMWebRTCPlayer.now s = 5000 /\
  head (ZLMWebRTCPlayer.trace s')
    = Some (ZLMWebRTCPlayer.Uncaught (null_property "iceGatheringState")) /\
  ZLMWebRTCPlayer.requests_sent s' = [] /\
  forall events,
    exists h tid,
      ZLMWebRTCPlayer.phase_of 0 (ZLMWebRTCPlayer.run s' events)
      = Some (ZLMWebRTCPlayer.AwaitIce h tid).
Proof.
  intros c target alone s s'.
  split; [vm_compute; by split|].
  do 6 (split; [vm_compute; reflexivity|]).
  intros events. apply WebRTCFacts.abandoned_forever.
  split_and!.
  - eexists _, 0, 1. vm_compute. split; reflexivity.
  - intros id tm Hid Hkind.
    destruct id as [|[|[|id]]]; vm_compute in Hid; simplify_eq; done.
  - intros h pc Hh Hopen.
    destruct h as [|h]; vm_compute in Hh; simplify_eq; done.
Qed.



(* ===================================================================== *)
(** ** The claims at concrete inputs *)
(* ===================================================================== *)


(** C10 on sessions whose stats timer runs: a real-time session whose
    connection reported "connected", and a progressive session whose video
    started. *)
Lemma C10_witness :
  let s := ZLMWebRTCPlayer.run
             (ZLMWebRTCPlayer.constructor true None "https://page.example")
             ZLMWebRTCPlayer.connected_once in
  let s' := ZLMStreamPlayer.run
              (ZLMStreamPlayer.constructor ZLMStreamPlayer.no_config true [] None)
              [ZLMStreamPlayer.CallPlay "https://host/a.flv" None;
               ZLMStreamPlayer.VideoPlaySettled 0 None] in
  (ZLMWebRTCPlayer.timer_set (ZLMWebRTCPlayer.statsInterval s) = true /\
   ZLMWebRTCPlayer._startStatsMonitoring s = s) /\
  (ZLMWebRTCPlayer.reachable s /\ length (ZLMWebRTCPlayer.live_stats_timers s) <= 1) /\
  (ZLMStreamPlayer.timer_set (ZLMStreamPlayer.statsInterval s') = true /\
   ZLMStreamPlayer._startStatsMonitoring s' = s') /\
  (ZLMStreamPlayer.reachable s' /\ length (ZLMStreamPlayer.live_stats_timers s') <= 1).
Proof.
  intros s s'.
  assert (ZLMWebRTCPlayer.reachable s) as Hr by (by eexists _, _, _, _).
  assert (ZLMStreamPlayer.reachable s') as Hr' by (by eexists _, _, _, _, _).
  assert (ZLMWebRTCPlayer.timer_set (ZLMWebRTCPlayer.statsInterval s) = true) as Hs
    by (vm_compute; reflexivity).
  assert (ZLMStreamPlayer.timer_set (ZLMStreamPlayer.statsInterval s') = true) as Hs'
    by (vm_compute; reflexivity).
  destruct C10_single_stats_timer as (H1 & H2 & H3 & H4).
  split; [split; [exact Hs|exact (H1 s Hs)]|].
  split; [split; [exact Hr|exact (proj1 (H2 s Hr))]|].
  split; [split; [exact Hs'|exact (H3 s' Hs')]|].
  split; [exact Hr'|exact (proj1 (H4 s' Hr'))].
Defined.

(** C6 on sessions stopped after a play. *)
Lemma C6_witness :
  let s := ZLMWebRTCPlayer.run
             (ZLMWebRTCPlayer.constructor true None "https://page.example")
             [ZLMWebRTCPlayer.CallPlay "https://host/a"; ZLMWebRTCPlayer.CallStop] in
  let s' := ZLMStreamPlayer.run
              (ZLMStreamPlayer.constructor ZLMStreamPlayer.no_config true [] None)
              [ZLMStreamPlayer.CallPlay "https://host/a.flv" None;
               ZLMStreamPlayer.CallStop] in
  (ZLMWebRTCPlayer.reachable s /\ ZLMWebRTCPlayer.peerConnection s = None /\
   ZLMWebRTCPlayer.trace (ZLMWebRTCPlayer.stop s) = ZLMWebRTCPlayer.trace s /\
   ZLMWebRTCPlayer.stop (ZLMWebRTCPlayer.stop s) = ZLMWebRTCPlayer.stop s) /\
  (ZLMStreamPlayer.reachable s' /\ ZLMStreamPlayer.player s' = None /\
   ZLMStreamPlayer.trace (ZLMStreamPlayer.stop s')
     = ZLMStreamPlayer.OnDisconnected :: ZLMStreamPlayer.trace s' /\
   ZLMStreamPlayer.src (ZLMStreamPlayer.videoElement (ZLMStreamPlayer.stop s')) = Some "" /\
   ZLMStreamPlayer.stop (ZLMStreamPlayer.stop s')
     = ZLMStreamPlayer.emit ZLMStreamPlayer.OnDisconnected (ZLMStreamPlayer.stop s')).
Proof.
  intros s s'.
  assert (ZLMWebRTCPlayer.reachable s) as Hr by (by eexists _, _, _, _).
  assert (ZLMStreamPlayer.reachable s') as Hr' by (by eexists _, _, _, _, _).
  assert (ZLMWebRTCPlayer.peerConnection s = None) as Hp by (vm_compute; reflexivity).
  assert (ZLMStreamPlayer.player s' = None) as Hp' by (vm_compute; reflexivity).
  destruct C6_stop_without_handle as (H1 & H2 & H3 & H4).
  split.
  - split; [exact Hr|]. split; [exact Hp|]. split.
    + exact (proj2 (H1 s Hr Hp)).
    + exact (H2 s Hr).
  - split; [exact Hr'|]. split; [exact Hp'|].
    destruct (H3 s' Hr' Hp') as (_ & _ & _ & _ & Ht & Hv & _).
    split; [exact Ht|]. split.
    + exact (f_equal ZLMStreamPlayer.src Hv).
    + exact (H4 s' Hr').
Defined.

(** C2 on a progressive session that has just called play, on a library
    whose players have no [_config]: a network error counts and sets no
    timer, a media error does not count. *)
Lemma C2_witness :
  let s := ZLMStreamPlayer.run
             (ZLMStreamPlayer.constructor ZLMStreamPlayer.no_config true [] None)
             [ZLMStreamPlayer.CallPlay "https://host/a.flv" None] in
  let s' := ZLMStreamPlayer.step s (ZLMStreamPlayer.network_failure 0) in
  let s'' := ZLMStreamPlayer.step s
               (ZLMStreamPlayer.PlayerError 0 ZLMStreamPlayer.MEDIA_ERROR "FormatError" "[]") in
  exists p,
    ZLMStreamPlayer.reachable s /\
    ZLMStreamPlayer.players s !! 0 = Some p /\ ZLMStreamPlayer.destroyed p = false /\
    ZLMStreamPlayer._config p = None /\
    ZLMStreamPlayer.reconnectAttempts s < 3 /\
    ZLMStreamPlayer.MEDIA_ERROR <> ZLMStreamPlayer.NETWORK_ERROR /\
    Forall (fun e => ZLMStreamPlayer.is_playing e = false)
           [ZLMStreamPlayer.network_failure 0] /\
    ZLMStreamPlayer.reconnectAttempts s' = S (ZLMStreamPlayer.reconnectAttempts s) /\
    ZLMStreamPlayer.timers s' = ZLMStreamPlayer.timers s /\
    ZLMStreamPlayer.timers s'' = ZLMStreamPlayer.timers s /\
    ZLMStreamPlayer.reconnections (ZLMStreamPlayer.run s [ZLMStreamPlayer.network_failure 0])
      + ZLMStreamPlayer.reconnectAttempts s
    <= ZLMStreamPlayer.reconnections s + 3.
Proof.
  intros s s' s''.
  assert (ZLMStreamPlayer.reachable s) as Hr by (by eexists _, _, _, _, _).
  assert (exists p, ZLMStreamPlayer.players s !! 0 = Some p /\
                    ZLMStreamPlayer.destroyed p = false /\
                    ZLMStreamPlayer._config p = None) as (p & Hp & Hd & Hc)
    by (vm_compute; eauto).
  assert (ZLMStreamPlayer.reconnectAttempts s < 3) as Hlt by (vm_compute; lia).
  assert (ZLMStreamPlayer.MEDIA_ERROR <> ZLMStreamPlayer.NETWORK_ERROR) as Hne by done.
  assert (Forall (fun e => ZLMStreamPlayer.is_playing e = false)
                 [ZLMStreamPlayer.network_failure 0]) as Hev
    by (repeat constructor).
  destruct C2_network_error_handling as (H1 & _ & H3 & H4 & _).
  exists p. do 7 (split; [assumption|]).
  destruct (H1 s 0 p ZLMStreamPlayer.NETWORK_EXCEPTION "[]" Hr Hp Hd) as (_ & Hretry & _).
  destruct (Hretry Hlt) as [Hn Ht]. rewrite Hc in Ht.
  split; [exact Hn|]. split; [exact (proj1 Ht)|]. split.
  - destruct (H3 s 0 p ZLMStreamPlayer.MEDIA_ERROR "FormatError" "[]" Hr Hp Hd Hne)
      as (_ & Ht' & _).
    exact Ht'.
  - exact (H4 s [ZLMStreamPlayer.network_failure 0] Hr Hev).
Defined.

(** C7 on a progressive session that has used up its counter, on a library
    whose players have no [_config]: "playing" resets the counter, and the
    next network error counts as the first and sets no timer. *)
Lemma C7_witness :
  let s := ZLMStreamPlayer.run
             (ZLMStreamPlayer.constructor ZLMStreamPlayer.no_config true [] None)
             ZLMStreamPlayer.three_failures in
  let s1 := ZLMStreamPlayer.step s (ZLMStreamPlayer.VideoEvent ZLMStreamPlayer.playing) in
  let s2 := ZLMStreamPlayer.step s1 (ZLMStreamPlayer.network_failure 2) in
  exists p,
    ZLMStreamPlayer.reachable s /\
    0 < ZLMStreamPlayer.listeners (ZLMStreamPlayer.videoElement s) /\
    ZLMStreamPlayer.players s !! 2 = Some p /\ ZLMStreamPlayer.destroyed p = false /\
    ZLMStreamPlayer._config p = None /\
    ZLMStreamPlayer.reconnectAttempts s = 3 /\
    ZLMStreamPlayer.reconnectAttempts s1 = 0 /\
    ZLMStreamPlayer.reconnectAttempts s2 = 1 /\
    ZLMStreamPlayer.timers s2 = ZLMStreamPlayer.timers s.
Proof.
  intros s s1 s2.
  assert (ZLMStreamPlayer.reachable s) as Hr by (by eexists _, _, _, _, _).
  assert (0 < ZLMStreamPlayer.listeners (ZLMStreamPlayer.videoElement s)) as Hl
    by (vm_compute; lia).
  assert (exists p, ZLMStreamPlayer.players s !! 2 = Some p /\
                    ZLMStreamPlayer.destroyed p = false /\
                    ZLMStreamPlayer._config p = None) as (p & Hp & Hd & Hc)
    by (vm_compute; eauto).
  assert (ZLMStreamPlayer.reconnectAttempts s = 3) as Ha by (vm_compute; reflexivity).
  destruct C7_playing_resets_counter as (H1 & H2 & _).
  exists p. do 6 (split; [assumption|]).
  split; [exact (H1 s Hl)|].
  destruct (H2 s 2 p ZLMStreamPlayer.NETWORK_EXCEPTION "[]" Hr Hp Hd) as (_ & Hn & Ht).
  rewrite Hc in Ht. split; [exact Hn|exact (proj1 Ht)].
Defined.

(** C9 on a handshake that has sent its request: a body without [code]
    rejects the call, and the body that lets it go on has [code] 0. *)
Lemma C9_witness :
  let s := ZLMWebRTCPlayer.run
             (ZLMWebRTCPlayer.constructor true None "https://page.example")
             ZLMWebRTCPlayer.until_request in
  let result := JObj [("msg", JStr "no code")] in
  let good := ZLMWebRTCPlayer.response_of
                (JObj [("code", JNum 0); ("sdp", JStr "v=0 answer")]) in
  exists rq,
    ZLMWebRTCPlayer.reachable s /\
    ZLMWebRTCPlayer.phase_of 0 s = Some (ZLMWebRTCPlayer.AwaitFetch rq) /\
    ZLMWebRTCPlayer.body (ZLMWebRTCPlayer.response_of result) = inr result /\
    get "code" result <> Some (JNum 0) /\
    ZLMWebRTCPlayer.phase_of 0 (ZLMWebRTCPlayer.deliver 0 good s)
      = Some (ZLMWebRTCPlayer.AwaitSetRemote 0 "v=0 answer") /\
    (exists e, ZLMWebRTCPlayer.read_answer result = inl e) /\
    (exists e, ZLMWebRTCPlayer.rejected 0 e s
                 (ZLMWebRTCPlayer.deliver 0 (ZLMWebRTCPlayer.response_of result) s)) /\
    (exists result',
       ZLMWebRTCPlayer.ok good = true /\
       ZLMWebRTCPlayer.body good = inr result' /\
       get "code" result' = Some (JNum 0)).
Proof.
  intros s result good.
  assert (ZLMWebRTCPlayer.reachable s) as Hr by (by eexists _, _, _, _).
  assert (exists rq, ZLMWebRTCPlayer.phase_of 0 s = Some (ZLMWebRTCPlayer.AwaitFetch rq))
    as [rq Hph] by (vm_compute; eauto).
  assert (ZLMWebRTCPlayer.body (ZLMWebRTCPlayer.response_of result) = inr result) as Hb
    by reflexivity.
  assert (get "code" result <> Some (JNum 0)) as Hc by (vm_compute; discriminate).
  assert (ZLMWebRTCPlayer.phase_of 0 (ZLMWebRTCPlayer.deliver 0 good s)
          = Some (ZLMWebRTCPlayer.AwaitSetRemote 0 "v=0 answer")) as Hg
    by (vm_compute; reflexivity).
  destruct C9_code_must_be_zero as (H1 & H2 & H3).
  exists rq. do 5 (split; [assumption|]).
  split; [|split].
  - exact (H1 result Hc).
  - exact (H2 s 0 rq (ZLMWebRTCPlayer.response_of result) result Hr Hph Hb Hc).
  - exact (H3 s 0 rq good 0 "v=0 answer" Hr Hph Hg).
Defined.

(** C4 on a handshake that has sent its request, for a body with a
    message, a body without one, and a response with status 500. *)
Lemma C4_witness :
  let s := ZLMWebRTCPlayer.run
             (ZLMWebRTCPlayer.constructor true None "https://page.example")
             ZLMWebRTCPlayer.until_request in
  let named := JObj [("code", JNum 1); ("msg", JStr "stream not found")] in
  let unnamed := JObj [("code", JNum 1)] in
  exists rq,
    ZLMWebRTCPlayer.reachable s /\
    ZLMWebRTCPlayer.phase_of 0 s = Some (ZLMWebRTCPlayer.AwaitFetch rq) /\
    ZLMWebRTCPlayer.ok (ZLMWebRTCPlayer.response_of named) = true /\
    ZLMWebRTCPlayer.body (ZLMWebRTCPlayer.response_of named) = inr named /\
    named <> JNull /\
    strict_neq_zero (get "code" named) = true /\
    get "msg" named = Some (JStr "stream not found") /\
    "stream not found" <> "" /\
    ZLMWebRTCPlayer.ok (ZLMWebRTCPlayer.response_of unnamed) = true /\
    ZLMWebRTCPlayer.body (ZLMWebRTCPlayer.response_of unnamed) = inr unnamed /\
    unnamed <> JNull /\
    strict_neq_zero (get "code" unnamed) = true /\
    truthy (get "msg" unnamed) = false /\
    ZLMWebRTCPlayer.ok ZLMWebRTCPlayer.stream_not_found = false /\
    ZLMWebRTCPlayer.rejected 0 (Error "ZLMediaKit error: stream not found") s
      (ZLMWebRTCPlayer.deliver 0 (ZLMWebRTCPlayer.response_of named) s) /\
    ZLMWebRTCPlayer.rejected 0 (Error "ZLMediaKit error: Unknown error") s
      (ZLMWebRTCPlayer.deliver 0 (ZLMWebRTCPlayer.response_of unnamed) s) /\
    ZLMWebRTCPlayer.rejected 0
      (Error ("Server returned " +:+ pretty 500 +:+ ": " +:+ "Internal Server Error")) s
      (ZLMWebRTCPlayer.deliver 0 ZLMWebRTCPlayer.stream_not_found s).
Proof.
  intros s named unnamed.
  assert (ZLMWebRTCPlayer.reachable s) as Hr by (by eexists _, _, _, _).
  assert (exists rq, ZLMWebRTCPlayer.phase_of 0 s = Some (ZLMWebRTCPlayer.AwaitFetch rq))
    as [rq Hph] by (vm_compute; eauto).
  destruct C4_nonzero_code_rejects as (H1 & H2 & H3).
  exists rq. split; [exact Hr|]. split; [exact Hph|].
  do 2 (split; [reflexivity|]). split; [discriminate|].
  do 2 (split; [reflexivity|]). split; [discriminate|].
  do 2 (split; [reflexivity|]). split; [discriminate|].
  do 3 (split; [reflexivity|]).
  split; [|split].
  - apply (H1 s 0 rq (ZLMWebRTCPlayer.response_of named) named "stream not found" Hr Hph);
      first [reflexivity|discriminate].
  - apply (H2 s 0 rq (ZLMWebRTCPlayer.response_of unnamed) unnamed Hr Hph);
      first [reflexivity|discriminate].
  - exact (H3 s 0 rq ZLMWebRTCPlayer.stream_not_found Hr Hph eq_refl).
Defined.

(** C5 on a handshake that has sent its request, for bodies with the
    answer under [data.sdp], under [answer], and nowhere, the last with and
    without [code]. *)
Lemma C5_witness :
  let s := ZLMWebRTCPlayer.run
             (ZLMWebRTCPlayer.constructor true None "https://page.example")
             ZLMWebRTCPlayer.until_request in
  let empty := JObj [("code", JNum 0)] in
  let bare := JObj [] in
  let nested := JObj [("code", JNum 0); ("sdp", JStr "");
                      ("data", JObj [("sdp", JStr "v=0 answer")])] in
  let plain := JObj [("code", JNum 0); ("answer", JStr "v=0 answer")] in
  exists rq,
    ZLMWebRTCPlayer.reachable s /\
    ZLMWebRTCPlayer.phase_of 0 s = Some (ZLMWebRTCPlayer.AwaitFetch rq) /\
    ZLMWebRTCPlayer.peerConnection s = Some 0 /\
    truthy (get "sdp" nested) = false /\ truthy (get "answer" nested) = false /\
    truthy (get "sdp" plain) = false /\ truthy (get "answer" plain) = true /\
    get "code" empty = Some (JNum 0) /\
    get "sdp" empty = None /\ get "answer" empty = None /\
    get_optional "sdp" (get "data" empty) = None /\
    bare <> JNull /\ get "code" bare <> Some (JNum 0) /\
    get "sdp" bare = None /\ get "answer" bare = None /\
    get_optional "sdp" (get "data" bare) = None /\
    "v=0 answer" <> "" /\
    ZLMWebRTCPlayer.answer_of nested = get_optional "sdp" (get "data" nested) /\
    ZLMWebRTCPlayer.answer_of plain = get "answer" plain /\
    ZLMWebRTCPlayer.rejected 0 (Error "No SDP answer found in response") s
      (ZLMWebRTCPlayer.deliver 0 (ZLMWebRTCPlayer.response_of empty) s) /\
    (exists msg,
       ZLMWebRTCPlayer.rejected 0 (Error ("ZLMediaKit error: " +:+ msg)) s
         (ZLMWebRTCPlayer.deliver 0 (ZLMWebRTCPlayer.response_of bare) s)) /\
    ZLMWebRTCPlayer.phase_of 0
      (ZLMWebRTCPlayer.deliver 0 (ZLMWebRTCPlayer.response_of plain) s)
    = Some (ZLMWebRTCPlayer.AwaitSetRemote 0 "v=0 answer").
Proof.
  intros s empty bare nested plain.
  assert (ZLMWebRTCPlayer.reachable s) as Hr by (by eexists _, _, _, _).
  assert (exists rq, ZLMWebRTCPlayer.phase_of 0 s = Some (ZLMWebRTCPlayer.AwaitFetch rq))
    as [rq Hph] by (vm_compute; eauto).
  assert (ZLMWebRTCPlayer.peerConnection s = Some 0) as Hp by (vm_compute; reflexivity).
  destruct C5_missing_answer as (_ & H2 & H3 & H4 & H5 & H6).
  exists rq. do 3 (split; [assumption|]).
  do 8 (split; [reflexivity|]).
  do 2 (split; [discriminate|]).
  do 3 (split; [reflexivity|]).
  split; [discriminate|].
  split; [|split; [|split; [|split]]].
  - exact (H3 nested eq_refl eq_refl).
  - exact (H2 plain eq_refl eq_refl).
  - exact (H4 s 0 rq (ZLMWebRTCPlayer.response_of empty) empty Hr Hph
              eq_refl eq_refl eq_refl eq_refl eq_refl eq_refl).
  - apply (H5 s 0 rq (ZLMWebRTCPlayer.response_of bare) bare Hr Hph);
      first [reflexivity|discriminate].
  - apply (H6 s 0 rq (ZLMWebRTCPlayer.response_of plain) plain "v=0 answer" 0 Hr Hph);
      first [reflexivity|discriminate|exact Hp].
Defined.


(* ===================================================================== *)
(** ** Further properties of the two sessions *)
(* ===================================================================== *)

(** X1. play() with an empty URL rejects with "Stream URL is required" and does
    nothing else: no log line, no callback, no stop(); a connection or
    player the session holds keeps running. Both sessions. *)
Theorem empty_url_rejected :
  (forall s,
     let s' := ZLMWebRTCPlayer.step s (ZLMWebRTCPlayer.CallPlay "") in
     ZLMWebRTCPlayer.phase_of (length (ZLMWebRTCPlayer.tasks s)) s'
       = Some (ZLMWebRTCPlayer.Done
                 (ZLMWebRTCPlayer.Rejected (Error "Stream URL is required"))) /\
     ZLMWebRTCPlayer.trace s' = ZLMWebRTCPlayer.trace s /\
     ZLMWebRTCPlayer.peerConnection s' = ZLMWebRTCPlayer.peerConnection s /\
     ZLMWebRTCPlayer.connections s' = ZLMWebRTCPlayer.connections s /\
     ZLMWebRTCPlayer.timers s' = ZLMWebRTCPlayer.timers s /\
     ZLMWebRTCPlayer.statsInterval s' = ZLMWebRTCPlayer.statsInterval s /\
     ZLMWebRTCPlayer.srcObject s' = ZLMWebRTCPlayer.srcObject s) /\
  (forall s type,
     let s' := ZLMStreamPlayer.step s (ZLMStreamPlayer.CallPlay "" type) in
     ZLMStreamPlayer.phase <$> ZLMStreamPlayer.tasks s' !! length (ZLMStreamPlayer.tasks s)
       = Some (ZLMStreamPlayer.Done
                 (ZLMStreamPlayer.Rejected (Error "Stream URL is required"))) /\
     ZLMStreamPlayer.trace s' = ZLMStreamPlayer.trace s /\
     ZLMStreamPlayer.player s' = ZLMStreamPlayer.player s /\
     ZLMStreamPlayer.players s' = ZLMStreamPlayer.players s /\
     ZLMStreamPlayer.timers s' = ZLMStreamPlayer.timers s /\
     ZLMStreamPlayer.statsInterval s' = ZLMStreamPlayer.statsInterval s /\
     ZLMStreamPlayer.videoElement s' = ZLMStreamPlayer.videoElement s /\
     ZLMStreamPlayer.reconnectAttempts s' = ZLMStreamPlayer.reconnectAttempts s).
Proof.
  split.
  - intros s s'. split_and!; try done.
    unfold s', ZLMWebRTCPlayer.phase_of. simpl. by rewrite list_lookup_middle.
  - intros s type s'. split_and!; try done.
    unfold s'. simpl. by rewrite list_lookup_middle.
Qed.

(** X2. In the real-time session, whichever awaited step of play() fails
    (createOffer, setLocalDescription, the fetch, the parsing of the
    response body, setRemoteDescription), play() rejects with that very
    error, onError is called with it exactly once, and stop() leaves no
    connection. *)
Theorem failed_step_rejects :
  forall s t e, ZLMWebRTCPlayer.reachable s ->
  (ZLMWebRTCPlayer.phase_of t s = Some ZLMWebRTCPlayer.AwaitOffer ->
   let s' := ZLMWebRTCPlayer.step s (ZLMWebRTCPlayer.OfferSettled t (inl e)) in
   ZLMWebRTCPlayer.rejected t e s s' /\
   ZLMWebRTCPlayer.errors_reported s' = e :: ZLMWebRTCPlayer.errors_reported s) /\
  (forall h sdp,
   ZLMWebRTCPlayer.phase_of t s = Some (ZLMWebRTCPlayer.AwaitSetLocal h sdp) ->
   let s' := ZLMWebRTCPlayer.step s (ZLMWebRTCPlayer.LocalDescriptionSettled t (Some e)) in
   ZLMWebRTCPlayer.rejected t e s s' /\
   ZLMWebRTCPlayer.errors_reported s' = e :: ZLMWebRTCPlayer.errors_reported s) /\
  (forall rq,
   ZLMWebRTCPlayer.phase_of t s = Some (ZLMWebRTCPlayer.AwaitFetch rq) ->
   let s' := ZLMWebRTCPlayer.step s (ZLMWebRTCPlayer.FetchSettled t (inl e)) in
   ZLMWebRTCPlayer.rejected t e s s' /\
   ZLMWebRTCPlayer.errors_reported s' = e :: ZLMWebRTCPlayer.errors_reported s) /\
  (forall rq response,
   ZLMWebRTCPlayer.phase_of t s = Some (ZLMWebRTCPlayer.AwaitFetch rq) ->
   ZLMWebRTCPlayer.ok response = true -> ZLMWebRTCPlayer.body response = inl e ->
   let s' := ZLMWebRTCPlayer.deliver t response s in
   ZLMWebRTCPlayer.rejected t e s s' /\
   ZLMWebRTCPlayer.errors_reported s' = e :: ZLMWebRTCPlayer.errors_reported s) /\
  (forall h sdp,
   ZLMWebRTCPlayer.phase_of t s = Some (ZLMWebRTCPlayer.AwaitSetRemote h sdp) ->
   let s' := ZLMWebRTCPlayer.step s (ZLMWebRTCPlayer.RemoteDescriptionSettled t (Some e)) in
   ZLMWebRTCPlayer.rejected t e s s' /\
   ZLMWebRTCPlayer.errors_reported s' = e :: ZLMWebRTCPlayer.errors_reported s).
Proof.
  intros s t e Hr. pose proof (WebRTCFacts.rtc_reachable_inv s Hr) as HI.
  assert (forall s', ZLMWebRTCPlayer.rejected t e s s' ->
                     ZLMWebRTCPlayer.rejected t e s s' /\
                     ZLMWebRTCPlayer.errors_reported s'
                       = e :: ZLMWebRTCPlayer.errors_reported s) as Hboth
    by (intros s' Hrej; split; [done|by apply WebRTCMore.rejected_reports_once in Hrej]).
  split_and!.
  - intros Hph s'. by apply Hboth, WebRTCMore.offer_fails.
  - intros h sdp Hph s'. apply Hboth. by apply (WebRTCMore.local_description_fails t h sdp).
  - intros rq Hph s'. apply Hboth. by apply (WebRTCMore.fetch_fails t rq).
  - intros rq response Hph Hok Hbody s'. apply Hboth.
    pose proof (WebRTCFacts.deliver_body t rq response s HI Hph Hok) as Hd.
    by rewrite Hbody in Hd.
  - intros h sdp Hph s'. apply Hboth. by apply (WebRTCMore.remote_description_fails t h sdp).
Qed.

(** X3. In the real-time session a call of play() that a later play(url) has
    superseded, and whose createOffer then fails, runs its catch block on
    the session as it is now: stop() closes the connection of the later
    call, which is left without a connection and, when its own createOffer
    resolves, rejects with a TypeError on the null this.peerConnection. *)
Theorem superseded_call_closes_new_connection :
  forall s t target e sdp,
    ZLMWebRTCPlayer.reachable s ->
    ZLMWebRTCPlayer.phase_of t s = Some ZLMWebRTCPlayer.AwaitOffer ->
    target <> "" ->
    let t' := length (ZLMWebRTCPlayer.tasks s) in
    let s1 := ZLMWebRTCPlayer.step s (ZLMWebRTCPlayer.CallPlay target) in
    let s2 := ZLMWebRTCPlayer.step s1 (ZLMWebRTCPlayer.OfferSettled t (inl e)) in
    let s3 := ZLMWebRTCPlayer.step s2 (ZLMWebRTCPlayer.OfferSettled t' (inr sdp)) in
    ZLMWebRTCPlayer.peerConnection s1 = Some (length (ZLMWebRTCPlayer.connections s)) /\
    length (ZLMWebRTCPlayer.live_connections s1) = 1 /\
    ZLMWebRTCPlayer.phase_of t' s1 = Some ZLMWebRTCPlayer.AwaitOffer /\
    ZLMWebRTCPlayer.peerConnection s2 = None /\
    ZLMWebRTCPlayer.live_connections s2 = [] /\
    ZLMWebRTCPlayer.phase_of t' s2 = Some ZLMWebRTCPlayer.AwaitOffer /\
    ZLMWebRTCPlayer.phase_of t' s3
      = Some (ZLMWebRTCPlayer.Done
                (ZLMWebRTCPlayer.Rejected (null_property "setLocalDescription"))) /\
    ZLMWebRTCPlayer.errors_reported s3
      = [null_property "setLocalDescription"; e] ++ ZLMWebRTCPlayer.errors_reported s.
Proof.
  intros s t target e sdp Hr Hph Hne t' s1 s2 s3.
  pose proof (WebRTCFacts.rtc_reachable_inv s Hr) as HI.
  destruct (WebRTCMore.superseded_failure t target e sdp s HI Hph Hne)
    as (Hp1 & Hrej2 & Hph2 & Hrej3).
  fold t' s1 s2 s3 in Hp1, Hrej2, Hph2, Hrej3.
  pose proof (WebRTCMore.rejected_reports_once _ _ _ _ Hrej2) as He2.
  pose proof (WebRTCMore.rejected_reports_once _ _ _ _ Hrej3) as He3.
  assert (ZLMWebRTCPlayer.errors_reported s1 = ZLMWebRTCPlayer.errors_reported s) as He1.
  { unfold s1, ZLMWebRTCPlayer.errors_reported. simpl. unfold ZLMWebRTCPlayer.play.
    rewrite (proj2 (String.eqb_neq _ _) Hne). simpl.
    match goal with |- context [ZLMWebRTCPlayer.stop ?s0] =>
      destruct (WebRTCFacts.stop_trace s0) as (pre & -> & Hq)
    end.
    rewrite omap_app. by rewrite (WebRTCMore.quiet_no_error pre Hq). }
  destruct Hrej2 as (_ & Hp2 & Hl2 & _). destruct Hrej3 as (Hph3 & _).
  split_and!; try done.
  - by apply (WebRTCFacts.rtc_play_fresh target s HI Hne).
  - by apply WebRTCMore.phase_of_play_new.
  - rewrite He3, He2, He1. done.
Qed.

(** X4. In the real-time session the handler of the ICE connection state calls
    onDisconnected on "disconnected", "failed" and "closed" and does nothing
    else but log: the connection stays open and held, the stats interval
    keeps running and no call of play() is touched. On "connected" it calls
    onConnected with the stats interval set; on any other state it only
    logs. The handler never throws. *)
Theorem ice_state_reported :
  forall s h pc st,
    ZLMWebRTCPlayer.reachable s ->
    ZLMWebRTCPlayer.connections s !! h = Some pc -> ZLMWebRTCPlayer.closed pc = false ->
    let s' := ZLMWebRTCPlayer.step s (ZLMWebRTCPlayer.IceConnectionStateChange h st) in
    let line := ZLMWebRTCPlayer.Log
                  ("ICE Connection State: " +:+ ZLMWebRTCPlayer.ice_state_name st) "info" in
    ZLMWebRTCPlayer.peerConnection s' = Some h /\
    length (ZLMWebRTCPlayer.live_connections s') = 1 /\
    ZLMWebRTCPlayer.tasks s' = ZLMWebRTCPlayer.tasks s /\
    ZLMWebRTCPlayer.uncaught s' = ZLMWebRTCPlayer.uncaught s /\
    (ZLMWebRTCPlayer.lost st = true ->
     ZLMWebRTCPlayer.trace s'
       = ZLMWebRTCPlayer.OnDisconnected :: line :: ZLMWebRTCPlayer.trace s /\
     ZLMWebRTCPlayer.statsInterval s' = ZLMWebRTCPlayer.statsInterval s /\
     ZLMWebRTCPlayer.timers s' = ZLMWebRTCPlayer.timers s /\
     ZLMWebRTCPlayer.srcObject s' = ZLMWebRTCPlayer.srcObject s) /\
    (st = ZLMWebRTCPlayer.Connected ->
     ZLMWebRTCPlayer.trace s'
       = ZLMWebRTCPlayer.OnConnected :: line :: ZLMWebRTCPlayer.trace s /\
     ZLMWebRTCPlayer.timer_set (ZLMWebRTCPlayer.statsInterval s') = true) /\
    (ZLMWebRTCPlayer.lost st = false -> st <> ZLMWebRTCPlayer.Connected ->
     ZLMWebRTCPlayer.trace s' = line :: ZLMWebRTCPlayer.trace s /\
     ZLMWebRTCPlayer.timers s' = ZLMWebRTCPlayer.timers s).
Proof.
  intros s h pc st Hr Hpc Hc s' line.
  pose proof (WebRTCFacts.rtc_reachable_inv s Hr) as HI.
  assert (ZLMWebRTCPlayer.Inv s') as HI' by (by apply WebRTCFacts.rtc_step_inv).
  pose proof (ZLMWebRTCPlayer.open_is_current s HI h pc Hpc Hc) as Hcur.
  pose proof (WebRTCMore.ice_state_step s h pc st HI Hpc Hc) as Hstep.
  fold s' in Hstep. cbv zeta in Hstep.
  assert (ZLMWebRTCPlayer.peerConnection s' = Some h) as Hp'.
  { rewrite Hstep. unfold ZLMWebRTCPlayer._startStatsMonitoring.
    destruct st; simpl; try done. by case_match. }
  split_and!.
  - done.
  - pose proof (WebRTCFacts.live_connections_le s' HI').
    destruct (ZLMWebRTCPlayer.current_is_open s' HI' _ Hp') as (pc' & Hpc' & Hopen).
    pose proof (filter_some (fun pc => ZLMWebRTCPlayer.closed pc = false) _ _ _ Hpc' Hopen).
    unfold ZLMWebRTCPlayer.live_connections in *. lia.
  - rewrite Hstep. unfold ZLMWebRTCPlayer._startStatsMonitoring.
    destruct st; simpl; try done. by case_match.
  - rewrite Hstep. unfold ZLMWebRTCPlayer._startStatsMonitoring, ZLMWebRTCPlayer.uncaught.
    destruct st; simpl; try done. by case_match.
  - intros Hlost. rewrite Hstep. by destruct st.
  - intros ->. rewrite Hstep. split.
    + unfold ZLMWebRTCPlayer._startStatsMonitoring. by case_match.
    + apply (WebRTCFacts._startStatsMonitoring_set _).
      apply WebRTCFacts.rtc_log_inv. by apply WebRTCFacts.update_connection_inv.
  - intros Hlost Hne. rewrite Hstep. by destruct st.
Qed.

(** X5. In the real-time session a track event attaches the first stream of
    the event to the video element; stop() then calls stop() on every track
    of the attached stream, each exactly once and in order, and detaches
    the stream. *)
Theorem attached_tracks_stopped :
  (forall s, ZLMWebRTCPlayer.stopped_tracks (ZLMWebRTCPlayer.stop s)
             = rev (default [] (ZLMWebRTCPlayer.srcObject s))
               ++ ZLMWebRTCPlayer.stopped_tracks s /\
             ZLMWebRTCPlayer.srcObject (ZLMWebRTCPlayer.stop s) = None /\
             ZLMWebRTCPlayer.stream (ZLMWebRTCPlayer.stop s) = None) /\
  (forall s h pc streams,
     ZLMWebRTCPlayer.connections s !! h = Some pc -> ZLMWebRTCPlayer.closed pc = false ->
     let s1 := ZLMWebRTCPlayer.step s (ZLMWebRTCPlayer.TrackEvent h streams) in
     ZLMWebRTCPlayer.srcObject s1 = head streams /\
     ZLMWebRTCPlayer.stream s1 = head streams /\
     ZLMWebRTCPlayer.stopped_tracks (ZLMWebRTCPlayer.stop s1)
       = rev (default [] (head streams)) ++ ZLMWebRTCPlayer.stopped_tracks s).
Proof.
  split.
  - intros s. split_and!.
    + apply WebRTCMore.stop_stopped_tracks.
    + apply WebRTCFacts.stop_srcObject.
    + apply WebRTCFacts.stop_stream.
  - intros s h pc streams Hpc Hc s1.
    assert (s1 = ZLMWebRTCPlayer.ontrack streams s) as ->
      by (by apply (WebRTCMore.ontrack_step s h pc)).
    split_and!; [done..|]. by rewrite WebRTCMore.stop_stopped_tracks.
Qed.

(** X6. In the real-time session, when a stats sample arrives, onStats is
    called once for every report of type "inbound-rtp" and kind "video", in
    order, with the object built from that report (frameRate 0 when the
    report has no framesPerSecond); all other reports are ignored; the stats
    container, if there is one, ends up showing the last such report. *)
Theorem stats_sample_delivered :
  forall s reports,
    ZLMWebRTCPlayer.statsReads s <> 0 ->
    let s' := ZLMWebRTCPlayer.step s (ZLMWebRTCPlayer.StatsSettled reports) in
    let video := filter (fun r => ZLMWebRTCPlayer.inbound_video r = true) reports in
    ZLMWebRTCPlayer.stats_reported s'
      = rev (ZLMWebRTCPlayer.stats_data <$> video) ++ ZLMWebRTCPlayer.stats_reported s /\
    s' = ZLMWebRTCPlayer.step s (ZLMWebRTCPlayer.StatsSettled video) /\
    ZLMWebRTCPlayer.statsContainer s'
      = match ZLMWebRTCPlayer.statsContainer s with
        | Some c => Some (default c (ZLMWebRTCPlayer.stats_html <$> last video))
        | None => None
        end.
Proof.
  intros s reports Hn s' video.
  by destruct (WebRTCMore.stats_ready_effect reports s Hn) as (? & ? & ? & _).
Qed.

(** X7. In the real-time session stop() does not cancel a stats sample that is
    in flight: when it arrives after stop(), onStats is still called for it
    and the stats container that stop() cleared is filled again, although
    the session holds no connection. *)
Theorem stats_sample_after_stop :
  forall s reports r c,
    ZLMWebRTCPlayer.reachable s ->
    ZLMWebRTCPlayer.statsReads s <> 0 ->
    ZLMWebRTCPlayer.statsContainer s = Some c ->
    last (filter (fun r => ZLMWebRTCPlayer.inbound_video r = true) reports) = Some r ->
    let s' := ZLMWebRTCPlayer.step (ZLMWebRTCPlayer.stop s)
                (ZLMWebRTCPlayer.StatsSettled reports) in
    ZLMWebRTCPlayer.statsContainer (ZLMWebRTCPlayer.stop s) = Some ZLMWebRTCPlayer.Blank /\
    ZLMWebRTCPlayer.peerConnection s' = None /\
    ZLMWebRTCPlayer.live_connections s' = [] /\
    ZLMWebRTCPlayer.statsContainer s' = Some (ZLMWebRTCPlayer.stats_html r) /\
    ZLMWebRTCPlayer.stats_reported s'
      = rev (ZLMWebRTCPlayer.stats_data <$>
               filter (fun r => ZLMWebRTCPlayer.inbound_video r = true) reports)
        ++ ZLMWebRTCPlayer.stats_reported s.
Proof.
  intros s reports r c Hr Hn Hc Hlast s'.
  pose proof (WebRTCFacts.rtc_reachable_inv s Hr) as HI.
  pose proof (WebRTCFacts.rtc_stop_inv s HI) as HI1.
  pose proof (WebRTCFacts.stop_peerConnection s) as Hp1.
  pose proof (WebRTCMore.stop_statsReads s) as Hn1.
  pose proof (WebRTCMore.stop_stats_reported s) as Hs1.
  assert (ZLMWebRTCPlayer.statsContainer (ZLMWebRTCPlayer.stop s)
          = Some ZLMWebRTCPlayer.Blank) as Hc1
    by (by rewrite WebRTCFacts.rtc_stop_statsContainer, Hc).
  assert (ZLMWebRTCPlayer.Inv s') as HI' by (by apply WebRTCFacts.rtc_step_inv).
  assert (ZLMWebRTCPlayer.statsReads (ZLMWebRTCPlayer.stop s) <> 0) as Hn1' by congruence.
  destruct (WebRTCMore.stats_ready_effect reports (ZLMWebRTCPlayer.stop s) Hn1')
    as (Hrep & _ & Hcont & Hpc & _).
  change (ZLMWebRTCPlayer.stats_ready reports (ZLMWebRTCPlayer.stop s)) with s'
    in Hrep, Hcont, Hpc.
  split_and!; try done.
  - congruence.
  - apply WebRTCFacts.live_connections_idle; [done|congruence].
  - rewrite Hcont, Hc1, Hlast. done.
  - rewrite Hrep. by rewrite Hs1.
Qed.

(** X8. In the real-time session a call of play() sends at most one signaling
    request, although the state listener, the 5000 ms timeout and a later
    state change may each end its ICE wait: in every step no more requests
    are sent than calls get past their wait, so the requests sent never
    outnumber the calls of play(). *)
Theorem one_request_per_call :
  (forall s e, ZLMWebRTCPlayer.posts_le s (ZLMWebRTCPlayer.step s e)) /\
  (forall s, ZLMWebRTCPlayer.reachable s ->
     length (ZLMWebRTCPlayer.requests_sent s) <= length (ZLMWebRTCPlayer.past_calls s) /\
     length (ZLMWebRTCPlayer.past_calls s) <= length (ZLMWebRTCPlayer.tasks s)).
Proof.
  split; [apply WebRTCMore.posts_step|].
  intros s (w & sv & o & events & ->). split.
  - pose proof (WebRTCMore.posts_run events (ZLMWebRTCPlayer.constructor w sv o)) as H.
    unfold ZLMWebRTCPlayer.posts_le in H. simpl in H. lia.
  - apply length_filter.
Qed.

(** X9. In the progressive session a rejected videoElement.play() makes play()
    reject with that error: onError is called with it once, stop() destroys
    the player, and nothing is retried (the reconnect counter and the
    reconnections scheduled stay as they are). The 5000 ms timeout of the
    call is not cleared. *)
Theorem video_play_rejected :
  forall s t k id e,
    ZLMStreamPlayer.reachable s ->
    ZLMStreamPlayer.tasks s !! t = Some k ->
    ZLMStreamPlayer.phase k = ZLMStreamPlayer.AwaitVideoPlay id ->
    let s' := ZLMStreamPlayer.step s (ZLMStreamPlayer.VideoPlaySettled t (Some e)) in
    ZLMStreamPlayer.phase <$> ZLMStreamPlayer.tasks s' !! t
      = Some (ZLMStreamPlayer.Done (ZLMStreamPlayer.Rejected e)) /\
    ZLMStreamPlayer.player s' = None /\
    ZLMStreamPlayer.live_players s' = [] /\
    ZLMStreamPlayer.errors_reported s' = e :: ZLMStreamPlayer.errors_reported s /\
    ZLMStreamPlayer.reconnectAttempts s' = ZLMStreamPlayer.reconnectAttempts s /\
    ZLMStreamPlayer.reconnections s' = ZLMStreamPlayer.reconnections s /\
    ZLMStreamPlayer.timers s' !! id = ZLMStreamPlayer.timers s !! id.
Proof.
  intros s t k id e Hr Hk Hph.
  apply (StreamMore.video_play_fails t k id e s); try done.
  - by apply StreamFacts.flv_reachable_inv.
  - by apply StreamMore.kept_reachable.
Qed.

(** X10. In the progressive session a resolved videoElement.play() makes play()
    resolve, call onConnected and leave the stats interval running,
    whatever has happened to the session since the call started: after a
    stop() in between, onConnected is still called and the interval is
    started although there is no player (its ticks then report nothing). *)
Theorem video_play_resolved :
  forall s t k id,
    ZLMStreamPlayer.reachable s ->
    ZLMStreamPlayer.tasks s !! t = Some k ->
    ZLMStreamPlayer.phase k = ZLMStreamPlayer.AwaitVideoPlay id ->
    let s' := ZLMStreamPlayer.step s (ZLMStreamPlayer.VideoPlaySettled t None) in
    ZLMStreamPlayer.phase <$> ZLMStreamPlayer.tasks s' !! t
      = Some (ZLMStreamPlayer.Done ZLMStreamPlayer.Resolved) /\
    ZLMStreamPlayer.trace s'
      = ZLMStreamPlayer.OnConnected
        :: ZLMStreamPlayer.Log (ZLMStreamPlayer.toUpperCase (ZLMStreamPlayer.streamTypeOf k)
                                +:+ " stream started") "success"
        :: ZLMStreamPlayer.trace s /\
    ZLMStreamPlayer.player s' = ZLMStreamPlayer.player s /\
    ZLMStreamPlayer.timer_set (ZLMStreamPlayer.statsInterval s') = true /\
    length (ZLMStreamPlayer.live_stats_timers s') = 1 /\
    (ZLMStreamPlayer.player s = None -> ZLMStreamPlayer.stats_tick s' = s').
Proof.
  intros s t k id Hr Hk Hph s'.
  destruct (StreamMore.video_play_resolves t k id s) as (H1 & H2 & H3 & _ & H5 & H6);
    try done.
  - by apply StreamFacts.flv_reachable_inv.
  - by apply StreamMore.kept_reachable.
  - fold s' in H1, H2, H3, H5, H6. split_and!; try done.
    intros Hnone. unfold ZLMStreamPlayer.stats_tick, ZLMStreamPlayer.current.
    by rewrite H3, Hnone.
Qed.

(** X11. In the progressive session the 5000 ms timeout of play() is cleared
    only when videoElement.play() resolves: from then on it never fires,
    whatever happens. stop() does not clear it. *)
Theorem play_timeout_cleared_on_success :
  (forall s t k id events,
     ZLMStreamPlayer.reachable s ->
     ZLMStreamPlayer.tasks s !! t = Some k ->
     ZLMStreamPlayer.phase k = ZLMStreamPlayer.AwaitVideoPlay id ->
     let s' := ZLMStreamPlayer.run
                 (ZLMStreamPlayer.step s (ZLMStreamPlayer.VideoPlaySettled t None)) events in
     ZLMStreamPlayer.step s' (ZLMStreamPlayer.TimerFire id) = s') /\
  (forall s id tm target,
     ZLMStreamPlayer.reachable s ->
     ZLMStreamPlayer.timers s !! id = Some tm ->
     ZLMStreamPlayer.kind tm = ZLMStreamPlayer.Watchdog target ->
     ZLMStreamPlayer.timers (ZLMStreamPlayer.stop s) !! id = Some tm).
Proof.
  split.
  - intros s t k id events Hr Hk Hph s'.
    pose proof (StreamMore.kept_reachable s Hr) as HK.
    destruct (StreamMore.play_started_cancels t k id s HK Hk Hph) as (tm & Hid & Hdead).
    destruct (StreamMore.grow_run events _ id tm Hid) as (tm' & Hid' & _ & Hl').
    apply (StreamMore.fire_dead id tm'); [done|].
    destruct (ZLMStreamPlayer.live tm'); [|done]. by rewrite Hl' in Hdead.
  - intros s id tm target Hr Hid Hk.
    apply StreamMore.stop_keeps_timer; [by apply StreamMore.kept_reachable|done|congruence].
Qed.

(** X12. In the progressive session the stuck-stream check is diagnostic only.
    When the timeout of play() fires it sends one HEAD request to the
    stream URL if the video element has readyState 0 or 1, and does nothing
    otherwise; it does not fire before it is due and not twice. Whatever
    the HEAD request returns, the session only writes a log line: the
    player, the timers, the calls and the reconnect counter stay as they
    are and no callback is called. *)
Theorem stuck_check_only_logs :
  (forall s id tm target,
     ZLMStreamPlayer.timers s !! id = Some tm ->
     ZLMStreamPlayer.kind tm = ZLMStreamPlayer.Watchdog target ->
     ZLMStreamPlayer.live tm = true ->
     let s' := ZLMStreamPlayer.step s (ZLMStreamPlayer.TimerFire id) in
     (ZLMStreamPlayer.now s < ZLMStreamPlayer.due tm -> s' = s) /\
     (ZLMStreamPlayer.due tm <= ZLMStreamPlayer.now s ->
      ZLMStreamPlayer.head_requests s'
        = (if Nat.leb (ZLMStreamPlayer.readyState (ZLMStreamPlayer.videoElement s)) 1
           then [target] else []) ++ ZLMStreamPlayer.head_requests s /\
      ZLMStreamPlayer.errors_reported s' = ZLMStreamPlayer.errors_reported s /\
      ZLMStreamPlayer.player s' = ZLMStreamPlayer.player s /\
      ZLMStreamPlayer.players s' = ZLMStreamPlayer.players s /\
      ZLMStreamPlayer.step s' (ZLMStreamPlayer.TimerFire id) = s')) /\
  (forall s r,
     let s' := ZLMStreamPlayer.step s (ZLMStreamPlayer.HeadSettled r) in
     ZLMStreamPlayer.same_but_trace s s' /\
     (s' = s \/ exists msg type,
        ZLMStreamPlayer.trace s' = ZLMStreamPlayer.Log msg type :: ZLMStreamPlayer.trace s)).
Proof.
  split.
  - intros s id tm target Hid Hk Hl s'.
    pose proof (StreamMore.watchdog_step id tm target s Hid Hk Hl) as Hstep.
    fold s' in Hstep. split.
    + intros Hearly. by rewrite Hstep, (proj2 (Nat.leb_gt _ _) Hearly).
    + intros Hdue. rewrite (proj2 (Nat.leb_le _ _) Hdue) in Hstep.
      assert (exists tm', ZLMStreamPlayer.timers s' !! id = Some tm' /\
                          ZLMStreamPlayer.live tm' = false) as (tm' & Hid' & Hdead).
      { exists (ZLMStreamPlayer.cancel tm). rewrite Hstep. unfold ZLMStreamPlayer.watchdog.
        split; [|done]. case_match; simpl; by rewrite list_lookup_alter_eq, Hid. }
      split_and!; [..|by apply (StreamMore.fire_dead id tm')].
      all: rewrite Hstep; unfold ZLMStreamPlayer.watchdog; simpl; by case_match.
  - intros s r s'. split; [apply StreamMore.head_settled_same|apply StreamMore.head_settled_trace].
Qed.

(** X13. In the progressive session the listeners that play() adds to the video
    element are never removed: the element carries one set per player ever
    created, and every video event is handled (and logged) that many
    times. *)
Theorem video_listeners_accumulate :
  forall s ev,
    ZLMStreamPlayer.reachable s ->
    ZLMStreamPlayer.listeners (ZLMStreamPlayer.videoElement s)
      = length (ZLMStreamPlayer.players s) /\
    ZLMStreamPlayer.listeners (ZLMStreamPlayer.videoElement (ZLMStreamPlayer.stop s))
      = length (ZLMStreamPlayer.players s) /\
    length (ZLMStreamPlayer.logged (ZLMStreamPlayer.step s (ZLMStreamPlayer.VideoEvent ev)))
      = length (ZLMStreamPlayer.players s) + length (ZLMStreamPlayer.logged s).
Proof.
  intros s ev Hr. pose proof (StreamMore.kept_reachable s Hr) as HK.
  pose proof (ZLMStreamPlayer.listeners_count s HK) as Hl. split_and!.
  - done.
  - by rewrite StreamFacts.stop_listeners.
  - simpl. by rewrite StreamMore.video_listeners_logged, Hl.
Qed.

(** X14. In the progressive session only the "playing" listener ever lowers the
    reconnect counter: stop() and play() leave it as it is, so once the
    three attempts are used, stopping and starting again (even another
    stream) without a "playing" event gets no automatic reconnection. *)
Theorem counter_reset_only_by_playing :
  forall s events,
    ZLMStreamPlayer.reachable s ->
    Forall (fun e => ZLMStreamPlayer.is_playing e = false) events ->
    ZLMStreamPlayer.reconnectAttempts s
      <= ZLMStreamPlayer.reconnectAttempts (ZLMStreamPlayer.run s events) /\
    (ZLMStreamPlayer.reconnectAttempts s = 3 ->
     ZLMStreamPlayer.reconnectAttempts (ZLMStreamPlayer.run s events) = 3 /\
     ZLMStreamPlayer.reconnections (ZLMStreamPlayer.run s events)
       <= ZLMStreamPlayer.reconnections s).
Proof.
  intros s events Hr Hev.
  pose proof (StreamMore.attempts_run events s Hev) as Hmono.
  split; [done|]. intros H3.
  pose proof (StreamFacts.attempts_le_max _ (StreamMore.flv_reachable_run s events Hr)) as Hmax.
  pose proof (StreamFacts.reconnections_bounded s events Hr Hev) as Hb.
  lia.
Qed.

(* ===================================================================== *)
(** ** Further properties of the comparison page *)
(* ===================================================================== *)

(** X16. On the comparison page each session is driven only through its own
    methods and events: whatever is clicked and whatever the browser
    delivers, each of the two sessions stays in a state it can reach on its
    own, so each holds at most one live handle and one stats interval. *)
Theorem page_drives_sessions :
  forall pg, ComparisonPage.reachable pg ->
    ZLMWebRTCPlayer.reachable (ComparisonPage.webrtcPlayer pg) /\
    ZLMStreamPlayer.reachable (ComparisonPage.flvPlayer pg) /\
    length (ZLMWebRTCPlayer.live_connections (ComparisonPage.webrtcPlayer pg)) <= 1 /\
    length (ZLMStreamPlayer.live_players (ComparisonPage.flvPlayer pg)) <= 1 /\
    length (ZLMWebRTCPlayer.live_stats_timers (ComparisonPage.webrtcPlayer pg)) <= 1 /\
    length (ZLMStreamPlayer.live_stats_timers (ComparisonPage.flvPlayer pg)) <= 1.
Proof.
  intros pg Hr. destruct (PageFacts.sessions_reachable pg Hr) as [Hw Hf].
  pose proof (WebRTCFacts.rtc_reachable_inv _ Hw) as HIw.
  pose proof (StreamFacts.flv_reachable_inv _ Hf) as HIf.
  split_and!; try done.
  - by apply WebRTCFacts.live_connections_le.
  - by apply StreamFacts.live_players_le.
  - by apply WebRTCFacts.rtc_live_stats_timers_le.
  - by apply StreamFacts.flv_live_stats_timers_le.
Qed.

(** X17. On the comparison page "Stop All" does not cancel the delayed start of
    the progressive stream. Start plays the real-time stream at once and
    sets a 1000 ms timeout for the progressive one; a click on Stop within
    that second stops both sessions and enables Start again, but the
    timeout stays armed, and when it fires the progressive session starts
    a player although the Stop button is then disabled. *)
Theorem stop_all_keeps_delayed_start :
  forall pg streamName serverBase,
    ComparisonPage.reachable pg ->
    ComparisonPage.startDisabled pg = false ->
    streamName <> "" -> serverBase <> "" ->
    let id := length (ComparisonPage.timers pg) in
    let flvUrl := serverBase +:+ "/live/" +:+ streamName +:+ ".live.flv" in
    let tm := {| ComparisonPage.kind := ComparisonPage.FlvStart flvUrl;
                 ComparisonPage.due := ComparisonPage.now pg + 1000;
                 ComparisonPage.live := true |} in
    let pg1 := ComparisonPage.step pg (ComparisonPage.ClickStart streamName serverBase) in
    let pg2 := ComparisonPage.step pg1 ComparisonPage.ClickStop in
    let pg3 := ComparisonPage.step (ComparisonPage.step pg2 (ComparisonPage.Elapse 1000))
                 (ComparisonPage.TimerFire id) in
    (ComparisonPage.startDisabled pg1 = true /\ ComparisonPage.stopDisabled pg1 = false /\
     length (ZLMWebRTCPlayer.live_connections (ComparisonPage.webrtcPlayer pg1)) = 1 /\
     ComparisonPage.flvPlayer pg1 = ComparisonPage.flvPlayer pg /\
     ComparisonPage.timers pg1 !! id = Some tm) /\
    (ComparisonPage.startDisabled pg2 = false /\ ComparisonPage.stopDisabled pg2 = true /\
     ZLMWebRTCPlayer.live_connections (ComparisonPage.webrtcPlayer pg2) = [] /\
     ZLMStreamPlayer.live_players (ComparisonPage.flvPlayer pg2) = [] /\
     ComparisonPage.timers pg2 !! id = Some tm) /\
    (ComparisonPage.startDisabled pg3 = false /\ ComparisonPage.stopDisabled pg3 = true /\
     ZLMWebRTCPlayer.live_connections (ComparisonPage.webrtcPlayer pg3) = [] /\
     length (ZLMStreamPlayer.live_players (ComparisonPage.flvPlayer pg3)) = 1).
Proof.
  intros pg streamName serverBase Hr Hen Hn Hb id flvUrl tm pg1 pg2 pg3.
  destruct (PageFacts.sessions_reachable pg Hr) as [Hw Hf].
  pose proof (WebRTCFacts.rtc_reachable_inv _ Hw) as HIw.
  pose proof (StreamFacts.flv_reachable_inv _ Hf) as HIf.
  assert (pg1 = ComparisonPage.start streamName serverBase pg) as Hpg1
    by (unfold pg1; simpl; by rewrite Hen).
  destruct (PageFacts.start_fields streamName serverBase pg Hn Hb)
    as (A1 & A2 & _ & A4 & A5 & A6 & A7).
  rewrite <- Hpg1 in A1, A2, A4, A5, A6, A7. clear Hpg1.
  assert (ComparisonPage.timers pg1 !! id = Some tm) as A8
    by (rewrite A6; by apply list_lookup_middle).
  assert (length (ZLMWebRTCPlayer.live_connections (ComparisonPage.webrtcPlayer pg1)) = 1)
    as A9.
  { rewrite A1. apply (WebRTCFacts.rtc_play_fresh _ _ HIw).
    destruct serverBase; [done|]. done. }
  assert (ZLMWebRTCPlayer.Inv (ComparisonPage.webrtcPlayer pg1)) as HIw1
    by (rewrite A1; by apply WebRTCFacts.rtc_step_inv).
  assert (ZLMStreamPlayer.Inv (ComparisonPage.flvPlayer pg1)) as HIf1 by (by rewrite A2).
  clearbody pg1.
  assert (pg2 = ComparisonPage.stop_all pg1) as Hpg2
    by (unfold pg2; simpl; by rewrite A5).
  destruct (PageFacts.stop_all_fields pg1) as (B1 & B2 & _ & B4 & B5 & B6 & B7 & _).
  rewrite <- Hpg2 in B1, B2, B4, B5, B6, B7. clear Hpg2.
  assert (ZLMWebRTCPlayer.Inv (ComparisonPage.webrtcPlayer pg2)) as HIw2
    by (rewrite B1; by apply WebRTCFacts.rtc_stop_inv).
  assert (ZLMStreamPlayer.Inv (ComparisonPage.flvPlayer pg2)) as HIf2
    by (rewrite B2; by apply StreamFacts.flv_stop_inv).
  assert (ZLMWebRTCPlayer.peerConnection (ComparisonPage.webrtcPlayer pg2) = None) as B8
    by (rewrite B1; apply WebRTCFacts.stop_peerConnection).
  assert (ZLMStreamPlayer.player (ComparisonPage.flvPlayer pg2) = None) as B9
    by (rewrite B2; apply StreamFacts.stop_player).
  assert (ComparisonPage.timers pg2 !! id = Some tm) as B10 by (by rewrite B6).
  clearbody pg2.
  split_and!; try done.
  - by apply WebRTCFacts.live_connections_idle.
  - by apply StreamFacts.live_players_idle.
  - unfold pg3. simpl. unfold ComparisonPage.fire. simpl. rewrite B10. simpl.
    rewrite (proj2 (Nat.leb_le _ _)) by lia.
    match goal with |- context [ComparisonPage.start_flv ?u ?pg0] =>
      destruct (PageFacts.start_flv_fields u pg0) as (_ & _ & _ & -> & _)
    end. done.
  - unfold pg3. simpl. unfold ComparisonPage.fire. simpl. rewrite B10. simpl.
    rewrite (proj2 (Nat.leb_le _ _)) by lia.
    match goal with |- context [ComparisonPage.start_flv ?u ?pg0] =>
      destruct (PageFacts.start_flv_fields u pg0) as (_ & _ & _ & _ & -> & _)
    end. done.
  - unfold pg3. simpl. unfold ComparisonPage.fire. simpl. rewrite B10. simpl.
    rewrite (proj2 (Nat.leb_le _ _)) by lia.
    match goal with |- context [ComparisonPage.start_flv ?u ?pg0] =>
      destruct (PageFacts.start_flv_fields u pg0) as (-> & _)
    end.
    simpl. apply WebRTCFacts.live_connections_idle; [|done].
    by apply (WebRTCFacts.rtc_step_inv _ (ZLMWebRTCPlayer.Elapse 1000)).
  - unfold pg3. simpl. unfold ComparisonPage.fire. simpl. rewrite B10. simpl.
    rewrite (proj2 (Nat.leb_le _ _)) by lia.
    match goal with |- context [ComparisonPage.start_flv ?u ?pg0] =>
      destruct (PageFacts.start_flv_fields u pg0) as (_ & -> & _)
    end.
    simpl ComparisonPage.flvPlayer.
    apply (StreamFacts.flv_play_fresh false flvUrl None).
    + by apply (StreamFacts.flv_step_inv _ (ZLMStreamPlayer.Elapse 1000)).
    + unfold flvUrl. destruct serverBase; [done|]. done.
Qed.

(** X18. On the comparison page nothing but the Stop button enables the Start
    button again: from a click on Start with both fields filled until the
    next click on Stop it stays disabled whatever happens, also when the
    real-time play() fails or the streams end. *)
Theorem start_enabled_only_by_stop :
  (forall pg streamName serverBase,
     ComparisonPage.startDisabled pg = false -> streamName <> "" -> serverBase <> "" ->
     ComparisonPage.startDisabled
       (ComparisonPage.step pg (ComparisonPage.ClickStart streamName serverBase)) = true) /\
  (forall pg events,
     ComparisonPage.startDisabled pg = true ->
     Forall (fun e => e <> ComparisonPage.ClickStop) events ->
     ComparisonPage.startDisabled (ComparisonPage.run pg events) = true).
Proof.
  split.
  - intros pg streamName serverBase Hen Hn Hb. simpl. rewrite Hen.
    by destruct (PageFacts.start_fields streamName serverBase pg Hn Hb) as (_ & _ & _ & ? & _).
  - intros pg events Hd Hev. revert pg Hd.
    induction Hev as [|e l He _ IH]; intros pg Hd; simpl; [done|].
    apply IH. by apply PageFacts.start_stays_disabled.
Qed.

(** X19. On the comparison page the link made by Copy Link (and by Start)
    round-trips the two fields: the handler stores them as the "stream" and
    "server" parameters of the address, leaving the other parameters as
    they are, and a page opened with that address shows them in its two
    inputs. *)
Theorem copied_link_restores_inputs :
  forall pg streamName serverBase library page_origin,
    streamName <> "" -> serverBase <> "" ->
    let pg' := ComparisonPage.step pg (ComparisonPage.ClickCopy streamName serverBase) in
    let opened := ComparisonPage.load library (ComparisonPage.search pg') page_origin in
    ComparisonPage.getUrlParams (ComparisonPage.search pg')
      = (Some streamName, Some serverBase) /\
    ComparisonPage.streamNameInput opened = streamName /\
    ComparisonPage.serverBaseInput opened = serverBase /\
    (forall k, k <> "stream" -> k <> "server" ->
       ComparisonPage.params_get k (ComparisonPage.search pg')
       = ComparisonPage.params_get k (ComparisonPage.search pg)) /\
    (ComparisonPage.startDisabled pg = false ->
     ComparisonPage.getUrlParams
       (ComparisonPage.search
          (ComparisonPage.step pg (ComparisonPage.ClickStart streamName serverBase)))
     = (Some streamName, Some serverBase)).
Proof.
  intros pg streamName serverBase library page_origin Hn Hb pg' opened.
  destruct (PageFacts.copy_link_fields streamName serverBase pg Hn Hb) as (Hget & _).
  fold (ComparisonPage.step pg (ComparisonPage.ClickCopy streamName serverBase)) in Hget.
  fold pg' in Hget. split_and!; [done| | | |].
  - unfold opened. rewrite (proj1 (PageFacts.load_inputs _ _ _)). by rewrite Hget.
  - unfold opened. rewrite (proj2 (PageFacts.load_inputs _ _ _)). by rewrite Hget.
  - intros k Hk1 Hk2. unfold pg'. simpl. unfold ComparisonPage.copy_link.
    rewrite (proj2 (String.eqb_neq _ _) Hn), (proj2 (String.eqb_neq _ _) Hb). simpl.
    by rewrite !PageFacts.params_get_set_other.
  - intros Hen. simpl. rewrite Hen.
    by destruct (PageFacts.start_fields streamName serverBase pg Hn Hb) as (_ & _ & ? & _).
Qed.

(* ===================================================================== *)
(** ** The further properties at concrete inputs *)
(* ===================================================================== *)

(** A createOffer, a setLocalDescription, a fetch, a response body and a
    setRemoteDescription that fail, each at the point of a handshake where
    the call awaits it. *)
Lemma failed_step_rejects_witness :
  let c := ZLMWebRTCPlayer.constructor true None "https://page.example" in
  let e := Error "boom" in
  let s1 := ZLMWebRTCPlayer.run c [ZLMWebRTCPlayer.CallPlay "https://host/a"] in
  let s2 := ZLMWebRTCPlayer.run c [ZLMWebRTCPlayer.CallPlay "https://host/a";
                                   ZLMWebRTCPlayer.OfferSettled 0 (inr "v=0")] in
  let s3 := ZLMWebRTCPlayer.run c ZLMWebRTCPlayer.until_request in
  let unparsable := {| ZLMWebRTCPlayer.ok := true; ZLMWebRTCPlayer.status := 200;
                       ZLMWebRTCPlayer.statusText := "OK";
                       ZLMWebRTCPlayer.body := inl e |} in
  let s4 := ZLMWebRTCPlayer.run c
              (ZLMWebRTCPlayer.until_request ++
               [ZLMWebRTCPlayer.FetchSettled 0
                  (inr (ZLMWebRTCPlayer.response_of
                          (JObj [("code", JNum 0); ("sdp", JStr "v=0 answer")])));
                ZLMWebRTCPlayer.JsonSettled 0]) in
  exists rq,
    (ZLMWebRTCPlayer.reachable s1 /\
     ZLMWebRTCPlayer.phase_of 0 s1 = Some ZLMWebRTCPlayer.AwaitOffer /\
     ZLMWebRTCPlayer.errors_reported
       (ZLMWebRTCPlayer.step s1 (ZLMWebRTCPlayer.OfferSettled 0 (inl e)))
     = e :: ZLMWebRTCPlayer.errors_reported s1) /\
    (ZLMWebRTCPlayer.reachable s2 /\
     ZLMWebRTCPlayer.phase_of 0 s2 = Some (ZLMWebRTCPlayer.AwaitSetLocal 0 "v=0") /\
     ZLMWebRTCPlayer.rejected 0 e s2
       (ZLMWebRTCPlayer.step s2 (ZLMWebRTCPlayer.LocalDescriptionSettled 0 (Some e)))) /\
    (ZLMWebRTCPlayer.reachable s3 /\
     ZLMWebRTCPlayer.phase_of 0 s3 = Some (ZLMWebRTCPlayer.AwaitFetch rq) /\
     ZLMWebRTCPlayer.ok unparsable = true /\ ZLMWebRTCPlayer.body unparsable = inl e /\
     ZLMWebRTCPlayer.rejected 0 e s3
       (ZLMWebRTCPlayer.step s3 (ZLMWebRTCPlayer.FetchSettled 0 (inl e))) /\
     ZLMWebRTCPlayer.rejected 0 e s3 (ZLMWebRTCPlayer.deliver 0 unparsable s3)) /\
    (ZLMWebRTCPlayer.reachable s4 /\
     ZLMWebRTCPlayer.phase_of 0 s4 = Some (ZLMWebRTCPlayer.AwaitSetRemote 0 "v=0 answer") /\
     ZLMWebRTCPlayer.rejected 0 e s4
       (ZLMWebRTCPlayer.step s4 (ZLMWebRTCPlayer.RemoteDescriptionSettled 0 (Some e)))).
Proof.
  intros c e s1 s2 s3 unparsable s4.
  assert (ZLMWebRTCPlayer.reachable s1) as Hr1 by (by eexists _, _, _, _).
  assert (ZLMWebRTCPlayer.reachable s2) as Hr2 by (by eexists _, _, _, _).
  assert (ZLMWebRTCPlayer.reachable s3) as Hr3 by (by eexists _, _, _, _).
  assert (ZLMWebRTCPlayer.reachable s4) as Hr4 by (by eexists _, _, _, _).
  assert (ZLMWebRTCPlayer.phase_of 0 s1 = Some ZLMWebRTCPlayer.AwaitOffer) as H1
    by (vm_compute; reflexivity).
  assert (ZLMWebRTCPlayer.phase_of 0 s2 = Some (ZLMWebRTCPlayer.AwaitSetLocal 0 "v=0")) as H2
    by (vm_compute; reflexivity).
  assert (exists rq, ZLMWebRTCPlayer.phase_of 0 s3 = Some (ZLMWebRTCPlayer.AwaitFetch rq))
    as [rq H3] by (vm_compute; eauto).
  assert (ZLMWebRTCPlayer.phase_of 0 s4
          = Some (ZLMWebRTCPlayer.AwaitSetRemote 0 "v=0 answer")) as H4
    by (vm_compute; reflexivity).
  exists rq. split; [|split; [|split]].
  - split; [exact Hr1|]. split; [exact H1|].
    exact (proj2 (proj1 (failed_step_rejects s1 0 e Hr1) H1)).
  - split; [exact Hr2|]. split; [exact H2|].
    exact (proj1 (proj1 (proj2 (failed_step_rejects s2 0 e Hr2)) 0 "v=0" H2)).
  - split; [exact Hr3|]. split; [exact H3|]. do 2 (split; [reflexivity|]).
    destruct (failed_step_rejects s3 0 e Hr3) as (_ & _ & F3 & F4 & _). split.
    + exact (proj1 (F3 rq H3)).
    + exact (proj1 (F4 rq unparsable H3 eq_refl eq_refl)).
  - split; [exact Hr4|]. split; [exact H4|].
    destruct (failed_step_rejects s4 0 e Hr4) as (_ & _ & _ & _ & F5).
    exact (proj1 (F5 0 "v=0 answer" H4)).
Defined.

(** A second play() while the first awaits createOffer, which then fails. *)
Lemma superseded_call_witness :
  let s := ZLMWebRTCPlayer.run
             (ZLMWebRTCPlayer.constructor true None "https://page.example")
             [ZLMWebRTCPlayer.CallPlay "https://host/a"] in
  let e := {| err_name := "InvalidStateError"; message := "connection closed" |} in
  let s1 := ZLMWebRTCPlayer.step s (ZLMWebRTCPlayer.CallPlay "https://host/b") in
  let s2 := ZLMWebRTCPlayer.step s1 (ZLMWebRTCPlayer.OfferSettled 0 (inl e)) in
  let s3 := ZLMWebRTCPlayer.step s2 (ZLMWebRTCPlayer.OfferSettled 1 (inr "v=0")) in
  ZLMWebRTCPlayer.reachable s /\
  ZLMWebRTCPlayer.phase_of 0 s = Some ZLMWebRTCPlayer.AwaitOffer /\
  "https://host/b" <> "" /\
  ZLMWebRTCPlayer.peerConnection s1 = Some 1 /\
  ZLMWebRTCPlayer.live_connections s2 = [] /\
  ZLMWebRTCPlayer.phase_of 1 s3
    = Some (ZLMWebRTCPlayer.Done
              (ZLMWebRTCPlayer.Rejected (null_property "setLocalDescription"))).
Proof.
  intros s e s1 s2 s3.
  assert (ZLMWebRTCPlayer.reachable s) as Hr by (by eexists _, _, _, _).
  assert (ZLMWebRTCPlayer.phase_of 0 s = Some ZLMWebRTCPlayer.AwaitOffer) as Hph
    by (vm_compute; reflexivity).
  assert ("https://host/b" <> "") as Hne by discriminate.
  destruct (superseded_call_closes_new_connection s 0 "https://host/b" e "v=0" Hr Hph Hne)
    as (H1 & _ & _ & _ & H5 & _ & H7 & _).
  split; [exact Hr|]. split; [exact Hph|]. split; [exact Hne|].
  split; [exact H1|]. split; [exact H5|exact H7].
Defined.

(** A connection that reports "failed", "connected" and "checking". *)
Lemma ice_state_reported_witness :
  let s := ZLMWebRTCPlayer.run
             (ZLMWebRTCPlayer.constructor true None "https://page.example")
             [ZLMWebRTCPlayer.CallPlay "https://host/a"] in
  let after st := ZLMWebRTCPlayer.step s (ZLMWebRTCPlayer.IceConnectionStateChange 0 st) in
  exists pc,
    ZLMWebRTCPlayer.reachable s /\
    ZLMWebRTCPlayer.connections s !! 0 = Some pc /\ ZLMWebRTCPlayer.closed pc = false /\
    ZLMWebRTCPlayer.lost ZLMWebRTCPlayer.Failed = true /\
    ZLMWebRTCPlayer.lost ZLMWebRTCPlayer.Checking = false /\
    ZLMWebRTCPlayer.Checking <> ZLMWebRTCPlayer.Connected /\
    length (ZLMWebRTCPlayer.live_connections (after ZLMWebRTCPlayer.Failed)) = 1 /\
    head (ZLMWebRTCPlayer.trace (after ZLMWebRTCPlayer.Failed))
      = Some ZLMWebRTCPlayer.OnDisconnected /\
    ZLMWebRTCPlayer.timer_set
      (ZLMWebRTCPlayer.statsInterval (after ZLMWebRTCPlayer.Connected)) = true /\
    ZLMWebRTCPlayer.timers (after ZLMWebRTCPlayer.Checking) = ZLMWebRTCPlayer.timers s.
Proof.
  intros s after.
  assert (ZLMWebRTCPlayer.reachable s) as Hr by (by eexists _, _, _, _).
  assert (exists pc, ZLMWebRTCPlayer.connections s !! 0 = Some pc /\
                     ZLMWebRTCPlayer.closed pc = false) as (pc & Hpc & Hc)
    by (vm_compute; eauto).
  exists pc. do 3 (split; [assumption|]). do 2 (split; [reflexivity|]).
  split; [discriminate|].
  destruct (ice_state_reported s 0 pc ZLMWebRTCPlayer.Failed Hr Hpc Hc)
    as (_ & F2 & _ & _ & F5 & _).
  destruct (ice_state_reported s 0 pc ZLMWebRTCPlayer.Connected Hr Hpc Hc)
    as (_ & _ & _ & _ & _ & C6 & _).
  destruct (ice_state_reported s 0 pc ZLMWebRTCPlayer.Checking Hr Hpc Hc)
    as (_ & _ & _ & _ & _ & _ & K7).
  split; [exact F2|]. split.
  { destruct (F5 eq_refl) as (Htr & _).
    unfold after. fold s. by rewrite Htr. }
  split; [exact (proj2 (C6 eq_refl))|].
  assert (ZLMWebRTCPlayer.Checking <> ZLMWebRTCPlayer.Connected) as Hne by discriminate.
  exact (proj2 (K7 eq_refl Hne)).
Defined.

(** A stream with two tracks that is attached and then stopped. *)
Lemma attached_tracks_stopped_witness :
  let s := ZLMWebRTCPlayer.run
             (ZLMWebRTCPlayer.constructor true None "https://page.example")
             [ZLMWebRTCPlayer.CallPlay "https://host/a"] in
  let s1 := ZLMWebRTCPlayer.step s (ZLMWebRTCPlayer.TrackEvent 0 [[7; 8]]) in
  exists pc,
    ZLMWebRTCPlayer.connections s !! 0 = Some pc /\ ZLMWebRTCPlayer.closed pc = false /\
    ZLMWebRTCPlayer.srcObject s1 = Some [7; 8] /\
    ZLMWebRTCPlayer.stopped_tracks (ZLMWebRTCPlayer.stop s1)
      = [8; 7] ++ ZLMWebRTCPlayer.stopped_tracks s.
Proof.
  intros s s1.
  assert (exists pc, ZLMWebRTCPlayer.connections s !! 0 = Some pc /\
                     ZLMWebRTCPlayer.closed pc = false) as (pc & Hpc & Hc)
    by (vm_compute; eauto).
  exists pc. do 2 (split; [assumption|]).
  destruct (proj2 attached_tracks_stopped s 0 pc [[7; 8]] Hpc Hc) as (H1 & _ & H3).
  split; [exact H1|exact H3].
Defined.

(** A stats sample of three reports, two of them inbound video. *)
Lemma stats_sample_delivered_witness :
  let s := ZLMWebRTCPlayer.run
             (ZLMWebRTCPlayer.constructor true None "https://page.example")
             (ZLMWebRTCPlayer.connected_once ++
              [ZLMWebRTCPlayer.Elapse 1000; ZLMWebRTCPlayer.TimerFire 1]) in
  let report ty kd frames rate :=
    {| ZLMWebRTCPlayer.r_type := ty; ZLMWebRTCPlayer.r_kind := kd;
       ZLMWebRTCPlayer.packetsReceived := 10; ZLMWebRTCPlayer.packetsLost := 0;
       ZLMWebRTCPlayer.bytesReceived := 2048; ZLMWebRTCPlayer.framesDecoded := frames;
       ZLMWebRTCPlayer.framesPerSecond := rate; ZLMWebRTCPlayer.jitter := 2;
       ZLMWebRTCPlayer.timestamp := 1000 |} in
  let reports := [report "inbound-rtp" "video" 30 (Some 25);
                  report "inbound-rtp" "audio" 0 None;
                  report "inbound-rtp" "video" 31 None] in
  let s' := ZLMWebRTCPlayer.step s (ZLMWebRTCPlayer.StatsSettled reports) in
  ZLMWebRTCPlayer.statsReads s <> 0 /\
  ZLMWebRTCPlayer.stats_reported s'
    = [ZLMWebRTCPlayer.stats_data (report "inbound-rtp" "video" 31 None);
       ZLMWebRTCPlayer.stats_data (report "inbound-rtp" "video" 30 (Some 25))]
      ++ ZLMWebRTCPlayer.stats_reported s /\
  ZLMWebRTCPlayer.statsContainer s'
    = Some (ZLMWebRTCPlayer.stats_html (report "inbound-rtp" "video" 31 None)).
Proof.
  intros s report reports s'.
  assert (ZLMWebRTCPlayer.statsReads s <> 0) as Hn by (vm_compute; discriminate).
  assert (ZLMWebRTCPlayer.statsContainer s = Some ZLMWebRTCPlayer.Blank) as Hc
    by (vm_compute; reflexivity).
  destruct (stats_sample_delivered s reports Hn) as (H1 & _ & H3).
  split; [exact Hn|]. split; [exact H1|].
  fold s' in H3. rewrite H3, Hc. reflexivity.
Defined.

(** The same sample arriving after stop(). *)
Lemma stats_sample_after_stop_witness :
  let s := ZLMWebRTCPlayer.run
             (ZLMWebRTCPlayer.constructor true None "https://page.example")
             (ZLMWebRTCPlayer.connected_once ++
              [ZLMWebRTCPlayer.Elapse 1000; ZLMWebRTCPlayer.TimerFire 1]) in
  let r :=
    {| ZLMWebRTCPlayer.r_type := "inbound-rtp"; ZLMWebRTCPlayer.r_kind := "video";
       ZLMWebRTCPlayer.packetsReceived := 10; ZLMWebRTCPlayer.packetsLost := 0;
       ZLMWebRTCPlayer.bytesReceived := 2048; ZLMWebRTCPlayer.framesDecoded := 30;
       ZLMWebRTCPlayer.framesPerSecond := Some 25; ZLMWebRTCPlayer.jitter := 2;
       ZLMWebRTCPlayer.timestamp := 1000 |} in
  let s' := ZLMWebRTCPlayer.step (ZLMWebRTCPlayer.stop s)
              (ZLMWebRTCPlayer.StatsSettled [r]) in
  ZLMWebRTCPlayer.reachable s /\
  ZLMWebRTCPlayer.statsReads s <> 0 /\
  ZLMWebRTCPlayer.statsContainer s = Some ZLMWebRTCPlayer.Blank /\
  last (filter (fun r => ZLMWebRTCPlayer.inbound_video r = true) [r]) = Some r /\
  ZLMWebRTCPlayer.peerConnection s' = None /\
  ZLMWebRTCPlayer.statsContainer s' = Some (ZLMWebRTCPlayer.stats_html r) /\
  ZLMWebRTCPlayer.stats_reported s'
    = [ZLMWebRTCPlayer.stats_data r] ++ ZLMWebRTCPlayer.stats_reported s.
Proof.
  intros s r s'.
  assert (ZLMWebRTCPlayer.reachable s) as Hr by (by eexists _, _, _, _).
  assert (ZLMWebRTCPlayer.statsReads s <> 0) as Hn by (vm_compute; discriminate).
  assert (ZLMWebRTCPlayer.statsContainer s = Some ZLMWebRTCPlayer.Blank) as Hc
    by (vm_compute; reflexivity).
  assert (last (filter (fun r => ZLMWebRTCPlayer.inbound_video r = true) [r]) = Some r)
    as Hlast by (vm_compute; reflexivity).
  destruct (stats_sample_after_stop s [r] r ZLMWebRTCPlayer.Blank Hr Hn Hc Hlast)
    as (_ & H2 & _ & H4 & H5).
  do 4 (split; [assumption|]). split; [exact H2|]. split; [exact H4|exact H5].
Defined.

(** A handshake that has sent its request. *)
Lemma one_request_per_call_witness :
  let s := ZLMWebRTCPlayer.run
             (ZLMWebRTCPlayer.constructor true None "https://page.example")
             ZLMWebRTCPlayer.until_request in
  ZLMWebRTCPlayer.reachable s /\
  length (ZLMWebRTCPlayer.requests_sent s) <= length (ZLMWebRTCPlayer.past_calls s) /\
  length (ZLMWebRTCPlayer.past_calls s) <= length (ZLMWebRTCPlayer.tasks s).
Proof.
  intros s.
  assert (ZLMWebRTCPlayer.reachable s) as Hr by (by eexists _, _, _, _).
  split; [exact Hr|]. exact (proj2 one_request_per_call s Hr).
Defined.

(** A play() of the progressive session whose videoElement.play() is
    rejected. *)
Lemma video_play_rejected_witness :
  let s := ZLMStreamPlayer.run
             (ZLMStreamPlayer.constructor ZLMStreamPlayer.no_config true [] None)
             [ZLMStreamPlayer.CallPlay "https://host/live/cam.live.flv" None] in
  let e := {| err_name := "NotAllowedError"; message := "play() failed" |} in
  let s' := ZLMStreamPlayer.step s (ZLMStreamPlayer.VideoPlaySettled 0 (Some e)) in
  exists k,
    ZLMStreamPlayer.reachable s /\
    ZLMStreamPlayer.tasks s !! 0 = Some k /\
    ZLMStreamPlayer.phase k = ZLMStreamPlayer.AwaitVideoPlay 1 /\
    ZLMStreamPlayer.live_players s' = [] /\
    ZLMStreamPlayer.errors_reported s' = e :: ZLMStreamPlayer.errors_reported s /\
    ZLMStreamPlayer.reconnections s' = ZLMStreamPlayer.reconnections s /\
    ZLMStreamPlayer.timers s' !! 1 = ZLMStreamPlayer.timers s !! 1.
Proof.
  intros s e s'.
  assert (ZLMStreamPlayer.reachable s) as Hr by (by eexists _, _, _, _, _).
  assert (exists k, ZLMStreamPlayer.tasks s !! 0 = Some k /\
                    ZLMStreamPlayer.phase k = ZLMStreamPlayer.AwaitVideoPlay 1)
    as (k & Hk & Hph) by (vm_compute; eauto).
  exists k. do 3 (split; [assumption|]).
  destruct (video_play_rejected s 0 k 1 e Hr Hk Hph) as (_ & _ & H3 & H4 & _ & H6 & H7).
  split; [exact H3|]. split; [exact H4|]. split; [exact H6|exact H7].
Defined.

(** A play() of the progressive session that is stopped before its
    videoElement.play() resolves. *)
Lemma video_play_resolved_witness :
  let s := ZLMStreamPlayer.run
             (ZLMStreamPlayer.constructor ZLMStreamPlayer.no_config true [] None)
             [ZLMStreamPlayer.CallPlay "https://host/live/cam.live.flv" None;
              ZLMStreamPlayer.CallStop] in
  let s' := ZLMStreamPlayer.step s (ZLMStreamPlayer.VideoPlaySettled 0 None) in
  exists k,
    ZLMStreamPlayer.reachable s /\
    ZLMStreamPlayer.tasks s !! 0 = Some k /\
    ZLMStreamPlayer.phase k = ZLMStreamPlayer.AwaitVideoPlay 1 /\
    ZLMStreamPlayer.player s = None /\
    head (ZLMStreamPlayer.trace s') = Some ZLMStreamPlayer.OnConnected /\
    ZLMStreamPlayer.player s' = None /\
    length (ZLMStreamPlayer.live_stats_timers s') = 1 /\
    ZLMStreamPlayer.stats_tick s' = s'.
Proof.
  intros s s'.
  assert (ZLMStreamPlayer.reachable s) as Hr by (by eexists _, _, _, _, _).
  assert (exists k, ZLMStreamPlayer.tasks s !! 0 = Some k /\
                    ZLMStreamPlayer.phase k = ZLMStreamPlayer.AwaitVideoPlay 1)
    as (k & Hk & Hph) by (vm_compute; eauto).
  assert (ZLMStreamPlayer.player s = None) as Hp by (vm_compute; reflexivity).
  exists k. do 4 (split; [assumption|]).
  destruct (video_play_resolved s 0 k 1 Hr Hk Hph) as (_ & H2 & H3 & _ & H5 & H6).
  fold s' in H2, H3, H5, H6.
  split; [by rewrite H2|]. split; [by rewrite H3|]. split; [exact H5|exact (H6 Hp)].
Defined.

(** The timeout of a play() that resolved, five seconds later; and the
    timeout of a play() across a stop(). *)
Lemma play_timeout_cleared_witness :
  let s := ZLMStreamPlayer.run
             (ZLMStreamPlayer.constructor ZLMStreamPlayer.no_config true [] None)
             [ZLMStreamPlayer.CallPlay "https://host/live/cam.live.flv" None] in
  let s' := ZLMStreamPlayer.run
              (ZLMStreamPlayer.step s (ZLMStreamPlayer.VideoPlaySettled 0 None))
              [ZLMStreamPlayer.Elapse 5000] in
  exists k tm,
    ZLMStreamPlayer.reachable s /\
    ZLMStreamPlayer.tasks s !! 0 = Some k /\
    ZLMStreamPlayer.phase k = ZLMStreamPlayer.AwaitVideoPlay 1 /\
    ZLMStreamPlayer.timers s !! 1 = Some tm /\
    ZLMStreamPlayer.kind tm = ZLMStreamPlayer.Watchdog "https://host/live/cam.live.flv" /\
    ZLMStreamPlayer.step s' (ZLMStreamPlayer.TimerFire 1) = s' /\
    ZLMStreamPlayer.timers (ZLMStreamPlayer.stop s) !! 1 = Some tm.
Proof.
  intros s s'.
  assert (ZLMStreamPlayer.reachable s) as Hr by (by eexists _, _, _, _, _).
  assert (exists k, ZLMStreamPlayer.tasks s !! 0 = Some k /\
                    ZLMStreamPlayer.phase k = ZLMStreamPlayer.AwaitVideoPlay 1)
    as (k & Hk & Hph) by (vm_compute; eauto).
  assert (exists tm, ZLMStreamPlayer.timers s !! 1 = Some tm /\
                     ZLMStreamPlayer.kind tm
                     = ZLMStreamPlayer.Watchdog "https://host/live/cam.live.flv")
    as (tm & Htm & Hkd) by (vm_compute; eauto).
  exists k, tm. do 5 (split; [assumption|]). split.
  - exact (proj1 play_timeout_cleared_on_success s 0 k 1 [ZLMStreamPlayer.Elapse 5000]
             Hr Hk Hph).
  - exact (proj2 play_timeout_cleared_on_success s 1 tm _ Hr Htm Hkd).
Defined.

(** The timeout of a play() firing on a video element that has nothing. *)
Lemma stuck_check_witness :
  let early := ZLMStreamPlayer.run
                 (ZLMStreamPlayer.constructor ZLMStreamPlayer.no_config true [] None)
                 [ZLMStreamPlayer.CallPlay "https://host/live/cam.live.flv" None] in
  let s := ZLMStreamPlayer.step early (ZLMStreamPlayer.Elapse 5000) in
  let s' := ZLMStreamPlayer.step s (ZLMStreamPlayer.TimerFire 1) in
  exists tm,
    ZLMStreamPlayer.timers s !! 1 = Some tm /\
    ZLMStreamPlayer.timers early !! 1 = Some tm /\
    ZLMStreamPlayer.kind tm = ZLMStreamPlayer.Watchdog "https://host/live/cam.live.flv" /\
    ZLMStreamPlayer.live tm = true /\
    ZLMStreamPlayer.now early < ZLMStreamPlayer.due tm /\
    ZLMStreamPlayer.due tm <= ZLMStreamPlayer.now s /\
    ZLMStreamPlayer.step early (ZLMStreamPlayer.TimerFire 1) = early /\
    ZLMStreamPlayer.head_requests s'
      = ["https://host/live/cam.live.flv"] ++ ZLMStreamPlayer.head_requests s /\
    ZLMStreamPlayer.step s' (ZLMStreamPlayer.TimerFire 1) = s'.
Proof.
  intros early s s'.
  assert (exists tm, ZLMStreamPlayer.timers s !! 1 = Some tm /\
                     ZLMStreamPlayer.timers early !! 1 = Some tm /\
                     ZLMStreamPlayer.kind tm
                     = ZLMStreamPlayer.Watchdog "https://host/live/cam.live.flv" /\
                     ZLMStreamPlayer.live tm = true /\
                     ZLMStreamPlayer.due tm = 5000)
    as (tm & Hs & He & Hk & Hl & Hdue)
    by (vm_compute; eexists; split_and!; reflexivity).
  assert (ZLMStreamPlayer.now early = 0) as Hn0 by (vm_compute; reflexivity).
  assert (ZLMStreamPlayer.now s = 5000) as Hn1 by (vm_compute; reflexivity).
  assert (ZLMStreamPlayer.now early < ZLMStreamPlayer.due tm) as Hlt
    by (rewrite Hn0, Hdue; lia).
  assert (ZLMStreamPlayer.due tm <= ZLMStreamPlayer.now s) as Hle
    by (rewrite Hn1, Hdue; lia).
  clear Hdue Hn0 Hn1.
  assert (Nat.leb (ZLMStreamPlayer.readyState (ZLMStreamPlayer.videoElement s)) 1 = true)
    as Hready by (vm_compute; reflexivity).
  exists tm. do 6 (split; [assumption|]).
  destruct (proj1 stuck_check_only_logs early 1 tm _ He Hk Hl) as (E1 & _).
  destruct (proj1 stuck_check_only_logs s 1 tm _ Hs Hk Hl) as (_ & L2).
  destruct (L2 Hle) as (L3 & _ & _ & _ & L7).
  fold s' in L3, L7. rewrite Hready in L3.
  split; [exact (E1 Hlt)|]. split; [exact L3|exact L7].
Defined.

(** A session that has played twice. *)
Lemma video_listeners_accumulate_witness :
  let s := ZLMStreamPlayer.run
             (ZLMStreamPlayer.constructor ZLMStreamPlayer.no_config true [] None)
             [ZLMStreamPlayer.CallPlay "https://host/live/a.live.flv" None;
              ZLMStreamPlayer.CallStop;
              ZLMStreamPlayer.CallPlay "https://host/live/b.live.flv" None] in
  ZLMStreamPlayer.reachable s /\
  ZLMStreamPlayer.listeners (ZLMStreamPlayer.videoElement s) = 2 /\
  length (ZLMStreamPlayer.logged
            (ZLMStreamPlayer.step s (ZLMStreamPlayer.VideoEvent ZLMStreamPlayer.waiting)))
  = 2 + length (ZLMStreamPlayer.logged s).
Proof.
  intros s.
  assert (ZLMStreamPlayer.reachable s) as Hr by (by eexists _, _, _, _, _).
  assert (length (ZLMStreamPlayer.players s) = 2) as Hn by (vm_compute; reflexivity).
  destruct (video_listeners_accumulate s ZLMStreamPlayer.waiting Hr) as (H1 & _ & H3).
  rewrite Hn in H1, H3. split; [exact Hr|]. split; [exact H1|exact H3].
Defined.

(** A session whose counter is used up, stopped and started on another
    stream, which fails too. *)
Lemma counter_reset_only_by_playing_witness :
  let s := ZLMStreamPlayer.run
             (ZLMStreamPlayer.constructor ZLMStreamPlayer.no_config true [] None)
             ZLMStreamPlayer.three_failures in
  let events := [ZLMStreamPlayer.CallStop;
                 ZLMStreamPlayer.CallPlay "https://host/live/other.live.flv" None;
                 ZLMStreamPlayer.network_failure 3] in
  ZLMStreamPlayer.reachable s /\
  Forall (fun e => ZLMStreamPlayer.is_playing e = false) events /\
  ZLMStreamPlayer.reconnectAttempts s = 3 /\
  ZLMStreamPlayer.reconnectAttempts (ZLMStreamPlayer.run s events) = 3 /\
  ZLMStreamPlayer.reconnections (ZLMStreamPlayer.run s events)
    <= ZLMStreamPlayer.reconnections s.
Proof.
  intros s events.
  assert (ZLMStreamPlayer.reachable s) as Hr by (by eexists _, _, _, _, _).
  assert (Forall (fun e => ZLMStreamPlayer.is_playing e = false) events) as Hev
    by (repeat constructor).
  assert (ZLMStreamPlayer.reconnectAttempts s = 3) as H3 by (vm_compute; reflexivity).
  do 3 (split; [assumption|]).
  exact (proj2 (counter_reset_only_by_playing s events Hr Hev) H3).
Defined.

(** A page on which Start was clicked. *)
Lemma page_drives_sessions_witness :
  let pg := ComparisonPage.run
              (ComparisonPage.load ZLMStreamPlayer.no_config [] "https://page.example")
              [ComparisonPage.ClickStart "cam" "https://host";
               ComparisonPage.Elapse 1000; ComparisonPage.TimerFire 1] in
  ComparisonPage.reachable pg /\
  length (ZLMWebRTCPlayer.live_connections (ComparisonPage.webrtcPlayer pg)) <= 1 /\
  length (ZLMStreamPlayer.live_players (ComparisonPage.flvPlayer pg)) <= 1.
Proof.
  intros pg.
  assert (ComparisonPage.reachable pg) as Hr by (by eexists _, _, _, _).
  destruct (page_drives_sessions pg Hr) as (_ & _ & H3 & H4 & _).
  split; [exact Hr|]. split; [exact H3|exact H4].
Defined.

(** Start, then Stop All within the second, on a page just opened. *)
Lemma stop_all_keeps_delayed_start_witness :
  let pg := ComparisonPage.load ZLMStreamPlayer.no_config [] "https://page.example" in
  let pg1 := ComparisonPage.step pg (ComparisonPage.ClickStart "cam" "https://host") in
  let pg2 := ComparisonPage.step pg1 ComparisonPage.ClickStop in
  let pg3 := ComparisonPage.step (ComparisonPage.step pg2 (ComparisonPage.Elapse 1000))
               (ComparisonPage.TimerFire 1) in
  ComparisonPage.reachable pg /\
  ComparisonPage.startDisabled pg = false /\ "cam" <> "" /\ "https://host" <> "" /\
  length (ComparisonPage.timers pg) = 1 /\
  ZLMStreamPlayer.live_players (ComparisonPage.flvPlayer pg2) = [] /\
  ComparisonPage.stopDisabled pg3 = true /\
  length (ZLMStreamPlayer.live_players (ComparisonPage.flvPlayer pg3)) = 1.
Proof.
  intros pg pg1 pg2 pg3.
  assert (ComparisonPage.reachable pg) as Hr by (by eexists _, _, _, []).
  assert (ComparisonPage.startDisabled pg = false) as Hen by reflexivity.
  assert ("cam" <> "") as Hn by discriminate.
  assert ("https://host" <> "") as Hb by discriminate.
  destruct (stop_all_keeps_delayed_start pg "cam" "https://host" Hr Hen Hn Hb)
    as (_ & (_ & _ & _ & B4 & _) & (_ & C2 & _ & C4)).
  do 4 (split; [assumption|]). split; [reflexivity|].
  split; [exact B4|]. split; [exact C2|exact C4].
Defined.

(** A Start button that stays disabled while the real-time play() fails. *)
Lemma start_enabled_only_by_stop_witness :
  let pg := ComparisonPage.load ZLMStreamPlayer.no_config [] "https://page.example" in
  let pg1 := ComparisonPage.step pg (ComparisonPage.ClickStart "cam" "https://host") in
  let events := [ComparisonPage.Rtc (ZLMWebRTCPlayer.OfferSettled 0 (inl (Error "boom")));
                 ComparisonPage.ClickStart "cam" "https://host"] in
  ComparisonPage.startDisabled pg = false /\ "cam" <> "" /\ "https://host" <> "" /\
  Forall (fun e => e <> ComparisonPage.ClickStop) events /\
  ComparisonPage.startDisabled pg1 = true /\
  ComparisonPage.startDisabled (ComparisonPage.run pg1 events) = true.
Proof.
  intros pg pg1 events.
  assert (ComparisonPage.startDisabled pg = false) as Hen by reflexivity.
  assert ("cam" <> "") as Hn by discriminate.
  assert ("https://host" <> "") as Hb by discriminate.
  assert (Forall (fun e => e <> ComparisonPage.ClickStop) events) as Hev
    by (repeat constructor; discriminate).
  pose proof (proj1 start_enabled_only_by_stop pg "cam" "https://host" Hen Hn Hb) as H1.
  do 4 (split; [assumption|]). split; [exact H1|].
  exact (proj2 start_enabled_only_by_stop pg1 events H1 Hev).
Defined.

(** A link copied from a page whose address has other parameters. *)
Lemma copied_link_witness :
  let pg := ComparisonPage.load ZLMStreamPlayer.no_config
              [("lang", "en"); ("stream", "old")] "https://page.example" in
  let pg' := ComparisonPage.step pg (ComparisonPage.ClickCopy "cam" "https://host") in
  let opened := ComparisonPage.load ZLMStreamPlayer.no_config (ComparisonPage.search pg')
                  "https://page.example" in
  "cam" <> "" /\ "https://host" <> "" /\ "lang" <> "stream" /\ "lang" <> "server" /\
  ComparisonPage.streamNameInput opened = "cam" /\
  ComparisonPage.serverBaseInput opened = "https://host" /\
  ComparisonPage.params_get "lang" (ComparisonPage.search pg')
    = ComparisonPage.params_get "lang" (ComparisonPage.search pg).
Proof.
  intros pg pg' opened.
  assert ("cam" <> "") as Hn by discriminate.
  assert ("https://host" <> "") as Hb by discriminate.
  assert ("lang" <> "stream") as H1 by discriminate.
  assert ("lang" <> "server") as H2 by discriminate.
  destruct (copied_link_restores_inputs pg "cam" "https://host" ZLMStreamPlayer.no_config
              "https://page.example" Hn Hb) as (_ & C2 & C3 & C4 & _).
  do 4 (split; [assumption|]). split; [exact C2|]. split; [exact C3|exact (C4 "lang" H1 H2)].
Defined.
